(** * Flood-occurrence ETL scripts: a shallow embedding and its properties

    The development follows three scripts:
    - [scripts/contar_ocorrencias_por_bairro.py]: occurrence reader, season
      classifier, aggregator and boundary enricher;
    - [scripts/extrair_ocorrencias_por_estacao.py]: season splitter (it carries
      a textually identical copy of the season classifier);
    - [scripts/fix_all_geojson.py]: GeoJSON fixer.

    Python values are a single inductive type [pyval]; exceptions are explicit
    ([res]); dictionaries are insertion-ordered association lists, as Python's
    are; floats are the kernel's binary64 floats.  Library functions whose code
    is not part of the scripts (pandas' date parser, Python's [float] on a
    string, ...) are variables of the section [Scripts]. *)

From Stdlib Require Import ZArith List String Ascii Bool Lia Floats.
Import ListNotations.

Local Open Scope Z_scope.
Local Open Scope list_scope.
Local Open Scope string_scope.

(* ------------------------------------------------------------------ *)
(** ** Exceptions and the error monad *)

Inductive excecao : Type :=
| ValueError (msg : string)
| TypeError
| AttributeError
| KeyError
| ZeroDivisionError
| OverflowError
| OutraExcecao.

Inductive res (A : Type) : Type :=
| Ok (a : A)
| Raise (e : excecao).

Arguments Ok {A} a.
Arguments Raise {A} e.

Definition bind {A B : Type} (m : res A) (k : A -> res B) : res B :=
  match m with
  | Ok a => k a
  | Raise e => Raise e
  end.

Notation "x <- m ;; k" := (bind m (fun x => k))
  (at level 61, m at next level, right associativity).

(** [try: m  except Exception: h] *)
Definition try_except {A : Type} (m : res A) (h : excecao -> res A) : res A :=
  match m with
  | Ok a => Ok a
  | Raise e => h e
  end.

(** [for x in l: acc = f(acc, x)], stopping at the first exception. *)
Fixpoint foldM {A B : Type} (f : B -> A -> res B) (l : list A) (acc : B) : res B :=
  match l with
  | [] => Ok acc
  | x :: r => acc' <- f acc x ;; foldM f r acc'
  end.

Fixpoint mapM {A B : Type} (f : A -> res B) (l : list A) : res (list B) :=
  match l with
  | [] => Ok []
  | x :: r => y <- f x ;; ys <- mapM f r ;; Ok (y :: ys)
  end.

(* ------------------------------------------------------------------ *)
(** ** Python values *)

(** Calendar fields of a [pd.Timestamp] / [datetime.datetime]; the scripts
    read [month] and [day] only. *)
Record Timestamp : Type := { year : Z; month : Z; day : Z }.

#[warnings="-register-all"]
Inductive pyval : Type :=
| PNone
| PBool (b : bool)
| PInt (z : Z)
| PFloat (f : float)
| PStr (s : string)
| PList (l : list pyval)
| PDict (d : list (string * pyval))
| PTimestamp (t : Timestamp)
| PDatetime (t : Timestamp)
| PNaT.

(** Season labels: the four string literals ['verao'], ['outono'],
    ['inverno'], ['primavera'] that the classifier returns. *)
Inductive estacao : Type := verao | outono | inverno | primavera.

Definition nome_estacao (e : estacao) : string :=
  match e with
  | verao => "verao"
  | outono => "outono"
  | inverno => "inverno"
  | primavera => "primavera"
  end.

Definition estacoes : list estacao := [verao; outono; inverno; primavera].

Definition estacao_eqb (a b : estacao) : bool :=
  match a, b with
  | verao, verao | outono, outono | inverno, inverno | primavera, primavera => true
  | _, _ => false
  end.

(* ------------------------------------------------------------------ *)
(** ** Dictionaries

    A Python [dict] keeps insertion order and has unique keys: reading a key
    finds its one entry, writing an existing key replaces the value in place,
    writing a new key appends. *)

Class Chave (K : Type) : Type := {
  chave_eqb : K -> K -> bool;
  chave_eqb_spec : forall a b : K, reflect (a = b) (chave_eqb a b)
}.

Lemma estacao_eqb_spec (a b : estacao) : reflect (a = b) (estacao_eqb a b).
Proof. destruct a, b; simpl; constructor; congruence. Qed.

#[export] Instance Chave_string : Chave string :=
  {| chave_eqb := String.eqb; chave_eqb_spec := String.eqb_spec |}.

#[export] Instance Chave_estacao : Chave estacao :=
  {| chave_eqb := estacao_eqb; chave_eqb_spec := estacao_eqb_spec |}.

Definition dict (K V : Type) : Type := list (K * V).

Fixpoint dict_get {K V : Type} `{Chave K} (k : K) (d : dict K V) : option V :=
  match d with
  | [] => None
  | (k', v) :: r => if chave_eqb k k' then Some v else dict_get k r
  end.

Fixpoint dict_set {K V : Type} `{Chave K} (k : K) (v : V) (d : dict K V) : dict K V :=
  match d with
  | [] => [(k, v)]
  | (k', v') :: r => if chave_eqb k k' then (k', v) :: r else (k', v') :: dict_set k v r
  end.

Definition dict_keys {K V : Type} (d : dict K V) : list K := map fst d.

Definition dict_in {K V : Type} `{Chave K} (k : K) (d : dict K V) : bool :=
  match dict_get k d with Some _ => true | None => false end.

(** [d.get(k, default)] *)
Definition get_or {K V : Type} `{Chave K} (k : K) (d : dict K V) (default : V) : V :=
  match dict_get k d with Some v => v | None => default end.

(** Truth value of a dict: it is not empty. *)
Definition py_truthy_dict {K V : Type} (d : dict K V) : bool :=
  match d with [] => false | _ => true end.

(** [{f(k): v for k, v in d.items()}]: entries are written in order, so of
    two keys with the same image the later one's value stays. *)
Definition dict_rekey {K V : Type} `{Chave K} (f : K -> K) (d : dict K V) : dict K V :=
  fold_left (fun acc kv => dict_set (f (fst kv)) (snd kv) acc) d [].

(* ------------------------------------------------------------------ *)
(** ** Strings *)

(** A Python [str] is kept as its UTF-8 encoding: a character is a byte
    below 128, or a lead byte with the continuation bytes (128..191) that
    follow it.  Comparing, searching and sorting byte by byte then agree
    with Python's, character by character; lengths, positions and
    whitespace go through the characters. *)

Definition continuacao (c : ascii) : bool :=
  let n := nat_of_ascii c in
  ((128 <=? n) && (n <=? 191))%nat.

(** The characters of a string, in order. *)
Fixpoint caracteres_utf8 (s : string) : list string :=
  match s with
  | EmptyString => []
  | String c r =>
      match r with
      | String c' _ =>
          if continuacao c' then
            match caracteres_utf8 r with
            | x :: xs => String c x :: xs
            | [] => [String c EmptyString]
            end
          else String c EmptyString :: caracteres_utf8 r
      | EmptyString => [String c EmptyString]
      end
  end.

(** [s[:n]]: the first [n] characters. *)
Definition primeiros_caracteres (n : nat) (s : string) : string :=
  String.concat "" (firstn n (caracteres_utf8 s)).

Definition de_bytes (l : list nat) : string :=
  fold_right (fun n s => String (ascii_of_nat n) s) EmptyString l.

(** ASCII characters that [str.strip()] removes: tab, LF, VT, FF, CR,
    the separators 28..31 and the space. *)
Definition eh_espaco (c : ascii) : bool :=
  let n := nat_of_ascii c in
  ((9 <=? n) && (n <=? 13) || (28 <=? n) && (n <=? 32))%nat.

(** The other characters that [str.strip()] removes, those for which
    [str.isspace] holds: U+0085, U+00A0, U+1680, U+2000 to U+200A, U+2028,
    U+2029, U+202F, U+205F and U+3000, in UTF-8. *)
Definition espacos_unicode : list string :=
  map de_bytes
    [[194; 133]; [194; 160]; [225; 154; 128];
     [226; 128; 128]; [226; 128; 129]; [226; 128; 130]; [226; 128; 131];
     [226; 128; 132]; [226; 128; 133]; [226; 128; 134]; [226; 128; 135];
     [226; 128; 136]; [226; 128; 137]; [226; 128; 138];
     [226; 128; 168]; [226; 128; 169]; [226; 128; 175];
     [226; 129; 159]; [227; 128; 128]]%nat.

(** [ch.isspace()] for a character [ch]. *)
Definition caractere_espaco (ch : string) : bool :=
  match ch with
  | String c EmptyString => eh_espaco c
  | _ => existsb (String.eqb ch) espacos_unicode
  end.

Fixpoint sem_espacos_iniciais (l : list string) : list string :=
  match l with
  | ch :: r => if caractere_espaco ch then sem_espacos_iniciais r else l
  | [] => []
  end.

(** [s.strip()]: the string without the whitespace characters at its
    start and at its end. *)
Definition strip (s : string) : string :=
  String.concat ""
    (rev (sem_espacos_iniciais (rev (sem_espacos_iniciais (caracteres_utf8 s))))).

(** [sub in s] on strings *)
Fixpoint contem (sub s : string) : bool :=
  String.prefix sub s ||
  match s with
  | String _ r => contem sub r
  | EmptyString => false
  end.

(** Insertion sort by code units, duplicates kept: [sorted(l)]. *)
Fixpoint insere_ordenado (x : string) (l : list string) : list string :=
  match l with
  | [] => [x]
  | y :: r => if String.leb x y then x :: l else y :: insere_ordenado x r
  end.

Definition sorted (l : list string) : list string :=
  fold_right insere_ordenado [] l.

(** Distinct elements, first occurrences kept. *)
Fixpoint unicos (l : list string) : list string :=
  match l with
  | [] => []
  | x :: r => x :: filter (fun y => negb (x =? y)) (unicos r)
  end.

(* ------------------------------------------------------------------ *)
(** ** Operations of Python values used by the scripts *)

(** Truth value of a value in an [if]. *)
Definition py_truthy (v : pyval) : bool :=
  match v with
  | PNone => false
  | PBool b => b
  | PInt z => negb (z =? 0)%Z
  | PFloat f => negb (PrimFloat.eqb f 0)
  | PStr s => negb (s =? "")
  | PList l => match l with [] => false | _ => true end
  | PDict d => match d with [] => false | _ => true end
  | PTimestamp _ | PDatetime _ | PNaT => true
  end.

(** [obj.get(k, default)]: only a [dict] has the method. *)
Definition py_get (obj : pyval) (k : string) (default : pyval) : res pyval :=
  match obj with
  | PDict d => Ok (get_or k d default)
  | _ => Raise AttributeError
  end.

Definition eh_dict (v : pyval) : bool :=
  match v with PDict _ => true | _ => false end.

Definition eh_list (v : pyval) : bool :=
  match v with PList _ => true | _ => false end.

(** [v == ""] *)
Definition eh_str_vazia (v : pyval) : bool :=
  match v with PStr s => s =? "" | _ => false end.

(** [v == ["", ""]] *)
Definition eh_par_vazio (v : pyval) : bool :=
  match v with
  | PList [a; b] => eh_str_vazia a && eh_str_vazia b
  | _ => false
  end.

(** One-character strings of a string, as iterating or indexing it gives. *)
Definition caracteres (s : string) : list pyval := map PStr (caracteres_utf8 s).

(** [for x in v]: lists give their items, strings their characters,
    dicts their keys; nothing else a JSON document holds is iterable. *)
Definition py_iter (v : pyval) : res (list pyval) :=
  match v with
  | PList l => Ok l
  | PStr s => Ok (caracteres s)
  | PDict d => Ok (map (fun kv => PStr (fst kv)) d)
  | _ => Raise TypeError
  end.

(** [len(v)] *)
Definition py_len (v : pyval) : res Z :=
  match v with
  | PList l => Ok (Z.of_nat (List.length l))
  | PStr s => Ok (Z.of_nat (List.length (caracteres s)))
  | PDict d => Ok (Z.of_nat (List.length d))
  | _ => Raise TypeError
  end.

(** [v[i]] for a position [i]: a dict read from JSON has string keys only,
    so an integer subscript is a [KeyError]. *)
Definition py_item (v : pyval) (i : nat) : res pyval :=
  match v with
  | PList l => match nth_error l i with Some x => Ok x | None => Raise OutraExcecao end
  | PStr s => match nth_error (caracteres s) i with Some x => Ok x | None => Raise OutraExcecao end
  | PDict _ => Raise KeyError
  | _ => Raise TypeError
  end.

(** [list(v.keys())]: only a [dict] has the method. *)
Definition py_keys (v : pyval) : res (list string) :=
  match v with
  | PDict d => Ok (dict_keys d)
  | _ => Raise AttributeError
  end.

(** [k in v] for a string [k] *)
Definition py_contains (v : pyval) (k : string) : res bool :=
  match v with
  | PDict d => Ok (dict_in k d)
  | PStr s => Ok (contem k s)
  | PList l => Ok (existsb (fun x => match x with PStr s => s =? k | _ => false end) l)
  | _ => Raise TypeError
  end.

(** [astype(int)] on an integer: the value as a 64-bit integer, wrapped
    around outside the range. *)
Definition astype_int64 (z : Z) : Z :=
  ((z + 2 ^ 63) mod 2 ^ 64 - 2 ^ 63)%Z.

(** The integer [z] as a float: the nearest double, ties to even (exact
    up to 2^53 in absolute value). *)
Definition float_de_Z (z : Z) : float :=
  SF2Prim (SpecFloat.binary_normalize prec emax z 0 false).

(* ------------------------------------------------------------------ *)
(** ** Printed output

    The scripts report through [print]; a run's output is the list of the
    messages printed, one constructor per message (the fixer's three tallies
    of corrections are one).  Banners, file names and progress lines are left
    out. *)

Inductive saida : Type :=
| MsgAvisoGeometriasInvalidas (n : Z)
| MsgTotalOcorrenciasCarregadas (n : Z)
| MsgErroLerGeoJSON (e : excecao)
| MsgContando
| MsgAvisoSemTipo
| MsgAvisoSemData
| MsgUsandoColunaData (col : string)
| MsgBairrosUnicos (n : Z)
| MsgAgrupando
| MsgAvisoNenhumaFeature
| MsgErroNenhumaColunaData
| MsgOcorrenciasSemData (n : Z)
| MsgOcorrenciasSemEstacao (n : Z)
| MsgOcorrenciasDaEstacao (e : estacao) (n : Z)
| MsgTotalFeatures (n : Z)
| MsgFeaturesCorrigidas (n : Z)
| MsgCorrecoes (coordenadas latitude longitude : Z).

Definition io (A : Type) : Type := (list saida * res A)%type.

Definition ret {A : Type} (a : A) : io A := ([], Ok a).
Definition print (m : saida) : io unit := ([m], Ok tt).
Definition raise {A : Type} (e : excecao) : io A := ([], Raise e).
Definition lift {A : Type} (r : res A) : io A := ([], r).

Definition bind_io {A B : Type} (m : io A) (k : A -> io B) : io B :=
  match m with
  | (l1, Ok a) => let (l2, r) := k a in ((l1 ++ l2)%list, r)
  | (l1, Raise e) => (l1, Raise e)
  end.

Arguments bind_io : simpl never.

Notation "x <~ m ;; k" := (bind_io m (fun x => k))
  (at level 61, m at next level, right associativity).
Notation "m ;;; k" := (bind_io m (fun _ => k))
  (at level 61, right associativity).

(** [try: m  except Exception as e: h(e)], with what [m] printed before
    it raised. *)
Definition try_io {A : Type} (m : io A) (h : excecao -> io A) : io A :=
  match m with
  | (l1, Ok a) => (l1, Ok a)
  | (l1, Raise e) => let (l2, r) := h e in ((l1 ++ l2)%list, r)
  end.

Definition printed {A : Type} (m : io A) : list saida := fst m.
Definition result {A : Type} (m : io A) : res A := snd m.

(* ------------------------------------------------------------------ *)
(** ** Data frames of occurrences

    [GeoDataFrame.from_features] gives one column per property name; the
    aggregator reads the columns of the fixed schema only.  A cell of
    [bairro] or [tipo] is a string or missing ([None]/[NaN]); a date cell is
    any value. *)

Record ocorrencia : Type := {
  bairro : option string;
  tipo : option string;
  data_inicio : pyval;
  data_fim : pyval;
  data_particao : pyval
}.

Record GeoDataFrame : Type := {
  columns : list string;
  linhas : list ocorrencia
}.

Definition tem_coluna (gdf : GeoDataFrame) (col : string) : bool :=
  existsb (String.eqb col) (columns gdf).

(** [row[col]] for a date column *)
Definition celula_data (col : string) (row : ocorrencia) : pyval :=
  if col =? "data_inicio" then data_inicio row
  else if col =? "data_fim" then data_fim row
  else data_particao row.

(** The four count tables the aggregator returns. *)
Record contagens : Type := {
  contagem_total : dict string Z;
  contagem_por_tipo : dict string (dict string Z);
  contagem_por_estacao : dict string (dict estacao Z);
  contagem_por_tipo_estacao : dict string (dict string (dict estacao Z))
}.

(** The three tables the aggregator's loop fills. *)
Record acumulado : Type := {
  ac_por_tipo : dict string (dict string Z);
  ac_por_estacao : dict string (dict estacao Z);
  ac_por_tipo_estacao : dict string (dict string (dict estacao Z))
}.

Definition acumulado_vazio : acumulado :=
  {| ac_por_tipo := []; ac_por_estacao := []; ac_por_tipo_estacao := [] |}.

(** [d[k] += 1] on a [defaultdict(int)] *)
Definition incrementa {K : Type} `{Chave K} (k : K) (d : dict K Z) : dict K Z :=
  dict_set k (get_or k d 0 + 1) d.

(** [d[a][b] += 1] on a [defaultdict(lambda: defaultdict(int))] *)
Definition incrementa2 {K1 K2 : Type} `{Chave K1} `{Chave K2}
    (a : K1) (b : K2) (d : dict K1 (dict K2 Z)) : dict K1 (dict K2 Z) :=
  dict_set a (incrementa b (get_or a d [])) d.

(** [d[a][b][c] += 1] *)
Definition incrementa3 {K1 K2 K3 : Type} `{Chave K1} `{Chave K2} `{Chave K3}
    (a : K1) (b : K2) (c : K3) (d : dict K1 (dict K2 (dict K3 Z)))
    : dict K1 (dict K2 (dict K3 Z)) :=
  dict_set a (incrementa2 b c (get_or a d [])) d.

(** [d.get(a, {}).get(b, 0)] and [d.get(a, {}).get(b, {}).get(c, 0)] *)
Definition consulta2 {K1 K2 : Type} `{Chave K1} `{Chave K2}
    (a : K1) (b : K2) (d : dict K1 (dict K2 Z)) : Z :=
  get_or b (get_or a d []) 0.

Definition consulta3 {K1 K2 K3 : Type} `{Chave K1} `{Chave K2} `{Chave K3}
    (a : K1) (b : K2) (c : K3) (d : dict K1 (dict K2 (dict K3 Z))) : Z :=
  get_or c (get_or b (get_or a d []) []) 0.

Definition soma_valores {K : Type} (d : dict K Z) : Z :=
  fold_right (fun kv s => snd kv + s) 0 d.

(** [gdf.groupby('bairro').size().to_dict()]: the rows per distinct value of
    the column, missing values left out, keys in sorted order. *)
Definition nao_nulos (l : list (option string)) : list string :=
  flat_map (fun o => match o with Some s => [s] | None => [] end) l.

Definition ocorrencias_de (k : string) (l : list string) : Z :=
  Z.of_nat (List.length (filter (String.eqb k) l)).

Definition groupby_size (l : list (option string)) : dict string Z :=
  let chaves := nao_nulos l in
  map (fun k => (k, ocorrencias_de k chaves)) (sorted (unicos chaves)).

(* ------------------------------------------------------------------ *)
(** ** Season splitter: its loop state *)

Record particoes : Type := {
  ocorrencias_por_estacao : dict estacao (list pyval);
  ocorrencias_sem_data : Z;
  ocorrencias_sem_estacao : Z
}.

Definition particoes_vazias : particoes :=
  {| ocorrencias_por_estacao := []; ocorrencias_sem_data := 0;
     ocorrencias_sem_estacao := 0 |}.

(** [d[e].append(x)] on a [defaultdict(list)] *)
Definition acrescenta (e : estacao) (x : pyval) (d : dict estacao (list pyval))
    : dict estacao (list pyval) :=
  dict_set e (get_or e d [] ++ [x])%list d.

(* ------------------------------------------------------------------ *)
(** ** GeoJSON fixer: its statistics *)

Record estatisticas : Type := {
  coordenadas_vazias : Z;
  latitude_vazia : Z;
  longitude_vazia : Z;
  total_features : Z
}.

(* ------------------------------------------------------------------ *)
(** ** Data frames of neighbourhood polygons

    A row carries its geometry and its attribute cells.  [colunas] lists the
    attribute columns in order with their dtype (the enricher tests
    [dtype == 'object'] and [name in columns]); the geometry column is kept
    aside, its name is none of those the enricher writes. *)

Inductive dtype : Type := DObject | DInt64 | DFloat64 | DOutro.

(** Rings of coordinates; the scripts hand them to geopandas untouched. *)
Definition geometria : Type := list (list (float * float)).

Record poligono : Type := {
  geometry : geometria;
  attrs : dict string pyval
}.

Record GeoDataFrameBairros : Type := {
  colunas : list (string * dtype);
  crs : option Z;
  poligonos : list poligono
}.

Definition tem_coluna_bairros (gdf : GeoDataFrameBairros) (nome : string) : bool :=
  dict_in nome (colunas gdf).

(** [row[nome]]; a frame has a cell in every column of every row, and
    pandas fills what is missing with NaN. *)
Definition celula (nome : string) (p : poligono) : pyval :=
  get_or nome (attrs p) (PFloat PrimFloat.nan).

Definition escreve (nome : string) (v : pyval) (p : poligono) : poligono :=
  {| geometry := geometry p; attrs := dict_set nome v (attrs p) |}.

(** [gdf[nome] = gdf.apply(f, axis=1)]: one value per row, written in place
    when the column exists and appended otherwise. *)
Definition atribui (nome : string) (dt : dtype) (f : poligono -> res pyval)
    (gdf : GeoDataFrameBairros) : res GeoDataFrameBairros :=
  ps <- mapM (fun p => v <- f p ;; Ok (escreve nome v p)) (poligonos gdf) ;;
  Ok {| colunas := dict_set nome dt (colunas gdf);
        crs := crs gdf;
        poligonos := ps |}.

Fixpoint dict_remove {K V : Type} `{Chave K} (k : K) (d : dict K V) : dict K V :=
  match d with
  | [] => []
  | (k', v) :: r => if chave_eqb k k' then r else (k', v) :: dict_remove k r
  end.

(** [gdf.drop(columns=[nome])] of an existing column *)
Definition drop_coluna (nome : string) (gdf : GeoDataFrameBairros) : GeoDataFrameBairros :=
  {| colunas := dict_remove nome (colunas gdf);
     crs := crs gdf;
     poligonos :=
       map (fun p => {| geometry := geometry p; attrs := dict_remove nome (attrs p) |})
           (poligonos gdf) |}.

(** The string in a cell of strings. *)
Definition texto (v : pyval) : string :=
  match v with PStr s => s | _ => "" end.

(** [s.replace(old, new)] for a non-empty [old]: occurrences are replaced
    from the left, without overlap. *)
Fixpoint replace_aux (old new : string) (saltar : nat) (s : string) : string :=
  match s with
  | EmptyString => EmptyString
  | String c r =>
      match saltar with
      | S k => replace_aux old new k r
      | O =>
          if String.prefix old s
          then new ++ replace_aux old new (String.length old - 1) r
          else String c (replace_aux old new 0 r)
      end
  end.

Definition replace (old new s : string) : string := replace_aux old new 0 s.

(** [x > 0] on a number *)
Definition py_gt_zero (x : pyval) : res bool :=
  match x with
  | PFloat f => Ok (PrimFloat.ltb 0 f)
  | PInt z => Ok (0 <? z)%Z
  | PBool b => Ok b
  | _ => Raise TypeError
  end.

Definition py_num (x : pyval) : res float :=
  match x with
  | PFloat f => Ok f
  | PInt z => Ok (float_de_Z z)
  | PBool b => Ok (if b then 1%float else 0%float)
  | _ => Raise TypeError
  end.

(** [a / b] on numbers; a zero divisor is an error. *)
Definition py_truediv (a b : pyval) : res pyval :=
  x <- py_num a ;;
  y <- py_num b ;;
  if PrimFloat.eqb y 0 then Raise ZeroDivisionError
  else Ok (PFloat (x / y)%float).

(** [row[c] / row['area_km2'] if row['area_km2'] > 0 else 0] *)
Definition densidade (contagem area : pyval) : res pyval :=
  positiva <- py_gt_zero area ;;
  if positiva then py_truediv contagem area else Ok (PInt 0).


(** A column of numbers divided by a number: [s / 1_000_000]. *)
Definition divide_por (divisor : float) (x : pyval) : res pyval :=
  match x with
  | PFloat f => Ok (PFloat (f / divisor)%float)
  | PInt z => Ok (PFloat (float_de_Z z / divisor)%float)
  | PBool b => Ok (PFloat ((if b then 1 else 0) / divisor)%float)
  | _ => Raise TypeError
  end.

(* ------------------------------------------------------------------ *)
(** ** Files

    A file to read is what [open(caminho, 'r', encoding=enc)] followed by
    [json.load] gives under each encoding: the document, or the exception
    raised.  It does not change while a script runs. *)

Inductive carga : Type :=
| Carregado (data : pyval)
| UnicodeDecodeError
| JSONDecodeError
| OutroErro (e : excecao).

(** The exception an attempt to load raised, as the callers see it; the two
    decoding errors are [ValueError]s. *)
Definition excecao_da_carga (c : carga) : excecao :=
  match c with
  | OutroErro e => e
  | UnicodeDecodeError => ValueError "UnicodeDecodeError"
  | JSONDecodeError => ValueError "JSONDecodeError"
  | Carregado _ => OutraExcecao
  end.

(** The attempt failed with one of the errors [detectar_encoding] catches. *)
Definition falha_de_leitura (c : carga) : bool :=
  match c with
  | UnicodeDecodeError | JSONDecodeError => true
  | _ => false
  end.

Definition carregou (c : carga) : bool :=
  match c with
  | Carregado _ => true
  | _ => false
  end.

Definition encodings : list string := ["utf-8"; "latin-1"; "cp1252"; "iso-8859-1"].

(** [for encoding in encodings: try: ... return encoding except (...): continue],
    then [return 'utf-8'] *)
Fixpoint detectar_encoding_em (carrega : string -> carga) (encs : list string) : res string :=
  match encs with
  | [] => Ok "utf-8"
  | encoding :: resto =>
      match carrega encoding with
      | Carregado _ => Ok encoding
      | UnicodeDecodeError | JSONDecodeError => detectar_encoding_em carrega resto
      | OutroErro e => Raise e
      end
  end.

(** [detectar_encoding], the same function in the three scripts. *)
Definition detectar_encoding (carrega : string -> carga) : res string :=
  detectar_encoding_em carrega encodings.


(* ------------------------------------------------------------------ *)
(** ** Stand-ins for library functions, to run closed examples

    The theorems below hold for every behaviour of the library functions;
    these definitions give one behaviour each, so that the scripts can be
    evaluated on concrete inputs. *)

Module Exemplo.

Definition digito (c : ascii) : option Z :=
  let n := nat_of_ascii c in
  if ((48 <=? n) && (n <=? 57))%nat then Some (Z.of_nat (n - 48)) else None.

Definition bissexto (ano : Z) : bool :=
  ((ano mod 4 =? 0) && negb (ano mod 100 =? 0) || (ano mod 400 =? 0))%Z.

Definition dias_no_mes (ano mes : Z) : Z :=
  if (mes =? 2)%Z then (if bissexto ano then 29 else 28)
  else if existsb (Z.eqb mes) [4; 6; 9; 11] then 30
  else 31.

(** Dates written [YYYY-MM-DD]; anything else is [NaT]. *)
Definition to_datetime (s : string) : res (option Timestamp) :=
  match s with
  | String a1 (String a2 (String a3 (String a4 (String "-"
      (String m1 (String m2 (String "-" (String d1 (String d2 EmptyString))))))))) =>
      match digito a1, digito a2, digito a3, digito a4,
            digito m1, digito m2, digito d1, digito d2 with
      | Some a1, Some a2, Some a3, Some a4, Some m1, Some m2, Some d1, Some d2 =>
          let ano := (1000 * a1 + 100 * a2 + 10 * a3 + a4)%Z in
          let mes := (10 * m1 + m2)%Z in
          let dia := (10 * d1 + d2)%Z in
          if ((1 <=? mes) && (mes <=? 12) && (1 <=? dia) && (dia <=? dias_no_mes ano mes))%Z
          then Ok (Some {| year := ano; month := mes; day := dia |})
          else Ok None
      | _, _, _, _, _, _, _, _ => Ok None
      end
  | _ => Ok None
  end.

(** [pd.isna] of a list: an array of flags, whose truth value exists for
    one element only. *)
Definition isna_colecao (l : list pyval) : res bool :=
  match l with
  | [] => Ok false
  | [x] => Ok match x with
              | PNone | PNaT => true
              | PFloat f => PrimFloat.is_nan f
              | _ => false
              end
  | _ => Raise (ValueError "The truth value of an array is ambiguous")
  end.

Definition Timestamp_de_datetime (d : Timestamp) : res Timestamp := Ok d.

Fixpoint so_digitos (s : string) : bool :=
  match s with
  | EmptyString => true
  | String c r => match digito c with Some _ => so_digitos r | None => false end
  end.

Fixpoint digitos_ponto (s : string) : bool :=
  match s with
  | EmptyString => true
  | String "." r => so_digitos r
  | String c r => match digito c with Some _ => digitos_ponto r | None => false end
  end.

(** Decimal numerals: an optional sign, a digit, then digits with at most
    one point.  ([float] accepts more: exponents, [inf], [nan], blanks.) *)
Definition float_str (s : string) : bool :=
  let corpo := match s with
               | String "+" r | String "-" r => r
               | _ => s
               end in
  match corpo with
  | String c r => match digito c with Some _ => digitos_ponto r | None => false end
  | EmptyString => false
  end.

(** [str(v)] of a value that is not a string: the stand-in answers as for a
    NaN, the one such value a name column is likely to hold. *)
Definition py_str_outro (v : pyval) : string := "nan".

Definition minuscula (c : ascii) : ascii :=
  let n := nat_of_ascii c in
  if ((65 <=? n) && (n <=? 90))%nat then ascii_of_nat (n + 32) else c.

Definition alfanumerico (c : ascii) : bool :=
  let n := nat_of_ascii c in
  ((48 <=? n) && (n <=? 57) || (65 <=? n) && (n <=? 90) || (97 <=? n) && (n <=? 122))%nat.

(** The suffix of a generic type column, for ASCII type names: blanks become
    underscores, apostrophes go, other characters that are neither
    alphanumeric nor underscores become underscores, letters lower case. *)
Fixpoint tipo_limpo_lower (s : string) : string :=
  match s with
  | EmptyString => EmptyString
  | String c r =>
      if Ascii.eqb c "'" then tipo_limpo_lower r
      else if alfanumerico c || Ascii.eqb c "_" then String (minuscula c) (tipo_limpo_lower r)
      else String "_" (tipo_limpo_lower r)
  end.

Fixpoint soma_cruzada (ring : list (float * float)) : float :=
  match ring with
  | (x1, y1) :: (((x2, y2) :: _) as r) => (x1 * y2 - x2 * y1 + soma_cruzada r)%float
  | _ => 0%float
  end.

(** The area of the first ring by the shoelace formula, the coordinates
    taken as metres in the projected system already. *)
Definition area_projetada (epsg : Z) (g : geometria) : float :=
  match g with
  | ring :: _ => (PrimFloat.abs (soma_cruzada ring) / 2)%float
  | [] => 0%float
  end.

(** A file that is valid UTF-8 JSON: it loads to the same document under
    every encoding. *)
Definition carrega_sempre (data : pyval) (encoding : string) : carga := Carregado data.

(** A file that is not valid UTF-8 and loads under the other encodings. *)
Definition carrega_latin (data : pyval) (encoding : string) : carga :=
  if encoding =? "utf-8" then UnicodeDecodeError else Carregado data.

(** A file that is not JSON under any encoding. *)
Definition carrega_nunca (encoding : string) : carga := JSONDecodeError.

(** A disk on which the winter file cannot be written. *)
Definition grava_menos_inverno (arquivo : string) (doc : pyval) : res unit :=
  if arquivo =? "inverno.json" then Raise OutraExcecao else Ok tt.

Definition grava_sempre (doc : pyval) : res unit := Ok tt.

(** A stand-in for [GeoDataFrame.from_features] on point features.  The
    geometry goes through shapely's [shape], which reads the [type], takes
    an empty coordinate list for an empty point and otherwise wants the
    [coordinates] member ([KeyError]) with two coordinates or more
    ([ValueError]); the properties, which must be there, make the row. *)
Definition shape (geometry : pyval) : res unit :=
  match geometry with
  | PDict g =>
      match dict_get "type" g with
      | Some (PStr _) =>
          match dict_get "coordinates" g with
          | None => Raise KeyError
          | Some (PList []) => Ok tt
          | Some (PList [_]) => Raise (ValueError "Point requires at least two coordinates")
          | Some (PList _) => Ok tt
          | Some _ => Raise TypeError
          end
      | _ => Raise AttributeError
      end
  | _ => Raise AttributeError
  end.

Definition texto_opcional (v : pyval) : option string :=
  match v with PStr s => Some s | _ => None end.

Definition linha_da_feature (f : pyval) : res ocorrencia :=
  match f with
  | PDict campos =>
      match dict_get "geometry" campos, dict_get "properties" campos with
      | None, _ => Raise KeyError
      | Some geometry, properties =>
          _ <- (if py_truthy geometry then shape geometry else Ok tt) ;;
          match properties with
          | None => Raise KeyError
          | Some (PDict props) =>
              Ok {| bairro := texto_opcional (get_or "bairro" props PNone);
                    tipo := texto_opcional (get_or "tipo" props PNone);
                    data_inicio := get_or "data_inicio" props PNone;
                    data_fim := get_or "data_fim" props PNone;
                    data_particao := get_or "data_particao" props PNone |}
          | Some PNone =>
              Ok {| bairro := None; tipo := None; data_inicio := PNone;
                    data_fim := PNone; data_particao := PNone |}
          | Some _ => Raise TypeError
          end
      end
  | _ => Raise TypeError
  end.

Definition colunas_da_feature (f : pyval) : list string :=
  match f with
  | PDict campos =>
      match dict_get "properties" campos with
      | Some (PDict props) => dict_keys props
      | _ => []
      end
  | _ => []
  end.

Definition from_features (features : list pyval) : res GeoDataFrame :=
  linhas <- mapM linha_da_feature features ;;
  Ok {| columns := "geometry" :: unicos (flat_map colunas_da_feature features);
        linhas := linhas |}.


End Exemplo.

(* ------------------------------------------------------------------ *)
(** ** Sample inputs *)

Module Cenario.

Definition ponto (lon lat : float) : pyval :=
  PDict [("type", PStr "Point"); ("coordinates", PList [PFloat lon; PFloat lat])].

Definition feature (geometry : pyval) (b t data : string) : pyval :=
  PDict [("type", PStr "Feature");
         ("geometry", geometry);
         ("properties",
          PDict [("bairro", PStr b); ("tipo", PStr t); ("data_inicio", PStr data)])].

(** The three records of the end-to-end scenario (section 8). *)
Definition registro1 : pyval :=
  feature (ponto (-43.25)%float (-22.5)%float) "Centro" "Alagamento" "2024-01-15".
Definition registro2 : pyval :=
  feature (ponto (-43.125)%float (-22.75)%float) "Centro " "Alagamento" "2024-07-10".
Definition registro3 : pyval :=
  feature (ponto (-43.5)%float (-22.875)%float) "Norte" "Bolsão" "".

Definition colecao : dict string pyval :=
  [("type", PStr "FeatureCollection");
   ("features", PList [registro1; registro2; registro3])].

(** The same three records as rows of the occurrences' data frame. *)
Definition linha (b t data : string) : ocorrencia :=
  {| bairro := Some b; tipo := Some t; data_inicio := PStr data;
     data_fim := PNone; data_particao := PNone |}.

Definition gdf_ocorrencias : GeoDataFrame :=
  {| columns := ["geometry"; "bairro"; "tipo"; "data_inicio"];
     linhas := [linha "Centro" "Alagamento" "2024-01-15";
                linha "Centro " "Alagamento" "2024-07-10";
                linha "Norte" "Bolsão" ""] |}.

(** A frame with the neighbourhood column only. *)
Definition gdf_so_bairro : GeoDataFrame :=
  {| columns := ["geometry"; "bairro"];
     linhas := [{| bairro := Some "Centro"; tipo := None; data_inicio := PNone;
                   data_fim := PNone; data_particao := PNone |};
                {| bairro := None; tipo := None; data_inicio := PNone;
                   data_fim := PNone; data_particao := PNone |}] |}.



Definition geometria_nula : pyval :=
  PDict [("type", PStr "Feature"); ("geometry", PNone);
         ("properties", PDict [("bairro", PStr "Norte")])].

Definition coordenadas_em_branco : pyval :=
  PDict [("type", PStr "Feature");
         ("geometry", PDict [("type", PStr "Point");
                             ("coordinates", PList [PStr ""; PStr ""])]);
         ("properties",
          PDict [("bairro", PStr "Sul"); ("latitude", PStr ""); ("longitude", PStr "")])].




(** A layer of two neighbourhoods with their areas in square metres, the
    second of area zero, and count tables for it. *)
Definition quadrado (lado : float) : geometria :=
  [[(0, 0); (lado, 0); (lado, lado); (0, lado); (0, 0)]]%float.

Definition gdf_bairros : GeoDataFrameBairros :=
  {| colunas := [("nome", DObject); ("st_areasha", DFloat64)];
     crs := Some 4326;
     poligonos :=
       [{| geometry := quadrado 1000;
           attrs := [("nome", PStr "Centro "); ("st_areasha", PFloat 2000000)] |};
        {| geometry := quadrado 0;
           attrs := [("nome", PStr "Sul"); ("st_areasha", PFloat 0)] |}] |}.

Definition total_exemplo : dict string Z := [("Centro", 7); ("Norte", 1)].

Definition por_tipo_exemplo : dict string (dict string Z) :=
  [("Centro", [("Outro", 3); ("Alagamento", 4)]); ("Norte", [("Outro", 1)])].

Definition por_estacao_exemplo : dict string (dict string Z) :=
  [("Centro", [("verao", 4); ("inverno", 3)])].

Definition por_tipo_estacao_exemplo : dict string (dict string (dict string Z)) :=
  [("Centro", [("Outro", [("verao", 3)]);
               ("Alagamento", [("verao", 1); ("inverno", 3)])])].

(** A raw document for the fixer: one feature with empty coordinates and
    empty latitude and longitude, one with nothing to correct, one with a
    [null] geometry. *)
Definition colecao_bruta : dict string pyval :=
  [("type", PStr "FeatureCollection");
   ("features", PList [coordenadas_em_branco; registro1; geometria_nula])].

(** The scenario's records behind a feature that has no date field. *)
Definition sem_campo_de_data : pyval :=
  PDict [("type", PStr "Feature");
         ("geometry", ponto (-43.25)%float (-22.5)%float);
         ("properties", PDict [("bairro", PStr "Centro")])].

Definition colecao_sem_data_na_primeira : dict string pyval :=
  [("type", PStr "FeatureCollection");
   ("features", PList [sem_campo_de_data; registro1; registro2])].

(** A layer with neither an area column nor a reference system. *)
Definition gdf_sem_area : GeoDataFrameBairros :=
  {| colunas := [("nome", DObject)];
     crs := None;
     poligonos :=
       [{| geometry := quadrado 1000; attrs := [("nome", PStr "Centro ")] |}] |}.


End Cenario.

(* ================================================================== *)
(** * The scripts *)

Section Scripts.

Set Default Proof Using "Type".

(** Library behaviour the scripts rely on. *)

(** Truth value of [pd.isna(l)] for a list [l] in an [if]: pandas answers
    with an array, whose truth value may be a [ValueError]. *)
Variable isna_colecao : list pyval -> res bool.

(** [pd.to_datetime(s, errors='coerce')]; [None] stands for [NaT]. *)
Variable pd_to_datetime : string -> res (option Timestamp).

(** [pd.Timestamp(d)] for a [datetime] [d]. *)
Variable pd_Timestamp : Timestamp -> res Timestamp.

(** Whether [float(s)] accepts the string [s]. *)
Variable float_str : string -> bool.

(** [str(v)] for a value [v] that is neither a string nor [None]. *)
Variable py_str_outro : pyval -> string.

(** The enricher's column suffix for a type outside the three categories:
    [tipo_limpo.lower()], after the replacements of blanks, apostrophes,
    accented vowels and non-alphanumeric characters. *)
Variable tipo_limpo_lower : string -> string.

(** geopandas: the area in square metres of a geometry given in the
    reference system of that EPSG code, after projection to EPSG:31983. *)
Variable area_projetada : Z -> geometria -> float.

(** geopandas: [GeoDataFrame.from_features(features)], the frame of the
    features, or the exception it raises on a feature whose geometry
    shapely cannot build or that has no [properties]. *)
Variable from_features : list pyval -> res GeoDataFrame.

(* ------------------------------------------------------------------ *)
(** ** Season classifier ([determinar_estacao_hemisferio_sul]) *)

(** Truth value of [pd.isna(v)] *)
Definition pd_isna (v : pyval) : res bool :=
  match v with
  | PNone | PNaT => Ok true
  | PFloat f => Ok (PrimFloat.is_nan f)
  | PList l => isna_colecao l
  | _ => Ok false
  end.

(** The chain of [if]/[elif] on [mes] and [dia]. *)
Definition estacao_por_mes_dia (mes dia : Z) : option estacao :=
  if (mes =? 12)%Z && (dia >=? 21)%Z then Some verao
  else if existsb (Z.eqb mes) [1; 2] then Some verao
  else if (mes =? 3)%Z && (dia <? 20)%Z then Some verao
  else if (mes =? 3)%Z && (dia >=? 20)%Z then Some outono
  else if existsb (Z.eqb mes) [4; 5] then Some outono
  else if (mes =? 6)%Z && (dia <? 20)%Z then Some outono
  else if (mes =? 6)%Z && (dia >=? 20)%Z then Some inverno
  else if existsb (Z.eqb mes) [7; 8] then Some inverno
  else if (mes =? 9)%Z && (dia <? 22)%Z then Some inverno
  else if (mes =? 9)%Z && (dia >=? 22)%Z then Some primavera
  else if existsb (Z.eqb mes) [10; 11] then Some primavera
  else if (mes =? 12)%Z && (dia <? 21)%Z then Some primavera
  else None.

Definition estacao_da_data (data : Timestamp) : res (option estacao) :=
  Ok (estacao_por_mes_dia (month data) (day data)).

(** The body of the [try]. *)
Definition determinar_estacao_corpo (data_valor : pyval) : res (option estacao) :=
  na <- pd_isna data_valor ;;
  if na then Ok None
  else
    match data_valor with
    | PTimestamp t => estacao_da_data t
    | PDatetime d => data <- pd_Timestamp d ;; estacao_da_data data
    | PStr s =>
        data <- pd_to_datetime s ;;
        match data with
        | None => Ok None
        | Some t => estacao_da_data t
        end
    | _ => Ok None
    end.

(** [try: ... except Exception: return None] *)
Definition determinar_estacao_hemisferio_sul (data_valor : pyval) : res (option estacao) :=
  try_except (determinar_estacao_corpo data_valor) (fun _ => Ok None).

(* ------------------------------------------------------------------ *)
(** ** Occurrence reader ([ler_ocorrencias])

    The input is the parsed document; the result is the frame that
    [GeoDataFrame.from_features] makes of the features the loop keeps. *)

(** An integer that rounds to a finite float: [float(z)] raises
    [OverflowError] from 2^1024 - 2^970 on, in absolute value. *)
Definition cabe_em_float (z : Z) : bool :=
  (Z.abs z <? 2 ^ 1024 - 2 ^ 970)%Z.

(** [float(v)], its value dropped *)
Definition py_float (v : pyval) : res unit :=
  match v with
  | PInt z => if cabe_em_float z then Ok tt else Raise OverflowError
  | PFloat _ | PBool _ => Ok tt
  | PStr s => if float_str s then Ok tt else Raise (ValueError "could not convert string to float")
  | _ => Raise TypeError
  end.

(** The [try] around the two conversions. *)
Definition converte_coordenadas (coords : pyval) : res unit :=
  n <- py_len coords ;;
  if (n >=? 2)%Z then
    c0 <- py_item coords 0 ;;
    _ <- py_float c0 ;;
    c1 <- py_item coords 1 ;;
    py_float c1
  else Ok tt.

(** One round of the loop: [true] when the feature is appended to
    [features_validas], [false] when it is counted in [features_invalidas]. *)
Definition feature_valida (feature : pyval) : res bool :=
  geometry <- py_get feature "geometry" PNone ;;
  match geometry with
  | PNone => Ok false
  | PDict g =>
      match dict_get "coordinates" g with
      | Some coords =>
          if match coords with
             | PList l =>
                 (Z.of_nat (List.length l) >=? 2)%Z &&
                 (eh_par_vazio coords || existsb eh_str_vazia (firstn 2 l))
             | _ => false
             end
          then Ok false
          else
            match converte_coordenadas coords with
            | Ok _ => Ok true
            | Raise (ValueError _) | Raise TypeError => Ok false
            | Raise e => Raise e
            end
      | None => Ok true
      end
  | _ => Ok true
  end.

(** The body of [for feature in data.get('features', [])]. *)
Definition filtrar_feature (acc : list pyval * Z) (feature : pyval) : res (list pyval * Z) :=
  let (features_validas, features_invalidas) := acc in
  valida <- feature_valida feature ;;
  if valida then Ok ((features_validas ++ [feature])%list, features_invalidas)
  else Ok (features_validas, features_invalidas + 1).

Definition filtrar_features (features : list pyval) : res (list pyval * Z) :=
  foldM filtrar_feature features ([], 0).

(** The loop over [data.get('features', [])]: the features kept and the
    number of the others. *)
Definition features_filtradas (data : pyval) : res (list pyval * Z) :=
  features <- py_get data "features" (PList []) ;;
  itens <- py_iter features ;;
  filtrar_features itens.

(** The [try] of the function, the warning, the conversion to a frame and
    the [except Exception] that reports and raises again. *)
Definition ler_ocorrencias (data : pyval) : io GeoDataFrame :=
  try_io
    (r <~ lift (features_filtradas data) ;;
     (if (snd r >? 0)%Z
      then print (MsgAvisoGeometriasInvalidas (snd r))
      else ret tt) ;;;
     gdf <~ lift (from_features (fst r)) ;;
     print (MsgTotalOcorrenciasCarregadas (Z.of_nat (List.length (linhas gdf)))) ;;;
     ret gdf)
    (fun e => print (MsgErroLerGeoJSON e) ;;; raise e).

(* ------------------------------------------------------------------ *)
(** ** Aggregator ([contar_ocorrencias_por_bairro]) *)

(** The body of [for _, row in gdf_ocorrencias.iterrows()]. *)
Definition contar_linha (tipo_disponivel estacao_disponivel : bool) (coluna_data : string)
    (ac : acumulado) (row : ocorrencia) : res acumulado :=
  match bairro row with
  | None => Ok ac
  | Some b =>
      est <- (if estacao_disponivel
              then determinar_estacao_hemisferio_sul (celula_data coluna_data row)
              else Ok None) ;;
      let ac1 :=
        if tipo_disponivel then
          match tipo row with
          | Some t =>
              {| ac_por_tipo := incrementa2 b t (ac_por_tipo ac);
                 ac_por_estacao := ac_por_estacao ac;
                 ac_por_tipo_estacao :=
                   match est with
                   | Some e => incrementa3 b t e (ac_por_tipo_estacao ac)
                   | None => ac_por_tipo_estacao ac
                   end |}
          | None => ac
          end
        else ac in
      Ok match est with
         | Some e =>
             {| ac_por_tipo := ac_por_tipo ac1;
                ac_por_estacao := incrementa2 b e (ac_por_estacao ac1);
                ac_por_tipo_estacao := ac_por_tipo_estacao ac1 |}
         | None => ac1
         end
  end.

Definition colunas_data : list string := ["data_inicio"; "data_fim"; "data_particao"].

Definition contar_ocorrencias_por_bairro (gdf_ocorrencias : GeoDataFrame) : io contagens :=
  print MsgContando ;;;
  if negb (tem_coluna gdf_ocorrencias "bairro")
  then raise (ValueError "Coluna 'bairro' não encontrada nas ocorrências")
  else
    tipo_disponivel <~
      (if negb (tem_coluna gdf_ocorrencias "tipo")
       then print MsgAvisoSemTipo ;;; ret false
       else ret true) ;;
    let coluna_data := find (tem_coluna gdf_ocorrencias) colunas_data in
    estacao_disponivel <~
      match coluna_data with
      | None => print MsgAvisoSemData ;;; ret false
      | Some col => print (MsgUsandoColunaData col) ;;; ret true
      end ;;
    let total := groupby_size (map bairro (linhas gdf_ocorrencias)) in
    ac <~ lift (if tipo_disponivel || estacao_disponivel
                then foldM (contar_linha tipo_disponivel estacao_disponivel
                              (match coluna_data with Some col => col | None => "" end))
                           (linhas gdf_ocorrencias) acumulado_vazio
                else Ok acumulado_vazio) ;;
    print (MsgBairrosUnicos (Z.of_nat (List.length total))) ;;;
    ret {| contagem_total := total;
           contagem_por_tipo := ac_por_tipo ac;
           contagem_por_estacao := ac_por_estacao ac;
           contagem_por_tipo_estacao := ac_por_tipo_estacao ac |}.

(* ------------------------------------------------------------------ *)
(** ** Season splitter ([extrair_ocorrencias_por_estacao]) *)

(** The first of the date columns that is [in props]. *)
Fixpoint primeira_coluna_em (props : pyval) (cols : list string) : res (option string) :=
  match cols with
  | [] => Ok None
  | col :: r =>
      dentro <- py_contains props col ;;
      if dentro then Ok (Some col) else primeira_coluna_em props r
  end.

(** [data_valor is None or (isinstance(data_valor, str) and data_valor.strip() == '')] *)
Definition sem_data (data_valor : pyval) : bool :=
  match data_valor with
  | PNone => true
  | PStr s => strip s =? ""
  | _ => false
  end.

(** The body of [for feature in features]. *)
Definition separar_feature (coluna : string) (p : particoes) (feature : pyval) : res particoes :=
  props <- py_get feature "properties" (PDict []) ;;
  data_valor <- py_get props coluna PNone ;;
  if sem_data data_valor then
    Ok {| ocorrencias_por_estacao := ocorrencias_por_estacao p;
          ocorrencias_sem_data := ocorrencias_sem_data p + 1;
          ocorrencias_sem_estacao := ocorrencias_sem_estacao p |}
  else
    est <- determinar_estacao_hemisferio_sul data_valor ;;
    match est with
    | None =>
        Ok {| ocorrencias_por_estacao := ocorrencias_por_estacao p;
              ocorrencias_sem_data := ocorrencias_sem_data p;
              ocorrencias_sem_estacao := ocorrencias_sem_estacao p + 1 |}
    | Some e =>
        Ok {| ocorrencias_por_estacao := acrescenta e feature (ocorrencias_por_estacao p);
              ocorrencias_sem_data := ocorrencias_sem_data p;
              ocorrencias_sem_estacao := ocorrencias_sem_estacao p |}
    end.

Definition extrair_ocorrencias_por_estacao (data_geojson : pyval)
    : io (dict estacao (list pyval)) :=
  print MsgAgrupando ;;;
  features <~ lift (py_get data_geojson "features" (PList [])) ;;
  if negb (py_truthy features) then
    print MsgAvisoNenhumaFeature ;;; ret []
  else
    primeira_feature <~ lift (py_item features 0) ;;
    props <~ lift (py_get primeira_feature "properties" (PDict [])) ;;
    coluna_data_disponivel <~ lift (primeira_coluna_em props colunas_data) ;;
    match coluna_data_disponivel with
    | None =>
        print MsgErroNenhumaColunaData ;;;
        _ <~ lift (py_keys props) ;;
        ret []
    | Some coluna =>
        print (MsgUsandoColunaData coluna) ;;;
        itens <~ lift (py_iter features) ;;
        p <~ lift (foldM (separar_feature coluna) itens particoes_vazias) ;;
        print (MsgOcorrenciasSemData (ocorrencias_sem_data p)) ;;;
        print (MsgOcorrenciasSemEstacao (ocorrencias_sem_estacao p)) ;;;
        fold_right
          (fun e k =>
             print (MsgOcorrenciasDaEstacao e
                      (Z.of_nat (List.length (get_or e (ocorrencias_por_estacao p) [])))) ;;; k)
          (ret (ocorrencias_por_estacao p)) estacoes
    end.

(* ------------------------------------------------------------------ *)
(** ** GeoJSON fixer ([corrigir_geojson])

    The input is the parsed document; the result is the statistics returned
    and the document written to the destination.  [json.load] builds a tree
    without sharing, so an assignment inside a feature is the replacement of
    one entry of that feature. *)

(** [if props.get(k) == "": props[k] = None] *)
Definition anula_se_vazia (k : string) (props : dict string pyval)
    : dict string pyval * bool :=
  if eh_str_vazia (get_or k props PNone)
  then (dict_set k PNone props, true)
  else (props, false).

(** One round of the loop: the feature afterwards, and whether the
    coordinates, the latitude and the longitude were corrected. *)
Definition corrigir_feature (feature : pyval) : res (pyval * (bool * bool * bool)) :=
  match feature with
  | PDict campos =>
      let geometry := get_or "geometry" campos PNone in
      vazias <- (if py_truthy geometry && eh_dict geometry
                 then coords <- py_get geometry "coordinates" PNone ;; Ok (eh_par_vazio coords)
                 else Ok false) ;;
      let campos1 := if vazias then dict_set "geometry" PNone campos else campos in
      let properties := get_or "properties" campos1 PNone in
      if py_truthy properties then
        match properties with
        | PDict props =>
            let (props1, lat) := anula_se_vazia "latitude" props in
            let (props2, lon) := anula_se_vazia "longitude" props1 in
            Ok (PDict (dict_set "properties" (PDict props2) campos1), (vazias, lat, lon))
        | _ => Raise AttributeError
        end
      else Ok (PDict campos1, (vazias, false, false))
  | _ => Raise AttributeError
  end.

Definition conta {A : Type} (p : A -> bool) (l : list A) : Z :=
  Z.of_nat (List.length (filter p l)).

Definition corrigir_geojson (data : pyval) : io (estatisticas * pyval) :=
  features <~ lift (py_get data "features" (PList [])) ;;
  total <~ lift (py_len features) ;;
  itens <~ lift (py_iter features) ;;
  corrigidas <~ lift (mapM corrigir_feature itens) ;;
  let marcas := map snd corrigidas in
  let stats :=
    {| coordenadas_vazias := conta (fun m => fst (fst m)) marcas;
       latitude_vazia := conta (fun m => snd (fst m)) marcas;
       longitude_vazia := conta (fun m => snd m) marcas;
       total_features := total |} in
  print (MsgTotalFeatures total) ;;;
  print (MsgFeaturesCorrigidas
           (conta (fun m => fst (fst m) || snd (fst m) || snd m) marcas)) ;;;
  print (MsgCorrecoes (coordenadas_vazias stats) (latitude_vazia stats) (longitude_vazia stats)) ;;;
  ret (stats,
       match data with
       | PDict d =>
           match dict_get "features" d with
           | Some (PList _) => PDict (dict_set "features" (PList (map fst corrigidas)) d)
           | _ => data
           end
       | _ => data
       end).

(* ------------------------------------------------------------------ *)
(** ** Boundary enricher ([adicionar_contagens_ao_shapefile])

    The tables are those of the aggregator, the season keys written as the
    strings they are in Python.  The progress lines the function prints are
    left out. *)

Definition possiveis_nomes : list string :=
  ["bairro"; "BAIRRO"; "Bairro"; "NOME"; "nome"; "NOME_BAIRRO"; "nome_bairro"].

(** The column that names the neighbourhood: the first candidate present,
    else the first column of dtype [object]. *)
Definition resolver_coluna_bairro (gdf : GeoDataFrameBairros) : res string :=
  match find (tem_coluna_bairros gdf) possiveis_nomes with
  | Some nome => Ok nome
  | None =>
      match find (fun c => match snd c with DObject => true | _ => false end) (colunas gdf) with
      | Some c => Ok (fst c)
      | None => Raise (ValueError "Não foi possível identificar a coluna de bairro no shapefile")
      end
  end.

(** [astype(str)] on a cell *)
Definition py_str (v : pyval) : string :=
  match v with
  | PStr s => s
  | PNone => "None"
  | _ => py_str_outro v
  end.

(** [{str(b).strip(): {str(k).strip(): v ...} ...}] *)
Definition normalizar2 (d : dict string (dict string Z)) : dict string (dict string Z) :=
  dict_rekey strip (map (fun kv => (fst kv, dict_rekey strip (snd kv))) d).

Definition normalizar3 (d : dict string (dict string (dict string Z)))
    : dict string (dict string (dict string Z)) :=
  dict_rekey strip
    (map (fun kv =>
            (fst kv,
             dict_rekey strip (map (fun tv => (fst tv, dict_rekey strip (snd tv))) (snd kv))))
         d).

(** The column of a type. *)
Definition nome_coluna_tipo (tipo : string) : string :=
  if contem "Alagamento" tipo then "contagem_alagamento"
  else if contem "Bols" tipo || contem "Bolsão" tipo then "contagem_bolsao"
  else if contem "Lâmina" tipo || contem "Lamina" tipo then "contagem_lamina"
  else "contagem_" ++ tipo_limpo_lower tipo.

(** The short name of a type in the columns by type and season. *)
Definition tipo_curto (tipo_col : string) : string :=
  if contem "alagamento" tipo_col then "alag"
  else if contem "bolsao" tipo_col then "bolsao"
  else if contem "lamina" tipo_col then "lamina"
  else primeiros_caracteres 6 (replace "contagem_" "" tipo_col).

(** [sorted(list(todos_tipos))]: the distinct types of the table by type. *)
Definition todos_tipos_de (contagem_por_tipo_normalizada : dict string (dict string Z))
    : list string :=
  sorted (unicos (flat_map (fun kv => dict_keys (snd kv)) contagem_por_tipo_normalizada)).

(** [mapeamento_tipos]: each type with its column, in the order of the types. *)
Definition mapeamento_tipos_de (contagem_por_tipo_normalizada : dict string (dict string Z))
    : dict string string :=
  map (fun tipo => (tipo, nome_coluna_tipo tipo)) (todos_tipos_de contagem_por_tipo_normalizada).

(** The neighbourhood of a row, as the lambdas read it. *)
Definition bairro_da_linha (p : poligono) : string :=
  texto (celula "bairro_normalizado" p).

(** [if nome not in gdf.columns: gdf[nome] = 0] *)
Definition garante_coluna (nome : string) (gdf : GeoDataFrameBairros) : res GeoDataFrameBairros :=
  if tem_coluna_bairros gdf nome then Ok gdf
  else atribui nome DInt64 (fun _ => Ok (PInt 0)) gdf.

(** A count column and, right after it, its density column. *)
Definition atribui_contagem_e_densidade (nome_col nome_dens : string)
    (contagem : poligono -> Z) (gdf : GeoDataFrameBairros) : res GeoDataFrameBairros :=
  gdf1 <- atribui nome_col DInt64 (fun p => Ok (PInt (contagem p))) gdf ;;
  atribui nome_dens DFloat64 (fun p => densidade (celula nome_col p) (celula "area_km2" p)) gdf1.

Definition nomes_estacoes : list string := map nome_estacao estacoes.

Definition adicionar_contagens_ao_shapefile
    (gdf_bairros : GeoDataFrameBairros)
    (contagem_total : dict string Z)
    (contagem_por_tipo : dict string (dict string Z))
    (contagem_por_estacao : option (dict string (dict string Z)))
    (contagem_por_tipo_estacao : option (dict string (dict string (dict string Z))))
    : res GeoDataFrameBairros :=
  coluna_bairro <- resolver_coluna_bairro gdf_bairros ;;
  gdf1 <- atribui "bairro_normalizado" DObject
            (fun p => Ok (PStr (strip (py_str (celula coluna_bairro p))))) gdf_bairros ;;
  let contagem_total_normalizada := dict_rekey strip contagem_total in
  let contagem_por_tipo_normalizada := dict_rekey strip contagem_por_tipo in
  let contagem_por_estacao_normalizada :=
    match contagem_por_estacao with
    | Some d => normalizar2 d
    | None => []
    end in
  let contagem_por_tipo_estacao_normalizada :=
    match contagem_por_tipo_estacao with
    | Some d => normalizar3 d
    | None => []
    end in
  gdf2 <- atribui "contagem_total" DInt64
            (fun p => Ok (PInt (astype_int64
                                  (get_or (bairro_da_linha p) contagem_total_normalizada 0))))
            gdf1 ;;
  let mapeamento_tipos := mapeamento_tipos_de contagem_por_tipo_normalizada in
  gdf3 <- foldM (fun g (m : string * string) =>
                   atribui (snd m) DInt64
                     (fun p => Ok (PInt (consulta2 (bairro_da_linha p) (fst m)
                                           contagem_por_tipo_normalizada))) g)
                mapeamento_tipos gdf2 ;;
  gdf4 <- garante_coluna "contagem_lamina" gdf3 ;;
  gdf5 <- garante_coluna "contagem_bolsao" gdf4 ;;
  gdf6 <- garante_coluna "contagem_alagamento" gdf5 ;;
  gdf7 <- (if tem_coluna_bairros gdf6 "st_areasha"
           then atribui "area_km2" DFloat64
                  (fun p => divide_por 1000000 (celula "st_areasha" p)) gdf6
           else
             let epsg := match crs gdf6 with Some c => c | None => 4326 end in
             atribui "area_km2" DFloat64
               (fun p => Ok (PFloat (area_projetada epsg (geometry p) / 1000000)%float))
               {| colunas := colunas gdf6; crs := Some epsg; poligonos := poligonos gdf6 |}) ;;
  gdf8 <- atribui "dens_km2" DFloat64
            (fun p => densidade (celula "contagem_total" p) (celula "area_km2" p)) gdf7 ;;
  gdf9 <- atribui "dens_lamina" DFloat64
            (fun p => densidade (celula "contagem_lamina" p) (celula "area_km2" p)) gdf8 ;;
  gdf10 <- atribui "dens_bolsao" DFloat64
             (fun p => densidade (celula "contagem_bolsao" p) (celula "area_km2" p)) gdf9 ;;
  gdf11 <- atribui "dens_alag" DFloat64
             (fun p => densidade (celula "contagem_alagamento" p) (celula "area_km2" p)) gdf10 ;;
  gdf12 <-
    (if py_truthy_dict contagem_por_estacao_normalizada then
       g <- foldM (fun g estacao =>
                     atribui_contagem_e_densidade
                       ("cont_" ++ estacao) ("dens_" ++ estacao)
                       (fun p => consulta2 (bairro_da_linha p) estacao
                                   contagem_por_estacao_normalizada) g)
                  nomes_estacoes gdf11 ;;
       if py_truthy_dict contagem_por_tipo_estacao_normalizada then
         foldM (fun g (m : string * string) =>
                  let curto := tipo_curto (snd m) in
                  foldM (fun g estacao =>
                           atribui_contagem_e_densidade
                             ("cont_" ++ curto ++ "_" ++ estacao)
                             ("dens_" ++ curto ++ "_" ++ estacao)
                             (fun p => consulta3 (bairro_da_linha p) (fst m) estacao
                                         contagem_por_tipo_estacao_normalizada) g)
                        nomes_estacoes g)
               mapeamento_tipos g
       else Ok g
     else Ok gdf11) ;;
  Ok (drop_coluna "bairro_normalizado" gdf12).

(* ------------------------------------------------------------------ *)
(** ** The season ranges as the specification words them (section 4.1),
    to compare with the classifier *)

Definition faixa_estacao (e : estacao) (m d : Z) : Prop :=
  match e with
  | verao => (m = 12 /\ d >= 21) \/ (m = 1 \/ m = 2) \/ (m = 3 /\ d < 20)
  | outono => (m = 3 /\ d >= 20) \/ (m = 4 \/ m = 5) \/ (m = 6 /\ d < 20)
  | inverno => (m = 6 /\ d >= 20) \/ (m = 7 \/ m = 8) \/ (m = 9 /\ d < 22)
  | primavera => (m = 9 /\ d >= 22) \/ (m = 10 \/ m = 11) \/ (m = 12 /\ d < 21)
  end.

(** A value the classifier reads as the date [t]: a timestamp, a [datetime]
    that converts, or a string that parses. *)
Definition le_como_data (data_valor : pyval) (t : Timestamp) : Prop :=
  data_valor = PTimestamp t
  \/ (exists d, data_valor = PDatetime d /\ pd_Timestamp d = Ok t)
  \/ (exists s, data_valor = PStr s /\ pd_to_datetime s = Ok (Some t)).

(** The types the classifier has a branch for. *)
Definition tipo_suportado (data_valor : pyval) : bool :=
  match data_valor with
  | PTimestamp _ | PDatetime _ | PStr _ => true
  | _ => false
  end.

(* ------------------------------------------------------------------ *)
(** ** Reading the splitter's input

    A feature collection as the scripts expect it: the document is an object
    whose [features] is a list, every feature is an object, and its
    [properties], when present, is an object. *)

Definition feature_bem_formada (f : pyval) : bool :=
  match f with
  | PDict campos => eh_dict (get_or "properties" campos (PDict []))
  | _ => false
  end.

(** [feature.get('properties', {})] of a well-formed feature *)
Definition propriedades (f : pyval) : dict string pyval :=
  match f with
  | PDict campos =>
      match get_or "properties" campos (PDict []) with
      | PDict props => props
      | _ => []
      end
  | _ => []
  end.

(** The date column the splitter settles on: the first of the three names
    among the first feature's properties. *)
Definition coluna_data_das_features (features : list pyval) : option string :=
  match features with
  | [] => None
  | primeira :: _ => find (fun col => dict_in col (propriedades primeira)) colunas_data
  end.

(** The date value the splitter reads from a feature, when it settled on a
    column. *)
Definition valor_data (coluna : option string) (f : pyval) : option pyval :=
  match coluna with
  | Some col => Some (get_or col (propriedades f) PNone)
  | None => None
  end.

(** The season of a feature for the splitter: none when no date value is
    read, when it is missing or blank, or when the classifier answers
    [None]. *)
Definition estacao_da_feature (coluna : option string) (f : pyval) : option estacao :=
  match valor_data coluna f with
  | Some v =>
      if sem_data v then None
      else match determinar_estacao_hemisferio_sul v with
           | Ok r => r
           | Raise _ => None
           end
  | None => None
  end.

Definition eh_estacao (e : estacao) (o : option estacao) : bool :=
  match o with
  | Some e' => estacao_eqb e e'
  | None => false
  end.

(* ------------------------------------------------------------------ *)
(** ** What the fixer is to change *)

(** The fixer's loop expects objects whose [properties] is an object or
    falsy (absent, [null], empty). *)
Definition feature_corrigivel (f : pyval) : bool :=
  match f with
  | PDict campos =>
      let properties := get_or "properties" campos PNone in
      negb (py_truthy properties) || eh_dict properties
  | _ => false
  end.

(** The geometry is an object whose [coordinates] is [["", ""]]. *)
Definition geometria_vazia (campos : dict string pyval) : bool :=
  match get_or "geometry" campos PNone with
  | PDict g => eh_par_vazio (get_or "coordinates" g PNone)
  | _ => false
  end.

(** The property [k] is the empty string. *)
Definition campo_vazio (k : string) (props : dict string pyval) : bool :=
  eh_str_vazia (get_or k props PNone).

Definition propriedades_corrigidas (props props' : dict string pyval) : Prop :=
  dict_keys props' = dict_keys props
  /\ (forall k, k <> "latitude" -> k <> "longitude" -> dict_get k props' = dict_get k props)
  /\ dict_get "latitude" props' =
     (if campo_vazio "latitude" props then Some PNone else dict_get "latitude" props)
  /\ dict_get "longitude" props' =
     (if campo_vazio "longitude" props then Some PNone else dict_get "longitude" props).

Definition feature_corrigida (f f' : pyval) : Prop :=
  exists campos campos',
    f = PDict campos /\ f' = PDict campos'
    /\ dict_keys campos' = dict_keys campos
    /\ (forall k, k <> "geometry" -> k <> "properties" ->
          dict_get k campos' = dict_get k campos)
    /\ dict_get "geometry" campos' =
       (if geometria_vazia campos then Some PNone else dict_get "geometry" campos)
    /\ match dict_get "properties" campos with
       | Some (PDict props) =>
           exists props',
             dict_get "properties" campos' = Some (PDict props')
             /\ propriedades_corrigidas props props'
       | o => dict_get "properties" campos' = o
       end.

(** None of the three conditions holds of the feature. *)
Definition nada_a_corrigir (f : pyval) : bool :=
  match f with
  | PDict campos =>
      negb (geometria_vazia campos)
      && match get_or "properties" campos PNone with
         | PDict props => negb (campo_vazio "latitude" props) && negb (campo_vazio "longitude" props)
         | _ => true
         end
  | _ => true
  end.

(* ------------------------------------------------------------------ *)
(** ** Which features the reader keeps *)

(** [float(v)] succeeds. *)
Definition converte_float (v : pyval) : bool :=
  match v with
  | PInt z => cabe_em_float z
  | PFloat _ | PBool _ => true
  | PStr s => float_str s
  | _ => false
  end.

(** [float(v)] raises the [OverflowError], which the loop does not catch. *)
Definition transborda (v : pyval) : bool :=
  match v with
  | PInt z => negb (cabe_em_float z)
  | _ => false
  end.

(** A coordinate that is not the empty string and converts to a float. *)
Definition coordenada_numerica (v : pyval) : bool :=
  negb (eh_str_vazia v) && converte_float v.


(** The first two entries of a coordinate value that has entries: the
    items of a list, the characters of a string. *)
Definition primeiras_coordenadas (coords : pyval) : option (pyval * pyval) :=
  match coords with
  | PList (c0 :: c1 :: _) => Some (c0, c1)
  | PStr s =>
      match caracteres s with
      | c0 :: c1 :: _ => Some (c0, c1)
      | _ => None
      end
  | _ => None
  end.

(** The features on which the reader's loop does not raise: objects; when
    the geometry is an object with a [coordinates] member, that member is
    not an object of two members or more (its subscript [0] is a
    [KeyError]), and in a list of two entries or more no conversion that is
    tried meets an integer beyond the floats. *)
Definition feature_legivel (f : pyval) : bool :=
  match f with
  | PDict campos =>
      match get_or "geometry" campos PNone with
      | PDict g =>
          match dict_get "coordinates" g with
          | Some (PDict m) => (List.length m <? 2)%nat
          | Some (PList (c0 :: c1 :: _)) =>
              eh_str_vazia c0 || eh_str_vazia c1
              || negb (transborda c0) && (negb (converte_float c0) || negb (transborda c1))
          | _ => true
          end
      | _ => true
      end
  | _ => false
  end.

(** The features the reader's loop keeps, of those it does not raise on.
    It rejects a [null] or absent geometry and, in a geometry that is an
    object with a [coordinates] member, a member without a length ([null],
    a number, a boolean) and a list or string of two entries or more whose
    first or second entry is the empty string or does not convert to a
    float.  Everything else is kept: a geometry that is not an object, one
    without [coordinates], fewer than two coordinates. *)
Definition geometria_aceita (f : pyval) : bool :=
  match f with
  | PDict campos =>
      match get_or "geometry" campos PNone with
      | PNone => false
      | PDict g =>
          match dict_get "coordinates" g with
          | None => true
          | Some (PDict _) => true
          | Some ((PList _ | PStr _) as coords) =>
              match primeiras_coordenadas coords with
              | Some (c0, c1) => coordenada_numerica c0 && coordenada_numerica c1
              | None => true
              end
          | Some _ => false
          end
      | _ => true
      end
  | _ => false
  end.

(** What the reader prints and gives back once its loop has counted
    [n] rejected features and [from_features] has answered [r]. *)
Definition leitura_de (n : Z) (r : res GeoDataFrame) : io GeoDataFrame :=
  let aviso := if (n >? 0)%Z then [MsgAvisoGeometriasInvalidas n] else [] in
  match r with
  | Ok gdf =>
      ((aviso ++ [MsgTotalOcorrenciasCarregadas (Z.of_nat (List.length (linhas gdf)))])%list,
       Ok gdf)
  | Raise e => ((aviso ++ [MsgErroLerGeoJSON e])%list, Raise e)
  end.


(* ------------------------------------------------------------------ *)
(** ** Counting rows, to state what the aggregator's tables hold *)

(** The date column the aggregator settles on. *)
Definition coluna_data_do_gdf (gdf : GeoDataFrame) : option string :=
  find (tem_coluna gdf) colunas_data.

(** The season the aggregator gives a row: none without a date column. *)
Definition estacao_da_linha (coluna_data : option string) (row : ocorrencia) : option estacao :=
  match coluna_data with
  | Some col =>
      match determinar_estacao_hemisferio_sul (celula_data col row) with
      | Ok r => r
      | Raise _ => None
      end
  | None => None
  end.

Definition linha_do_bairro (b : string) (row : ocorrencia) : bool :=
  match bairro row with
  | Some b' => b =? b'
  | None => false
  end.

Definition linha_do_tipo (t : string) (row : ocorrencia) : bool :=
  match tipo row with
  | Some t' => t =? t'
  | None => false
  end.

Definition tem_estacao (o : option estacao) : bool :=
  match o with Some _ => true | None => false end.

Definition b2z (b : bool) : Z := if b then 1 else 0.

(** What the aggregator prints when it does not raise. *)
Definition avisos_do_agregador (gdf : GeoDataFrame) : list saida :=
  ([MsgContando]
   ++ (if tem_coluna gdf "tipo" then [] else [MsgAvisoSemTipo])
   ++ [match coluna_data_do_gdf gdf with
       | Some col => MsgUsandoColunaData col
       | None => MsgAvisoSemData
       end]
   ++ [MsgBairrosUnicos
         (Z.of_nat (List.length (groupby_size (map bairro (linhas gdf)))))])%list.

(* ------------------------------------------------------------------ *)
(** ** What the enricher's output holds, row by row *)

(** The join key of an input row. *)
Definition nome_normalizado (coluna_bairro : string) (p0 : poligono) : string :=
  strip (py_str (celula coluna_bairro p0)).

(** The density column [d] holds what the formula gives for the count
    column [c] and the area of the row. *)
Definition par_ok (c d : string) (p : poligono) : Prop :=
  densidade (celula c p) (celula "area_km2" p) = Ok (celula d p).

Definition pares_fixos : list (string * string) :=
  [("contagem_total", "dens_km2"); ("contagem_lamina", "dens_lamina");
   ("contagem_bolsao", "dens_bolsao"); ("contagem_alagamento", "dens_alag")].

(** The count and density columns by season, or by type and season, that
    end in the suffix [s]. *)
Definition par_do_sufixo (s : string) : string * string :=
  ("cont_" ++ s, "dens_" ++ s).

(** Suffixes that would make a density column by season collide with one of
    the four fixed density columns. *)
Definition sufixo_reservado (s : string) : bool :=
  existsb (fun r => r =? s) ["km2"; "lamina"; "bolsao"; "alag"].

(** The suffixes of the columns the enricher writes after the four fixed
    densities, in the order it writes them. *)
Definition sufixos_escritos
    (contagem_por_tipo : dict string (dict string Z))
    (contagem_por_estacao : option (dict string (dict string Z)))
    (contagem_por_tipo_estacao : option (dict string (dict string (dict string Z))))
    : list string :=
  let por_estacao := match contagem_por_estacao with Some d => normalizar2 d | None => [] end in
  let por_tipo_estacao :=
    match contagem_por_tipo_estacao with Some d => normalizar3 d | None => [] end in
  if py_truthy_dict por_estacao then
    List.app nomes_estacoes
      (if py_truthy_dict por_tipo_estacao
       then flat_map (fun m : string * string =>
                        map (fun e => tipo_curto (snd m) ++ "_" ++ e) nomes_estacoes)
                     (mapeamento_tipos_de (dict_rekey strip contagem_por_tipo))
       else [])
  else [].

(** The pairs of a count column and its density column in the output. *)
Definition pares_de_densidade
    (contagem_por_tipo : dict string (dict string Z))
    (contagem_por_estacao : option (dict string (dict string Z)))
    (contagem_por_tipo_estacao : option (dict string (dict string (dict string Z))))
    : list (string * string) :=
  (pares_fixos
   ++ map par_do_sufixo
        (sufixos_escritos contagem_por_tipo contagem_por_estacao contagem_por_tipo_estacao))%list.

(** What the enricher's steps keep of an input row [p0] in the row [p] it
    has become: the geometry, the join key in its column, and a zero total
    for a neighbourhood that is a key of neither the total table nor the
    table by type. *)
Definition sem_contagem (coluna_bairro : string)
    (contagem_total : dict string Z) (contagem_por_tipo : dict string (dict string Z))
    (p0 : poligono) : Prop :=
  dict_in (nome_normalizado coluna_bairro p0) (dict_rekey strip contagem_total) = false
  /\ dict_in (nome_normalizado coluna_bairro p0) (dict_rekey strip contagem_por_tipo) = false.

(** The names of the columns the enricher writes: they start with
    [contagem_], [cont_] or [dens_], or are [area_km2] or the key column. *)
Definition nome_gerado (n : string) : bool :=
  String.prefix "contagem_" n || String.prefix "cont_" n || String.prefix "dens_" n
  || (n =? "area_km2") || (n =? "bairro_normalizado").

Definition inv_base (coluna_bairro : string)
    (contagem_total : dict string Z) (contagem_por_tipo : dict string (dict string Z))
    (p0 p : poligono) : Prop :=
  geometry p = geometry p0
  /\ celula "bairro_normalizado" p = PStr (nome_normalizado coluna_bairro p0)
  /\ (sem_contagem coluna_bairro contagem_total contagem_por_tipo p0 ->
      celula "contagem_total" p = PInt 0)
  /\ (forall x, nome_gerado x = false -> celula x p = celula x p0).

Definition inv_area (p : poligono) : Prop :=
  exists a, celula "area_km2" p = PFloat a.

Definition inv_pares (pares : list (string * string)) (p : poligono) : Prop :=
  Forall (fun cd => par_ok (fst cd) (snd cd) p) pares.

Definition inv_dens (coluna_bairro : string)
    (contagem_total : dict string Z) (contagem_por_tipo : dict string (dict string Z))
    (sufixos : list string) (p0 p : poligono) : Prop :=
  inv_base coluna_bairro contagem_total contagem_por_tipo p0 p
  /\ inv_area p
  /\ inv_pares (pares_fixos ++ map par_do_sufixo sufixos)%list p.

(** The column [d] is none of the columns the invariant speaks of. *)
Definition nome_livre (d c : string) (pares : list (string * string)) : bool :=
  nome_gerado d
  && negb ("bairro_normalizado" =? d) && negb ("contagem_total" =? d)
  && negb ("area_km2" =? d) && negb (c =? d)
  && forallb (fun cd => negb (fst cd =? d) && negb (snd cd =? d)) pares.

(** What the output row [p] holds of the input row [p0]. *)
Definition linha_enriquecida (coluna_bairro : string)
    (contagem_total : dict string Z)
    (contagem_por_tipo : dict string (dict string Z))
    (contagem_por_estacao : option (dict string (dict string Z)))
    (contagem_por_tipo_estacao : option (dict string (dict string (dict string Z))))
    (p0 p : poligono) : Prop :=
  geometry p = geometry p0
  /\ (forall x, nome_gerado x = false -> celula x p = celula x p0)
  /\ (sem_contagem coluna_bairro contagem_total contagem_por_tipo p0 ->
      celula "contagem_total" p = PInt 0)
  /\ inv_area p
  /\ inv_pares (pares_de_densidade contagem_por_tipo contagem_por_estacao
                  contagem_por_tipo_estacao) p.

(** The outcome of a run by cases: [Q] of the value returned, [E] of the
    exception raised. *)
Definition desfecho {A : Type} (r : res A) (Q : A -> Prop) (E : excecao -> Prop) : Prop :=
  match r with
  | Ok a => Q a
  | Raise e => E e
  end.

(** A cell that holds a number. *)
Definition numerica (v : pyval) : bool :=
  match v with
  | PFloat _ | PInt _ | PBool _ => true
  | _ => false
  end.

(** The columns of the input layer that the enricher may read as numbers:
    the area and the three category counts, when the layer brings them. *)
Definition colunas_numericas_lidas : list string :=
  ["st_areasha"; "contagem_lamina"; "contagem_bolsao"; "contagem_alagamento"].

Definition celulas_em (N : pyval -> Prop) (nomes : list string) (p : poligono) : Prop :=
  Forall (fun n => N (celula n p)) nomes.

(** In every row the cells of those columns are numbers (a missing cell is
    NaN). *)
Definition entrada_numerica (gdf : GeoDataFrameBairros) : bool :=
  forallb (fun p => forallb (fun n => numerica (celula n p)) colunas_numericas_lidas)
          (poligonos gdf).

(** A 64-bit integer: what an integer column of a frame holds, and what
    converts to a float whatever its value. *)
Definition em_int64 (z : Z) : bool :=
  ((- 2 ^ 63 <=? z) && (z <? 2 ^ 63))%Z.

Definition celula_em_int64 (v : pyval) : bool :=
  match v with
  | PInt z => em_int64 z
  | _ => true
  end.

(** In every row the integers among those cells are 64-bit integers. *)
Definition entrada_em_int64 (gdf : GeoDataFrameBairros) : bool :=
  forallb (fun p => forallb (fun n => celula_em_int64 (celula n p)) colunas_numericas_lidas)
          (poligonos gdf).

Definition tabela_em_int64 (t : dict string Z) : bool :=
  forallb (fun kv => em_int64 (snd kv)) t.

(** Every count of the four tables handed to the enricher is a 64-bit
    integer. *)
Definition contagens_em_int64 (contagem_total : dict string Z)
    (contagem_por_tipo : dict string (dict string Z))
    (contagem_por_estacao : option (dict string (dict string Z)))
    (contagem_por_tipo_estacao : option (dict string (dict string (dict string Z)))) : bool :=
  tabela_em_int64 contagem_total
  && forallb (fun kv => tabela_em_int64 (snd kv)) contagem_por_tipo
  && match contagem_por_estacao with
     | Some t => forallb (fun kv => tabela_em_int64 (snd kv)) t
     | None => true
     end
  && match contagem_por_tipo_estacao with
     | Some t => forallb (fun kv => forallb (fun kv' => tabela_em_int64 (snd kv')) (snd kv)) t
     | None => true
     end.

(** What the steps of the enricher need of the cells they read ([N]) to
    end in a value or in an exception of [E]. *)
Definition regras (N : pyval -> Prop) (E : excecao -> Prop) : Prop :=
  (forall z, N (PInt z))
  /\ (forall a, N (PFloat a))
  /\ (forall c a, N c -> desfecho (densidade c (PFloat a)) N E)
  /\ (forall v, N v ->
       desfecho (divide_por 1000000 v) (fun x => exists a, x = PFloat a) E).

(** A row once the total is written, and once the area is. *)
Definition linha_contada (N : pyval -> Prop) (p : poligono) : Prop :=
  celulas_em N ("contagem_total" :: colunas_numericas_lidas) p.

Definition linha_medida (N : pyval -> Prop) (p : poligono) : Prop :=
  linha_contada N p /\ inv_area p.

(* ------------------------------------------------------------------ *)
(** ** What the fixer counts, feature by feature *)

(** The condition of the first [if] of the fixer's loop. *)
Definition tem_coordenadas_vazias (f : pyval) : bool :=
  match f with
  | PDict campos => geometria_vazia campos
  | _ => false
  end.

(** The conditions of the two [if]s on the properties. *)
Definition tem_propriedade_vazia (k : string) (f : pyval) : bool :=
  match f with
  | PDict campos =>
      match get_or "properties" campos PNone with
      | PDict props => campo_vazio k props
      | _ => false
      end
  | _ => false
  end.

(** The three flags of a round of the loop. *)
Definition marcas_de (f : pyval) : bool * bool * bool :=
  (tem_coordenadas_vazias f,
   tem_propriedade_vazia "latitude" f,
   tem_propriedade_vazia "longitude" f).

(** Some correction applies to the feature. *)
Definition a_corrigir (f : pyval) : bool :=
  tem_coordenadas_vazias f
  || tem_propriedade_vazia "latitude" f
  || tem_propriedade_vazia "longitude" f.

(** [f'] is what a round of the fixer's loop makes of the feature [f]. *)
Definition corrigida_de (f f' : pyval) : Prop :=
  exists m, corrigir_feature f = Ok (f', m).

(** The document the fixer writes, given the features after the loop: the
    list under [features] is the list the loop went through. *)
Definition documento_corrigido (d : dict string pyval) (fs' : list pyval)
    : dict string pyval :=
  if dict_in "features" d then dict_set "features" (PList fs') d else d.

(** The statistics the fixer returns for the features [fs]. *)
Definition estatisticas_de (fs : list pyval) : estatisticas :=
  {| coordenadas_vazias := conta tem_coordenadas_vazias fs;
     latitude_vazia := conta (tem_propriedade_vazia "latitude") fs;
     longitude_vazia := conta (tem_propriedade_vazia "longitude") fs;
     total_features := Z.of_nat (List.length fs) |}.

(** What the fixer prints for them. *)
Definition relatorio_de (fs : list pyval) : list saida :=
  [MsgTotalFeatures (Z.of_nat (List.length fs));
   MsgFeaturesCorrigidas (conta a_corrigir fs);
   MsgCorrecoes (conta tem_coordenadas_vazias fs)
                (conta (tem_propriedade_vazia "latitude") fs)
                (conta (tem_propriedade_vazia "longitude") fs)].


(* ------------------------------------------------------------------ *)
(** ** What the splitter counts, feature by feature *)

(** The date value the splitter reads in the column [col] is missing or
    blank: the feature is counted in [ocorrencias_sem_data]. *)
Definition sem_data_na_feature (col : string) (f : pyval) : bool :=
  sem_data (get_or col (propriedades f) PNone).

(** The date value is there and the classifier answers [None]: the feature
    is counted in [ocorrencias_sem_estacao]. *)
Definition sem_estacao_na_feature (col : string) (f : pyval) : bool :=
  negb (sem_data_na_feature col f)
  && negb (tem_estacao (estacao_da_feature (Some col) f)).


(* ------------------------------------------------------------------ *)
(** ** The scripts around their main functions: reading, saving, [main]

    What these functions print and write is a list of records: the lines of
    the functions above, some lines of their own, and the documents written.
    Banners, paths and the closing lines are left out. *)

(** The totals [main] of the fixer's script keeps. *)
Record total_stats : Type := {
  arquivos_processados : Z;
  arquivos_corrigidos : Z;
  total_coordenadas_vazias : Z;
  total_latitude_vazia : Z;
  total_longitude_vazia : Z
}.

Inductive registro : Type :=
| Saida (m : saida)
| MsgEncodingDetectado (encoding : string)
| MsgTotalFeaturesCarregadas (n : Z)
| MsgErroArquivoNaoEncontrado
| MsgSalvo (e : estacao) (n : Z)
| MsgFalhaAoSalvar (e : estacao) (err : excecao)
| MsgErroJSONInvalido
| MsgErroAoLerArquivo (err : excecao)
| MsgErroDiretorioNaoEncontrado
| MsgNenhumArquivo
| MsgResumoFinal (t : total_stats)
| Gravado (arquivo : string) (doc : pyval).

Definition efeito (A : Type) : Type := (list registro * res A)%type.

(** [ler_ocorrencias] of the splitter's script: the document as loaded; any
    exception inside the [try] is printed and raised again. *)
Definition ler_ocorrencias_do_separador (carrega : string -> carga) : efeito pyval :=
  match detectar_encoding carrega with
  | Raise e => ([], Raise e)
  | Ok encoding =>
      match carrega encoding with
      | Carregado data =>
          match (features <- py_get data "features" (PList []) ;; py_len features) with
          | Ok n => ([MsgEncodingDetectado encoding; MsgTotalFeaturesCarregadas n], Ok data)
          | Raise e => ([MsgEncodingDetectado encoding; Saida (MsgErroLerGeoJSON e)], Raise e)
          end
      | falha =>
          ([MsgEncodingDetectado encoding;
            Saida (MsgErroLerGeoJSON (excecao_da_carga falha))],
           Raise (excecao_da_carga falha))
      end
  end.

(** [f"{estacao}.json"] *)
Definition nome_do_arquivo (e : estacao) : string := nome_estacao e ++ ".json".

(** [{"type": "FeatureCollection", "features": features}] *)
Definition colecao_de (features : list pyval) : pyval :=
  PDict [("type", PStr "FeatureCollection"); ("features", PList features)].

(** One round of the loop of [salvar_geojson_por_estacao]; [grava] is the
    outcome of opening the file and dumping the document into it. *)
Definition salvar_estacao (grava : string -> pyval -> res unit)
    (par : estacao * list pyval) : list registro :=
  let (estacao, features) := par in
  match grava (nome_do_arquivo estacao) (colecao_de features) with
  | Ok _ =>
      [Gravado (nome_do_arquivo estacao) (colecao_de features);
       MsgSalvo estacao (Z.of_nat (List.length features))]
  | Raise e => [MsgFalhaAoSalvar estacao e]
  end.

(** [mkdir] is the outcome of creating the output directory. *)
Definition salvar_geojson_por_estacao (mkdir : res unit)
    (grava : string -> pyval -> res unit)
    (ocorrencias_por_estacao : dict estacao (list pyval)) : efeito unit :=
  match mkdir with
  | Raise e => ([], Raise e)
  | Ok _ => (flat_map (salvar_estacao grava) ocorrencias_por_estacao, Ok tt)
  end.

(** [main] of the splitter's script; [existe] is whether the input file
    exists. *)
Definition main_extrair (existe : bool) (carrega : string -> carga)
    (mkdir : res unit) (grava : string -> pyval -> res unit) : efeito unit :=
  if negb existe then ([MsgErroArquivoNaoEncontrado], Ok tt)
  else
    match ler_ocorrencias_do_separador carrega with
    | (l1, Raise e) => (l1, Raise e)
    | (l1, Ok data_geojson) =>
        match extrair_ocorrencias_por_estacao data_geojson with
        | (l2, Raise e) => ((l1 ++ map Saida l2)%list, Raise e)
        | (l2, Ok ocorrencias_por_estacao) =>
            let (l3, r) := salvar_geojson_por_estacao mkdir grava ocorrencias_por_estacao in
            ((l1 ++ map Saida l2 ++ l3)%list, r)
        end
    end.


(* ------------------------------------------------------------------ *)
(** ** The fixer's script: from file to file, and [main] *)

(** [corrigir_geojson(caminho_arquivo, caminho_destino)] with its files:
    [carrega] is the file to correct, [grava] the outcome of creating the
    destination's directory and dumping the document there.  The result is
    the statistics, or [None] when the file cannot be read. *)
Definition corrigir_geojson_arquivo (destino : string) (carrega : string -> carga)
    (grava : pyval -> res unit) : efeito (option estatisticas) :=
  match detectar_encoding carrega with
  | Raise e => ([], Raise e)
  | Ok encoding =>
      match carrega encoding with
      | JSONDecodeError => ([MsgEncodingDetectado encoding; MsgErroJSONInvalido], Ok None)
      | UnicodeDecodeError =>
          ([MsgEncodingDetectado encoding;
            MsgErroAoLerArquivo (excecao_da_carga UnicodeDecodeError)], Ok None)
      | OutroErro e => ([MsgEncodingDetectado encoding; MsgErroAoLerArquivo e], Ok None)
      | Carregado data =>
          match corrigir_geojson data with
          | (l, Raise e) => (MsgEncodingDetectado encoding :: map Saida l, Raise e)
          | (l, Ok (stats, data')) =>
              match grava data' with
              | Raise e => (MsgEncodingDetectado encoding :: map Saida l, Raise e)
              | Ok _ =>
                  ((MsgEncodingDetectado encoding :: map Saida l) ++ [Gravado destino data'],
                   Ok (Some stats))%list
              end
          end
      end
  end.

(** A file of [dados/brutos]: its name, what loading it gives, and the
    outcome of writing its corrected document to [dados/clean]. *)
Record arquivo_bruto : Type := {
  nome_arquivo : string;
  carrega_arquivo : string -> carga;
  grava_destino : pyval -> res unit
}.

Definition total_inicial : total_stats :=
  {| arquivos_processados := 0; arquivos_corrigidos := 0;
     total_coordenadas_vazias := 0; total_latitude_vazia := 0;
     total_longitude_vazia := 0 |}.

(** [if stats: ...] in the loop of [main] *)
Definition soma_stats (t : total_stats) (stats : option estatisticas) : total_stats :=
  match stats with
  | None => t
  | Some s =>
      {| arquivos_processados := arquivos_processados t + 1;
         arquivos_corrigidos :=
           arquivos_corrigidos t
           + (if (coordenadas_vazias s >? 0) || (latitude_vazia s >? 0)
                 || (longitude_vazia s >? 0)
              then 1 else 0);
         total_coordenadas_vazias := total_coordenadas_vazias t + coordenadas_vazias s;
         total_latitude_vazia := total_latitude_vazia t + latitude_vazia s;
         total_longitude_vazia := total_longitude_vazia t + longitude_vazia s |}
  end.

(** [for arquivo in arquivos_geojson: ...] *)
Fixpoint processar_arquivos (arquivos : list arquivo_bruto) (t : total_stats)
    : efeito total_stats :=
  match arquivos with
  | [] => ([], Ok t)
  | a :: resto =>
      match corrigir_geojson_arquivo (nome_arquivo a) (carrega_arquivo a) (grava_destino a) with
      | (l, Raise e) => (l, Raise e)
      | (l, Ok stats) =>
          let (l', r) := processar_arquivos resto (soma_stats t stats) in
          ((l ++ l')%list, r)
      end
  end.

(** [main] of the fixer's script: [existe_brutos] is whether [dados/brutos]
    exists, [mkdir] the outcome of creating [dados/clean], [arquivos] the
    files [*.json] of [dados/brutos]. *)
Definition main_fix (existe_brutos : bool) (mkdir : res unit)
    (arquivos : list arquivo_bruto) : efeito unit :=
  if negb existe_brutos then ([MsgErroDiretorioNaoEncontrado], Ok tt)
  else
    match mkdir with
    | Raise e => ([], Raise e)
    | Ok _ =>
        match arquivos with
        | [] => ([MsgNenhumArquivo], Ok tt)
        | _ =>
            match processar_arquivos arquivos total_inicial with
            | (l, Raise e) => (l, Raise e)
            | (l, Ok t) => ((l ++ [MsgResumoFinal t])%list, Ok tt)
            end
        end
    end.

(** The features of the documents that [main] corrects: for each file, the
    features when the file loads, nothing when it does not. *)
Definition arquivo_regular (a : arquivo_bruto) (o : option (list pyval)) : Prop :=
  match o with
  | None =>
      forallb (fun enc => falha_de_leitura (carrega_arquivo a enc)) encodings = true
  | Some fs =>
      exists enc d,
        detectar_encoding (carrega_arquivo a) = Ok enc
        /\ carrega_arquivo a enc = Carregado (PDict d)
        /\ get_or "features" d (PList []) = PList fs
        /\ forallb feature_corrigivel fs = true
        /\ forall doc, grava_destino a doc = Ok tt
  end.

(** The summary for the features of the files that loaded. *)
Fixpoint resumo_de (os : list (option (list pyval))) : total_stats :=
  match os with
  | [] => total_inicial
  | None :: r => resumo_de r
  | Some fs :: r =>
      let t := resumo_de r in
      {| arquivos_processados := arquivos_processados t + 1;
         arquivos_corrigidos :=
           arquivos_corrigidos t + (if existsb a_corrigir fs then 1 else 0);
         total_coordenadas_vazias :=
           total_coordenadas_vazias t + conta tem_coordenadas_vazias fs;
         total_latitude_vazia :=
           total_latitude_vazia t + conta (tem_propriedade_vazia "latitude") fs;
         total_longitude_vazia :=
           total_longitude_vazia t + conta (tem_propriedade_vazia "longitude") fs |}
  end.


(* ------------------------------------------------------------------ *)
(** ** Paths and the search for the boundary layer
    ([encontrar_shapefile_bairros])

    A [pathlib.Path] is the list of its components, the last one its name;
    the file system is what [Path.exists] answers. *)

Definition Path : Type := list string.

(** [name.rfind('.')] *)
Fixpoint ultimo_ponto (s : string) : option nat :=
  match s with
  | EmptyString => None
  | String c r =>
      match ultimo_ponto r with
      | Some i => Some (S i)
      | None => if Ascii.eqb c "." then Some O else None
      end
  end.

(** [Path.suffix]: the name from its last dot on, when that dot is neither
    the first nor the last character. *)
Definition sufixo (name : string) : string :=
  match ultimo_ponto name with
  | Some i =>
      if ((0 <? i) && (i <? String.length name - 1))%nat
      then substring i (String.length name - i) name
      else ""
  | None => ""
  end.

(** The name with its suffix replaced, or added when it has none. *)
Definition troca_sufixo (suffix name : string) : string :=
  substring 0 (String.length name - String.length (sufixo name)) name ++ suffix.

(** [caminho.with_suffix(suffix)] for a path with a name and a suffix that
    starts with a dot. *)
Fixpoint with_suffix (suffix : string) (caminho : Path) : Path :=
  match caminho with
  | [] => []
  | [name] => [troca_sufixo suffix name]
  | c :: r => c :: with_suffix suffix r
  end.

Definition possiveis_caminhos (base_dir : Path) : list Path :=
  [(base_dir ++ ["dados"; "brutos"; "camadas"; "Limite_de_Bairros"; "Limite_de_Bairros.shp"])%list;
   (base_dir ++ ["dados"; "camadas"; "Limite_de_Bairros"; "Limite_de_Bairros.shp"])%list;
   (base_dir ++ ["dados"; "camadas"; "Limite_de_Bairros.shp"])%list;
   (base_dir ++ ["dados"; "brutos"; "camadas"; "Limite_de_Bairros.shp"])%list].

Definition possiveis_shx (base_dir : Path) : list Path :=
  [(base_dir ++ ["dados"; "brutos"; "camadas"; "Limite_de_Bairros"; "Limite_de_Bairros.shx"])%list;
   (base_dir ++ ["dados"; "camadas"; "Limite_de_Bairros"; "Limite_de_Bairros.shx"])%list;
   (base_dir ++ ["dados"; "camadas"; "Limite_de_Bairros.shx"])%list;
   (base_dir ++ ["dados"; "brutos"; "camadas"; "Limite_de_Bairros.shx"])%list].

(** The two warnings of the search. *)
Inductive aviso_shapefile : Type :=
| AvisoFaltamComponentes (shp shx dbf : bool)
| AvisoApenasShx (caminho_shx : Path).

(** The first existing candidate of each loop is returned, whatever the
    inner test says. *)
Definition encontrar_shapefile_bairros (existe : Path -> bool) (base_dir : Path)
    : list aviso_shapefile * option Path :=
  match find existe (possiveis_caminhos base_dir) with
  | Some caminho =>
      let shx := with_suffix ".shx" caminho in
      let dbf := with_suffix ".dbf" caminho in
      if existe shx && existe dbf then ([], Some caminho)
      else ([AvisoFaltamComponentes (existe caminho) (existe shx) (existe dbf)], Some caminho)
  | None =>
      match find existe (possiveis_shx base_dir) with
      | Some caminho_shx =>
          let caminho_shp := with_suffix ".shp" caminho_shx in
          if existe caminho_shp then ([], Some caminho_shp)
          else ([AvisoApenasShx caminho_shx], Some caminho_shx)
      | None => ([], None)
      end
  end.


(* ------------------------------------------------------------------ *)
(** ** Rows the aggregator counts *)

(** The row names a neighbourhood: [pd.isna(bairro)] is false. *)
Definition tem_bairro (row : ocorrencia) : bool :=
  match bairro row with
  | Some _ => true
  | None => false
  end.


(* ------------------------------------------------------------------ *)
(** ** The frame the enricher returns: its columns and reference system *)

(** The columns every output has. *)
Definition colunas_garantidas : list string :=
  ["contagem_total"; "contagem_lamina"; "contagem_bolsao"; "contagem_alagamento";
   "area_km2"; "dens_km2"; "dens_lamina"; "dens_bolsao"; "dens_alag"].

(** The reference system of the output: the layer's, but EPSG:4326 when the
    area is computed from a geometry without one. *)
Definition crs_de_saida (gdf : GeoDataFrameBairros) : option Z :=
  if tem_coluna_bairros gdf "st_areasha" then crs gdf
  else Some (match crs gdf with Some c => c | None => 4326 end).

(** The frame [g'] has the columns of [g] and, besides, columns with the
    names the enricher writes only. *)
Definition estende (g g' : GeoDataFrameBairros) : Prop :=
  (forall c, tem_coluna_bairros g c = true -> tem_coluna_bairros g' c = true)
  /\ (forall c, tem_coluna_bairros g' c = true ->
                tem_coluna_bairros g c = true \/ nome_gerado c = true)
  /\ (NoDup (dict_keys (colunas g)) -> NoDup (dict_keys (colunas g'))).

(** The steps of a run of the enricher that returns [out]. *)
Definition passos_do_enriquecedor (gdf : GeoDataFrameBairros)
    (contagem_total : dict string Z)
    (contagem_por_tipo : dict string (dict string Z))
    (contagem_por_estacao : option (dict string (dict string Z)))
    (contagem_por_tipo_estacao : option (dict string (dict string (dict string Z))))
    (coluna_bairro : string)
    (g1 g2 g3 g6 g7 g11 g12 out : GeoDataFrameBairros) : Prop :=
  let por_estacao := match contagem_por_estacao with Some d => normalizar2 d | None => [] end in
  let por_tipo_estacao :=
    match contagem_por_tipo_estacao with Some d => normalizar3 d | None => [] end in
  resolver_coluna_bairro gdf = Ok coluna_bairro
  /\ atribui "bairro_normalizado" DObject
       (fun p => Ok (PStr (strip (py_str (celula coluna_bairro p))))) gdf = Ok g1
  /\ atribui "contagem_total" DInt64
       (fun p => Ok (PInt (astype_int64
                             (get_or (bairro_da_linha p) (dict_rekey strip contagem_total) 0))))
       g1 = Ok g2
  /\ foldM (fun g (m : string * string) =>
              atribui (snd m) DInt64
                (fun p => Ok (PInt (consulta2 (bairro_da_linha p) (fst m)
                                      (dict_rekey strip contagem_por_tipo)))) g)
           (mapeamento_tipos_de (dict_rekey strip contagem_por_tipo)) g2 = Ok g3
  /\ (g4 <- garante_coluna "contagem_lamina" g3 ;;
      g5 <- garante_coluna "contagem_bolsao" g4 ;;
      garante_coluna "contagem_alagamento" g5) = Ok g6
  /\ (if tem_coluna_bairros g6 "st_areasha"
      then atribui "area_km2" DFloat64
             (fun p => divide_por 1000000 (celula "st_areasha" p)) g6
      else
        let epsg := match crs g6 with Some c => c | None => 4326 end in
        atribui "area_km2" DFloat64
          (fun p => Ok (PFloat (area_projetada epsg (geometry p) / 1000000)%float))
          {| colunas := colunas g6; crs := Some epsg; poligonos := poligonos g6 |}) = Ok g7
  /\ (g8 <- atribui "dens_km2" DFloat64
              (fun p => densidade (celula "contagem_total" p) (celula "area_km2" p)) g7 ;;
      g9 <- atribui "dens_lamina" DFloat64
              (fun p => densidade (celula "contagem_lamina" p) (celula "area_km2" p)) g8 ;;
      g10 <- atribui "dens_bolsao" DFloat64
               (fun p => densidade (celula "contagem_bolsao" p) (celula "area_km2" p)) g9 ;;
      atribui "dens_alag" DFloat64
        (fun p => densidade (celula "contagem_alagamento" p) (celula "area_km2" p)) g10)
     = Ok g11
  /\ (if py_truthy_dict por_estacao then
        g <- foldM (fun g estacao =>
                      atribui_contagem_e_densidade
                        ("cont_" ++ estacao) ("dens_" ++ estacao)
                        (fun p => consulta2 (bairro_da_linha p) estacao por_estacao) g)
                   nomes_estacoes g11 ;;
        if py_truthy_dict por_tipo_estacao then
          foldM (fun g (m : string * string) =>
                   let curto := tipo_curto (snd m) in
                   foldM (fun g estacao =>
                            atribui_contagem_e_densidade
                              ("cont_" ++ curto ++ "_" ++ estacao)
                              ("dens_" ++ curto ++ "_" ++ estacao)
                              (fun p => consulta3 (bairro_da_linha p) (fst m) estacao
                                          por_tipo_estacao) g)
                         nomes_estacoes g)
                (mapeamento_tipos_de (dict_rekey strip contagem_por_tipo)) g
        else Ok g
      else Ok g11) = Ok g12
  /\ out = drop_coluna "bairro_normalizado" g12.


(* ------------------------------------------------------------------ *)
(** ** The cells the enricher writes *)

(** The geometry and the cells of the columns [W] are the same in the rows
    [p] and [p']. *)
Definition preserva (W : string -> bool) (p p' : poligono) : Prop :=
  geometry p' = geometry p
  /\ forall x, W x = true -> celula x p' = celula x p.

(** The last type, in the order of the loop over the types, whose column
    is [c]. *)
Definition ultimo_tipo_da_coluna (tipos : list string) (c : string) : option string :=
  find (fun t => nome_coluna_tipo t =? c) (rev tipos).

(** The three category columns that are created with zeros when missing. *)
Definition categorias_garantidas : list string :=
  ["contagem_lamina"; "contagem_bolsao"; "contagem_alagamento"].


(** The last type, in the order of the loop over the types, whose short
    name in the columns by type and season is [curto]. *)
Definition ultimo_tipo_do_curto (tipos : list string) (curto : string) : option string :=
  find (fun t => tipo_curto (nome_coluna_tipo t) =? curto) (rev tipos).


(* ================================================================== *)
(** * Properties *)

(** Proofs about lists and strings alone: the library functions leave the
    context, so that automation does not pick them up. *)
Ltac sem_biblioteca :=
  clear isna_colecao pd_to_datetime pd_Timestamp float_str py_str_outro
        tipo_limpo_lower area_projetada from_features.

(** Proofs about the classifier's callers: the other library functions
    leave the context. *)
Ltac so_datas :=
  clear float_str py_str_outro tipo_limpo_lower area_projetada from_features.

(** ** Season classifier *)

Ltac caso_dia d :=
  repeat match goal with
         | |- context [(d >=? ?k)%Z] => destruct (Z.geb_spec d k)
         | |- context [(d <? ?k)%Z] => destruct (Z.ltb_spec d k)
         end.

Lemma estacao_por_mes_dia_faixa (m d : Z) (e : estacao) :
  estacao_por_mes_dia m d = Some e <-> faixa_estacao e m d.
Proof.
  unfold estacao_por_mes_dia, faixa_estacao.
  destruct (Z.eq_dec m 1) as [-> | H1]; [simpl; destruct e; split; intros; (congruence || lia) |].
  destruct (Z.eq_dec m 2) as [-> | H2]; [simpl; destruct e; split; intros; (congruence || lia) |].
  destruct (Z.eq_dec m 3) as [-> | H3];
    [simpl; caso_dia d; simpl; destruct e; split; intros; (congruence || lia) |].
  destruct (Z.eq_dec m 4) as [-> | H4]; [simpl; destruct e; split; intros; (congruence || lia) |].
  destruct (Z.eq_dec m 5) as [-> | H5]; [simpl; destruct e; split; intros; (congruence || lia) |].
  destruct (Z.eq_dec m 6) as [-> | H6];
    [simpl; caso_dia d; simpl; destruct e; split; intros; (congruence || lia) |].
  destruct (Z.eq_dec m 7) as [-> | H7]; [simpl; destruct e; split; intros; (congruence || lia) |].
  destruct (Z.eq_dec m 8) as [-> | H8]; [simpl; destruct e; split; intros; (congruence || lia) |].
  destruct (Z.eq_dec m 9) as [-> | H9];
    [simpl; caso_dia d; simpl; destruct e; split; intros; (congruence || lia) |].
  destruct (Z.eq_dec m 10) as [-> | H10]; [simpl; destruct e; split; intros; (congruence || lia) |].
  destruct (Z.eq_dec m 11) as [-> | H11]; [simpl; destruct e; split; intros; (congruence || lia) |].
  destruct (Z.eq_dec m 12) as [-> | H12];
    [simpl; caso_dia d; simpl; destruct e; split; intros; (congruence || lia) |].
  simpl.
  repeat match goal with
         | |- context [(m =? ?k)%Z] =>
             let E := fresh in destruct (Z.eqb_spec m k) as [E | E]; [lia |]
         end.
  simpl. destruct e; split; intros; (congruence || lia).
Qed.

Lemma faixa_estacao_total (m d : Z) :
  1 <= m <= 12 -> exists e, faixa_estacao e m d.
Proof.
  intros Hm.
  assert (Hc : m = 1 \/ m = 2 \/ (m = 3 /\ d < 20) \/ (m = 3 /\ d >= 20) \/ m = 4 \/ m = 5
               \/ (m = 6 /\ d < 20) \/ (m = 6 /\ d >= 20) \/ m = 7 \/ m = 8
               \/ (m = 9 /\ d < 22) \/ (m = 9 /\ d >= 22) \/ m = 10 \/ m = 11
               \/ (m = 12 /\ d < 21) \/ (m = 12 /\ d >= 21)) by lia.
  destruct Hc as [H | [H | [H | [H | [H | [H | [H | [H | [H | [H | [H | [H | [H | [H | [H | H]]]]]]]]]]]]]]].
  all: first [ exists verao; simpl; lia | exists outono; simpl; lia
             | exists inverno; simpl; lia | exists primavera; simpl; lia ].
Qed.

Lemma faixa_estacao_unica (m d : Z) (e e' : estacao) :
  faixa_estacao e m d -> faixa_estacao e' m d -> e = e'.
Proof.
  destruct e, e'; simpl; intros; (reflexivity || lia).
Qed.

Lemma determinar_le_como_data (v : pyval) (t : Timestamp) :
  le_como_data v t ->
  determinar_estacao_hemisferio_sul v = Ok (estacao_por_mes_dia (month t) (day t)).
Proof.
  unfold determinar_estacao_hemisferio_sul, determinar_estacao_corpo.
  intros [-> | [(d & -> & Hd) | (s & -> & Hs)]]; simpl.
  - reflexivity.
  - rewrite Hd. reflexivity.
  - rewrite Hs. reflexivity.
Qed.

(* ------------------------------------------------------------------ *)
(** ** Dictionaries and the output monad *)

Lemma chave_eqb_refl {K : Type} `{Chave K} (k : K) : chave_eqb k k = true.
Proof. destruct (chave_eqb_spec k k); congruence. Qed.

Lemma chave_eqb_neq {K : Type} `{Chave K} (a b : K) : a <> b -> chave_eqb a b = false.
Proof. destruct (chave_eqb_spec a b); congruence. Qed.

Lemma dict_get_set_eq {K V : Type} `{Chave K} (k : K) (v : V) (d : dict K V) :
  dict_get k (dict_set k v d) = Some v.
Proof.
  induction d as [| [k' v'] d IH]; simpl.
  - now rewrite chave_eqb_refl.
  - destruct (chave_eqb k k') eqn:E; simpl; rewrite E; auto.
Qed.

Lemma dict_get_set_neq {K V : Type} `{Chave K} (k k' : K) (v : V) (d : dict K V) :
  k <> k' -> dict_get k (dict_set k' v d) = dict_get k d.
Proof.
  intros Hne. induction d as [| [k2 v2] d IH]; simpl.
  - now rewrite chave_eqb_neq.
  - destruct (chave_eqb_spec k' k2) as [-> | Hk]; simpl.
    + now rewrite chave_eqb_neq.
    + now rewrite IH.
Qed.

Lemma dict_keys_set_in {K V : Type} `{Chave K} (k : K) (v : V) (d : dict K V) :
  dict_in k d = true -> dict_keys (dict_set k v d) = dict_keys d.
Proof.
  unfold dict_in, dict_keys.
  induction d as [| [k' v'] d IH]; simpl; [discriminate |].
  destruct (chave_eqb k k') eqn:E; simpl; intros Hin; [reflexivity |].
  now rewrite IH.
Qed.

Lemma get_or_set_eq {K V : Type} `{Chave K} (k : K) (v dflt : V) (d : dict K V) :
  get_or k (dict_set k v d) dflt = v.
Proof. unfold get_or. now rewrite dict_get_set_eq. Qed.

Lemma get_or_set_neq {K V : Type} `{Chave K} (k k' : K) (v dflt : V) (d : dict K V) :
  k <> k' -> get_or k (dict_set k' v d) dflt = get_or k d dflt.
Proof. intros Hne. unfold get_or. now rewrite dict_get_set_neq. Qed.

Lemma result_bind_io {A B : Type} (m : io A) (k : A -> io B) :
  result (bind_io m k) =
  match result m with
  | Ok a => result (k a)
  | Raise e => Raise e
  end.
Proof.
  unfold result, bind_io. destruct m as [l [a | e]]; simpl; [| reflexivity].
  now destruct (k a).
Qed.

(** C2. For every date value the classifier can read (a timestamp, a
    [datetime] that converts, a string that parses) whose month is one of the
    twelve, whatever the day, the classifier returns a season label; that
    label's range of section 4.1 holds the date, and no other label's range
    does: the four ranges are exhaustive and do not overlap, and the [None] of
    the last [else] is not reached.  Start boundaries are inclusive:
    Mar 20 is autumn, Jun 20 winter, Sep 22 spring, Dec 21 summer, and the
    days before them (Mar 19, Jun 19, Sep 21, Dec 20) still belong to summer,
    autumn, winter and spring. *)
Theorem classificador_exaustivo_sem_sobreposicao :
  (forall (v : pyval) (t : Timestamp),
      le_como_data v t ->
      1 <= month t <= 12 ->
      exists e,
        determinar_estacao_hemisferio_sul v = Ok (Some e)
        /\ faixa_estacao e (month t) (day t)
        /\ (forall e', faixa_estacao e' (month t) (day t) -> e' = e))
  /\ (forall y,
        determinar_estacao_hemisferio_sul (PTimestamp {| year := y; month := 3; day := 20 |})
          = Ok (Some outono)
        /\ determinar_estacao_hemisferio_sul (PTimestamp {| year := y; month := 6; day := 20 |})
             = Ok (Some inverno)
        /\ determinar_estacao_hemisferio_sul (PTimestamp {| year := y; month := 9; day := 22 |})
             = Ok (Some primavera)
        /\ determinar_estacao_hemisferio_sul (PTimestamp {| year := y; month := 12; day := 21 |})
             = Ok (Some verao)
        /\ determinar_estacao_hemisferio_sul (PTimestamp {| year := y; month := 3; day := 19 |})
             = Ok (Some verao)
        /\ determinar_estacao_hemisferio_sul (PTimestamp {| year := y; month := 6; day := 19 |})
             = Ok (Some outono)
        /\ determinar_estacao_hemisferio_sul (PTimestamp {| year := y; month := 9; day := 21 |})
             = Ok (Some inverno)
        /\ determinar_estacao_hemisferio_sul (PTimestamp {| year := y; month := 12; day := 20 |})
             = Ok (Some primavera)).
Proof.
  split.
  - intros v t Hv Hm.
    destruct (faixa_estacao_total (month t) (day t) Hm) as [e He].
    exists e. split; [| split].
    + rewrite (determinar_le_como_data v t Hv).
      f_equal. now apply estacao_por_mes_dia_faixa.
    + exact He.
    + intros e' He'. exact (faixa_estacao_unica _ _ _ _ He' He).
  - intros y. repeat split; reflexivity.
Qed.

Lemma determinar_sempre_retorna (v : pyval) :
  exists r, determinar_estacao_hemisferio_sul v = Ok r.
Proof.
  unfold determinar_estacao_hemisferio_sul, try_except.
  destruct (determinar_estacao_corpo v); eauto.
Qed.

Lemma determinar_tipo_nao_suportado (v : pyval) :
  tipo_suportado v = false -> determinar_estacao_hemisferio_sul v = Ok None.
Proof.
  unfold determinar_estacao_hemisferio_sul, determinar_estacao_corpo.
  destruct v; simpl; try discriminate; intros _; try reflexivity.
  - destruct (PrimFloat.is_nan f); reflexivity.
  - destruct (isna_colecao l) as [[|] | e]; reflexivity.
Qed.

Lemma determinar_string_nao_data (s : string) :
  (forall t, pd_to_datetime s <> Ok (Some t)) ->
  determinar_estacao_hemisferio_sul (PStr s) = Ok None.
Proof.
  intros Hs.
  unfold determinar_estacao_hemisferio_sul, determinar_estacao_corpo. simpl.
  destruct (pd_to_datetime s) as [[t |] | e]; simpl; try reflexivity.
  now destruct (Hs t).
Qed.

(** C3. The classifier never raises: on every value it returns, and the
    result is [None] (unknown) for [None], for a NaN float, for [NaT], for a
    value of any type it has no branch for (numbers, booleans, lists, dicts),
    and for a string that the date parser does not turn into a date, be it
    by answering [NaT] or by raising. *)
Theorem determinar_estacao_nunca_levanta (v : pyval) :
  (exists r, determinar_estacao_hemisferio_sul v = Ok r)
  /\ determinar_estacao_hemisferio_sul PNone = Ok None
  /\ determinar_estacao_hemisferio_sul PNaT = Ok None
  /\ (forall f, PrimFloat.is_nan f = true ->
        determinar_estacao_hemisferio_sul (PFloat f) = Ok None)
  /\ (tipo_suportado v = false -> determinar_estacao_hemisferio_sul v = Ok None)
  /\ (forall s, v = PStr s ->
        (forall t, pd_to_datetime s <> Ok (Some t)) ->
        determinar_estacao_hemisferio_sul v = Ok None).
Proof.
  split; [apply determinar_sempre_retorna |].
  split; [reflexivity |].
  split; [reflexivity |].
  split; [intros f _; now apply determinar_tipo_nao_suportado |].
  split; [apply determinar_tipo_nao_suportado |].
  intros s -> Hs. now apply determinar_string_nao_data.
Qed.

(* ------------------------------------------------------------------ *)
(** ** Season splitter *)

Lemma get_or_acrescenta (e e' : estacao) (x : pyval) (d : dict estacao (list pyval)) :
  get_or e (acrescenta e' x d) [] =
  if estacao_eqb e e' then (get_or e d [] ++ [x])%list else get_or e d [].
Proof.
  unfold acrescenta.
  destruct (estacao_eqb_spec e e') as [-> | Hne].
  - apply get_or_set_eq.
  - now apply get_or_set_neq.
Qed.

Lemma primeira_coluna_em_dict (props : dict string pyval) (cols : list string) :
  primeira_coluna_em (PDict props) cols = Ok (find (fun col => dict_in col props) cols).
Proof.
  induction cols as [| col cols IH]; simpl; [reflexivity |].
  destruct (dict_in col props); simpl; auto.
Qed.

Lemma bem_formada_propriedades (f : pyval) :
  feature_bem_formada f = true ->
  py_get f "properties" (PDict []) = Ok (PDict (propriedades f)).
Proof.
  destruct f; simpl; try discriminate.
  destruct (get_or "properties" d (PDict [])); simpl; try discriminate.
  reflexivity.
Qed.

Lemma separar_feature_estacao (coluna : string) (p : particoes) (f : pyval) :
  feature_bem_formada f = true ->
  exists p',
    separar_feature coluna p f = Ok p'
    /\ forall e,
         get_or e (ocorrencias_por_estacao p') [] =
         (get_or e (ocorrencias_por_estacao p) []
            ++ (if eh_estacao e (estacao_da_feature (Some coluna) f) then [f] else []))%list.
Proof.
  intros Hf. unfold separar_feature, estacao_da_feature, valor_data.
  rewrite (bem_formada_propriedades f Hf). simpl.
  destruct (sem_data (get_or coluna (propriedades f) PNone)).
  - eexists; split; [reflexivity |]. intros e; simpl. now rewrite app_nil_r.
  - destruct (determinar_sempre_retorna (get_or coluna (propriedades f) PNone)) as [r Hr].
    rewrite Hr; simpl. destruct r as [e' |].
    + eexists; split; [reflexivity |]. intros e; simpl.
      rewrite get_or_acrescenta. destruct (estacao_eqb e e'); [reflexivity |].
      now rewrite app_nil_r.
    + eexists; split; [reflexivity |]. intros e; simpl. now rewrite app_nil_r.
Qed.

Lemma separar_features_filter (coluna : string) (fs : list pyval) :
  forallb feature_bem_formada fs = true ->
  forall p,
  exists p',
    foldM (separar_feature coluna) fs p = Ok p'
    /\ forall e,
         get_or e (ocorrencias_por_estacao p') [] =
         (get_or e (ocorrencias_por_estacao p) []
            ++ filter (fun f => eh_estacao e (estacao_da_feature (Some coluna) f)) fs)%list.
Proof.
  induction fs as [| f fs IH]; simpl; intros Hfs p.
  - exists p; split; [reflexivity |]. intros e. now rewrite app_nil_r.
  - apply andb_prop in Hfs as [Hf Hfs].
    destruct (separar_feature_estacao coluna p f Hf) as (p1 & -> & H1). simpl.
    destruct (IH Hfs p1) as (p' & -> & H'). exists p'; split; [reflexivity |].
    intros e. rewrite H', H1, <- app_assoc. f_equal.
    now destruct (eh_estacao e (estacao_da_feature (Some coluna) f)).
Qed.

Lemma result_print_bind {B : Type} (m : saida) (k : io B) :
  result (print m ;;; k) = result k.
Proof. now rewrite result_bind_io. Qed.

Lemma result_lift_bind {A B : Type} (r : res A) (k : A -> io B) :
  result (x <~ lift r ;; k x) =
  match r with
  | Ok a => result (k a)
  | Raise e => Raise e
  end.
Proof. now rewrite result_bind_io. Qed.

Lemma filter_sem_estacao {A : Type} (e : estacao) (l : list A) :
  filter (fun _ => eh_estacao e None) l = [].
Proof. induction l; simpl; auto. Qed.

Lemma extrair_filter (d : dict string pyval) (fs : list pyval) :
  get_or "features" d (PList []) = PList fs ->
  forallb feature_bem_formada fs = true ->
  exists out,
    result (extrair_ocorrencias_por_estacao (PDict d)) = Ok out
    /\ forall e,
         get_or e out [] =
         filter (fun f => eh_estacao e (estacao_da_feature (coluna_data_das_features fs) f)) fs.
Proof.
  intros Hd Hfs. unfold extrair_ocorrencias_por_estacao.
  rewrite result_print_bind, result_lift_bind.
  cbn [py_get]. rewrite Hd.
  destruct fs as [| f fs].
  - cbn [py_truthy negb]. rewrite result_print_bind.
    exists []; split; reflexivity.
  - cbn [py_truthy negb py_item nth_error].
    rewrite result_lift_bind, result_lift_bind.
    pose proof Hfs as Hfs'. cbn [forallb] in Hfs'. apply andb_prop in Hfs' as [Hf _].
    rewrite (bem_formada_propriedades f Hf).
    rewrite result_lift_bind, primeira_coluna_em_dict.
    cbn [coluna_data_das_features].
    destruct (find (fun col => dict_in col (propriedades f)) colunas_data) as [coluna |].
    + rewrite result_print_bind, result_lift_bind. cbn [py_iter].
      destruct (separar_features_filter coluna (f :: fs) Hfs particoes_vazias) as (p' & Hp & Hget).
      rewrite result_lift_bind, Hp, !result_print_bind.
      exists (ocorrencias_por_estacao p'); split; [reflexivity |].
      intros e. now rewrite Hget.
    + rewrite result_print_bind.
      exists []; split; [reflexivity |].
      intros e. unfold estacao_da_feature, valor_data.
      now rewrite filter_sem_estacao.
Qed.

Lemma eh_estacao_iff (e : estacao) (o : option estacao) :
  eh_estacao e o = true <-> o = Some e.
Proof.
  destruct o as [e' |]; simpl; [| split; discriminate].
  destruct (estacao_eqb_spec e e'); split; congruence.
Qed.

Lemma particao_por_estacao_length {A : Type} (g : A -> option estacao) (l : list A) :
  List.length l =
  (List.length (List.concat (map (fun e => filter (fun x => eh_estacao e (g x)) l) estacoes))
   + List.length (filter (fun x => match g x with None => true | Some _ => false end) l))%nat.
Proof.
  unfold estacoes. simpl. rewrite app_nil_r, !length_app.
  induction l as [| x l IH]; simpl; [reflexivity |].
  destruct (g x) as [[| | |] |]; simpl; lia.
Qed.

Lemma extrair_sem_coluna (d : dict string pyval) (fs : list pyval) :
  get_or "features" d (PList []) = PList fs ->
  forallb feature_bem_formada fs = true ->
  coluna_data_das_features fs = None ->
  result (extrair_ocorrencias_por_estacao (PDict d)) = Ok [].
Proof.
  intros Hd Hfs Hcol. unfold extrair_ocorrencias_por_estacao.
  rewrite result_print_bind, result_lift_bind.
  cbn [py_get]. rewrite Hd.
  destruct fs as [| f fs].
  - cbn [py_truthy negb]. now rewrite result_print_bind.
  - cbn [py_truthy negb py_item nth_error].
    rewrite result_lift_bind, result_lift_bind.
    cbn [forallb] in Hfs. apply andb_prop in Hfs as [Hf _].
    rewrite (bem_formada_propriedades f Hf).
    rewrite result_lift_bind, primeira_coluna_em_dict.
    cbn [coluna_data_das_features] in Hcol. rewrite Hcol.
    rewrite result_print_bind, result_lift_bind. reflexivity.
Qed.

(** C9, as amended.  For every feature collection (an object whose
    [features] is a list of objects, their [properties] objects when
    present) the splitter returns, and no feature stands in two seasons'
    lists.  The date field is settled once, on the first feature: the first
    of [data_inicio], [data_fim], [data_particao] among its properties.
    With a field settled, each season's list is the input list filtered by
    that season, in input order, where a feature has a season when its value
    in that field is neither missing nor blank and the classifier answers a
    label; so a feature is in some list exactly when it is an input feature
    with a season, and the lists' lengths add up to the input's length minus
    the features without a season.  With no field settled the result has no
    list at all, whatever the features hold. *)
Theorem particoes_disjuntas_e_completas (d : dict string pyval) (fs : list pyval) :
  get_or "features" d (PList []) = PList fs ->
  forallb feature_bem_formada fs = true ->
  exists out,
    result (extrair_ocorrencias_por_estacao (PDict d)) = Ok out
    /\ (forall e1 e2 f, In f (get_or e1 out []) -> In f (get_or e2 out []) -> e1 = e2)
    /\ match coluna_data_das_features fs with
       | Some col =>
           (forall e,
              get_or e out [] =
              filter (fun f => eh_estacao e (estacao_da_feature (Some col) f)) fs)
           /\ (forall f,
                 (exists e, In f (get_or e out [])) <->
                 In f fs /\ estacao_da_feature (Some col) f <> None)
           /\ List.length fs =
              (List.length (List.concat (map (fun e => get_or e out []) estacoes))
               + List.length
                   (filter (fun f => match estacao_da_feature (Some col) f with
                                     | None => true
                                     | Some _ => false
                                     end) fs))%nat
       | None => out = []
       end.
Proof.
  intros Hd Hfs.
  destruct (extrair_filter d fs Hd Hfs) as (out & Hout & Hget).
  exists out. split; [exact Hout |]. split.
  - intros e1 e2 f H1 H2. rewrite Hget in H1, H2.
    apply filter_In in H1 as [_ H1]. apply filter_In in H2 as [_ H2].
    apply eh_estacao_iff in H1. apply eh_estacao_iff in H2. congruence.
  - destruct (coluna_data_das_features fs) as [col |] eqn:Ecol.
    + split; [exact Hget |]. split.
      * intros f. split.
        -- intros [e He]. rewrite Hget in He. apply filter_In in He as [Hin He].
           apply eh_estacao_iff in He. split; [exact Hin | congruence].
        -- intros [Hin Hne].
           destruct (estacao_da_feature (Some col) f) as [e |] eqn:E; [| congruence].
           exists e. rewrite Hget. apply filter_In. split; [exact Hin |].
           now apply eh_estacao_iff.
      * rewrite (particao_por_estacao_length (estacao_da_feature (Some col)) fs) at 1.
        f_equal. f_equal. f_equal. unfold estacoes. simpl. now rewrite !Hget.
    + rewrite (extrair_sem_coluna d fs Hd Hfs Ecol) in Hout. now injection Hout as <-.
Qed.

(* ------------------------------------------------------------------ *)
(** ** GeoJSON fixer *)

Lemma dict_set_same {K V : Type} `{Chave K} (k : K) (v : V) (d : dict K V) :
  dict_get k d = Some v -> dict_set k v d = d.
Proof.
  induction d as [| [k' v'] d IH]; simpl; [discriminate |].
  destruct (chave_eqb k k') eqn:E; intros Hg.
  - congruence.
  - now rewrite IH.
Qed.

Lemma dict_in_get {K V : Type} `{Chave K} (k : K) (v : V) (d : dict K V) :
  dict_get k d = Some v -> dict_in k d = true.
Proof. unfold dict_in. now intros ->. Qed.

Lemma anula_se_vazia_spec (k : string) (props : dict string pyval) :
  dict_keys (fst (anula_se_vazia k props)) = dict_keys props
  /\ (forall k', k' <> k ->
        dict_get k' (fst (anula_se_vazia k props)) = dict_get k' props)
  /\ dict_get k (fst (anula_se_vazia k props)) =
     (if campo_vazio k props then Some PNone else dict_get k props)
  /\ snd (anula_se_vazia k props) = campo_vazio k props.
Proof.
  unfold anula_se_vazia, campo_vazio.
  destruct (eh_str_vazia (get_or k props PNone)) eqn:E; simpl.
  - repeat split.
    + apply dict_keys_set_in. unfold dict_in, get_or in *.
      destruct (dict_get k props); [reflexivity | discriminate].
    + intros k' Hk'. now apply dict_get_set_neq.
    + apply dict_get_set_eq.
  - repeat split.
Qed.

Lemma corrigir_feature_spec (f : pyval) :
  feature_corrigivel f = true ->
  exists f' m,
    corrigir_feature f = Ok (f', m)
    /\ feature_corrigida f f'
    /\ (nada_a_corrigir f = true -> f' = f).
Proof.
  destruct f as [| | | | | | campos | | |]; simpl; try discriminate.
  intros Hprops.
  (* the geometry *)
  assert (Hgeo : (if py_truthy (get_or "geometry" campos PNone)
                     && eh_dict (get_or "geometry" campos PNone)
                  then coords <- py_get (get_or "geometry" campos PNone) "coordinates" PNone ;;
                       Ok (eh_par_vazio coords)
                  else Ok false) = Ok (geometria_vazia campos)).
  { unfold geometria_vazia.
    destruct (get_or "geometry" campos PNone) as [| | | | | | g | | |]; simpl;
      rewrite ?andb_false_r; try reflexivity.
    destruct g; reflexivity. }
  rewrite Hgeo. simpl. clear Hgeo.
  set (campos1 := if geometria_vazia campos then dict_set "geometry" PNone campos else campos).
  assert (Hk1 : dict_keys campos1 = dict_keys campos).
  { subst campos1. destruct (geometria_vazia campos) eqn:E; [| reflexivity].
    apply dict_keys_set_in. unfold geometria_vazia, dict_in, get_or in *.
    destruct (dict_get "geometry" campos); [reflexivity | discriminate]. }
  assert (Hg1 : dict_get "geometry" campos1 =
                (if geometria_vazia campos then Some PNone else dict_get "geometry" campos)).
  { subst campos1. destruct (geometria_vazia campos); [| reflexivity].
    apply dict_get_set_eq. }
  assert (Ho1 : forall k, k <> "geometry" -> dict_get k campos1 = dict_get k campos).
  { intros k Hk. subst campos1. destruct (geometria_vazia campos); [| reflexivity].
    now apply dict_get_set_neq. }
  assert (Hsame1 : geometria_vazia campos = false -> campos1 = campos).
  { intros E. subst campos1. now rewrite E. }
  assert (Hp1 : get_or "properties" campos1 PNone = get_or "properties" campos PNone).
  { unfold get_or. rewrite Ho1; [reflexivity | discriminate]. }
  rewrite Hp1. clearbody campos1.
  unfold get_or in Hprops |- *.
  destruct (dict_get "properties" campos) as [properties |] eqn:Eprops.
  2:{ simpl. do 2 eexists. split; [reflexivity |]. split.
      - exists campos, campos1. repeat split; auto.
        rewrite Eprops. rewrite Ho1; [exact Eprops | discriminate].
      - rewrite andb_true_r.
        intros E. apply negb_true_iff in E. now rewrite Hsame1. }
  destruct (py_truthy properties) eqn:Etruthy.
  - destruct properties as [| | | | | | props | | |]; simpl in Hprops; try discriminate.
    destruct (anula_se_vazia_spec "latitude" props) as (Hka & Hoa & Hla & Hfa).
    destruct (anula_se_vazia "latitude" props) as [props1 lat] eqn:Ea. simpl in *.
    destruct (anula_se_vazia_spec "longitude" props1) as (Hkb & Hob & Hlb & Hfb).
    destruct (anula_se_vazia "longitude" props1) as [props2 lon] eqn:Eb. simpl in *.
    assert (Hlon1 : campo_vazio "longitude" props1 = campo_vazio "longitude" props).
    { unfold campo_vazio, get_or. rewrite Hoa; [reflexivity | discriminate]. }
    do 2 eexists. split; [reflexivity |]. split.
    + exists campos, (dict_set "properties" (PDict props2) campos1). repeat split; auto.
      * rewrite dict_keys_set_in; [exact Hk1 |].
        apply (dict_in_get _ (PDict props)). rewrite Ho1; [exact Eprops | discriminate].
      * intros k Hk Hk'. rewrite dict_get_set_neq; auto.
      * rewrite dict_get_set_neq; [exact Hg1 | discriminate].
      * rewrite Eprops. exists props2. split; [apply dict_get_set_eq |].
        repeat split.
        -- congruence.
        -- intros k Hk Hk'. rewrite Hob, Hoa; auto.
        -- rewrite Hob; [exact Hla | discriminate].
        -- now rewrite Hlb, Hlon1, Hoa.
    + intros E. apply andb_prop in E as [E1 E2]. apply andb_prop in E2 as [E2 E3].
      apply negb_true_iff in E1, E2, E3.
      unfold anula_se_vazia in Ea. fold (campo_vazio "latitude" props) in Ea.
      rewrite E2 in Ea. injection Ea as <- <-.
      unfold anula_se_vazia in Eb. fold (campo_vazio "longitude" props) in Eb.
      rewrite E3 in Eb. injection Eb as <- <-.
      rewrite (Hsame1 E1). f_equal. now apply dict_set_same.
  - do 2 eexists. split; [reflexivity |]. split.
    + exists campos, campos1. repeat split; auto.
      rewrite Eprops. rewrite Ho1 by discriminate. rewrite Eprops.
      destruct properties as [| | | | | | props | | |]; try reflexivity.
      exists props. split; [reflexivity |].
      destruct props; [| discriminate]. repeat split.
    + intros E. apply andb_prop in E as [E1 _]. apply negb_true_iff in E1.
      now rewrite (Hsame1 E1).
Qed.

Lemma mapM_Forall2 {A B : Type} (f : A -> res B) (R : A -> B -> Prop) (l : list A) :
  (forall x, In x l -> exists y, f x = Ok y /\ R x y) ->
  exists ys, mapM f l = Ok ys /\ Forall2 R l ys.
Proof.
  induction l as [| x l IH]; intros Hl; simpl.
  - exists []; split; [reflexivity | constructor].
  - destruct (Hl x (or_introl eq_refl)) as (y & -> & Hy).
    destruct IH as (ys & -> & Hys); [intros z Hz; apply Hl; now right |].
    exists (y :: ys); split; [reflexivity | now constructor].
Qed.

Lemma Forall2_map_fst {A B C : Type} (R : A -> B -> Prop) (l : list A) (l' : list (B * C)) :
  Forall2 (fun x y => R x (fst y)) l l' -> Forall2 R l (map fst l').
Proof. induction 1; simpl; constructor; auto. Qed.

(** C10. On a document whose [features] is a list of objects (their
    [properties] objects, or absent, [null] or empty) the fixer returns and
    writes a document with the same top-level keys, every top-level field but
    [features] unchanged, and as many features as before.  Feature by
    feature, in order: the keys are the same; every field other than
    [geometry] and [properties] is unchanged; [geometry] is [null] if the
    geometry was an object whose coordinates are [["", ""]] and is unchanged
    otherwise; inside [properties], every property other than [latitude] and
    [longitude] is unchanged, and each of these two is [null] if it was the
    empty string and unchanged otherwise.  A feature that meets none of the
    three conditions is written as it was read. *)
Theorem corrigir_geojson_so_altera_vazios (d : dict string pyval) (fs : list pyval) :
  get_or "features" d (PList []) = PList fs ->
  forallb feature_corrigivel fs = true ->
  exists stats d' fs',
    result (corrigir_geojson (PDict d)) = Ok (stats, PDict d')
    /\ dict_keys d' = dict_keys d
    /\ (forall k, k <> "features" -> dict_get k d' = dict_get k d)
    /\ get_or "features" d' (PList []) = PList fs'
    /\ List.length fs' = List.length fs
    /\ total_features stats = Z.of_nat (List.length fs)
    /\ Forall2 (fun f f' => feature_corrigida f f' /\ (nada_a_corrigir f = true -> f' = f))
               fs fs'.
Proof.
  intros Hd Hfs.
  destruct (mapM_Forall2 corrigir_feature
              (fun f y => feature_corrigida f (fst y) /\ (nada_a_corrigir f = true -> fst y = f))
              fs) as (corrigidas & Hmap & Hall).
  { intros f Hin. rewrite forallb_forall in Hfs.
    destruct (corrigir_feature_spec f (Hfs f Hin)) as (f' & m & Hf & Hc & Hn).
    exists (f', m). auto. }
  apply (Forall2_map_fst
           (fun f f' => feature_corrigida f f' /\ (nada_a_corrigir f = true -> f' = f))) in Hall.
  unfold corrigir_geojson.
  rewrite result_lift_bind. cbn [py_get]. rewrite Hd.
  rewrite result_lift_bind. cbn [py_len].
  rewrite result_lift_bind. cbn [py_iter].
  rewrite result_lift_bind, Hmap.
  rewrite !result_print_bind. cbn [result ret snd].
  unfold get_or in Hd.
  destruct (dict_get "features" d) as [v |] eqn:Ev.
  - subst v.
    exists {| coordenadas_vazias := conta (fun m => fst (fst m)) (map snd corrigidas);
              latitude_vazia := conta (fun m => snd (fst m)) (map snd corrigidas);
              longitude_vazia := conta (fun m => snd m) (map snd corrigidas);
              total_features := Z.of_nat (List.length fs) |},
           (dict_set "features" (PList (map fst corrigidas)) d), (map fst corrigidas).
    split; [reflexivity |].
    split; [apply dict_keys_set_in; now apply (dict_in_get _ (PList fs)) |].
    split; [intros k Hk; now apply dict_get_set_neq |].
    split; [apply get_or_set_eq |].
    split; [symmetry; exact (Forall2_length Hall) |].
    split; [reflexivity | exact Hall].
  - injection Hd as <-. inversion Hall; subst.
    replace corrigidas with (@nil (pyval * (bool * bool * bool))) by (now destruct corrigidas).
    exists {| coordenadas_vazias := 0; latitude_vazia := 0; longitude_vazia := 0;
              total_features := 0 |}, d, [].
    split; [reflexivity |].
    split; [reflexivity |].
    split; [reflexivity |].
    split; [unfold get_or; now rewrite Ev |].
    split; [reflexivity |].
    split; [reflexivity | constructor].
Qed.

(* ------------------------------------------------------------------ *)
(** ** Occurrence reader *)

Lemma py_float_converte (v : pyval) :
  match py_float v with
  | Ok _ => converte_float v = true /\ transborda v = false
  | Raise OverflowError => converte_float v = false /\ transborda v = true
  | Raise (ValueError _) | Raise TypeError => converte_float v = false /\ transborda v = false
  | Raise _ => False
  end.
Proof.
  destruct v; simpl; auto.
  - destruct (cabe_em_float z); simpl; auto.
  - destruct (float_str s); simpl; auto.
Qed.

Lemma caracteres_utf8_nao_vazios (s : string) :
  Forall (fun ch => ch <> EmptyString) (caracteres_utf8 s).
Proof.
  sem_biblioteca.
  induction s as [| c r IH]; cbn [caracteres_utf8]; [constructor |].
  destruct r as [| c' r']; [repeat constructor; discriminate |].
  destruct (continuacao c').
  - destruct (caracteres_utf8 (String c' r')) as [| x xs].
    + repeat constructor. discriminate.
    + inversion IH; subst. constructor; [discriminate | assumption].
  - constructor; [discriminate | exact IH].
Qed.

Lemma caracteres_nao_vazios (s : string) :
  Forall (fun c => eh_str_vazia c = false /\ transborda c = false) (caracteres s).
Proof.
  unfold caracteres. apply Forall_map.
  pose proof (caracteres_utf8_nao_vazios s) as H. revert H.
  apply Forall_impl. intros ch Hch. cbn [eh_str_vazia transborda].
  split; [now apply String.eqb_neq | reflexivity].
Qed.

(** The two conversions, by what the first two entries are. *)
Lemma converte_coordenadas_duas (coords c0 c1 : pyval) :
  py_len coords = Ok (Z.of_nat 2) \/ (exists n, py_len coords = Ok n /\ (n >=? 2) = true) ->
  py_item coords 0 = Ok c0 -> py_item coords 1 = Ok c1 ->
  converte_coordenadas coords =
  if transborda c0 then Raise OverflowError
  else if converte_float c0 then
         if transborda c1 then Raise OverflowError
         else if converte_float c1 then Ok tt
              else match py_float c1 with Ok _ => Ok tt | Raise e => Raise e end
       else match py_float c0 with Ok _ => Ok tt | Raise e => Raise e end.
Proof.
  intros Hlen H0 H1. unfold converte_coordenadas.
  assert (Hn : exists n, py_len coords = Ok n /\ (n >=? 2) = true).
  { destruct Hlen as [H | H]; [| exact H]. exists (Z.of_nat 2). split; [exact H | reflexivity]. }
  destruct Hn as (n & -> & Hn). cbn [bind]. rewrite Hn, H0. cbn [bind].
  pose proof (py_float_converte c0) as P0.
  destruct (py_float c0) as [[] | e0]; cbn [bind].
  - destruct P0 as [-> ->]. rewrite H1. cbn [bind].
    pose proof (py_float_converte c1) as P1.
    destruct (py_float c1) as [[] | e1].
    + destruct P1 as [-> ->]. reflexivity.
    + destruct e1; try contradiction; destruct P1 as [-> ->]; reflexivity.
  - destruct e0; try contradiction; destruct P0 as [-> ->]; reflexivity.
Qed.

Lemma converte_coordenadas_resultado (coords c0 c1 : pyval) :
  (exists n, py_len coords = Ok n /\ (n >=? 2) = true) ->
  py_item coords 0 = Ok c0 -> py_item coords 1 = Ok c1 ->
  match converte_coordenadas coords with
  | Ok _ => converte_float c0 = true /\ converte_float c1 = true
  | Raise OverflowError =>
      transborda c0 = true \/ (converte_float c0 = true /\ transborda c1 = true)
  | Raise (ValueError _) | Raise TypeError =>
      transborda c0 = false
      /\ (converte_float c0 = false \/ (transborda c1 = false /\ converte_float c1 = false))
  | Raise _ => False
  end.
Proof.
  intros Hlen H0 H1.
  rewrite (converte_coordenadas_duas coords c0 c1 (or_intror Hlen) H0 H1).
  pose proof (py_float_converte c0) as P0. pose proof (py_float_converte c1) as P1.
  destruct (transborda c0) eqn:T0; [auto |].
  destruct (converte_float c0) eqn:C0.
  - destruct (transborda c1) eqn:T1; [auto |].
    destruct (converte_float c1) eqn:C1; [auto |].
    destruct (py_float c1) as [[] | e1].
    + destruct P1; congruence.
    + destruct e1; try contradiction; try (destruct P1; congruence); auto.
  - destruct (py_float c0) as [[] | e0].
    + destruct P0; congruence.
    + destruct e0; try contradiction; try (destruct P0; congruence); auto.
Qed.

(** One round of the loop on a feature it does not raise on. *)
Lemma feature_valida_legivel (f : pyval) :
  feature_legivel f = true -> feature_valida f = Ok (geometria_aceita f).
Proof.
  destruct f as [| | | | | | campos | | |]; simpl; try discriminate.
  unfold feature_valida. cbn [py_get bind].
  destruct (get_or "geometry" campos PNone) as [| | | | | | g | | |]; simpl;
    try (intros _; reflexivity).
  destruct (dict_get "coordinates" g) as [coords |]; [| intros _; reflexivity].
  destruct coords as [| b | z | x | s | l | m | t | t |]; try (intros _; reflexivity).
  - (* a string *)
    intros _. cbn [primeiras_coordenadas].
    pose proof (caracteres_nao_vazios s) as Hs.
    destruct (caracteres s) as [| c0 [| c1 r]] eqn:Ec;
      try (unfold converte_coordenadas; cbn [py_len bind]; rewrite Ec; reflexivity).
    assert (Hlen : exists n, py_len (PStr s) = Ok n /\ (n >=? 2) = true).
    { cbn [py_len]. rewrite Ec. eexists. split; [reflexivity |].
      apply Z.geb_le. cbn [List.length]. lia. }
    assert (H0 : py_item (PStr s) 0 = Ok c0) by (cbn [py_item]; now rewrite Ec).
    assert (H1 : py_item (PStr s) 1 = Ok c1) by (cbn [py_item]; now rewrite Ec).
    pose proof (converte_coordenadas_resultado (PStr s) c0 c1 Hlen H0 H1) as Hr.
    inversion Hs as [| ? ? [E0 T0] Hs']; subst.
    inversion Hs' as [| ? ? [E1 T1] _]; subst.
    unfold coordenada_numerica. rewrite E0, E1. cbn [negb andb].
    destruct (converte_coordenadas (PStr s)) as [[] | e].
    + destruct Hr as [-> ->]. reflexivity.
    + destruct e; try contradiction.
      * destruct Hr as [_ [-> | [_ ->]]]; [reflexivity | apply f_equal, eq_sym, andb_false_r].
      * destruct Hr as [_ [-> | [_ ->]]]; [reflexivity | apply f_equal, eq_sym, andb_false_r].
      * destruct Hr as [Hr | [_ Hr]]; congruence.
  - (* a list *)
    cbn [primeiras_coordenadas].
    destruct l as [| c0 [| c1 r]]; try (intros _; reflexivity).
    intros Hleg.
    assert (Hlen : (Z.of_nat (List.length (c0 :: c1 :: r)) >=? 2) = true).
    { apply Z.geb_le. cbn [List.length]. lia. }
    rewrite Hlen. cbn [firstn existsb andb].
    unfold coordenada_numerica.
    assert (Hpar : eh_par_vazio (PList (c0 :: c1 :: r)) = true ->
                   eh_str_vazia c0 = true).
    { simpl. destruct r; [| discriminate]. intros H. now apply andb_prop in H as [H _]. }
    destruct (eh_str_vazia c0) eqn:E0.
    + rewrite orb_true_r. reflexivity.
    + destruct (eh_par_vazio (PList (c0 :: c1 :: r))); [now discriminate Hpar |].
      destruct (eh_str_vazia c1) eqn:E1; cbn [orb negb andb].
      * now rewrite andb_false_r.
      * cbn [orb] in Hleg.
        assert (Hl : exists n, py_len (PList (c0 :: c1 :: r)) = Ok n /\ (n >=? 2) = true).
        { eexists. split; [reflexivity | exact Hlen]. }
        pose proof (converte_coordenadas_resultado (PList (c0 :: c1 :: r)) c0 c1 Hl
                      eq_refl eq_refl) as Hr.
        destruct (converte_coordenadas (PList (c0 :: c1 :: r))) as [[] | e].
        -- destruct Hr as [-> ->]. reflexivity.
        -- destruct e; try contradiction.
           ++ destruct Hr as [_ [-> | [_ ->]]];
                [reflexivity | apply f_equal, eq_sym, andb_false_r].
           ++ destruct Hr as [_ [-> | [_ ->]]];
                [reflexivity | apply f_equal, eq_sym, andb_false_r].
           ++ exfalso. destruct Hr as [Hr | [Hr1 Hr2]].
              ** rewrite Hr in Hleg. discriminate Hleg.
              ** rewrite Hr1, Hr2 in Hleg. cbn in Hleg.
                 now rewrite andb_false_r in Hleg.
  - (* an object *)
    intros Hm. unfold converte_coordenadas. cbn [py_len bind].
    apply Nat.ltb_lt in Hm.
    destruct (Z.of_nat (List.length m) >=? 2) eqn:E; [| reflexivity].
    apply Z.geb_le in E. lia.
Qed.


Lemma filtrar_features_filter (fs : list pyval) :
  forallb feature_legivel fs = true ->
  forall validas invalidas,
    foldM filtrar_feature fs (validas, invalidas)
    = Ok ((validas ++ filter geometria_aceita fs)%list,
          invalidas + conta (fun f => negb (geometria_aceita f)) fs).
Proof.
  unfold conta.
  induction fs as [| f fs IH]; intros Hfs validas invalidas; cbn [foldM filter].
  - now rewrite app_nil_r, Z.add_0_r.
  - cbn [forallb] in Hfs. apply andb_prop in Hfs as [Hf Hfs].
    unfold filtrar_feature at 1.
    rewrite (feature_valida_legivel f Hf). cbn [bind].
    destruct (geometria_aceita f); cbn [negb bind]; rewrite (IH Hfs).
    + now rewrite <- app_assoc.
    + cbn [List.length]. f_equal. f_equal. lia.
Qed.





(** The whole run of the reader on a document whose features the loop
    does not raise on. *)
Lemma ler_ocorrencias_executa (d : dict string pyval) (fs : list pyval) :
  get_or "features" d (PList []) = PList fs ->
  forallb feature_legivel fs = true ->
  features_filtradas (PDict d)
  = Ok (filter geometria_aceita fs, conta (fun f => negb (geometria_aceita f)) fs)
  /\ ler_ocorrencias (PDict d) =
     match from_features (filter geometria_aceita fs) with
     | Ok gdf =>
         (((if conta (fun f => negb (geometria_aceita f)) fs >? 0
            then [MsgAvisoGeometriasInvalidas (conta (fun f => negb (geometria_aceita f)) fs)]
            else [])
           ++ [MsgTotalOcorrenciasCarregadas (Z.of_nat (List.length (linhas gdf)))])%list,
          Ok gdf)
     | Raise e =>
         (((if conta (fun f => negb (geometria_aceita f)) fs >? 0
            then [MsgAvisoGeometriasInvalidas (conta (fun f => negb (geometria_aceita f)) fs)]
            else [])
           ++ [MsgErroLerGeoJSON e])%list,
          Raise e)
     end.
Proof.
  intros Hd Hfs.
  assert (Hf : features_filtradas (PDict d)
               = Ok (filter geometria_aceita fs,
                     conta (fun f => negb (geometria_aceita f)) fs)).
  { unfold features_filtradas. cbn [py_get bind]. rewrite Hd. cbn [py_iter bind].
    unfold filtrar_features. now rewrite (filtrar_features_filter fs Hfs). }
  split; [exact Hf |].
  unfold ler_ocorrencias. rewrite Hf.
  cbv [bind_io lift print ret raise try_io fst snd].
  destruct (conta (fun f => negb (geometria_aceita f)) fs >? 0);
    destruct (from_features (filter geometria_aceita fs)) as [gdf | e]; reflexivity.
Qed.



(* ------------------------------------------------------------------ *)
(** ** Aggregator *)

Lemma get_or_incrementa {K : Type} `{Chave K} (k k' : K) (d : dict K Z) :
  get_or k (incrementa k' d) 0 = get_or k d 0 + (if chave_eqb k k' then 1 else 0).
Proof.
  unfold incrementa. destruct (chave_eqb_spec k k') as [-> | Hne].
  - now rewrite get_or_set_eq.
  - rewrite get_or_set_neq by assumption. lia.
Qed.

Lemma consulta2_incrementa2 {K1 K2 : Type} `{Chave K1} `{Chave K2}
    (a a' : K1) (b b' : K2) (d : dict K1 (dict K2 Z)) :
  consulta2 a b (incrementa2 a' b' d) =
  consulta2 a b d + (if chave_eqb a a' && chave_eqb b b' then 1 else 0).
Proof.
  unfold consulta2, incrementa2. destruct (chave_eqb_spec a a') as [-> | Hne]; simpl.
  - rewrite get_or_set_eq. apply get_or_incrementa.
  - rewrite get_or_set_neq by assumption. lia.
Qed.

Lemma consulta3_incrementa3 {K1 K2 K3 : Type} `{Chave K1} `{Chave K2} `{Chave K3}
    (a a' : K1) (b b' : K2) (c c' : K3) (d : dict K1 (dict K2 (dict K3 Z))) :
  consulta3 a b c (incrementa3 a' b' c' d) =
  consulta3 a b c d
  + (if chave_eqb a a' && chave_eqb b b' && chave_eqb c c' then 1 else 0).
Proof.
  unfold consulta3, incrementa3. destruct (chave_eqb_spec a a') as [-> | Hne]; simpl.
  - rewrite get_or_set_eq. apply (consulta2_incrementa2 b b' c c').
  - rewrite get_or_set_neq by assumption. lia.
Qed.

Lemma soma_valores_set {K : Type} `{Chave K} (k : K) (v : Z) (d : dict K Z) :
  soma_valores (dict_set k v d) = soma_valores d - get_or k d 0 + v.
Proof.
  unfold get_or. induction d as [| [k' v'] d IH]; simpl.
  - lia.
  - destruct (chave_eqb k k'); simpl; lia.
Qed.

Lemma soma_valores_incrementa {K : Type} `{Chave K} (k : K) (d : dict K Z) :
  soma_valores (incrementa k d) = soma_valores d + 1.
Proof. unfold incrementa. rewrite soma_valores_set. lia. Qed.

Lemma dict_in_set {K V : Type} `{Chave K} (k k' : K) (v : V) (d : dict K V) :
  dict_in k (dict_set k' v d) = chave_eqb k k' || dict_in k d.
Proof.
  unfold dict_in. destruct (chave_eqb_spec k k') as [-> | Hne]; simpl.
  - now rewrite dict_get_set_eq.
  - now rewrite dict_get_set_neq.
Qed.

Lemma conta_cons {A : Type} (p : A -> bool) (x : A) (l : list A) :
  conta p (x :: l) = (if p x then 1 else 0) + conta p l.
Proof. unfold conta. simpl. destruct (p x); cbn [List.length]; lia. Qed.

Lemma conta_le {A : Type} (p q : A -> bool) (l : list A) :
  (forall x, p x = true -> q x = true) -> conta p l <= conta q l.
Proof.
  intros Hpq. induction l as [| x l IH]; [unfold conta; simpl; lia |].
  rewrite !conta_cons. specialize (Hpq x).
  destruct (p x), (q x); try lia; discriminate (Hpq eq_refl).
Qed.

Lemma soma_incrementa2 {K2 : Type} `{Chave K2}
    (n b : string) (e : K2) (d : dict string (dict K2 Z)) :
  soma_valores (get_or n (incrementa2 b e d) []) =
  soma_valores (get_or n d []) + (if n =? b then 1 else 0).
Proof.
  unfold incrementa2. destruct (String.eqb_spec n b) as [-> | Hne].
  - rewrite get_or_set_eq. apply soma_valores_incrementa.
  - rewrite get_or_set_neq by assumption. lia.
Qed.

Lemma dict_in_incrementa2 {K2 : Type} `{Chave K2}
    (n b : string) (e : K2) (d : dict string (dict K2 Z)) :
  dict_in n (incrementa2 b e d) = (n =? b) || dict_in n d.
Proof. unfold incrementa2. now rewrite dict_in_set. Qed.

(** The season the loop computes for a row. *)
Lemma estacao_no_laco (estacao_disponivel : bool) (col : string) (row : ocorrencia) :
  (if estacao_disponivel
   then determinar_estacao_hemisferio_sul (celula_data col row)
   else Ok None)
  = Ok (if estacao_disponivel then estacao_da_linha (Some col) row else None).
Proof.
  destruct estacao_disponivel; [| reflexivity].
  unfold estacao_da_linha.
  destruct (determinar_sempre_retorna (celula_data col row)) as [r Hr].
  now rewrite Hr.
Qed.

(** One round of the aggregator's loop, table by table. *)
Lemma contar_linha_spec (td ed : bool) (col : string) (ac : acumulado) (row : ocorrencia) :
  let est := if ed then estacao_da_linha (Some col) row else None in
  exists ac',
    contar_linha td ed col ac row = Ok ac'
    /\ (forall n t,
          consulta2 n t (ac_por_tipo ac') =
          consulta2 n t (ac_por_tipo ac)
          + b2z (td && linha_do_bairro n row && linha_do_tipo t row))
    /\ (forall n e,
          consulta2 n e (ac_por_estacao ac') =
          consulta2 n e (ac_por_estacao ac)
          + b2z (linha_do_bairro n row && eh_estacao e est))
    /\ (forall n t e,
          consulta3 n t e (ac_por_tipo_estacao ac') =
          consulta3 n t e (ac_por_tipo_estacao ac)
          + b2z (td && linha_do_bairro n row && linha_do_tipo t row && eh_estacao e est))
    /\ (forall n,
          soma_valores (get_or n (ac_por_estacao ac') []) =
          soma_valores (get_or n (ac_por_estacao ac) [])
          + b2z (linha_do_bairro n row && tem_estacao est))
    /\ (forall n,
          dict_in n (ac_por_estacao ac') =
          dict_in n (ac_por_estacao ac) || (linha_do_bairro n row && tem_estacao est))
    /\ (td = false -> ac_por_tipo ac' = ac_por_tipo ac)
    /\ (td && ed = false -> ac_por_tipo_estacao ac' = ac_por_tipo_estacao ac)
    /\ (ed = false -> ac_por_estacao ac' = ac_por_estacao ac).
Proof.
  intros est. unfold contar_linha, linha_do_bairro, linha_do_tipo.
  destruct (bairro row) as [b |].
  2:{ exists ac. split; [reflexivity |]. rewrite ?andb_false_r. simpl.
      repeat split; intros; rewrite ?orb_false_r; try lia; reflexivity. }
  rewrite estacao_no_laco. fold est. cbn [bind].
  assert (Hed : ed = false -> est = None) by (intros ->; reflexivity).
  clearbody est.
  eexists. split; [reflexivity |].
  destruct td, (tipo row) as [t' |], est as [e' |]; cbn [ac_por_tipo ac_por_estacao
    ac_por_tipo_estacao andb tem_estacao eh_estacao];
    repeat split; intros;
    rewrite ?consulta2_incrementa2, ?consulta3_incrementa3, ?soma_incrementa2,
      ?dict_in_incrementa2, ?andb_false_r, ?andb_true_r; cbn [chave_eqb Chave_string
      Chave_estacao b2z andb];
    try reflexivity; try lia;
    try (rewrite orb_comm; reflexivity);
    try (rewrite orb_false_r; reflexivity);
    try (destruct (_ =? _); reflexivity);
    try discriminate;
    try (destruct ed; [discriminate | discriminate (Hed eq_refl)]).
Qed.

Lemma conta_falso {A : Type} (p : A -> bool) (l : list A) :
  (forall x, p x = false) -> conta p l = 0.
Proof.
  intros Hp. induction l as [| x l IH]; [reflexivity |].
  rewrite conta_cons, Hp, IH. reflexivity.
Qed.

(** The aggregator's loop, table by table: every entry grows by the number
    of rows that count for it. *)
Lemma contar_linhas_spec (td ed : bool) (col : string) (rows : list ocorrencia) :
  let est := fun row => if ed then estacao_da_linha (Some col) row else None in
  forall ac,
  exists ac',
    foldM (contar_linha td ed col) rows ac = Ok ac'
    /\ (forall n t,
          consulta2 n t (ac_por_tipo ac') =
          consulta2 n t (ac_por_tipo ac)
          + conta (fun row => td && linha_do_bairro n row && linha_do_tipo t row) rows)
    /\ (forall n e,
          consulta2 n e (ac_por_estacao ac') =
          consulta2 n e (ac_por_estacao ac)
          + conta (fun row => linha_do_bairro n row && eh_estacao e (est row)) rows)
    /\ (forall n t e,
          consulta3 n t e (ac_por_tipo_estacao ac') =
          consulta3 n t e (ac_por_tipo_estacao ac)
          + conta (fun row => td && linha_do_bairro n row && linha_do_tipo t row
                              && eh_estacao e (est row)) rows)
    /\ (forall n,
          soma_valores (get_or n (ac_por_estacao ac') []) =
          soma_valores (get_or n (ac_por_estacao ac) [])
          + conta (fun row => linha_do_bairro n row && tem_estacao (est row)) rows)
    /\ (forall n,
          dict_in n (ac_por_estacao ac') =
          dict_in n (ac_por_estacao ac)
          || existsb (fun row => linha_do_bairro n row && tem_estacao (est row)) rows)
    /\ (td = false -> ac_por_tipo ac' = ac_por_tipo ac)
    /\ (td && ed = false -> ac_por_tipo_estacao ac' = ac_por_tipo_estacao ac)
    /\ (ed = false -> ac_por_estacao ac' = ac_por_estacao ac).
Proof.
  intros est. induction rows as [| row rows IH]; intros ac.
  - exists ac. split; [reflexivity |].
    repeat split; intros; unfold conta; simpl; rewrite ?orb_false_r; try lia; reflexivity.
  - cbn [foldM].
    destruct (contar_linha_spec td ed col ac row)
      as (ac1 & -> & H1 & H2 & H3 & H4 & H5 & H6 & H7 & H8).
    cbn [bind].
    destruct (IH ac1) as (ac' & -> & I1 & I2 & I3 & I4 & I5 & I6 & I7 & I8).
    exists ac'. split; [reflexivity |].
    repeat split; intros.
    + rewrite I1, H1, conta_cons. unfold b2z. lia.
    + rewrite I2, H2, conta_cons. unfold b2z. fold (est row). lia.
    + rewrite I3, H3, conta_cons. unfold b2z. fold (est row). lia.
    + rewrite I4, H4, conta_cons. unfold b2z. fold (est row). lia.
    + rewrite I5, H5. cbn [existsb]. fold (est row). now rewrite orb_assoc.
    + rewrite I6, H6; auto.
    + rewrite I7, H7; auto.
    + rewrite I8, H8; auto.
Qed.

Lemma In_insere_ordenado (n x : string) (l : list string) :
  In n (insere_ordenado x l) <-> n = x \/ In n l.
Proof.
  sem_biblioteca.
  induction l as [| y l IH]; simpl.
  - intuition congruence.
  - destruct (String.leb x y); simpl; rewrite ?IH; intuition congruence.
Qed.

Lemma In_sorted (n : string) (l : list string) : In n (sorted l) <-> In n l.
Proof.
  sem_biblioteca.
  unfold sorted. induction l as [| x l IH]; simpl; [tauto |].
  rewrite In_insere_ordenado, IH. intuition congruence.
Qed.

Lemma In_unicos (n : string) (l : list string) : In n (unicos l) <-> In n l.
Proof.
  sem_biblioteca.
  induction l as [| x l IH]; simpl; [tauto |].
  rewrite filter_In, IH. destruct (String.eqb_spec x n) as [-> | Hne]; simpl.
  - intuition.
  - intuition congruence.
Qed.

Lemma dict_get_map_chaves {V : Type} (f : string -> V) (n : string) (ks : list string) :
  (In n ks -> dict_get n (map (fun k => (k, f k)) ks) = Some (f n))
  /\ (~ In n ks -> dict_get n (map (fun k => (k, f k)) ks) = None).
Proof.
  sem_biblioteca.
  induction ks as [| k ks [IH1 IH2]]; simpl; [tauto |].
  destruct (String.eqb_spec n k) as [-> | Hne]; split; intros Hin;
    first [tauto | apply IH1; destruct Hin; congruence | apply IH2; tauto].
Qed.

Lemma In_nao_nulos (n : string) (rows : list ocorrencia) :
  In n (nao_nulos (map bairro rows)) <-> existsb (linha_do_bairro n) rows = true.
Proof.
  sem_biblioteca.
  unfold nao_nulos, linha_do_bairro.
  induction rows as [| row rows IH]; simpl; [split; [tauto | discriminate] |].
  rewrite in_app_iff, IH, orb_true_iff.
  destruct (bairro row) as [b |]; simpl.
  - destruct (String.eqb_spec n b); intuition congruence.
  - intuition congruence.
Qed.

Lemma ocorrencias_de_linhas (n : string) (rows : list ocorrencia) :
  ocorrencias_de n (nao_nulos (map bairro rows)) = conta (linha_do_bairro n) rows.
Proof.
  unfold ocorrencias_de, conta, nao_nulos, linha_do_bairro. f_equal.
  induction rows as [| row rows IH]; simpl; [reflexivity |].
  destruct (bairro row) as [b |]; simpl; [| exact IH].
  destruct (n =? b); simpl; now rewrite IH.
Qed.

(** The total table: a neighbourhood is a key when some row names it, and
    its count is the number of those rows. *)
Lemma groupby_size_spec (n : string) (rows : list ocorrencia) :
  dict_get n (groupby_size (map bairro rows)) =
  if existsb (linha_do_bairro n) rows
  then Some (conta (linha_do_bairro n) rows)
  else None.
Proof.
  unfold groupby_size.
  destruct (dict_get_map_chaves
              (fun k => ocorrencias_de k (nao_nulos (map bairro rows))) n
              (sorted (unicos (nao_nulos (map bairro rows))))) as [H1 H2].
  rewrite In_sorted, In_unicos, In_nao_nulos in H1, H2.
  destruct (existsb (linha_do_bairro n) rows).
  - rewrite H1 by reflexivity. now rewrite ocorrencias_de_linhas.
  - apply H2. discriminate.
Qed.

(** The aggregator on a frame with a [bairro] column: what it prints and
    what each table holds. *)
Lemma contar_spec (gdf : GeoDataFrame) :
  tem_coluna gdf "bairro" = true ->
  let td := tem_coluna gdf "tipo" in
  let est := estacao_da_linha (coluna_data_do_gdf gdf) in
  exists c,
    contar_ocorrencias_por_bairro gdf = (avisos_do_agregador gdf, Ok c)
    /\ contagem_total c = groupby_size (map bairro (linhas gdf))
    /\ (forall n t,
          consulta2 n t (contagem_por_tipo c) =
          conta (fun row => td && linha_do_bairro n row && linha_do_tipo t row) (linhas gdf))
    /\ (forall n e,
          consulta2 n e (contagem_por_estacao c) =
          conta (fun row => linha_do_bairro n row && eh_estacao e (est row)) (linhas gdf))
    /\ (forall n t e,
          consulta3 n t e (contagem_por_tipo_estacao c) =
          conta (fun row => td && linha_do_bairro n row && linha_do_tipo t row
                              && eh_estacao e (est row)) (linhas gdf))
    /\ (forall n,
          soma_valores (get_or n (contagem_por_estacao c) []) =
          conta (fun row => linha_do_bairro n row && tem_estacao (est row)) (linhas gdf))
    /\ (forall n,
          dict_in n (contagem_por_estacao c) =
          existsb (fun row => linha_do_bairro n row && tem_estacao (est row)) (linhas gdf))
    /\ (td = false -> contagem_por_tipo c = [] /\ contagem_por_tipo_estacao c = [])
    /\ (coluna_data_do_gdf gdf = None ->
          contagem_por_estacao c = [] /\ contagem_por_tipo_estacao c = []).
Proof.
  intros Hb td est.
  unfold contar_ocorrencias_por_bairro, avisos_do_agregador. rewrite Hb. cbn [negb].
  fold td. fold (coluna_data_do_gdf gdf). subst est.
  destruct (coluna_data_do_gdf gdf) as [col |] eqn:Ecol.
  - (* a date column: the loop runs *)
    destruct (contar_linhas_spec td true col (linhas gdf) acumulado_vazio)
      as (ac & Hac & H1 & H2 & H3 & H4 & H5 & H6 & H7 & H8).
    exists {| contagem_total := groupby_size (map bairro (linhas gdf));
              contagem_por_tipo := ac_por_tipo ac;
              contagem_por_estacao := ac_por_estacao ac;
              contagem_por_tipo_estacao := ac_por_tipo_estacao ac |}.
    cbn [contagem_total contagem_por_tipo contagem_por_estacao contagem_por_tipo_estacao].
    split; [| repeat split; intros; auto].
    + destruct td; cbn [negb]; cbv [bind_io print ret lift raise orb];
        rewrite Hac; reflexivity.
    + rewrite H7; [reflexivity | now rewrite H].
    + discriminate.
    + discriminate.
  - (* no date column *)
    destruct td eqn:Etd.
    + destruct (contar_linhas_spec true false "" (linhas gdf) acumulado_vazio)
        as (ac & Hac & H1 & H2 & H3 & H4 & H5 & H6 & H7 & H8).
      exists {| contagem_total := groupby_size (map bairro (linhas gdf));
                contagem_por_tipo := ac_por_tipo ac;
                contagem_por_estacao := ac_por_estacao ac;
                contagem_por_tipo_estacao := ac_por_tipo_estacao ac |}.
      cbn [contagem_total contagem_por_tipo contagem_por_estacao contagem_por_tipo_estacao].
      split; [| repeat split; intros; auto].
      cbn [negb]; cbv [bind_io print ret lift raise orb]. rewrite Hac; reflexivity.
    + exists {| contagem_total := groupby_size (map bairro (linhas gdf));
                contagem_por_tipo := [];
                contagem_por_estacao := [];
                contagem_por_tipo_estacao := [] |}.
      cbn [contagem_total contagem_por_tipo contagem_por_estacao contagem_por_tipo_estacao].
      split; [reflexivity |].
      repeat split; intros; auto.
      all: try (symmetry; apply conta_falso; intros row; now rewrite ?andb_false_r).
      symmetry. clear. induction (linhas gdf) as [| row rows IH]; simpl; auto.
      now rewrite andb_false_r.
Qed.

Lemma sem_colunas_data (gdf : GeoDataFrame) :
  tem_coluna gdf "data_inicio" = false ->
  tem_coluna gdf "data_fim" = false ->
  tem_coluna gdf "data_particao" = false ->
  coluna_data_do_gdf gdf = None.
Proof.
  intros H1 H2 H3. unfold coluna_data_do_gdf, colunas_data. cbn [find].
  now rewrite H1, H2, H3.
Qed.

(** C4. The aggregator raises exactly when the frame has no [bairro]
    column, and what it raises then is the error of the missing column.
    With a [bairro] column it returns the four tables: the total table holds,
    for every neighbourhood named by a row, the number of its rows, and each
    entry of the other tables the number of rows that count for it.  Without
    a [tipo] column it prints the warning of the missing type and leaves the
    two tables by type empty; without any of the three date columns it prints
    the warning of the missing date and leaves the two tables by season
    empty; the remaining tables are filled as usual. *)
Theorem agregador_so_falha_sem_bairro (gdf : GeoDataFrame) :
  ((exists e, result (contar_ocorrencias_por_bairro gdf) = Raise e)
   <-> tem_coluna gdf "bairro" = false)
  /\ (tem_coluna gdf "bairro" = false ->
        result (contar_ocorrencias_por_bairro gdf)
        = Raise (ValueError "Coluna 'bairro' não encontrada nas ocorrências"))
  /\ (tem_coluna gdf "bairro" = true ->
        exists c,
          result (contar_ocorrencias_por_bairro gdf) = Ok c
          /\ (forall n,
                dict_get n (contagem_total c) =
                if existsb (linha_do_bairro n) (linhas gdf)
                then Some (conta (linha_do_bairro n) (linhas gdf))
                else None)
          /\ (forall n t,
                consulta2 n t (contagem_por_tipo c) =
                conta (fun row => tem_coluna gdf "tipo" && linha_do_bairro n row
                                  && linha_do_tipo t row) (linhas gdf))
          /\ (forall n e,
                consulta2 n e (contagem_por_estacao c) =
                conta (fun row => linha_do_bairro n row
                                  && eh_estacao e (estacao_da_linha (coluna_data_do_gdf gdf) row))
                      (linhas gdf))
          /\ (tem_coluna gdf "tipo" = false ->
                In MsgAvisoSemTipo (printed (contar_ocorrencias_por_bairro gdf))
                /\ contagem_por_tipo c = []
                /\ contagem_por_tipo_estacao c = [])
          /\ (tem_coluna gdf "data_inicio" = false ->
              tem_coluna gdf "data_fim" = false ->
              tem_coluna gdf "data_particao" = false ->
                In MsgAvisoSemData (printed (contar_ocorrencias_por_bairro gdf))
                /\ contagem_por_estacao c = []
                /\ contagem_por_tipo_estacao c = [])).
Proof.
  assert (Hsem : tem_coluna gdf "bairro" = false ->
                 result (contar_ocorrencias_por_bairro gdf)
                 = Raise (ValueError "Coluna 'bairro' não encontrada nas ocorrências")).
  { intros Hb. unfold contar_ocorrencias_por_bairro. now rewrite Hb. }
  split; [| split; [exact Hsem |]].
  - split.
    + intros [e He]. destruct (tem_coluna gdf "bairro") eqn:Hb; [| reflexivity].
      destruct (contar_spec gdf Hb) as (c & Hc & _). rewrite Hc in He. discriminate.
    + intros Hb. eexists. now apply Hsem.
  - intros Hb.
    destruct (contar_spec gdf Hb) as (c & Hc & Ht & H1 & H2 & H3 & H4 & H5 & H6 & H7).
    exists c. rewrite Hc. cbn [result printed fst snd].
    split; [reflexivity |].
    split; [intros n; rewrite Ht; apply groupby_size_spec |].
    split; [exact H1 |]. split; [exact H2 |]. split.
    + intros Htipo. split; [| now apply H6].
      unfold avisos_do_agregador. rewrite Htipo. simpl. auto.
    + intros Hd1 Hd2 Hd3.
      pose proof (sem_colunas_data gdf Hd1 Hd2 Hd3) as Hcol.
      split; [| now apply H7].
      unfold avisos_do_agregador. rewrite Hcol.
      destruct (tem_coluna gdf "tipo"); simpl; auto.
Qed.

Lemma existsb_impl {A : Type} (p q : A -> bool) (l : list A) :
  (forall x, p x = true -> q x = true) -> existsb p l = true -> existsb q l = true.
Proof.
  intros Hpq Hp. apply existsb_exists in Hp as (x & Hin & Hx).
  apply existsb_exists. exists x. auto.
Qed.

(** C5. On a frame with a [bairro] column the aggregator returns, and for
    every neighbourhood that is a key of the total table or of the table by
    season, the total table has a count for it, and the sum over the seasons
    of its counts by season is at most that count: the total is the number of
    rows of the neighbourhood, the sum is the number of those rows that the
    classifier gives a season (a row without a classifiable date counts for
    the total and for no season). *)
Theorem soma_das_estacoes_no_maximo_total (gdf : GeoDataFrame) :
  tem_coluna gdf "bairro" = true ->
  exists c,
    result (contar_ocorrencias_por_bairro gdf) = Ok c
    /\ forall n,
         dict_in n (contagem_total c) = true \/ dict_in n (contagem_por_estacao c) = true ->
         exists total,
           dict_get n (contagem_total c) = Some total
           /\ soma_valores (get_or n (contagem_por_estacao c) []) <= total
           /\ total = conta (linha_do_bairro n) (linhas gdf)
           /\ soma_valores (get_or n (contagem_por_estacao c) []) =
              conta (fun row => linha_do_bairro n row
                                && tem_estacao (estacao_da_linha (coluna_data_do_gdf gdf) row))
                    (linhas gdf).
Proof.
  intros Hb.
  destruct (contar_spec gdf Hb) as (c & Hc & Ht & _ & _ & _ & Hsoma & Hin & _).
  exists c. rewrite Hc. split; [reflexivity |].
  intros n Hn.
  assert (Hex : existsb (linha_do_bairro n) (linhas gdf) = true).
  { destruct Hn as [Hn | Hn].
    - unfold dict_in in Hn. rewrite Ht, groupby_size_spec in Hn.
      now destruct (existsb (linha_do_bairro n) (linhas gdf)).
    - rewrite Hin in Hn. revert Hn. apply existsb_impl.
      intros row Hrow. now apply andb_prop in Hrow as [Hrow _]. }
  exists (conta (linha_do_bairro n) (linhas gdf)).
  rewrite Ht, groupby_size_spec, Hex, Hsoma.
  repeat split.
  apply conta_le. intros row Hrow. now apply andb_prop in Hrow as [Hrow _].
Qed.

(* ------------------------------------------------------------------ *)
(** ** The end-to-end scenario *)

(** C1, as amended.  On the three records of the scenario, whatever the
    date parser does elsewhere as long as it reads ["2024-01-15"] and
    ["2024-07-10"] as these dates and finds no date in the empty string: the
    aggregator keys its tables by the value of [bairro] as it stands, so
    ["Centro"] and ["Centro "] are two neighbourhoods, each with a total of
    one, and ["Norte"] has a total of one; ["Centro"] has one summer
    occurrence, ["Centro "] one winter occurrence, and ["Norte"] has no entry
    by season.  The splitter puts the first record in the summer list, the
    second in the winter list, and the third in no list. *)
Theorem cenario_tres_registros :
  pd_to_datetime "2024-01-15" = Ok (Some {| year := 2024; month := 1; day := 15 |}) ->
  pd_to_datetime "2024-07-10" = Ok (Some {| year := 2024; month := 7; day := 10 |}) ->
  (forall t, pd_to_datetime "" <> Ok (Some t)) ->
  (exists c,
     result (contar_ocorrencias_por_bairro Cenario.gdf_ocorrencias) = Ok c
     /\ contagem_total c = [("Centro", 1); ("Centro ", 1); ("Norte", 1)]
     /\ contagem_por_estacao c = [("Centro", [(verao, 1)]); ("Centro ", [(inverno, 1)])]
     /\ dict_get "Norte" (contagem_por_estacao c) = None)
  /\ result (extrair_ocorrencias_por_estacao (PDict Cenario.colecao))
     = Ok [(verao, [Cenario.registro1]); (inverno, [Cenario.registro2])].
Proof.
  intros H1 H2 H3.
  assert (D1 : determinar_estacao_hemisferio_sul (PStr "2024-01-15") = Ok (Some verao)).
  { rewrite (determinar_le_como_data _ {| year := 2024; month := 1; day := 15 |});
      [reflexivity |].
    right; right. now exists "2024-01-15". }
  assert (D2 : determinar_estacao_hemisferio_sul (PStr "2024-07-10") = Ok (Some inverno)).
  { rewrite (determinar_le_como_data _ {| year := 2024; month := 7; day := 10 |});
      [reflexivity |].
    right; right. now exists "2024-07-10". }
  pose proof (determinar_string_nao_data "" H3) as D3.
  split.
  - eexists. split.
    + cbv - [determinar_estacao_hemisferio_sul]. rewrite D1.
      cbv - [determinar_estacao_hemisferio_sul]. rewrite D2.
      cbv - [determinar_estacao_hemisferio_sul]. rewrite D3.
      reflexivity.
    + repeat split.
  - cbv - [determinar_estacao_hemisferio_sul]. rewrite D1.
    cbv - [determinar_estacao_hemisferio_sul]. rewrite D2.
    reflexivity.
Qed.

(* ------------------------------------------------------------------ *)
(** ** Boundary enricher: rows and cells *)

Lemma celula_escreve (x n : string) (v : pyval) (p : poligono) :
  celula x (escreve n v p) = if x =? n then v else celula x p.
Proof.
  unfold celula, escreve. cbn [attrs].
  destruct (String.eqb_spec x n) as [-> | Hne].
  - apply get_or_set_eq.
  - now apply get_or_set_neq.
Qed.

Lemma dict_get_remove_neq {K V : Type} `{Chave K} (k k' : K) (d : dict K V) :
  k <> k' -> dict_get k (dict_remove k' d) = dict_get k d.
Proof.
  intros Hne. induction d as [| [k2 v2] d IH]; simpl; [reflexivity |].
  destruct (chave_eqb_spec k' k2) as [-> | Hk2]; simpl.
  - now rewrite chave_eqb_neq.
  - now rewrite IH.
Qed.

Lemma mapM_Ok_Forall2 {A B : Type} (f : A -> res B) (l : list A) (l' : list B) :
  mapM f l = Ok l' -> Forall2 (fun x y => f x = Ok y) l l'.
Proof.
  revert l'. induction l as [| x l IH]; simpl; intros l' H.
  - injection H as <-. constructor.
  - destruct (f x) as [y | e] eqn:Ey; simpl in H; [| discriminate].
    destruct (mapM f l) as [ys | e]; simpl in H; [| discriminate].
    injection H as <-. constructor; auto.
Qed.

Lemma Forall2_compoe {A B C : Type} (R : A -> B -> Prop) (S : B -> C -> Prop)
    (T : A -> C -> Prop) (l1 : list A) (l2 : list B) (l3 : list C) :
  (forall x y z, R x y -> S y z -> T x z) ->
  Forall2 R l1 l2 -> Forall2 S l2 l3 -> Forall2 T l1 l3.
Proof.
  intros HT H12. revert l3. induction H12; intros l3 H23; inversion H23; subst.
  - constructor.
  - constructor; eauto.
Qed.

(** One assignment of a column carries a relation between the input rows
    and the rows of the frame over. *)
Lemma atribui_Forall2 (R R' : poligono -> poligono -> Prop) (rows0 : list poligono)
    (nome : string) (dt : dtype) (f : poligono -> res pyval)
    (gdf gdf' : GeoDataFrameBairros) :
  Forall2 R rows0 (poligonos gdf) ->
  atribui nome dt f gdf = Ok gdf' ->
  (forall p0 p v, R p0 p -> f p = Ok v -> R' p0 (escreve nome v p)) ->
  Forall2 R' rows0 (poligonos gdf').
Proof.
  intros HR Hat Hstep. unfold atribui in Hat.
  destruct (mapM (fun p => v <- f p ;; Ok (escreve nome v p)) (poligonos gdf))
    as [ps | e] eqn:Eps; simpl in Hat; [| discriminate].
  injection Hat as <-. cbn [poligonos].
  apply mapM_Ok_Forall2 in Eps.
  refine (Forall2_compoe R _ R' _ _ _ _ HR Eps).
  intros p0 p p' Hp0 Hp. cbv beta in Hp.
  destruct (f p) as [v | e] eqn:Ev; simpl in Hp; [| discriminate].
  injection Hp as <-. exact (Hstep p0 p v Hp0 Ev).
Qed.

Lemma ltb_zero_neq (f : float) : PrimFloat.ltb 0 f = true -> PrimFloat.eqb f 0 = false.
Proof.
  rewrite ltb_spec, eqb_spec.
  change (Prim2SF 0) with (S754_zero false).
  destruct (Prim2SF f) as [sg | sg | | sg m e]; cbn; try discriminate.
  - destruct sg; cbn; discriminate || reflexivity.
  - destruct sg; cbn; discriminate || reflexivity.
Qed.

(** The density of a row with a float area: zero when the area is not
    positive, the quotient otherwise, and never a division by zero. *)
Lemma densidade_area_float (contagem : pyval) (a : float) :
  densidade contagem (PFloat a) =
  if PrimFloat.ltb 0 a
  then x <- py_num contagem ;; Ok (PFloat (x / a)%float)
  else Ok (PInt 0).
Proof.
  unfold densidade, py_truediv. cbn [py_gt_zero bind py_num].
  destruct (PrimFloat.ltb 0 a) eqn:E; [| reflexivity].
  rewrite (ltb_zero_neq a E).
  destruct (py_num contagem); reflexivity.
Qed.


(* ------------------------------------------------------------------ *)
(** ** Boundary enricher: what a write keeps *)

Lemma prefix_app (s b : string) : String.prefix s (s ++ b) = true.
Proof.
  induction s as [| c s IH]; simpl; [now destruct b |].
  destruct (ascii_dec c c); [exact IH | congruence].
Qed.

Lemma inv_base_escreve (cb : string) (tot : dict string Z) (tipo_t : dict string (dict string Z))
    (p0 p : poligono) (n : string) (v : pyval) :
  inv_base cb tot tipo_t p0 p ->
  nome_gerado n = true ->
  ("bairro_normalizado" =? n) = false ->
  (("contagem_total" =? n) = true -> sem_contagem cb tot tipo_t p0 -> v = PInt 0) ->
  inv_base cb tot tipo_t p0 (escreve n v p).
Proof.
  intros (Hg & Hn & Ht & Ho) Hger H1 H2. repeat split.
  - exact Hg.
  - rewrite celula_escreve, H1. exact Hn.
  - intros Hs. rewrite celula_escreve.
    destruct ("contagem_total" =? n) eqn:E; auto.
  - intros x Hx. rewrite celula_escreve.
    destruct (String.eqb_spec x n) as [-> | Hne]; [congruence | auto].
Qed.

Lemma nome_gerado_contagem (r : string) : nome_gerado ("contagem_" ++ r) = true.
Proof. unfold nome_gerado. now rewrite (prefix_app "contagem_" r). Qed.

Lemma nome_gerado_cont (r : string) : nome_gerado ("cont_" ++ r) = true.
Proof.
  unfold nome_gerado. rewrite (prefix_app "cont_" r).
  now rewrite !orb_true_r.
Qed.

Lemma nome_gerado_dens (r : string) : nome_gerado ("dens_" ++ r) = true.
Proof.
  unfold nome_gerado. rewrite (prefix_app "dens_" r).
  now rewrite !orb_true_r.
Qed.

Lemma inv_area_escreve (p : poligono) (n : string) (v : pyval) :
  inv_area p -> ("area_km2" =? n) = false -> inv_area (escreve n v p).
Proof.
  intros [a Ha] Hn. exists a. now rewrite celula_escreve, Hn.
Qed.

Lemma par_ok_escreve (c d : string) (p : poligono) (n : string) (v : pyval) :
  par_ok c d p ->
  (c =? n) = false -> (d =? n) = false -> ("area_km2" =? n) = false ->
  par_ok c d (escreve n v p).
Proof.
  unfold par_ok. rewrite !celula_escreve. now intros H -> -> ->.
Qed.

Lemma par_ok_estabelece (c d : string) (p : poligono) (v : pyval) :
  densidade (celula c p) (celula "area_km2" p) = Ok v ->
  (c =? d) = false -> ("area_km2" =? d) = false ->
  par_ok c d (escreve d v p).
Proof.
  unfold par_ok. rewrite !celula_escreve, String.eqb_refl. now intros H -> ->.
Qed.

Lemma inv_pares_escreve (pares : list (string * string)) (p : poligono)
    (n : string) (v : pyval) :
  inv_pares pares p ->
  ("area_km2" =? n) = false ->
  forallb (fun cd => negb (fst cd =? n) && negb (snd cd =? n)) pares = true ->
  inv_pares pares (escreve n v p).
Proof.
  unfold inv_pares. intros Hp Ha Hl. rewrite forallb_forall in Hl.
  rewrite Forall_forall in *. intros cd Hin.
  specialize (Hl cd Hin). apply andb_prop in Hl as [Hc Hd].
  apply negb_true_iff in Hc, Hd.
  apply par_ok_escreve; auto.
Qed.

(** Writing the density of the pair [(c, d)] into a free column [d]. *)
Lemma passo_densidade_fixa (cb : string) (tot : dict string Z)
    (tipo_t : dict string (dict string Z)) (pares : list (string * string))
    (c d : string) (p0 p : poligono) (v : pyval) :
  inv_base cb tot tipo_t p0 p /\ inv_area p /\ inv_pares pares p ->
  nome_livre d c pares = true ->
  densidade (celula c p) (celula "area_km2" p) = Ok v ->
  inv_base cb tot tipo_t p0 (escreve d v p)
  /\ inv_area (escreve d v p)
  /\ inv_pares ((c, d) :: pares) (escreve d v p).
Proof.
  intros (Hb & Ha & Hp) Hl Hv. unfold nome_livre in Hl.
  apply andb_prop in Hl as [Hl H5]. apply andb_prop in Hl as [Hl H4].
  apply andb_prop in Hl as [Hl H3]. apply andb_prop in Hl as [Hl H2].
  apply andb_prop in Hl as [Hger H1].
  apply negb_true_iff in H1, H2, H3, H4.
  split; [| split].
  - apply inv_base_escreve; auto. rewrite H2. discriminate.
  - now apply inv_area_escreve.
  - constructor.
    + now apply par_ok_estabelece.
    + now apply inv_pares_escreve.
Qed.

Lemma sufixo_nao_reservado (s : string) :
  sufixo_reservado s = false ->
  ("km2" =? s) = false /\ ("lamina" =? s) = false
  /\ ("bolsao" =? s) = false /\ ("alag" =? s) = false.
Proof.
  unfold sufixo_reservado. cbn [existsb]. intros H.
  apply orb_false_elim in H as [H1 H]. apply orb_false_elim in H as [H2 H].
  apply orb_false_elim in H as [H3 H]. apply orb_false_elim in H as [H4 _].
  auto.
Qed.

(** Writing the count and then the density of the columns that end in the
    suffix [s]. *)
Lemma passo_sufixo (cb : string) (tot : dict string Z) (tipo_t : dict string (dict string Z))
    (sufixos : list string) (s : string) (z : Z) (v : pyval) (p0 p : poligono) :
  inv_dens cb tot tipo_t sufixos p0 p ->
  sufixo_reservado s = false ->
  densidade (PInt z) (celula "area_km2" p) = Ok v ->
  inv_dens cb tot tipo_t (sufixos ++ [s])%list p0
    (escreve ("dens_" ++ s) v (escreve ("cont_" ++ s) (PInt z) p)).
Proof.
  intros (Hb & Ha & Hp) Hs Hv.
  destruct (sufixo_nao_reservado s Hs) as (R1 & R2 & R3 & R4).
  split; [| split].
  - apply inv_base_escreve;
      [apply inv_base_escreve; auto using nome_gerado_cont; discriminate
      | apply nome_gerado_dens | reflexivity | discriminate].
  - apply inv_area_escreve; [apply inv_area_escreve |]; auto.
  - unfold inv_pares in *. rewrite map_app, app_assoc. cbn [map].
    apply Forall_app. split.
    + apply Forall_app in Hp as [Hfix Hsuf]. apply Forall_app. split.
      * unfold pares_fixos in *.
        repeat match goal with
               | H : Forall _ (_ :: _) |- _ => inversion H; subst; clear H
               end.
        repeat constructor; cbn [fst snd] in *;
          (apply par_ok_escreve; [apply par_ok_escreve | | |]; auto).
      * rewrite Forall_forall in *. intros cd Hin.
        apply in_map_iff in Hin as (s0 & <- & Hin0).
        pose proof (Hsuf _ (in_map par_do_sufixo _ _ Hin0)) as H0.
        cbn [par_do_sufixo fst snd] in *.
        destruct (String.eqb_spec s0 s) as [-> | Hne].
        -- apply par_ok_estabelece; [| reflexivity | reflexivity].
           rewrite !celula_escreve. cbn. now rewrite String.eqb_refl.
        -- assert (E : (s0 =? s) = false) by (now apply String.eqb_neq).
           apply par_ok_escreve; [apply par_ok_escreve | | |]; auto; cbn; auto.
    + repeat constructor. cbn [par_do_sufixo fst snd].
      apply par_ok_estabelece; [| reflexivity | reflexivity].
      rewrite !celula_escreve. cbn. now rewrite String.eqb_refl.
Qed.

(* ------------------------------------------------------------------ *)
(** ** Boundary enricher: its loops *)

Lemma bind_Ok {A B : Type} (m : res A) (k : A -> res B) (b : B) :
  (x <- m ;; k x) = Ok b -> exists a, m = Ok a /\ k a = Ok b.
Proof. destruct m as [a | e]; simpl; [eauto | discriminate]. Qed.

Lemma contem_meio (sub a b : string) : contem sub (a ++ sub ++ b) = true.
Proof.
  induction a as [| c a IH].
  - cbn [append]. destruct (sub ++ b) eqn:E; cbn [contem].
    + rewrite <- E, prefix_app. reflexivity.
    + rewrite <- E, prefix_app. reflexivity.
  - cbn [append contem]. rewrite IH. apply orb_true_r.
Qed.

Lemma sufixo_com_sublinhado (a b : string) : sufixo_reservado (a ++ "_" ++ b) = false.
Proof.
  unfold sufixo_reservado. cbn [existsb].
  repeat match goal with
         | |- context [?r =? a ++ "_" ++ b] =>
             let E := fresh "E" in
             destruct (String.eqb_spec r (a ++ "_" ++ b)) as [E | E];
             [apply (f_equal (contem "_")) in E; rewrite contem_meio in E;
              vm_compute in E; discriminate |]
         end.
  reflexivity.
Qed.

Lemma estacao_nao_reservada (e : string) :
  In e nomes_estacoes -> sufixo_reservado e = false.
Proof.
  unfold nomes_estacoes, estacoes. cbn [map nome_estacao In].
  intros [<- | [<- | [<- | [<- | []]]]]; reflexivity.
Qed.

(** A count column and its density column, for all rows. *)
Lemma atribui_par_sufixo (cb : string) (tot : dict string Z)
    (tipo_t : dict string (dict string Z)) (sufixos : list string) (s : string)
    (contagem : poligono -> Z) (rows0 : list poligono) (g g' : GeoDataFrameBairros) :
  Forall2 (inv_dens cb tot tipo_t sufixos) rows0 (poligonos g) ->
  sufixo_reservado s = false ->
  atribui_contagem_e_densidade ("cont_" ++ s) ("dens_" ++ s) contagem g = Ok g' ->
  Forall2 (inv_dens cb tot tipo_t (sufixos ++ [s])%list) rows0 (poligonos g').
Proof.
  intros Hinv Hs Hat. unfold atribui_contagem_e_densidade in Hat.
  apply bind_Ok in Hat as (g1 & H1 & H2).
  eapply (atribui_Forall2
            (fun p0 p1 => exists p z,
                 inv_dens cb tot tipo_t sufixos p0 p
                 /\ p1 = escreve ("cont_" ++ s) (PInt z) p)) in H2.
  - exact H2.
  - eapply atribui_Forall2; [exact Hinv | exact H1 |].
    intros p0 p v Hp Hv. injection Hv as <-. eauto.
  - intros p0 p1 v (p & z & Hp & ->) Hv.
    apply passo_sufixo; auto.
    rewrite !celula_escreve in Hv. cbn in Hv. now rewrite String.eqb_refl in Hv.
Qed.

(** A loop of such pairs of columns. *)
Lemma laco_sufixos {X : Type} (suf : X -> string) (contagem : X -> poligono -> Z)
    (cb : string) (tot : dict string Z) (tipo_t : dict string (dict string Z))
    (rows0 : list poligono) (xs : list X) :
  (forall x, In x xs -> sufixo_reservado (suf x) = false) ->
  forall sufixos g g',
    Forall2 (inv_dens cb tot tipo_t sufixos) rows0 (poligonos g) ->
    foldM (fun g x =>
             atribui_contagem_e_densidade ("cont_" ++ suf x) ("dens_" ++ suf x)
               (contagem x) g) xs g = Ok g' ->
    Forall2 (inv_dens cb tot tipo_t (sufixos ++ map suf xs)%list) rows0 (poligonos g').
Proof.
  induction xs as [| x xs IH]; intros Hres sufixos g g' Hinv Hfold; cbn [foldM map] in *.
  - injection Hfold as <-. now rewrite app_nil_r.
  - apply bind_Ok in Hfold as (g1 & H1 & H2).
    replace (sufixos ++ suf x :: map suf xs)%list
      with ((sufixos ++ [suf x]) ++ map suf xs)%list by (now rewrite <- app_assoc).
    eapply IH; [intros y Hy; apply Hres; now right | | exact H2].
    eapply atribui_par_sufixo; [exact Hinv | apply Hres; now left | exact H1].
Qed.

(** The loop over the types, with its inner loop over the seasons. *)
Lemma laco_tipos_estacoes (contagem : string -> string -> poligono -> Z)
    (cb : string) (tot : dict string Z) (tipo_t : dict string (dict string Z))
    (rows0 : list poligono) (ms : list (string * string)) :
  forall sufixos g g',
    Forall2 (inv_dens cb tot tipo_t sufixos) rows0 (poligonos g) ->
    foldM (fun g (m : string * string) =>
             let curto := tipo_curto (snd m) in
             foldM (fun g estacao =>
                      atribui_contagem_e_densidade
                        ("cont_" ++ curto ++ "_" ++ estacao)
                        ("dens_" ++ curto ++ "_" ++ estacao)
                        (contagem (fst m) estacao) g)
                   nomes_estacoes g)
          ms g = Ok g' ->
    Forall2 (inv_dens cb tot tipo_t
               (List.app sufixos
                  (flat_map (fun m : string * string =>
                               map (fun e => tipo_curto (snd m) ++ "_" ++ e) nomes_estacoes)
                            ms)))
            rows0 (poligonos g').
Proof.
  induction ms as [| m ms IH]; intros sufixos g g' Hinv Hfold; cbn [foldM flat_map] in *.
  - injection Hfold as <-. now rewrite app_nil_r.
  - apply bind_Ok in Hfold as (g1 & H1 & H2).
    rewrite app_assoc. eapply IH; [| exact H2].
    eapply (laco_sufixos (fun e => tipo_curto (snd m) ++ "_" ++ e)
              (fun e => contagem (fst m) e));
      [| exact Hinv | exact H1].
    intros e _. apply sufixo_com_sublinhado.
Qed.

(* ------------------------------------------------------------------ *)
(** ** Boundary enricher: from the input rows to the output rows *)

Lemma get_or_ausente {K V : Type} `{Chave K} (k : K) (d : dict K V) (dflt : V) :
  dict_in k d = false -> get_or k d dflt = dflt.
Proof. unfold dict_in, get_or. now destruct (dict_get k d). Qed.

Lemma nome_coluna_tipo_contagem (tipo_n : string) :
  exists r, nome_coluna_tipo tipo_n = "contagem_" ++ r.
Proof.
  unfold nome_coluna_tipo.
  destruct (contem "Alagamento" tipo_n); [now exists "alagamento" |].
  destruct (contem "Bols" tipo_n || contem "Bolsão" tipo_n); [now exists "bolsao" |].
  destruct (contem "Lâmina" tipo_n || contem "Lamina" tipo_n); [now exists "lamina" |].
  now exists (tipo_limpo_lower tipo_n).
Qed.

(** The loop that writes the columns by type. *)
Lemma laco_tipos (cb : string) (tot : dict string Z) (tipo_t : dict string (dict string Z))
    (rows0 : list poligono) (tipos : list string) :
  forall g g',
    Forall2 (inv_base cb tot tipo_t) rows0 (poligonos g) ->
    foldM (fun g (m : string * string) =>
             atribui (snd m) DInt64
               (fun p => Ok (PInt (consulta2 (bairro_da_linha p) (fst m)
                                     (dict_rekey strip tipo_t)))) g)
          (map (fun t => (t, nome_coluna_tipo t)) tipos) g = Ok g' ->
    Forall2 (inv_base cb tot tipo_t) rows0 (poligonos g').
Proof.
  induction tipos as [| t tipos IH]; intros g g' Hinv Hfold; cbn [foldM map] in Hfold.
  - now injection Hfold as <-.
  - apply bind_Ok in Hfold as (g1 & H1 & H2).
    eapply IH; [| exact H2].
    eapply atribui_Forall2; [exact Hinv | exact H1 |].
    cbn [fst snd]. intros p0 p v Hp Hv. injection Hv as <-.
    destruct (nome_coluna_tipo_contagem t) as [r ->].
    apply inv_base_escreve; [exact Hp | apply nome_gerado_contagem | reflexivity |].
    intros _ [_ Hsem]. f_equal.
    destruct Hp as (_ & Hn & _).
    unfold consulta2, bairro_da_linha. rewrite Hn. cbn [texto].
    unfold dict_in in Hsem. unfold get_or.
    now destruct (dict_get (nome_normalizado cb p0) (dict_rekey strip tipo_t)).
Qed.

Lemma garante_coluna_inv (R : poligono -> poligono -> Prop) (rows0 : list poligono)
    (nome : string) (g g' : GeoDataFrameBairros) :
  Forall2 R rows0 (poligonos g) ->
  garante_coluna nome g = Ok g' ->
  (forall p0 p, R p0 p -> R p0 (escreve nome (PInt 0) p)) ->
  Forall2 R rows0 (poligonos g').
Proof.
  intros Hinv Hg Hstep. unfold garante_coluna in Hg.
  destruct (tem_coluna_bairros g nome).
  - now injection Hg as <-.
  - eapply atribui_Forall2; [exact Hinv | exact Hg |].
    intros p0 p v Hp Hv. injection Hv as <-. auto.
Qed.

Lemma divide_por_float (divisor : float) (x v : pyval) :
  divide_por divisor x = Ok v -> exists a, v = PFloat a.
Proof.
  destruct x; simpl; try discriminate; intros H; injection H as <-; eauto.
Qed.

Lemma Forall2_map_r {A B C : Type} (R : A -> B -> Prop) (R' : A -> C -> Prop)
    (h : B -> C) (l1 : list A) (l2 : list B) :
  (forall x y, R x y -> R' x (h y)) ->
  Forall2 R l1 l2 -> Forall2 R' l1 (map h l2).
Proof. intros Hh. induction 1; simpl; constructor; auto. Qed.

Lemma celula_drop (x n : string) (p : poligono) :
  (x =? n) = false ->
  celula x {| geometry := geometry p; attrs := dict_remove n (attrs p) |} = celula x p.
Proof.
  intros Hx. unfold celula, get_or. cbn [attrs].
  rewrite dict_get_remove_neq; [reflexivity |]. now apply String.eqb_neq.
Qed.

(** The enricher, row by row: when it returns, each output row is the
    input row of the same position, enriched. *)
Lemma adicionar_linhas (gdf out : GeoDataFrameBairros)
    (tot : dict string Z) (tipo_t : dict string (dict string Z))
    (est_t : option (dict string (dict string Z)))
    (te_t : option (dict string (dict string (dict string Z)))) :
  adicionar_contagens_ao_shapefile gdf tot tipo_t est_t te_t = Ok out ->
  exists cb,
    resolver_coluna_bairro gdf = Ok cb
    /\ Forall2 (linha_enriquecida cb tot tipo_t est_t te_t) (poligonos gdf) (poligonos out).
Proof.
  intros H. unfold adicionar_contagens_ao_shapefile in H.
  apply bind_Ok in H as (cb & Hcb & H). exists cb. split; [exact Hcb |].
  apply bind_Ok in H as (g1 & H1 & H).
  apply bind_Ok in H as (g2 & H2 & H).
  apply bind_Ok in H as (g3 & H3 & H).
  apply bind_Ok in H as (g4 & H4 & H).
  apply bind_Ok in H as (g5 & H5 & H).
  apply bind_Ok in H as (g6 & H6 & H).
  apply bind_Ok in H as (g7 & H7 & H).
  apply bind_Ok in H as (g8 & H8 & H).
  apply bind_Ok in H as (g9 & H9 & H).
  apply bind_Ok in H as (g10 & H10 & H).
  apply bind_Ok in H as (g11 & H11 & H).
  apply bind_Ok in H as (g12 & H12 & H).
  injection H as <-.
  (* the join key *)
  assert (I1 : Forall2 (fun p0 p => geometry p = geometry p0
                                    /\ celula "bairro_normalizado" p
                                       = PStr (nome_normalizado cb p0)
                                    /\ (forall x, nome_gerado x = false ->
                                                  celula x p = celula x p0))
                       (poligonos gdf) (poligonos g1)).
  { eapply (atribui_Forall2 (fun p0 p => p = p0)); [| exact H1 |].
    - clear. induction (poligonos gdf); constructor; auto.
    - intros p0 p v -> Hv. injection Hv as <-. split; [reflexivity |].
      split; [now rewrite celula_escreve |].
      intros x Hx. rewrite celula_escreve.
      destruct (String.eqb_spec x "bairro_normalizado") as [-> | Hne];
        [discriminate Hx | reflexivity]. }
  (* the total *)
  assert (I2 : Forall2 (inv_base cb tot tipo_t) (poligonos gdf) (poligonos g2)).
  { eapply atribui_Forall2; [exact I1 | exact H2 |].
    intros p0 p v (Hg & Hn & Ho) Hv. injection Hv as <-.
    split; [exact Hg |]. split; [now rewrite celula_escreve |]. split.
    - intros [Hsem _]. rewrite celula_escreve. cbn [String.eqb Ascii.eqb Bool.eqb].
      unfold bairro_da_linha. rewrite Hn. cbn [texto].
      now rewrite (get_or_ausente _ _ 0 Hsem).
    - intros x Hx. rewrite celula_escreve.
      destruct (String.eqb_spec x "contagem_total") as [-> | Hne];
        [discriminate Hx | auto]. }
  (* the columns by type *)
  assert (I3 : Forall2 (inv_base cb tot tipo_t) (poligonos gdf) (poligonos g3)).
  { eapply laco_tipos; [exact I2 | exact H3]. }
  assert (I4 : Forall2 (inv_base cb tot tipo_t) (poligonos gdf) (poligonos g4)).
  { eapply garante_coluna_inv; [exact I3 | exact H4 |].
    intros p0 p Hp. apply inv_base_escreve; auto; discriminate. }
  assert (I5 : Forall2 (inv_base cb tot tipo_t) (poligonos gdf) (poligonos g5)).
  { eapply garante_coluna_inv; [exact I4 | exact H5 |].
    intros p0 p Hp. apply inv_base_escreve; auto; discriminate. }
  assert (I6 : Forall2 (inv_base cb tot tipo_t) (poligonos gdf) (poligonos g6)).
  { eapply garante_coluna_inv; [exact I5 | exact H6 |].
    intros p0 p Hp. apply inv_base_escreve; auto; discriminate. }
  (* the area *)
  assert (I7 : Forall2 (fun p0 p => inv_base cb tot tipo_t p0 p /\ inv_area p
                                    /\ inv_pares [] p)
                       (poligonos gdf) (poligonos g7)).
  { destruct (tem_coluna_bairros g6 "st_areasha").
    - eapply atribui_Forall2; [exact I6 | exact H7 |].
      intros p0 p v Hp Hv. apply divide_por_float in Hv as [a ->].
      split; [apply inv_base_escreve; auto; discriminate |].
      split; [exists a; now rewrite celula_escreve | constructor].
    - eapply atribui_Forall2; [| exact H7 |]; [exact I6 |].
      intros p0 p v Hp Hv. injection Hv as <-.
      split; [apply inv_base_escreve; auto; discriminate |].
      split; [eexists; now rewrite celula_escreve | constructor]. }
  (* the four fixed densities *)
  assert (I8 : Forall2 (fun p0 p => inv_base cb tot tipo_t p0 p /\ inv_area p
                                    /\ inv_pares [("contagem_total", "dens_km2")] p)
                       (poligonos gdf) (poligonos g8)).
  { eapply atribui_Forall2; [exact I7 | exact H8 |].
    intros p0 p v Hp Hv. now apply passo_densidade_fixa. }
  assert (I9 : Forall2 (fun p0 p => inv_base cb tot tipo_t p0 p /\ inv_area p
                                    /\ inv_pares [("contagem_lamina", "dens_lamina");
                                                  ("contagem_total", "dens_km2")] p)
                       (poligonos gdf) (poligonos g9)).
  { eapply atribui_Forall2; [exact I8 | exact H9 |].
    intros p0 p v Hp Hv. now apply passo_densidade_fixa. }
  assert (I10 : Forall2 (fun p0 p => inv_base cb tot tipo_t p0 p /\ inv_area p
                                     /\ inv_pares [("contagem_bolsao", "dens_bolsao");
                                                   ("contagem_lamina", "dens_lamina");
                                                   ("contagem_total", "dens_km2")] p)
                        (poligonos gdf) (poligonos g10)).
  { eapply atribui_Forall2; [exact I9 | exact H10 |].
    intros p0 p v Hp Hv. now apply passo_densidade_fixa. }
  assert (I11 : Forall2 (inv_dens cb tot tipo_t []) (poligonos gdf) (poligonos g11)).
  { eapply atribui_Forall2; [exact I10 | exact H11 |].
    intros p0 p v Hp Hv.
    destruct (passo_densidade_fixa cb tot tipo_t _ "contagem_alagamento" "dens_alag"
                p0 p v Hp eq_refl Hv) as (Hb & Ha & Hpares).
    split; [exact Hb |]. split; [exact Ha |].
    unfold inv_pares in *. cbn [map app]. unfold pares_fixos.
    repeat match goal with
           | H : Forall _ (_ :: _) |- _ => inversion H; subst; clear H
           end.
    repeat constructor; assumption. }
  (* the columns by season, and by type and season *)
  assert (I12 : Forall2 (inv_dens cb tot tipo_t (sufixos_escritos tipo_t est_t te_t))
                        (poligonos gdf) (poligonos g12)).
  { unfold sufixos_escritos.
    destruct (py_truthy_dict match est_t with Some d => normalizar2 d | None => [] end).
    - apply bind_Ok in H12 as (g & Hg & H12).
      pose proof (laco_sufixos (fun e => e)
                    (fun e p => consulta2 (bairro_da_linha p) e
                                  match est_t with Some d => normalizar2 d | None => [] end)
                    cb tot tipo_t (poligonos gdf) nomes_estacoes
                    estacao_nao_reservada [] g11 g I11 Hg) as Ig.
      rewrite map_id in Ig. cbn [app] in Ig.
      destruct (py_truthy_dict match te_t with Some d => normalizar3 d | None => [] end).
      + eapply (laco_tipos_estacoes
                  (fun t e p => consulta3 (bairro_da_linha p) t e
                                  match te_t with Some d => normalizar3 d | None => [] end));
          [exact Ig | exact H12].
      + injection H12 as <-. now rewrite app_nil_r.
    - now injection H12 as <-. }
  (* the key column is dropped *)
  unfold drop_coluna. cbn [poligonos].
  eapply Forall2_map_r; [| exact I12].
  intros p0 p ((Hg & _ & Ht & Ho) & [a Ha] & Hp).
  unfold linha_enriquecida. cbn [geometry].
  split; [exact Hg |].
  split.
  { intros x Hx. rewrite celula_drop; [auto |].
    destruct (String.eqb_spec x "bairro_normalizado") as [-> | Hne];
      [discriminate Hx | reflexivity]. }
  split; [intros Hsem; rewrite celula_drop by reflexivity; auto |].
  split; [exists a; now rewrite celula_drop by reflexivity |].
  unfold inv_pares, pares_de_densidade in *.
  apply Forall_app in Hp as [Hfix Hsuf]. apply Forall_app. split.
  - unfold pares_fixos in *.
    repeat match goal with
           | H : Forall _ (_ :: _) |- _ => inversion H; subst; clear H
           end.
    repeat constructor; cbn [fst snd] in *; unfold par_ok in *;
      rewrite !celula_drop by reflexivity; assumption.
  - rewrite Forall_forall in *. intros cd Hin. pose proof (Hsuf cd Hin) as Hcd.
    apply in_map_iff in Hin as (s0 & <- & _). cbn [par_do_sufixo fst snd] in *.
    unfold par_ok in *. rewrite !celula_drop by reflexivity. assumption.
Qed.

Lemma Forall2_length_map {A B C : Type} (R : A -> B -> Prop) (f : A -> C) (g : B -> C)
    (l1 : list A) (l2 : list B) :
  (forall x y, R x y -> g y = f x) -> Forall2 R l1 l2 -> map g l2 = map f l1.
Proof. intros Hfg. induction 1; simpl; f_equal; auto. Qed.

(* ------------------------------------------------------------------ *)
(** ** Boundary enricher: how a run ends *)

Lemma desfecho_bind {A B : Type} (m : res A) (k : A -> res B)
    (Q' : A -> Prop) (Q : B -> Prop) (E : excecao -> Prop) :
  desfecho m Q' E -> (forall a, Q' a -> desfecho (k a) Q E) -> desfecho (bind m k) Q E.
Proof. destruct m; simpl; auto. Qed.

Lemma desfecho_impl {A : Type} (r : res A) (Q Q' : A -> Prop) (E : excecao -> Prop) :
  desfecho r Q E -> (forall a, Q a -> Q' a) -> desfecho r Q' E.
Proof. destruct r; simpl; auto. Qed.

Lemma desfecho_mapM {A B : Type} (f : A -> res B) (P : A -> Prop) (Q : B -> Prop)
    (E : excecao -> Prop) (l : list A) :
  Forall P l -> (forall x, P x -> desfecho (f x) Q E) ->
  desfecho (mapM f l) (Forall Q) E.
Proof.
  intros Hl Hf. induction Hl as [| x l Hx Hl IH]; simpl; [constructor |].
  apply (desfecho_bind _ _ Q); [auto |]. intros y Hy.
  apply (desfecho_bind _ _ (Forall Q)); [exact IH |]. intros ys Hys.
  simpl. now constructor.
Qed.

Lemma desfecho_foldM {A B : Type} (f : B -> A -> res B) (Inv : B -> Prop)
    (E : excecao -> Prop) (l : list A) (acc : B) :
  Inv acc -> (forall b x, Inv b -> desfecho (f b x) Inv E) ->
  desfecho (foldM f l acc) Inv E.
Proof.
  intros Hacc Hf. revert acc Hacc.
  induction l as [| x l IH]; simpl; intros acc Hacc; [exact Hacc |].
  apply (desfecho_bind _ _ Inv); auto.
Qed.

(** One assignment of a column: every row gets its value, or the first
    exception of the function ends the run. *)
Lemma desfecho_atribui (P Q : poligono -> Prop) (E : excecao -> Prop)
    (nome : string) (dt : dtype) (f : poligono -> res pyval) (gdf : GeoDataFrameBairros) :
  Forall P (poligonos gdf) ->
  (forall p, P p -> desfecho (f p) (fun v => Q (escreve nome v p)) E) ->
  desfecho (atribui nome dt f gdf) (fun g => Forall Q (poligonos g)) E.
Proof.
  intros HP Hf. unfold atribui.
  apply (desfecho_bind _ _ (Forall Q)).
  - apply (desfecho_mapM _ P); [exact HP |]. intros p Hp.
    apply (desfecho_bind _ _ (fun v => Q (escreve nome v p))); [auto |].
    intros v Hv. exact Hv.
  - intros ps Hps. exact Hps.
Qed.

Lemma celulas_escreve_N (N : pyval -> Prop) (nomes : list string) (p : poligono)
    (n : string) (v : pyval) :
  N v -> celulas_em N nomes p -> celulas_em N nomes (escreve n v p).
Proof.
  unfold celulas_em. intros Hv. apply Forall_impl. intros x Hx.
  rewrite celula_escreve. now destruct (x =? n).
Qed.

Lemma celulas_escreve_fora (N : pyval -> Prop) (nomes : list string) (p : poligono)
    (n : string) (v : pyval) :
  forallb (fun x => negb (x =? n)) nomes = true ->
  celulas_em N nomes p -> celulas_em N nomes (escreve n v p).
Proof.
  unfold celulas_em. rewrite forallb_forall, !Forall_forall. intros Hn Hp x Hx.
  rewrite celula_escreve. specialize (Hn x Hx). apply negb_true_iff in Hn.
  rewrite Hn. auto.
Qed.

Lemma linha_contada_escreve (N : pyval -> Prop) (p : poligono) (n : string) (v : pyval) :
  N v -> linha_contada N p -> linha_contada N (escreve n v p).
Proof. apply celulas_escreve_N. Qed.

Lemma linha_medida_escreve (N : pyval -> Prop) (p : poligono) (n : string) (v : pyval) :
  N v -> ("area_km2" =? n) = false -> linha_medida N p -> linha_medida N (escreve n v p).
Proof.
  intros Hv Hn [Hc Ha]. split.
  - now apply linha_contada_escreve.
  - now apply inv_area_escreve.
Qed.

Lemma desfecho_garante (N : pyval -> Prop) (E : excecao -> Prop) (nome : string)
    (gdf : GeoDataFrameBairros) :
  regras N E ->
  Forall (linha_contada N) (poligonos gdf) ->
  desfecho (garante_coluna nome gdf) (fun g => Forall (linha_contada N) (poligonos g)) E.
Proof.
  intros (Hint & _) H. unfold garante_coluna.
  destruct (tem_coluna_bairros gdf nome); [exact H |].
  apply (desfecho_atribui (linha_contada N)); [exact H |].
  intros p Hp. simpl. apply linha_contada_escreve; auto.
Qed.

(** A density column of a count column that holds what [N] asks. *)
Lemma desfecho_densidade (N : pyval -> Prop) (E : excecao -> Prop) (c d : string)
    (P : poligono -> Prop) (gdf : GeoDataFrameBairros) :
  regras N E ->
  ("area_km2" =? d) = false ->
  (forall p, P p -> linha_medida N p /\ N (celula c p)) ->
  Forall P (poligonos gdf) ->
  desfecho (atribui d DFloat64
              (fun p => densidade (celula c p) (celula "area_km2" p)) gdf)
           (fun g => Forall (linha_medida N) (poligonos g)) E.
Proof.
  intros (_ & _ & Hdens & _) Hd HP H.
  apply (desfecho_atribui P); [exact H |].
  intros p Hp. destruct (HP p Hp) as [Hm Hc].
  destruct Hm as [Hcont [a Ha]]. rewrite Ha.
  apply (desfecho_impl _ N); [now apply Hdens |].
  intros v Hv. apply linha_medida_escreve; auto.
  split; [exact Hcont | now exists a].
Qed.

Lemma linha_contada_In (N : pyval -> Prop) (p : poligono) (c : string) :
  In c ("contagem_total" :: colunas_numericas_lidas) -> linha_contada N p -> N (celula c p).
Proof.
  intros Hin Hp. unfold linha_contada, celulas_em in Hp.
  rewrite Forall_forall in Hp. auto.
Qed.

(** A count column and its density column, as the loops by season write
    them. *)
Lemma desfecho_par (N : pyval -> Prop) (E : excecao -> Prop) (c d : string)
    (contagem : poligono -> Z) (gdf : GeoDataFrameBairros) :
  regras N E ->
  ("area_km2" =? c) = false -> ("area_km2" =? d) = false ->
  Forall (linha_medida N) (poligonos gdf) ->
  desfecho (atribui_contagem_e_densidade c d contagem gdf)
           (fun g => Forall (linha_medida N) (poligonos g)) E.
Proof.
  intros HR Hc Hd H. unfold atribui_contagem_e_densidade.
  apply (desfecho_bind _ _
           (fun g => Forall (fun p => linha_medida N p /\ N (celula c p)) (poligonos g))).
  - apply (desfecho_atribui (linha_medida N)); [exact H |].
    intros p Hp. simpl. destruct HR as (Hint & _). split.
    + apply linha_medida_escreve; auto.
    + rewrite celula_escreve, String.eqb_refl. apply Hint.
  - intros g Hg.
    apply (desfecho_densidade N E c d (fun p => linha_medida N p /\ N (celula c p)));
      auto.
Qed.

Lemma desfecho_estacoes (N : pyval -> Prop) (E : excecao -> Prop)
    (col dens : string -> string) (contagem : string -> poligono -> Z)
    (l : list string) (gdf : GeoDataFrameBairros) :
  regras N E ->
  (forall e, ("area_km2" =? col e) = false) ->
  (forall e, ("area_km2" =? dens e) = false) ->
  Forall (linha_medida N) (poligonos gdf) ->
  desfecho (foldM (fun g estacao =>
                     atribui_contagem_e_densidade (col estacao) (dens estacao)
                       (contagem estacao) g) l gdf)
           (fun g => Forall (linha_medida N) (poligonos g)) E.
Proof.
  intros HR Hc Hd H.
  apply (desfecho_foldM _ (fun g => Forall (linha_medida N) (poligonos g))); [exact H |].
  intros g e Hg. apply desfecho_par; auto.
Qed.

(** The run of the enricher: when the name column resolves (or fails within
    [E]) and the cells read hold what [N] asks, the run ends in a frame or
    in an exception of [E]. *)
Lemma desfecho_adicionar (N : pyval -> Prop) (E : excecao -> Prop)
    (gdf : GeoDataFrameBairros)
    (contagem_total : dict string Z)
    (contagem_por_tipo : dict string (dict string Z))
    (contagem_por_estacao : option (dict string (dict string Z)))
    (contagem_por_tipo_estacao : option (dict string (dict string (dict string Z)))) :
  regras N E ->
  desfecho (resolver_coluna_bairro gdf) (fun _ => True) E ->
  Forall (celulas_em N colunas_numericas_lidas) (poligonos gdf) ->
  desfecho (adicionar_contagens_ao_shapefile gdf contagem_total contagem_por_tipo
              contagem_por_estacao contagem_por_tipo_estacao)
           (fun _ => True) E.
Proof.
  intros HR Hres H0. pose proof HR as (Hint & Hfloat & Hdens & Hdiv).
  unfold adicionar_contagens_ao_shapefile. cbv zeta.
  apply (desfecho_bind _ _ (fun _ => True)); [exact Hres |]. intros cb _.
  apply (desfecho_bind _ _
           (fun g => Forall (celulas_em N colunas_numericas_lidas) (poligonos g))).
  { apply (desfecho_atribui (celulas_em N colunas_numericas_lidas)); [exact H0 |].
    intros p Hp. simpl. now apply celulas_escreve_fora. }
  intros g1 H1.
  apply (desfecho_bind _ _ (fun g => Forall (linha_contada N) (poligonos g))).
  { apply (desfecho_atribui (celulas_em N colunas_numericas_lidas)); [exact H1 |].
    intros p Hp. simpl. constructor.
    - rewrite celula_escreve, String.eqb_refl. apply Hint.
    - apply celulas_escreve_N; auto. }
  intros g2 H2.
  apply (desfecho_bind _ _ (fun g => Forall (linha_contada N) (poligonos g))).
  { apply (desfecho_foldM _ (fun g => Forall (linha_contada N) (poligonos g)));
      [exact H2 |].
    intros g m Hg. apply (desfecho_atribui (linha_contada N)); [exact Hg |].
    intros p Hp. simpl. apply linha_contada_escreve; auto. }
  intros g3 H3.
  apply (desfecho_bind _ _ (fun g => Forall (linha_contada N) (poligonos g)));
    [now apply desfecho_garante |]. intros g4 H4.
  apply (desfecho_bind _ _ (fun g => Forall (linha_contada N) (poligonos g)));
    [now apply desfecho_garante |]. intros g5 H5.
  apply (desfecho_bind _ _ (fun g => Forall (linha_contada N) (poligonos g)));
    [now apply desfecho_garante |]. intros g6 H6.
  apply (desfecho_bind _ _ (fun g => Forall (linha_medida N) (poligonos g))).
  { destruct (tem_coluna_bairros g6 "st_areasha").
    - apply (desfecho_atribui (linha_contada N)); [exact H6 |].
      intros p Hp.
      apply (desfecho_impl _ (fun x => exists a, x = PFloat a)).
      + apply Hdiv. apply (linha_contada_In N p "st_areasha"); [| exact Hp].
        simpl. auto.
      + intros v [a ->]. split.
        * apply linha_contada_escreve; auto.
        * exists a. now rewrite celula_escreve, String.eqb_refl.
    - apply (desfecho_atribui (linha_contada N)); [exact H6 |].
      intros p Hp. simpl. split.
      + apply linha_contada_escreve; auto.
      + eexists. now rewrite celula_escreve, String.eqb_refl. }
  intros g7 H7.
  assert (Hfixa : forall c d g,
             In c ("contagem_total" :: colunas_numericas_lidas) ->
             ("area_km2" =? d) = false ->
             Forall (linha_medida N) (poligonos g) ->
             desfecho (atribui d DFloat64
                         (fun p => densidade (celula c p) (celula "area_km2" p)) g)
                      (fun g' => Forall (linha_medida N) (poligonos g')) E).
  { intros c d g Hin Hd Hg.
    apply (desfecho_densidade N E c d (linha_medida N)); auto.
    intros p Hp. split; [exact Hp |].
    apply (linha_contada_In N p c Hin). exact (proj1 Hp). }
  apply (desfecho_bind _ _ (fun g => Forall (linha_medida N) (poligonos g)));
    [apply Hfixa; [simpl; auto 10 | reflexivity | assumption] |]. intros g8 H8.
  apply (desfecho_bind _ _ (fun g => Forall (linha_medida N) (poligonos g)));
    [apply Hfixa; [simpl; auto 10 | reflexivity | assumption] |]. intros g9 H9.
  apply (desfecho_bind _ _ (fun g => Forall (linha_medida N) (poligonos g)));
    [apply Hfixa; [simpl; auto 10 | reflexivity | assumption] |]. intros g10 H10.
  apply (desfecho_bind _ _ (fun g => Forall (linha_medida N) (poligonos g)));
    [apply Hfixa; [simpl; auto 10 | reflexivity | assumption] |]. intros g11 H11.
  apply (desfecho_bind _ _ (fun g => Forall (linha_medida N) (poligonos g)));
    [| intros; exact I].
  destruct (py_truthy_dict _); [| exact H11].
  apply (desfecho_bind _ _ (fun g => Forall (linha_medida N) (poligonos g))).
  { apply (desfecho_estacoes N E (fun e => "cont_" ++ e) (fun e => "dens_" ++ e)); auto. }
  intros g H.
  destruct (py_truthy_dict _); [| exact H].
  apply (desfecho_foldM _ (fun g => Forall (linha_medida N) (poligonos g))); [exact H |].
  intros g' m Hg'.
  apply (desfecho_estacoes N E
           (fun e => "cont_" ++ tipo_curto (snd m) ++ "_" ++ e)
           (fun e => "dens_" ++ tipo_curto (snd m) ++ "_" ++ e)); auto.
Qed.

Lemma regras_numericas : regras (fun v => numerica v = true) (fun _ => False).
Proof.
  repeat split; auto.
  - intros c a Hc. rewrite densidade_area_float.
    destruct (PrimFloat.ltb 0 a); [| reflexivity].
    destruct c; try discriminate; reflexivity.
  - intros v Hv. destruct v; try discriminate; simpl; eauto.
Qed.


(** The enricher returns a frame whenever the name column resolves and the
    area and category count cells of the input are numbers. *)
Lemma adicionar_retorna (gdf : GeoDataFrameBairros)
    (contagem_total : dict string Z)
    (contagem_por_tipo : dict string (dict string Z))
    (contagem_por_estacao : option (dict string (dict string Z)))
    (contagem_por_tipo_estacao : option (dict string (dict string (dict string Z))))
    (coluna_bairro : string) :
  resolver_coluna_bairro gdf = Ok coluna_bairro ->
  entrada_numerica gdf = true ->
  exists out,
    adicionar_contagens_ao_shapefile gdf contagem_total contagem_por_tipo
      contagem_por_estacao contagem_por_tipo_estacao = Ok out.
Proof.
  intros Hcb Hnum.
  pose proof (desfecho_adicionar _ _ gdf contagem_total contagem_por_tipo
                contagem_por_estacao contagem_por_tipo_estacao regras_numericas) as H.
  rewrite Hcb in H. specialize (H I).
  destruct (adicionar_contagens_ao_shapefile _ _ _ _ _) as [out | e].
  - now exists out.
  - exfalso. apply H. clear H.
    unfold entrada_numerica in Hnum. rewrite forallb_forall in Hnum.
    apply Forall_forall. intros p Hp. specialize (Hnum p Hp).
    rewrite forallb_forall in Hnum. apply Forall_forall. exact Hnum.
Qed.



(** C6. Whenever the enricher returns a frame, its rows are the input
    rows, one for one and in order: as many rows, the same geometries, and
    in every row every attribute the enricher does not write (those whose
    name is not one of its count, density, area or key columns) as it was.
    A row whose join key (the name cell, as a string, stripped) is a key of
    neither the total table nor the table by type, both with their keys
    stripped, has a total count of zero.  The enricher does return a frame
    whenever the layer has rows, a name column and the area column
    [st_areasha], the cells of that column and of the three category count
    columns, where it brings them, are numbers, and the integers among
    them and the counts of the four tables are 64-bit integers; without a
    name column it raises the error of the missing column. *)
Theorem enriquecedor_mantem_todos_os_poligonos (gdf : GeoDataFrameBairros)
    (contagem_total : dict string Z)
    (contagem_por_tipo : dict string (dict string Z))
    (contagem_por_estacao : option (dict string (dict string Z)))
    (contagem_por_tipo_estacao : option (dict string (dict string (dict string Z)))) :
  (forall out,
     adicionar_contagens_ao_shapefile gdf contagem_total contagem_por_tipo
       contagem_por_estacao contagem_por_tipo_estacao = Ok out ->
     List.length (poligonos out) = List.length (poligonos gdf)
     /\ map geometry (poligonos out) = map geometry (poligonos gdf)
     /\ exists coluna_bairro,
          resolver_coluna_bairro gdf = Ok coluna_bairro
          /\ Forall2 (fun p0 p =>
                        geometry p = geometry p0
                        /\ (forall x, nome_gerado x = false -> celula x p = celula x p0)
                        /\ (dict_in (nome_normalizado coluna_bairro p0)
                              (dict_rekey strip contagem_total) = false ->
                            dict_in (nome_normalizado coluna_bairro p0)
                              (dict_rekey strip contagem_por_tipo) = false ->
                            celula "contagem_total" p = PInt 0))
                     (poligonos gdf) (poligonos out))
  /\ (forall coluna_bairro,
        resolver_coluna_bairro gdf = Ok coluna_bairro ->
        poligonos gdf <> [] ->
        tem_coluna_bairros gdf "st_areasha" = true ->
        entrada_numerica gdf = true ->
        entrada_em_int64 gdf = true ->
        contagens_em_int64 contagem_total contagem_por_tipo
          contagem_por_estacao contagem_por_tipo_estacao = true ->
        exists out,
          adicionar_contagens_ao_shapefile gdf contagem_total contagem_por_tipo
            contagem_por_estacao contagem_por_tipo_estacao = Ok out)
  /\ (forall e,
        resolver_coluna_bairro gdf = Raise e ->
        adicionar_contagens_ao_shapefile gdf contagem_total contagem_por_tipo
          contagem_por_estacao contagem_por_tipo_estacao = Raise e).
Proof.
  split; [| split].
  - intros out H. apply adicionar_linhas in H as (cb & Hcb & Hrows).
    split; [symmetry; exact (Forall2_length Hrows) |].
    split.
    + apply (Forall2_length_map _ _ _ _ _ (fun p0 p Hp => proj1 Hp) Hrows).
    + exists cb. split; [exact Hcb |].
      revert Hrows. apply Forall2_impl.
      intros p0 p (Hg & Ho & Ht & _). repeat split; auto.
      intros H1 H2. apply Ht. now split.
  - intros cb Hcb _ _ Hnum _ _. now apply (adicionar_retorna _ _ _ _ _ cb).
  - intros e He. unfold adicionar_contagens_ao_shapefile. now rewrite He.
Qed.


(* ================================================================== *)
(** * Further properties of the scripts *)

(* ------------------------------------------------------------------ *)
(** ** GeoJSON fixer: tallies, clean output, second run *)

Lemma conta_map {A B : Type} (g : A -> B) (p : B -> bool) (l : list A) :
  conta p (map g l) = conta (fun x => p (g x)) l.
Proof.
  induction l as [| x l IH]; [reflexivity |].
  cbn [map]. now rewrite !conta_cons, IH.
Qed.

Lemma conta_ext {A : Type} (p q : A -> bool) (l : list A) :
  (forall x, In x l -> p x = q x) -> conta p l = conta q l.
Proof.
  induction l as [| x l IH]; intros H; [reflexivity |].
  rewrite !conta_cons, (H x (or_introl eq_refl)), IH; [reflexivity |].
  intros y Hy. apply H. now right.
Qed.

Lemma conta_limites {A : Type} (p : A -> bool) (l : list A) :
  0 <= conta p l <= Z.of_nat (List.length l).
Proof.
  induction l as [| x l IH]; [unfold conta; simpl; lia |].
  rewrite conta_cons. cbn [List.length]. destruct (p x); lia.
Qed.

(** The flags a round of the loop returns are the three conditions of the
    feature it was given. *)
Lemma corrigir_feature_marcas (f f' : pyval) (m : bool * bool * bool) :
  corrigir_feature f = Ok (f', m) -> m = marcas_de f.
Proof.
  destruct f as [| | | | | | campos | | |]; simpl; try discriminate.
  unfold marcas_de, tem_coordenadas_vazias, tem_propriedade_vazia.
  assert (Hgeo : (if py_truthy (get_or "geometry" campos PNone)
                     && eh_dict (get_or "geometry" campos PNone)
                  then coords <- py_get (get_or "geometry" campos PNone) "coordinates" PNone ;;
                       Ok (eh_par_vazio coords)
                  else Ok false) = Ok (geometria_vazia campos)).
  { unfold geometria_vazia.
    destruct (get_or "geometry" campos PNone) as [| | | | | | g | | |]; simpl;
      rewrite ?andb_false_r; try reflexivity.
    destruct g; reflexivity. }
  rewrite Hgeo. cbn [bind]. clear Hgeo.
  assert (Hp1 : get_or "properties"
                  (if geometria_vazia campos then dict_set "geometry" PNone campos else campos)
                  PNone
                = get_or "properties" campos PNone).
  { destruct (geometria_vazia campos); [| reflexivity].
    apply get_or_set_neq. discriminate. }
  rewrite Hp1. clear Hp1.
  destruct (get_or "properties" campos PNone) as [| b | z | x | s | l | props | t | t |] eqn:Ep;
    cbn [py_truthy].
  all: try (intros H; injection H as _ <-; reflexivity).
  - destruct b; cbn [negb]; [discriminate |]. intros H; injection H as _ <-; reflexivity.
  - destruct (negb (z =? 0)%Z); [discriminate |]. intros H; injection H as _ <-; reflexivity.
  - destruct (negb (PrimFloat.eqb x 0)); [discriminate |].
    intros H; injection H as _ <-; reflexivity.
  - destruct (negb (s =? "")); [discriminate |]. intros H; injection H as _ <-; reflexivity.
  - destruct l; [| discriminate]. intros H; injection H as _ <-; reflexivity.
  - destruct props as [| kv props].
    + intros H; injection H as _ <-. reflexivity.
    + set (ps := kv :: props).
      destruct (anula_se_vazia_spec "latitude" ps) as (_ & Hoa & _ & Hfa).
      destruct (anula_se_vazia "latitude" ps) as [props1 lat]. cbn [fst snd] in *.
      destruct (anula_se_vazia_spec "longitude" props1) as (_ & _ & _ & Hfb).
      destruct (anula_se_vazia "longitude" props1) as [props2 lon]. cbn [fst snd] in *.
      intros H; injection H as _ <-. subst lat lon. f_equal.
      unfold campo_vazio, get_or. rewrite Hoa; [reflexivity | discriminate].
  - discriminate.
  - discriminate.
  - discriminate.
Qed.

Lemma a_corrigir_nada (f : pyval) : a_corrigir f = negb (nada_a_corrigir f).
Proof.
  unfold a_corrigir, tem_coordenadas_vazias, tem_propriedade_vazia.
  destruct f as [| | | | | | campos | | |]; try reflexivity.
  cbn [nada_a_corrigir].
  destruct (geometria_vazia campos); cbn [negb andb orb]; [reflexivity |].
  destruct (get_or "properties" campos PNone); try reflexivity.
  now rewrite negb_andb, !negb_involutive.
Qed.

(** What a round of the loop leaves: a feature that meets none of the three
    conditions, and that the loop accepts again. *)
Lemma corrigida_limpa (f f' : pyval) :
  feature_corrigivel f = true ->
  feature_corrigida f f' ->
  feature_corrigivel f' = true /\ nada_a_corrigir f' = true.
Proof.
  intros Hc (campos & campos' & -> & -> & _ & _ & Hg & Hp).
  cbn [feature_corrigivel nada_a_corrigir] in *.
  assert (Hgeo : geometria_vazia campos' = false).
  { unfold geometria_vazia, get_or in *. rewrite Hg.
    destruct (dict_get "geometry" campos) as [[| | | | | | g | | |] |]; try reflexivity.
    destruct (eh_par_vazio match dict_get "coordinates" g with
                           | Some v => v
                           | None => PNone
                           end) eqn:E; [reflexivity | exact E]. }
  rewrite Hgeo. cbn [negb andb].
  unfold get_or in *.
  destruct (dict_get "properties" campos) as [[| | | | | | props | | |] |] eqn:Ep;
    try (rewrite Hp; auto; fail).
  destruct Hp as (props' & -> & _ & _ & Hlat & Hlon).
  split; [cbn [eh_dict]; apply orb_true_r |].
  unfold campo_vazio, get_or in *. rewrite Hlat, Hlon.
  destruct (eh_str_vazia match dict_get "latitude" props with
                         | Some v => v
                         | None => PNone
                         end) eqn:E1;
    destruct (eh_str_vazia match dict_get "longitude" props with
                           | Some v => v
                           | None => PNone
                           end) eqn:E2;
    cbn [eh_str_vazia negb andb]; rewrite ?E1, ?E2; reflexivity.
Qed.

Lemma corrigida_de_spec (f f' : pyval) :
  feature_corrigivel f = true ->
  corrigida_de f f' ->
  feature_corrigida f f'
  /\ (nada_a_corrigir f = true -> f' = f)
  /\ feature_corrigivel f' = true
  /\ nada_a_corrigir f' = true.
Proof.
  intros Hc [m Hm].
  destruct (corrigir_feature_spec f Hc) as (f1 & m1 & H1 & Hcor & Hn).
  rewrite Hm in H1. injection H1 as <- <-.
  destruct (corrigida_limpa f f' Hc Hcor) as [Hc' Hn'].
  auto.
Qed.

Lemma dict_set_features_igual (d : dict string pyval) (fs : list pyval) :
  get_or "features" d (PList []) = PList fs -> documento_corrigido d fs = d.
Proof.
  unfold documento_corrigido, dict_in, get_or.
  destruct (dict_get "features" d) as [v |] eqn:E; [| reflexivity].
  intros ->. now apply dict_set_same.
Qed.

Lemma documento_corrigido_features (d : dict string pyval) (fs fs' : list pyval) :
  get_or "features" d (PList []) = PList fs ->
  List.length fs' = List.length fs ->
  get_or "features" (documento_corrigido d fs') (PList []) = PList fs'.
Proof.
  unfold documento_corrigido, dict_in, get_or.
  destruct (dict_get "features" d) as [v |] eqn:E.
  - intros _ _. now rewrite dict_get_set_eq.
  - rewrite E. intros H Hl. injection H as <-. now destruct fs'.
Qed.

(** The whole run of the fixer on a document of the expected shape. *)
Lemma corrigir_geojson_executa (d : dict string pyval) (fs : list pyval) :
  get_or "features" d (PList []) = PList fs ->
  forallb feature_corrigivel fs = true ->
  exists fs',
    Forall2 corrigida_de fs fs'
    /\ corrigir_geojson (PDict d) =
       (relatorio_de fs, Ok (estatisticas_de fs, PDict (documento_corrigido d fs'))).
Proof.
  intros Hd Hfs.
  destruct (mapM_Forall2 corrigir_feature
              (fun f y => corrigir_feature f = Ok y /\ snd y = marcas_de f) fs)
    as (corrigidas & Hmap & Hall).
  { intros f Hin. rewrite forallb_forall in Hfs.
    destruct (corrigir_feature_spec f (Hfs f Hin)) as (f' & m & Hf & _).
    exists (f', m). split; [exact Hf |]. split; [exact Hf |].
    exact (corrigir_feature_marcas f f' m Hf). }
  assert (Hmarcas : map snd corrigidas = map marcas_de fs).
  { clear - Hall. induction Hall as [| f y fs ys [_ Hy] _ IH]; [reflexivity |].
    cbn [map]. now rewrite Hy, IH. }
  exists (map fst corrigidas). split.
  - clear - Hall. induction Hall as [| f [f' m] fs ys [Hy _] _ IH]; constructor; auto.
    now exists m.
  - unfold corrigir_geojson, relatorio_de, estatisticas_de.
    cbn [py_get]. rewrite Hd.
    cbv [bind_io lift print ret py_len py_iter]. rewrite Hmap.
    cbv [app]. rewrite Hmarcas, !conta_map.
    cbn [coordenadas_vazias latitude_vazia longitude_vazia].
    unfold marcas_de at 1 2 3 4 5 6. cbn [fst snd].
    f_equal. f_equal. f_equal.
    unfold documento_corrigido, dict_in, get_or in *.
    destruct (dict_get "features" d) as [v |]; [now subst v |].
    reflexivity.
Qed.


Lemma conta_orb {A : Type} (p q : A -> bool) (l : list A) :
  conta (fun x => p x || q x) l <= conta p l + conta q l.
Proof.
  induction l as [| x l IH]; [unfold conta; simpl; lia |].
  rewrite !conta_cons. destruct (p x), (q x); cbn [orb]; lia.
Qed.

Lemma conta_zero {A : Type} (p : A -> bool) (l : list A) :
  Forall (fun x => p x = false) l -> conta p l = 0.
Proof.
  intros H. rewrite Forall_forall in H.
  rewrite (conta_ext p (fun _ => false) l H). now apply conta_falso.
Qed.

(** X1. On a document whose [features] is a list of objects (their
    [properties] objects, or absent, [null] or empty), each tally the fixer
    returns is the number of input features that meet its condition: empty
    coordinates, empty latitude, empty longitude; [total_features] is the
    number of features.  It prints these numbers and the number of features
    that meet some condition; that number is at most the number of features,
    at least each tally, and at most their sum. *)
Theorem corrigir_geojson_contagens (d : dict string pyval) (fs : list pyval) :
  get_or "features" d (PList []) = PList fs ->
  forallb feature_corrigivel fs = true ->
  exists stats doc,
    result (corrigir_geojson (PDict d)) = Ok (stats, doc)
    /\ coordenadas_vazias stats = conta tem_coordenadas_vazias fs
    /\ latitude_vazia stats = conta (tem_propriedade_vazia "latitude") fs
    /\ longitude_vazia stats = conta (tem_propriedade_vazia "longitude") fs
    /\ total_features stats = Z.of_nat (List.length fs)
    /\ printed (corrigir_geojson (PDict d)) =
       [MsgTotalFeatures (total_features stats);
        MsgFeaturesCorrigidas (conta a_corrigir fs);
        MsgCorrecoes (coordenadas_vazias stats) (latitude_vazia stats)
                     (longitude_vazia stats)]
    /\ conta a_corrigir fs <= total_features stats
    /\ coordenadas_vazias stats <= conta a_corrigir fs
    /\ latitude_vazia stats <= conta a_corrigir fs
    /\ longitude_vazia stats <= conta a_corrigir fs
    /\ conta a_corrigir fs
       <= coordenadas_vazias stats + latitude_vazia stats + longitude_vazia stats.
Proof.
  intros Hd Hfs.
  destruct (corrigir_geojson_executa d fs Hd Hfs) as (fs' & _ & Hrun).
  exists (estatisticas_de fs), (PDict (documento_corrigido d fs')).
  rewrite Hrun. cbn [result printed fst snd estatisticas_de coordenadas_vazias
                     latitude_vazia longitude_vazia total_features].
  repeat split.
  - apply conta_limites.
  - apply conta_le. intros f Hf. unfold a_corrigir. now rewrite Hf.
  - apply conta_le. intros f Hf. unfold a_corrigir. rewrite Hf. now rewrite orb_true_r.
  - apply conta_le. intros f Hf. unfold a_corrigir. rewrite Hf. now rewrite orb_true_r.
  - unfold a_corrigir.
    pose proof (conta_orb (fun f => tem_coordenadas_vazias f
                                    || tem_propriedade_vazia "latitude" f)
                  (tem_propriedade_vazia "longitude") fs) as H1.
    pose proof (conta_orb tem_coordenadas_vazias (tem_propriedade_vazia "latitude") fs) as H2.
    cbv beta in H1. lia.
Qed.

Lemma corrigidas_limpas (fs fs' : list pyval) :
  forallb feature_corrigivel fs = true ->
  Forall2 corrigida_de fs fs' ->
  forallb feature_corrigivel fs' = true
  /\ Forall (fun f' => nada_a_corrigir f' = true) fs'.
Proof.
  intros Hfs H. induction H as [| f f' fs fs' Hf _ IH].
  - split; [reflexivity | constructor].
  - cbn [forallb] in Hfs. apply andb_prop in Hfs as [Hc Hfs].
    destruct (corrigida_de_spec f f' Hc Hf) as (_ & _ & Hc' & Hn').
    destruct (IH Hfs) as [IH1 IH2].
    split; [cbn [forallb]; now rewrite Hc', IH1 | now constructor].
Qed.

Lemma nada_a_corrigir_marcas (f : pyval) :
  nada_a_corrigir f = true ->
  tem_coordenadas_vazias f = false
  /\ tem_propriedade_vazia "latitude" f = false
  /\ tem_propriedade_vazia "longitude" f = false.
Proof.
  intros H. pose proof (a_corrigir_nada f) as Ha. rewrite H in Ha.
  unfold a_corrigir in Ha. cbn [negb] in Ha.
  apply orb_false_elim in Ha as [Ha H3]. apply orb_false_elim in Ha as [H1 H2].
  auto.
Qed.

(** X2. After the fixer no feature of the document it writes has the
    coordinates [["", ""]], nor an empty string under [latitude] or
    [longitude]. *)
Theorem corrigir_geojson_deixa_limpo (d : dict string pyval) (fs : list pyval) :
  get_or "features" d (PList []) = PList fs ->
  forallb feature_corrigivel fs = true ->
  exists stats d' fs',
    result (corrigir_geojson (PDict d)) = Ok (stats, PDict d')
    /\ get_or "features" d' (PList []) = PList fs'
    /\ Forall (fun f' =>
                 tem_coordenadas_vazias f' = false
                 /\ tem_propriedade_vazia "latitude" f' = false
                 /\ tem_propriedade_vazia "longitude" f' = false) fs'.
Proof.
  intros Hd Hfs.
  destruct (corrigir_geojson_executa d fs Hd Hfs) as (fs' & Hcor & Hrun).
  exists (estatisticas_de fs), (documento_corrigido d fs'), fs'.
  rewrite Hrun. split; [reflexivity |].
  split.
  - apply (documento_corrigido_features d fs fs' Hd).
    symmetry. exact (Forall2_length Hcor).
  - destruct (corrigidas_limpas fs fs' Hfs Hcor) as [_ Hlimpas].
    revert Hlimpas. apply Forall_impl. intros f'. apply nada_a_corrigir_marcas.
Qed.

Lemma Forall2_corrigida_igual (fs fs' : list pyval) :
  forallb feature_corrigivel fs = true ->
  Forall (fun f => nada_a_corrigir f = true) fs ->
  Forall2 corrigida_de fs fs' -> fs' = fs.
Proof.
  intros Hfs Hn H. induction H as [| f f' fs fs' Hf _ IH]; [reflexivity |].
  cbn [forallb] in Hfs. apply andb_prop in Hfs as [Hc Hfs].
  inversion Hn as [| ? ? Hnf Hnfs]; subst.
  destruct (corrigida_de_spec f f' Hc Hf) as (_ & Hsame & _).
  now rewrite (Hsame Hnf), (IH Hfs Hnfs).
Qed.

(** X3. The fixer is idempotent: run on the document it wrote, it corrects
    nothing (all three tallies are zero, and it says so) and writes the same
    document again. *)
Theorem corrigir_geojson_idempotente (d : dict string pyval) (fs : list pyval) :
  get_or "features" d (PList []) = PList fs ->
  forallb feature_corrigivel fs = true ->
  exists stats d',
    result (corrigir_geojson (PDict d)) = Ok (stats, PDict d')
    /\ corrigir_geojson (PDict d') =
       ([MsgTotalFeatures (total_features stats);
         MsgFeaturesCorrigidas 0;
         MsgCorrecoes 0 0 0],
        Ok ({| coordenadas_vazias := 0; latitude_vazia := 0; longitude_vazia := 0;
               total_features := total_features stats |},
            PDict d')).
Proof.
  intros Hd Hfs.
  destruct (corrigir_geojson_executa d fs Hd Hfs) as (fs' & Hcor & Hrun).
  exists (estatisticas_de fs), (documento_corrigido d fs').
  rewrite Hrun. split; [reflexivity |].
  pose proof (Forall2_length Hcor) as Hlen.
  pose proof (documento_corrigido_features d fs fs' Hd (eq_sym Hlen)) as Hd'.
  destruct (corrigidas_limpas fs fs' Hfs Hcor) as [Hfs' Hlimpas].
  destruct (corrigir_geojson_executa _ fs' Hd' Hfs') as (fs'' & Hcor' & Hrun').
  rewrite Hrun'.
  rewrite (Forall2_corrigida_igual fs' fs'' Hfs' Hlimpas Hcor').
  rewrite (dict_set_features_igual _ fs' Hd').
  unfold relatorio_de, estatisticas_de. cbn [total_features]. rewrite Hlen.
  assert (H1 : conta tem_coordenadas_vazias fs' = 0).
  { apply conta_zero. revert Hlimpas. apply Forall_impl.
    intros f Hf. now destruct (nada_a_corrigir_marcas f Hf) as (H & _ & _). }
  assert (H2 : conta (tem_propriedade_vazia "latitude") fs' = 0).
  { apply conta_zero. revert Hlimpas. apply Forall_impl.
    intros f Hf. now destruct (nada_a_corrigir_marcas f Hf) as (_ & H & _). }
  assert (H3 : conta (tem_propriedade_vazia "longitude") fs' = 0).
  { apply conta_zero. revert Hlimpas. apply Forall_impl.
    intros f Hf. now destruct (nada_a_corrigir_marcas f Hf) as (_ & _ & H). }
  assert (H4 : conta a_corrigir fs' = 0).
  { apply conta_zero. revert Hlimpas. apply Forall_impl.
    intros f Hf. rewrite a_corrigir_nada, Hf. reflexivity. }
  now rewrite H1, H2, H3, H4.
Qed.


(* ------------------------------------------------------------------ *)
(** ** The fixer before the reader and before the splitter *)

Lemma geometria_vazia_forma (campos : dict string pyval) :
  geometria_vazia campos = true ->
  exists g a b,
    dict_get "geometry" campos = Some (PDict g)
    /\ dict_get "coordinates" g = Some (PList [a; b])
    /\ eh_str_vazia a = true /\ eh_str_vazia b = true.
Proof.
  unfold geometria_vazia, get_or.
  destruct (dict_get "geometry" campos) as [[| | | | | | g | | |] |]; try discriminate.
  destruct (dict_get "coordinates" g) as [[| | | | | [| a [| b [| c r]]] | | | |] |] eqn:Ec;
    try discriminate.
  cbn [eh_par_vazio]. intros H. apply andb_prop in H as [Ha Hb].
  exists g, a, b. auto.
Qed.

(** What a round of the fixer's loop keeps of a feature: whether the reader
    accepts it and its shape for the reader. *)
Lemma corrigida_preserva_geometria (f f' : pyval) :
  feature_corrigida f f' ->
  geometria_aceita f' = geometria_aceita f
  /\ feature_legivel f' = feature_legivel f.
Proof.
  intros (campos & campos' & -> & -> & _ & _ & Hg & _).
  cbn [geometria_aceita feature_legivel]. unfold get_or. rewrite Hg.
  destruct (geometria_vazia campos) eqn:Egv; [| auto].
  destruct (geometria_vazia_forma campos Egv) as (g & a & b & -> & -> & Ha & _).
  cbn [primeiras_coordenadas]. unfold coordenada_numerica. rewrite Ha. auto.
Qed.

(** It also keeps its shape for the splitter, and every property but
    [latitude] and [longitude]. *)
Lemma corrigida_preserva_propriedades (f f' : pyval) :
  feature_corrigida f f' ->
  feature_bem_formada f' = feature_bem_formada f
  /\ (forall col, col <> "latitude" -> col <> "longitude" ->
        dict_get col (propriedades f') = dict_get col (propriedades f)).
Proof.
  intros (campos & campos' & -> & -> & _ & _ & _ & Hp).
  cbn [feature_bem_formada propriedades]. unfold get_or.
  destruct (dict_get "properties" campos) as [[| | | | | | props | | |] |];
    try (rewrite Hp; auto; fail).
  destruct Hp as (props' & -> & _ & Ho & _). auto.
Qed.

Lemma corrigida_de_geometria (f f' : pyval) :
  feature_corrigivel f = true ->
  corrigida_de f f' ->
  geometria_aceita f' = geometria_aceita f
  /\ feature_legivel f' = feature_legivel f.
Proof.
  intros Hc Hf. apply corrigida_preserva_geometria.
  now destruct (corrigida_de_spec f f' Hc Hf) as (H & _).
Qed.

Lemma corrigida_de_propriedades (f f' : pyval) :
  feature_corrigivel f = true ->
  corrigida_de f f' ->
  feature_bem_formada f' = feature_bem_formada f
  /\ (forall col, col <> "latitude" -> col <> "longitude" ->
        dict_get col (propriedades f') = dict_get col (propriedades f)).
Proof.
  intros Hc Hf. apply corrigida_preserva_propriedades.
  now destruct (corrigida_de_spec f f' Hc Hf) as (H & _).
Qed.

Lemma Forall2_forallb {A : Type} (R : A -> A -> Prop) (p q : A -> bool) (l l' : list A) :
  Forall2 (fun x y => R x y /\ p x = true) l l' ->
  (forall x y, R x y -> p x = true -> q y = q x) ->
  forallb q l = true -> forallb q l' = true.
Proof.
  intros H Hq. induction H as [| x y l l' [Hxy Hp] _ IH]; [reflexivity |].
  cbn [forallb]. intros Hl. apply andb_prop in Hl as [Hx Hl].
  now rewrite (Hq x y Hxy Hp), Hx, IH.
Qed.

Lemma Forall2_com_forallb {A : Type} (R : A -> A -> Prop) (p : A -> bool) (l l' : list A) :
  forallb p l = true -> Forall2 R l l' -> Forall2 (fun x y => R x y /\ p x = true) l l'.
Proof.
  intros Hp H. induction H as [| x y l l' Hxy _ IH]; [constructor |].
  cbn [forallb] in Hp. apply andb_prop in Hp as [Hx Hl]. constructor; auto.
Qed.

Lemma Forall2_filter {A : Type} (R : A -> A -> Prop) (p q : A -> bool) (l l' : list A) :
  Forall2 R l l' ->
  (forall x y, R x y -> q y = p x) ->
  Forall2 R (filter p l) (filter q l')
  /\ conta (fun y => negb (q y)) l' = conta (fun x => negb (p x)) l.
Proof.
  intros H Hq. induction H as [| x y l l' Hxy _ [IH1 IH2]].
  - split; [constructor | reflexivity].
  - cbn [filter]. rewrite !conta_cons, (Hq x y Hxy), IH2.
    split; [| reflexivity].
    destruct (p x); [constructor |]; auto.
Qed.

(** X4. The fixer does not change what the reader's loop keeps: on the
    document the fixer wrote the loop keeps the corrected versions of the
    features it keeps on the raw document, in the same order, and counts as
    many rejected features.  On either document the reader prints that
    count when it is positive and goes on as [GeoDataFrame.from_features]
    does on the features kept. *)
Theorem leitor_depois_do_corretor (d : dict string pyval) (fs : list pyval) :
  get_or "features" d (PList []) = PList fs ->
  forallb feature_corrigivel fs = true ->
  forallb feature_legivel fs = true ->
  exists stats d' l l' n,
    result (corrigir_geojson (PDict d)) = Ok (stats, PDict d')
    /\ features_filtradas (PDict d) = Ok (l, n)
    /\ features_filtradas (PDict d') = Ok (l', n)
    /\ Forall2 corrigida_de l l'
    /\ ler_ocorrencias (PDict d) = leitura_de n (from_features l)
    /\ ler_ocorrencias (PDict d') = leitura_de n (from_features l').
Proof.
  intros Hd Hc Hl.
  destruct (corrigir_geojson_executa d fs Hd Hc) as (fs' & Hcor & Hrun).
  pose proof (documento_corrigido_features d fs fs' Hd (eq_sym (Forall2_length Hcor))) as Hd'.
  pose proof (Forall2_com_forallb corrigida_de feature_corrigivel fs fs' Hc Hcor) as Hcor2.
  assert (Hl' : forallb feature_legivel fs' = true).
  { apply (Forall2_forallb corrigida_de feature_corrigivel feature_legivel fs fs' Hcor2);
      [| exact Hl].
    intros f f' Hf Hfc. now destruct (corrigida_de_geometria f f' Hfc Hf) as (_ & H). }
  assert (Hfil : Forall2 (fun f f' => corrigida_de f f' /\ feature_corrigivel f = true)
                   (filter geometria_aceita fs) (filter geometria_aceita fs')
                 /\ conta (fun f => negb (geometria_aceita f)) fs'
                    = conta (fun f => negb (geometria_aceita f)) fs).
  { apply Forall2_filter; [exact Hcor2 |].
    intros f f' [Hf Hfc]. now destruct (corrigida_de_geometria f f' Hfc Hf) as (H & _). }
  destruct Hfil as [Hfil Hconta].
  destruct (ler_ocorrencias_executa d fs Hd Hl) as [Hf1 Hr1].
  destruct (ler_ocorrencias_executa _ fs' Hd' Hl') as [Hf2 Hr2].
  exists (estatisticas_de fs), (documento_corrigido d fs'),
         (filter geometria_aceita fs), (filter geometria_aceita fs'),
         (conta (fun f => negb (geometria_aceita f)) fs).
  rewrite Hrun. cbn [result snd].
  split; [reflexivity |]. split; [exact Hf1 |].
  split; [now rewrite Hf2, Hconta |].
  split; [revert Hfil; apply Forall2_impl; now intros f f' [H _] |].
  split; [exact Hr1 |]. rewrite Hr2, Hconta. reflexivity.
Qed.

Lemma coluna_data_nao_latitude (col : string) :
  In col colunas_data -> col <> "latitude" /\ col <> "longitude".
Proof.
  unfold colunas_data. cbn [In].
  intros [<- | [<- | [<- | []]]]; split; discriminate.
Qed.

Lemma find_ext_In {A : Type} (p q : A -> bool) (l : list A) :
  (forall x, In x l -> p x = q x) -> find p l = find q l.
Proof.
  induction l as [| x l IH]; intros H; [reflexivity |].
  cbn [find]. rewrite (H x (or_introl eq_refl)), IH; [reflexivity |].
  intros y Hy. apply H. now right.
Qed.

(** The season the splitter gives a feature is the one it gives the
    corrected feature. *)
Lemma estacao_da_corrigida (coluna : option string) (f f' : pyval) :
  feature_corrigivel f = true ->
  corrigida_de f f' ->
  (forall col, coluna = Some col -> In col colunas_data) ->
  estacao_da_feature coluna f' = estacao_da_feature coluna f.
Proof.
  intros Hc Hf Hcol. destruct coluna as [col |]; [| reflexivity].
  destruct (coluna_data_nao_latitude col (Hcol col eq_refl)) as [H1 H2].
  destruct (corrigida_de_propriedades f f' Hc Hf) as (_ & Hp).
  unfold estacao_da_feature, valor_data, get_or. now rewrite (Hp col H1 H2).
Qed.

Lemma coluna_data_das_corrigidas (fs fs' : list pyval) :
  forallb feature_corrigivel fs = true ->
  Forall2 corrigida_de fs fs' ->
  coluna_data_das_features fs' = coluna_data_das_features fs.
Proof.
  intros Hc H. destruct H as [| f f' fs fs' Hf _]; [reflexivity |].
  cbn [forallb] in Hc. apply andb_prop in Hc as [Hc _].
  destruct (corrigida_de_propriedades f f' Hc Hf) as (_ & Hp).
  cbn [coluna_data_das_features]. apply find_ext_In.
  intros col Hin. destruct (coluna_data_nao_latitude col Hin) as [H1 H2].
  unfold dict_in. now rewrite (Hp col H1 H2).
Qed.

Lemma coluna_data_das_features_In (fs : list pyval) (col : string) :
  coluna_data_das_features fs = Some col -> In col colunas_data.
Proof.
  destruct fs as [| f fs]; [discriminate |].
  cbn [coluna_data_das_features]. intros H. now apply find_some in H as [H _].
Qed.

(** X5. The fixer does not change how the splitter splits: each season's
    list of the document the fixer wrote holds the corrected versions of
    the features of that season's list of the raw document, in the same
    order. *)
Theorem separador_depois_do_corretor (d : dict string pyval) (fs : list pyval) :
  get_or "features" d (PList []) = PList fs ->
  forallb feature_corrigivel fs = true ->
  forallb feature_bem_formada fs = true ->
  exists stats d' out out',
    result (corrigir_geojson (PDict d)) = Ok (stats, PDict d')
    /\ result (extrair_ocorrencias_por_estacao (PDict d)) = Ok out
    /\ result (extrair_ocorrencias_por_estacao (PDict d')) = Ok out'
    /\ forall e, Forall2 corrigida_de (get_or e out []) (get_or e out' []).
Proof.
  intros Hd Hc Hb.
  destruct (corrigir_geojson_executa d fs Hd Hc) as (fs' & Hcor & Hrun).
  pose proof (documento_corrigido_features d fs fs' Hd (eq_sym (Forall2_length Hcor))) as Hd'.
  pose proof (Forall2_com_forallb corrigida_de feature_corrigivel fs fs' Hc Hcor) as Hcor2.
  assert (Hb' : forallb feature_bem_formada fs' = true).
  { apply (Forall2_forallb corrigida_de feature_corrigivel feature_bem_formada fs fs' Hcor2);
      [| exact Hb].
    intros f f' Hf Hfc. now destruct (corrigida_de_propriedades f f' Hfc Hf) as (H & _). }
  destruct (extrair_filter d fs Hd Hb) as (out & Hout & Hget).
  destruct (extrair_filter _ fs' Hd' Hb') as (out' & Hout' & Hget').
  exists (estatisticas_de fs), (documento_corrigido d fs'), out, out'.
  rewrite Hrun. split; [reflexivity |]. split; [exact Hout |]. split; [exact Hout' |].
  intros e. rewrite Hget, Hget', (coluna_data_das_corrigidas fs fs' Hc Hcor).
  assert (Hfil : Forall2 (fun f f' => corrigida_de f f' /\ feature_corrigivel f = true)
                   (filter (fun f => eh_estacao e
                                       (estacao_da_feature (coluna_data_das_features fs) f)) fs)
                   (filter (fun f => eh_estacao e
                                       (estacao_da_feature (coluna_data_das_features fs) f)) fs')).
  { apply Forall2_filter; [exact Hcor2 |].
    intros f f' [Hf Hfc]. f_equal. apply estacao_da_corrigida; auto.
    intros col. apply coluna_data_das_features_In. }
  revert Hfil. apply Forall2_impl. now intros f f' [H _].
Qed.


(* ------------------------------------------------------------------ *)
(** ** Season splitter: its report and its early returns *)

(** One round of the splitter's loop: the lists, the two counters and the
    keys of the table. *)
Lemma separar_feature_contadores (col : string) (p : particoes) (f : pyval) :
  feature_bem_formada f = true ->
  exists p',
    separar_feature col p f = Ok p'
    /\ ocorrencias_sem_data p' =
       ocorrencias_sem_data p + b2z (sem_data_na_feature col f)
    /\ ocorrencias_sem_estacao p' =
       ocorrencias_sem_estacao p + b2z (sem_estacao_na_feature col f)
    /\ (forall e,
          dict_in e (ocorrencias_por_estacao p') =
          dict_in e (ocorrencias_por_estacao p)
          || eh_estacao e (estacao_da_feature (Some col) f)).
Proof.
  intros Hf.
  unfold separar_feature, sem_estacao_na_feature, sem_data_na_feature,
    estacao_da_feature, valor_data.
  rewrite (bem_formada_propriedades f Hf). cbn [py_get bind].
  destruct (sem_data (get_or col (propriedades f) PNone)).
  - eexists. split; [reflexivity |].
    cbn [ocorrencias_sem_data ocorrencias_sem_estacao ocorrencias_por_estacao
         negb andb b2z eh_estacao].
    repeat split; intros; rewrite ?orb_false_r; lia || reflexivity.
  - destruct (determinar_sempre_retorna (get_or col (propriedades f) PNone)) as [r Hr].
    rewrite Hr. cbn [bind]. destruct r as [e' |].
    + eexists. split; [reflexivity |].
      cbn [ocorrencias_sem_data ocorrencias_sem_estacao ocorrencias_por_estacao
           negb andb b2z tem_estacao eh_estacao].
      repeat split; intros; try lia.
      unfold acrescenta. rewrite dict_in_set. cbn [chave_eqb Chave_estacao].
      apply orb_comm.
    + eexists. split; [reflexivity |].
      cbn [ocorrencias_sem_data ocorrencias_sem_estacao ocorrencias_por_estacao
           negb andb b2z tem_estacao eh_estacao].
      repeat split; intros; rewrite ?orb_false_r; lia || reflexivity.
Qed.

Lemma separar_features_contadores (col : string) (fs : list pyval) :
  forallb feature_bem_formada fs = true ->
  forall p,
  exists p',
    foldM (separar_feature col) fs p = Ok p'
    /\ ocorrencias_sem_data p' =
       ocorrencias_sem_data p + conta (sem_data_na_feature col) fs
    /\ ocorrencias_sem_estacao p' =
       ocorrencias_sem_estacao p + conta (sem_estacao_na_feature col) fs
    /\ (forall e,
          dict_in e (ocorrencias_por_estacao p') =
          dict_in e (ocorrencias_por_estacao p)
          || existsb (fun f => eh_estacao e (estacao_da_feature (Some col) f)) fs).
Proof.
  induction fs as [| f fs IH]; intros Hfs p.
  - exists p. split; [reflexivity |]. unfold conta. cbn.
    repeat split; intros; rewrite ?orb_false_r; lia || reflexivity.
  - cbn [forallb] in Hfs. apply andb_prop in Hfs as [Hf Hfs].
    destruct (separar_feature_contadores col p f Hf) as (p1 & H1 & A1 & B1 & C1).
    destruct (IH Hfs p1) as (p' & H' & A' & B' & C').
    exists p'. cbn [foldM]. rewrite H1. cbn [bind].
    split; [exact H' |].
    rewrite !conta_cons, A', B', A1, B1. unfold b2z.
    repeat split; try lia.
    intros e. rewrite C', C1. cbn [existsb]. now rewrite orb_assoc.
Qed.

(** Every feature is counted once: without a date, without a season, or
    in the list of its season. *)
Lemma conta_sem_estacao (col : string) (fs : list pyval) :
  Z.of_nat (List.length
              (filter (fun f => match estacao_da_feature (Some col) f with
                                | None => true
                                | Some _ => false
                                end) fs))
  = conta (sem_data_na_feature col) fs + conta (sem_estacao_na_feature col) fs.
Proof.
  induction fs as [| f fs IH]; [reflexivity |].
  rewrite !conta_cons. cbn [filter].
  assert (H : (if sem_data_na_feature col f then 1 else 0)
              + (if sem_estacao_na_feature col f then 1 else 0)
              = if match estacao_da_feature (Some col) f with
                   | None => true
                   | Some _ => false
                   end then 1 else 0).
  { unfold sem_estacao_na_feature, sem_data_na_feature, estacao_da_feature, valor_data.
    destruct (sem_data (get_or col (propriedades f) PNone)); [reflexivity |].
    destruct (determinar_estacao_hemisferio_sul (get_or col (propriedades f) PNone))
      as [[e |] | err]; reflexivity. }
  destruct (match estacao_da_feature (Some col) f with
            | None => true
            | Some _ => false
            end); cbn [List.length]; lia.
Qed.

(** The whole run of the splitter once it settled on the column [col]. *)
Lemma extrair_executa (d : dict string pyval) (fs : list pyval) (col : string) :
  get_or "features" d (PList []) = PList fs ->
  forallb feature_bem_formada fs = true ->
  coluna_data_das_features fs = Some col ->
  exists p,
    foldM (separar_feature col) fs particoes_vazias = Ok p
    /\ extrair_ocorrencias_por_estacao (PDict d) =
       ([MsgAgrupando; MsgUsandoColunaData col;
         MsgOcorrenciasSemData (ocorrencias_sem_data p);
         MsgOcorrenciasSemEstacao (ocorrencias_sem_estacao p);
         MsgOcorrenciasDaEstacao verao
           (Z.of_nat (List.length (get_or verao (ocorrencias_por_estacao p) [])));
         MsgOcorrenciasDaEstacao outono
           (Z.of_nat (List.length (get_or outono (ocorrencias_por_estacao p) [])));
         MsgOcorrenciasDaEstacao inverno
           (Z.of_nat (List.length (get_or inverno (ocorrencias_por_estacao p) [])));
         MsgOcorrenciasDaEstacao primavera
           (Z.of_nat (List.length (get_or primavera (ocorrencias_por_estacao p) [])))],
        Ok (ocorrencias_por_estacao p)).
Proof.
  intros Hd Hfs Hcol.
  destruct (separar_features_contadores col fs Hfs particoes_vazias) as (p & Hp & _).
  exists p. split; [exact Hp |].
  destruct fs as [| f fs]; [discriminate Hcol |].
  pose proof Hfs as Hfs'. cbn [forallb] in Hfs'. apply andb_prop in Hfs' as [Hf _].
  cbn [coluna_data_das_features] in Hcol.
  unfold extrair_ocorrencias_por_estacao.
  cbn [py_get]. rewrite Hd.
  cbv [bind_io lift print ret py_truthy negb py_item nth_error].
  rewrite (bem_formada_propriedades f Hf), primeira_coluna_em_dict, Hcol.
  cbv [py_iter]. rewrite Hp. reflexivity.
Qed.

(** X6. Once the splitter has settled on a date column, its report counts
    every feature once: the features it reports without a date are those
    whose value in that column is missing or blank, the features it reports
    without a season are those with a value that the classifier does not
    place, the four season counts are the lengths of the four lists, and the
    six numbers add up to the number of features. *)
Theorem extrair_relatorio (d : dict string pyval) (fs : list pyval) (col : string) :
  get_or "features" d (PList []) = PList fs ->
  forallb feature_bem_formada fs = true ->
  coluna_data_das_features fs = Some col ->
  exists out,
    result (extrair_ocorrencias_por_estacao (PDict d)) = Ok out
    /\ printed (extrair_ocorrencias_por_estacao (PDict d)) =
       [MsgAgrupando; MsgUsandoColunaData col;
        MsgOcorrenciasSemData (conta (sem_data_na_feature col) fs);
        MsgOcorrenciasSemEstacao (conta (sem_estacao_na_feature col) fs);
        MsgOcorrenciasDaEstacao verao (Z.of_nat (List.length (get_or verao out [])));
        MsgOcorrenciasDaEstacao outono (Z.of_nat (List.length (get_or outono out [])));
        MsgOcorrenciasDaEstacao inverno (Z.of_nat (List.length (get_or inverno out [])));
        MsgOcorrenciasDaEstacao primavera (Z.of_nat (List.length (get_or primavera out [])))]
    /\ conta (sem_data_na_feature col) fs + conta (sem_estacao_na_feature col) fs
       + Z.of_nat (List.length (get_or verao out []))
       + Z.of_nat (List.length (get_or outono out []))
       + Z.of_nat (List.length (get_or inverno out []))
       + Z.of_nat (List.length (get_or primavera out []))
       = Z.of_nat (List.length fs).
Proof.
  intros Hd Hfs Hcol.
  destruct (extrair_executa d fs col Hd Hfs Hcol) as (p & Hp & Hrun).
  destruct (separar_features_contadores col fs Hfs particoes_vazias)
    as (p1 & Hp1 & Hn1 & Hn2 & _).
  rewrite Hp in Hp1. injection Hp1 as <-.
  destruct (separar_features_filter col fs Hfs particoes_vazias) as (p2 & Hp2 & Hget).
  rewrite Hp in Hp2. injection Hp2 as <-.
  exists (ocorrencias_por_estacao p). rewrite Hrun. cbn [result printed fst snd].
  cbn [particoes_vazias ocorrencias_sem_data ocorrencias_sem_estacao] in Hn1, Hn2.
  rewrite Hn1, Hn2. cbn [Z.add].
  split; [reflexivity |]. split; [reflexivity |].
  pose proof (particao_por_estacao_length (estacao_da_feature (Some col)) fs) as Hlen.
  pose proof (conta_sem_estacao col fs) as Hsem.
  unfold estacoes in Hlen. cbn [map List.concat] in Hlen.
  rewrite app_nil_r, !length_app in Hlen.
  rewrite !Hget. cbn [particoes_vazias ocorrencias_por_estacao get_or dict_get app].
  lia.
Qed.

(** X7. The splitter's early returns: when [features] is missing or empty
    it warns and returns no list at all; when the first feature has none of
    the three date fields among its properties it reports the error and
    returns no list at all, whatever the other features hold. *)
Theorem extrair_retornos_antecipados (d : dict string pyval) :
  (py_truthy (get_or "features" d (PList [])) = false ->
   extrair_ocorrencias_por_estacao (PDict d)
   = ([MsgAgrupando; MsgAvisoNenhumaFeature], Ok []))
  /\ (forall f fs,
        get_or "features" d (PList []) = PList (f :: fs) ->
        feature_bem_formada f = true ->
        (forall col, In col colunas_data -> dict_in col (propriedades f) = false) ->
        extrair_ocorrencias_por_estacao (PDict d)
        = ([MsgAgrupando; MsgErroNenhumaColunaData], Ok [])).
Proof.
  split.
  - intros H. unfold extrair_ocorrencias_por_estacao. cbn [py_get].
    cbv [bind_io lift print ret]. rewrite H. reflexivity.
  - intros f fs Hd Hf Hcols. unfold extrair_ocorrencias_por_estacao.
    cbn [py_get]. rewrite Hd.
    cbv [bind_io lift print ret py_truthy negb py_item nth_error].
    rewrite (bem_formada_propriedades f Hf), primeira_coluna_em_dict.
    assert (Hfind : find (fun col => dict_in col (propriedades f)) colunas_data = None).
    { unfold colunas_data in *. cbn [find].
      rewrite !Hcols; cbn [In]; auto. }
    rewrite Hfind. reflexivity.
Qed.


(* ------------------------------------------------------------------ *)
(** ** Encoding detection *)

Lemma detectar_encoding_em_spec (carrega : string -> carga) (encs : list string) :
  match detectar_encoding_em carrega encs with
  | Ok enc =>
      (exists antes depois,
          encs = (antes ++ enc :: depois)%list
          /\ carregou (carrega enc) = true
          /\ forallb (fun e => falha_de_leitura (carrega e)) antes = true)
      \/ (enc = "utf-8"
          /\ forallb (fun e => falha_de_leitura (carrega e)) encs = true)
  | Raise err =>
      exists antes enc depois,
        encs = (antes ++ enc :: depois)%list
        /\ carrega enc = OutroErro err
        /\ forallb (fun e => falha_de_leitura (carrega e)) antes = true
  end.
Proof.
  induction encs as [| e encs IH]; cbn [detectar_encoding_em].
  - right. split; reflexivity.
  - destruct (carrega e) as [data | | | err] eqn:Ee.
    + left. exists [], encs. cbn [app forallb]. rewrite Ee. auto.
    + destruct (detectar_encoding_em carrega encs) as [enc | err].
      * destruct IH as [(antes & depois & -> & Hc & Ha) | [-> Hall]].
        -- left. exists (e :: antes), depois. cbn [app forallb]. rewrite Ee. auto.
        -- right. cbn [forallb]. rewrite Ee. auto.
      * destruct IH as (antes & enc & depois & -> & Hc & Ha).
        exists (e :: antes), enc, depois. cbn [app forallb]. rewrite Ee. auto.
    + destruct (detectar_encoding_em carrega encs) as [enc | err].
      * destruct IH as [(antes & depois & -> & Hc & Ha) | [-> Hall]].
        -- left. exists (e :: antes), depois. cbn [app forallb]. rewrite Ee. auto.
        -- right. cbn [forallb]. rewrite Ee. auto.
      * destruct IH as (antes & enc & depois & -> & Hc & Ha).
        exists (e :: antes), enc, depois. cbn [app forallb]. rewrite Ee. auto.
    + exists [], e, encs. cbn [app forallb]. auto.
Qed.

(** X8. [detectar_encoding] answers with the first of the four encodings
    under which the file decodes and parses, every encoding before it having
    failed with a decoding or a JSON error; when all four fail so, it answers
    ['utf-8'] all the same.  It raises only what an attempt raised that is
    neither of these errors (a file that cannot be opened, say), the
    encodings before that attempt having failed with them. *)
Theorem detectar_encoding_primeiro_que_carrega (carrega : string -> carga) :
  match detectar_encoding carrega with
  | Ok enc =>
      In enc encodings
      /\ ((exists antes depois,
              encodings = (antes ++ enc :: depois)%list
              /\ carregou (carrega enc) = true
              /\ forallb (fun e => falha_de_leitura (carrega e)) antes = true)
          \/ (enc = "utf-8"
              /\ forallb (fun e => falha_de_leitura (carrega e)) encodings = true))
  | Raise err =>
      exists antes enc depois,
        encodings = (antes ++ enc :: depois)%list
        /\ carrega enc = OutroErro err
        /\ forallb (fun e => falha_de_leitura (carrega e)) antes = true
  end.
Proof.
  unfold detectar_encoding.
  pose proof (detectar_encoding_em_spec carrega encodings) as H.
  destruct (detectar_encoding_em carrega encodings) as [enc | err]; [| exact H].
  split; [| exact H].
  destruct H as [(antes & depois & -> & _) | [-> _]].
  - apply in_or_app. right. now left.
  - now left.
Qed.


(* ------------------------------------------------------------------ *)
(** ** The splitter's script: one file per season that occurs *)

Lemma dict_keys_set_NoDup {K V : Type} `{Chave K} (k : K) (v : V) (d : dict K V) :
  NoDup (dict_keys d) -> NoDup (dict_keys (dict_set k v d)).
Proof.
  unfold dict_keys. induction d as [| [k' v'] d IH]; cbn [dict_set map fst].
  - intros _. constructor; [intros [] | constructor].
  - intros Hnd. inversion Hnd as [| ? ? Hk' Hd]; subst.
    destruct (chave_eqb_spec k k') as [-> | Hne]; cbn [map fst].
    + now constructor.
    + constructor; [| now apply IH].
      intros Hin. apply Hk'. clear - Hin Hne.
      induction d as [| [k2 v2] d IHd]; cbn [dict_set map fst In] in *.
      * destruct Hin as [-> | []]. congruence.
      * destruct (chave_eqb_spec k k2) as [-> | Hk2]; cbn [map fst In] in *; tauto.
Qed.

Lemma dict_get_In {K V : Type} `{Chave K} (k : K) (v : V) (d : dict K V) :
  dict_get k d = Some v -> In (k, v) d.
Proof.
  induction d as [| [k' v'] d IH]; cbn [dict_get]; [discriminate |].
  destruct (chave_eqb_spec k k') as [-> | Hne].
  - intros Hg. injection Hg as ->. now left.
  - intros Hg. right. auto.
Qed.

Lemma In_dict_get {K V : Type} `{Chave K} (k : K) (v : V) (d : dict K V) :
  NoDup (dict_keys d) -> In (k, v) d -> dict_get k d = Some v.
Proof.
  unfold dict_keys. induction d as [| [k' v'] d IH]; cbn [map fst In dict_get]; [tauto |].
  intros Hnd Hin. inversion Hnd as [| ? ? Hk' Hd]; subst.
  destruct Hin as [Heq | Hin].
  - injection Heq as -> ->. now rewrite chave_eqb_refl.
  - destruct (chave_eqb_spec k k') as [-> | Hne]; [| auto].
    exfalso. apply Hk'. apply in_map_iff. now exists (k', v).
Qed.

Lemma separar_features_chaves (col : string) (fs : list pyval) :
  forall p p',
    NoDup (dict_keys (ocorrencias_por_estacao p)) ->
    foldM (separar_feature col) fs p = Ok p' ->
    NoDup (dict_keys (ocorrencias_por_estacao p')).
Proof.
  induction fs as [| f fs IH]; intros p p' Hnd Hfold; cbn [foldM] in Hfold.
  - now injection Hfold as <-.
  - apply bind_Ok in Hfold as (p1 & H1 & H2).
    apply (IH p1 p'); [| exact H2].
    unfold separar_feature in H1.
    apply bind_Ok in H1 as (props & _ & H1).
    apply bind_Ok in H1 as (v & _ & H1).
    destruct (sem_data v); [now injection H1 as <- |].
    apply bind_Ok in H1 as ([e |] & _ & H1); injection H1 as <-;
      cbn [ocorrencias_por_estacao]; [| exact Hnd].
    now apply dict_keys_set_NoDup.
Qed.

(** The table the splitter returns: its keys are distinct, they are the
    seasons that occur, and each list is that of its season. *)
Lemma extrair_tabela (d : dict string pyval) (fs : list pyval) :
  get_or "features" d (PList []) = PList fs ->
  forallb feature_bem_formada fs = true ->
  exists impresso out,
    extrair_ocorrencias_por_estacao (PDict d) = (impresso, Ok out)
    /\ forall e l,
         In (e, l) out <->
         l = filter (fun f => eh_estacao e
                                (estacao_da_feature (coluna_data_das_features fs) f)) fs
         /\ existsb (fun f => eh_estacao e
                                (estacao_da_feature (coluna_data_das_features fs) f)) fs
            = true.
Proof.
  so_datas. intros Hd Hfs.
  destruct (coluna_data_das_features fs) as [col |] eqn:Ecol.
  - destruct (extrair_executa d fs col Hd Hfs Ecol) as (p & Hp & Hrun).
    destruct (separar_features_filter col fs Hfs particoes_vazias) as (p1 & Hp1 & Hget).
    rewrite Hp in Hp1. injection Hp1 as <-.
    destruct (separar_features_contadores col fs Hfs particoes_vazias)
      as (p2 & Hp2 & _ & _ & Hin).
    rewrite Hp in Hp2. injection Hp2 as <-.
    pose proof (separar_features_chaves col fs particoes_vazias p (NoDup_nil _) Hp) as Hnd.
    do 2 eexists. split; [exact Hrun |].
    cbn [particoes_vazias ocorrencias_por_estacao get_or dict_get dict_in app orb] in Hget, Hin.
    intros e l. split.
    + intros Hl. pose proof (In_dict_get e l _ Hnd Hl) as Hg.
      specialize (Hget e). specialize (Hin e).
      unfold get_or, dict_in in Hget, Hin. rewrite Hg in Hget, Hin.
      split; [now rewrite <- Hget | now rewrite <- Hin].
    + intros [-> Hex]. apply dict_get_In.
      specialize (Hget e). specialize (Hin e).
      unfold get_or, dict_in in Hget, Hin. rewrite Hex in Hin.
      destruct (dict_get e (ocorrencias_por_estacao p)) as [l |]; [| discriminate].
      now rewrite Hget.
  - destruct fs as [| f fs].
    + exists [MsgAgrupando; MsgAvisoNenhumaFeature], [].
      split.
      * unfold extrair_ocorrencias_por_estacao. cbn [py_get]. rewrite Hd. reflexivity.
      * intros e l. cbn [In existsb]. split; [tauto | intros [_ H]; discriminate].
    + exists [MsgAgrupando; MsgErroNenhumaColunaData], [].
      pose proof Hfs as Hfs'. cbn [forallb] in Hfs'. apply andb_prop in Hfs' as [Hf _].
      cbn [coluna_data_das_features] in Ecol.
      split.
      * unfold extrair_ocorrencias_por_estacao. cbn [py_get]. rewrite Hd.
        cbv [bind_io lift print ret py_truthy negb py_item nth_error].
        rewrite (bem_formada_propriedades f Hf), primeira_coluna_em_dict, Ecol.
        reflexivity.
      * intros e l. cbn [In]. split; [tauto |].
        intros [_ H]. exfalso. clear - H.
        induction (f :: fs) as [| x xs IH]; [discriminate |].
        cbn [existsb] in H. apply orb_prop in H as [H | H]; [discriminate | auto].
Qed.

Lemma existsb_filter {A : Type} (p : A -> bool) (l : list A) :
  existsb p l = true <-> filter p l <> [].
Proof.
  induction l as [| x l IH]; cbn [existsb filter]; [split; congruence |].
  destruct (p x); cbn [orb]; [split; [discriminate | reflexivity] | exact IH].
Qed.

Lemma nome_do_arquivo_inj (e e' : estacao) :
  nome_do_arquivo e = nome_do_arquivo e' -> e = e'.
Proof. destruct e, e'; intros H; try reflexivity; discriminate H. Qed.

(** X9. The splitter's script, on an input file that loads as a collection
    of well-formed features: [main] returns; for every season that some
    feature falls in, it tries to write that season's file, with the
    features of the season in input order, and a write that fails is
    reported and does not stop the others; nothing is written for a season
    without features, and no file is written with an empty list. *)
Theorem main_extrair_um_arquivo_por_estacao (carrega : string -> carga)
    (grava : string -> pyval -> res unit) (enc : string)
    (d : dict string pyval) (fs : list pyval) :
  detectar_encoding carrega = Ok enc ->
  carrega enc = Carregado (PDict d) ->
  get_or "features" d (PList []) = PList fs ->
  forallb feature_bem_formada fs = true ->
  let da_estacao := fun e =>
    filter (fun f => eh_estacao e (estacao_da_feature (coluna_data_das_features fs) f)) fs in
  let registros := fst (main_extrair true carrega (Ok tt) grava) in
  snd (main_extrair true carrega (Ok tt) grava) = Ok tt
  /\ (forall e,
        da_estacao e <> [] ->
        match grava (nome_do_arquivo e) (colecao_de (da_estacao e)) with
        | Ok _ => In (Gravado (nome_do_arquivo e) (colecao_de (da_estacao e))) registros
        | Raise err => In (MsgFalhaAoSalvar e err) registros
        end)
  /\ (forall arquivo doc,
        In (Gravado arquivo doc) registros ->
        exists e,
          arquivo = nome_do_arquivo e
          /\ doc = colecao_de (da_estacao e)
          /\ da_estacao e <> [])
  /\ (forall e, da_estacao e = [] ->
        forall doc, ~ In (Gravado (nome_do_arquivo e) doc) registros).
Proof.
  intros Henc Hcarga Hd Hfs da_estacao registros.
  destruct (extrair_tabela d fs Hd Hfs) as (impresso & out & Hrun & Hout).
  assert (Hex : forall e,
             existsb (fun f => eh_estacao e
                                 (estacao_da_feature (coluna_data_das_features fs) f)) fs
             = true <-> da_estacao e <> []).
  { intros e. apply existsb_filter. }
  assert (Hmain : main_extrair true carrega (Ok tt) grava =
                  (([MsgEncodingDetectado enc;
                     MsgTotalFeaturesCarregadas (Z.of_nat (List.length fs))]
                    ++ map Saida impresso ++ flat_map (salvar_estacao grava) out)%list,
                   Ok tt)).
  { unfold main_extrair, ler_ocorrencias_do_separador. cbn [negb].
    rewrite Henc, Hcarga. cbn [py_get bind]. rewrite Hd. cbn [py_len].
    rewrite Hrun. reflexivity. }
  subst registros. rewrite Hmain. cbn [fst snd].
  assert (Hso : forall r,
             In r ([MsgEncodingDetectado enc;
                    MsgTotalFeaturesCarregadas (Z.of_nat (List.length fs))]
                   ++ map Saida impresso ++ flat_map (salvar_estacao grava) out)%list ->
             (forall a doc, r <> Gravado a doc) \/
             In r (flat_map (salvar_estacao grava) out)).
  { intros r Hr. apply in_app_or in Hr as [Hr | Hr].
    - left. cbn [In] in Hr. destruct Hr as [<- | [<- | []]]; discriminate.
    - apply in_app_or in Hr as [Hr | Hr]; [| now right].
      left. apply in_map_iff in Hr as (m & <- & _). discriminate. }
  assert (Hgrav : forall arquivo doc,
             In (Gravado arquivo doc) (flat_map (salvar_estacao grava) out) ->
             exists e,
               arquivo = nome_do_arquivo e /\ doc = colecao_de (da_estacao e)
               /\ da_estacao e <> []).
  { intros arquivo doc Hin. apply in_flat_map in Hin as ([e l] & Hel & Hin).
    apply Hout in Hel as [-> Hexe]. cbn [salvar_estacao] in Hin.
    destruct (grava (nome_do_arquivo e) _); cbn [In] in Hin.
    - destruct Hin as [Heq | [Heq | []]]; [| discriminate].
      injection Heq as <- <-. exists e. split; [reflexivity |].
      split; [reflexivity |]. now apply Hex.
    - destruct Hin as [Heq | []]. discriminate. }
  split; [reflexivity |]. split; [| split].
  - intros e He. apply Hex in He.
    assert (Hel : In (e, da_estacao e) out) by (apply Hout; auto).
    destruct (grava (nome_do_arquivo e) (colecao_de (da_estacao e))) as [[] | err] eqn:Eg.
    + apply in_or_app. right. apply in_or_app. right.
      apply in_flat_map. exists (e, da_estacao e). split; [exact Hel |].
      cbn [salvar_estacao]. rewrite Eg. now left.
    + apply in_or_app. right. apply in_or_app. right.
      apply in_flat_map. exists (e, da_estacao e). split; [exact Hel |].
      cbn [salvar_estacao]. rewrite Eg. now left.
  - intros arquivo doc Hin. apply Hso in Hin as [Hno | Hin].
    + now destruct (Hno arquivo doc).
    + now apply Hgrav.
  - intros e He doc Hin. apply Hso in Hin as [Hno | Hin].
    + now destruct (Hno (nome_do_arquivo e) doc).
    + apply Hgrav in Hin as (e' & Hn & _ & Hne).
      apply nome_do_arquivo_inj in Hn. subst e'. contradiction.
Qed.


(* ------------------------------------------------------------------ *)
(** ** The fixer's script: which files it gives up on, and its summary *)

Lemma detectar_encoding_em_falhas (carrega : string -> carga) (encs : list string) :
  forallb (fun enc => falha_de_leitura (carrega enc)) encs = true ->
  detectar_encoding_em carrega encs = Ok "utf-8".
Proof.
  induction encs as [| e encs IH]; cbn [forallb detectar_encoding_em]; [reflexivity |].
  intros H. apply andb_prop in H as [He H].
  destruct (carrega e); try discriminate; auto.
Qed.

Lemma sem_gravado_em_saida (l : list saida) (a : string) (doc : pyval) :
  ~ In (Gravado a doc) (map Saida l).
Proof. intros H. apply in_map_iff in H as (m & Hm & _). discriminate. Qed.

(** X10. The fixer gives up on a file, returning no statistics, exactly
    when the file loads under none of the four encodings, each attempt
    failing with a decoding or a JSON error; it then writes nothing.  When it
    returns statistics, they are those of the document loaded under the
    detected encoding, and the corrected document is written to the
    destination. *)
Theorem corrigir_geojson_arquivo_desiste (destino : string) (carrega : string -> carga)
    (grava : pyval -> res unit) :
  let r := corrigir_geojson_arquivo destino carrega grava in
  (snd r = Ok None <->
   forallb (fun enc => falha_de_leitura (carrega enc)) encodings = true)
  /\ (snd r = Ok None -> forall a doc, ~ In (Gravado a doc) (fst r))
  /\ (forall stats,
        snd r = Ok (Some stats) ->
        exists enc data doc,
          detectar_encoding carrega = Ok enc
          /\ carrega enc = Carregado data
          /\ result (corrigir_geojson data) = Ok (stats, doc)
          /\ grava doc = Ok tt
          /\ In (Gravado destino doc) (fst r)).
Proof.
  cbv zeta. unfold corrigir_geojson_arquivo, detectar_encoding.
  pose proof (detectar_encoding_em_spec carrega encodings) as Hspec.
  destruct (detectar_encoding_em carrega encodings) as [enc | err] eqn:Edet.
  2:{ cbn [fst snd]. split; [| split]; try discriminate.
      split; [discriminate |]. intros H.
      rewrite (detectar_encoding_em_falhas carrega encodings H) in Edet. discriminate. }
  destruct (carrega enc) as [data | | | e] eqn:Ec.
  - (* the file loads *)
    assert (Hnao : forallb (fun enc => falha_de_leitura (carrega enc)) encodings <> true).
    { intros H. destruct Hspec as [(antes & depois & Hsplit & _) | [-> _]].
      - rewrite Hsplit, forallb_app in H. apply andb_prop in H as [_ H].
        cbn [forallb] in H. rewrite Ec in H. discriminate.
      - cbn [encodings forallb] in H. rewrite Ec in H. discriminate. }
    destruct (corrigir_geojson data) as [l [[stats doc] | e]] eqn:Ecor; cbn [fst snd].
    + destruct (grava doc) as [[] | e] eqn:Eg; cbn [fst snd].
      * split; [split; [discriminate | intros H; now destruct Hnao] |].
        split; [discriminate |].
        intros stats' H. injection H as <-. exists enc, data, doc.
        rewrite Ecor. repeat split; auto.
        apply in_or_app. right. now left.
      * split; [split; [discriminate | intros H; now destruct Hnao] |].
        split; discriminate.
    + split; [split; [discriminate | intros H; now destruct Hnao] |].
      split; discriminate.
  - (* it does not decode *)
    destruct Hspec as [(antes & depois & _ & Hc & _) | [-> Hall]];
      [discriminate Hc |].
    cbn [fst snd]. split; [split; auto |]. split; [| discriminate].
    intros _ a doc [H | [H | []]]; discriminate.
  - (* it is not JSON *)
    destruct Hspec as [(antes & depois & _ & Hc & _) | [-> Hall]];
      [discriminate Hc |].
    cbn [fst snd]. split; [split; auto |]. split; [| discriminate].
    intros _ a doc [H | [H | []]]; discriminate.
  - (* another error would have been raised by the detection *)
    exfalso. destruct Hspec as [(antes & depois & _ & Hc & _) | [-> Hall]].
    + discriminate Hc.
    + cbn [encodings forallb] in Hall. rewrite Ec in Hall. discriminate.
Qed.

Lemma conta_positivo {A : Type} (p : A -> bool) (l : list A) :
  (conta p l >? 0) = existsb p l.
Proof.
  induction l as [| x l IH]; [reflexivity |].
  rewrite conta_cons. cbn [existsb]. pose proof (conta_limites p l) as Hl.
  destruct (p x); cbn [orb].
  - apply Z.gtb_lt. lia.
  - now rewrite Z.add_0_l.
Qed.

Lemma existsb_orb {A : Type} (p q : A -> bool) (l : list A) :
  existsb (fun x => p x || q x) l = existsb p l || existsb q l.
Proof.
  induction l as [| x l IH]; [reflexivity |].
  cbn [existsb]. rewrite IH.
  destruct (p x), (q x), (existsb p l), (existsb q l); reflexivity.
Qed.

(** One file of the loop of [main]. *)
Lemma corrigir_arquivo_regular (a : arquivo_bruto) (o : option (list pyval)) :
  arquivo_regular a o ->
  exists l,
    corrigir_geojson_arquivo (nome_arquivo a) (carrega_arquivo a) (grava_destino a)
    = (l, Ok (option_map estatisticas_de o)).
Proof.
  destruct o as [fs |]; cbn [arquivo_regular option_map].
  - intros (enc & d & Hdet & Hc & Hd & Hfs & Hg).
    destruct (corrigir_geojson_executa d fs Hd Hfs) as (fs' & _ & Hrun).
    unfold corrigir_geojson_arquivo. rewrite Hdet, Hc, Hrun, Hg. eauto.
  - intros Hall. unfold corrigir_geojson_arquivo, detectar_encoding.
    rewrite (detectar_encoding_em_falhas _ _ Hall).
    cbn [encodings forallb] in Hall. apply andb_prop in Hall as [H _].
    destruct (carrega_arquivo a "utf-8"); try discriminate; eauto.
Qed.

Lemma soma_stats_de (t : total_stats) (fs : list pyval) :
  soma_stats t (Some (estatisticas_de fs)) =
  {| arquivos_processados := arquivos_processados t + 1;
     arquivos_corrigidos :=
       arquivos_corrigidos t + (if existsb a_corrigir fs then 1 else 0);
     total_coordenadas_vazias := total_coordenadas_vazias t + conta tem_coordenadas_vazias fs;
     total_latitude_vazia :=
       total_latitude_vazia t + conta (tem_propriedade_vazia "latitude") fs;
     total_longitude_vazia :=
       total_longitude_vazia t + conta (tem_propriedade_vazia "longitude") fs |}.
Proof.
  cbn [soma_stats estatisticas_de coordenadas_vazias latitude_vazia longitude_vazia].
  rewrite !conta_positivo. unfold a_corrigir. now rewrite !existsb_orb.
Qed.

(** The loop of [main]: the totals grow by the summary of the files gone
    through. *)
Lemma processar_arquivos_resumo (arquivos : list arquivo_bruto)
    (os : list (option (list pyval))) :
  Forall2 arquivo_regular arquivos os ->
  forall t,
  exists l t',
    processar_arquivos arquivos t = (l, Ok t')
    /\ arquivos_processados t' = arquivos_processados t + arquivos_processados (resumo_de os)
    /\ arquivos_corrigidos t' = arquivos_corrigidos t + arquivos_corrigidos (resumo_de os)
    /\ total_coordenadas_vazias t' =
       total_coordenadas_vazias t + total_coordenadas_vazias (resumo_de os)
    /\ total_latitude_vazia t' = total_latitude_vazia t + total_latitude_vazia (resumo_de os)
    /\ total_longitude_vazia t' =
       total_longitude_vazia t + total_longitude_vazia (resumo_de os).
Proof.
  induction 1 as [| a o arquivos os Ha _ IH]; intros t.
  - exists [], t. cbn. repeat split; lia.
  - destruct (corrigir_arquivo_regular a o Ha) as [l Hl].
    destruct (IH (soma_stats t (option_map estatisticas_de o)))
      as (l' & t' & Hrun & H1 & H2 & H3 & H4 & H5).
    exists (l ++ l')%list, t'. cbn [processar_arquivos]. rewrite Hl, Hrun.
    split; [reflexivity |].
    rewrite H1, H2, H3, H4, H5.
    destruct o as [fs |]; cbn [option_map resumo_de].
    + rewrite soma_stats_de.
      cbn [arquivos_processados arquivos_corrigidos total_coordenadas_vazias
           total_latitude_vazia total_longitude_vazia].
      repeat split; lia.
    + cbn [soma_stats]. repeat split; lia.
Qed.

Lemma resumo_de_limites (os : list (option (list pyval))) :
  0 <= arquivos_corrigidos (resumo_de os)
  /\ arquivos_corrigidos (resumo_de os) <= arquivos_processados (resumo_de os)
  /\ arquivos_processados (resumo_de os) <= Z.of_nat (List.length os)
  /\ arquivos_corrigidos (resumo_de os)
     <= total_coordenadas_vazias (resumo_de os) + total_latitude_vazia (resumo_de os)
        + total_longitude_vazia (resumo_de os).
Proof.
  induction os as [| [fs |] os IH]; cbn [resumo_de List.length].
  - cbn. lia.
  - cbn [arquivos_processados arquivos_corrigidos total_coordenadas_vazias
         total_latitude_vazia total_longitude_vazia].
    pose proof (conta_limites tem_coordenadas_vazias fs).
    pose proof (conta_limites (tem_propriedade_vazia "latitude") fs).
    pose proof (conta_limites (tem_propriedade_vazia "longitude") fs).
    assert (Hex : (if existsb a_corrigir fs then 1 else 0)
                  <= conta tem_coordenadas_vazias fs
                     + conta (tem_propriedade_vazia "latitude") fs
                     + conta (tem_propriedade_vazia "longitude") fs).
    { unfold a_corrigir. rewrite !existsb_orb, <- !conta_positivo.
      destruct (Z.gtb_spec (conta tem_coordenadas_vazias fs) 0);
        destruct (Z.gtb_spec (conta (tem_propriedade_vazia "latitude") fs) 0);
        destruct (Z.gtb_spec (conta (tem_propriedade_vazia "longitude") fs) 0);
        cbn [orb]; lia. }
    destruct (existsb a_corrigir fs); lia.
  - lia.
Qed.

(** X11. The summary of the fixer's [main], over files that either load as
    collections of well-formed features or load under no encoding: the files
    that do not load are skipped and the run goes on; the number of files
    processed is the number of those that load; each total is the sum, over
    these, of the number of features that meet the condition; a file counts
    as corrected when some feature of it meets some condition.  So the
    corrected files are at most the processed ones, these at most the files
    found, and the corrected files at most the corrections. *)
Theorem main_fix_resumo (arquivos : list arquivo_bruto) (os : list (option (list pyval))) :
  arquivos <> [] ->
  Forall2 arquivo_regular arquivos os ->
  (exists l, main_fix true (Ok tt) arquivos = ((l ++ [MsgResumoFinal (resumo_de os)])%list, Ok tt))
  /\ 0 <= arquivos_corrigidos (resumo_de os)
  /\ arquivos_corrigidos (resumo_de os) <= arquivos_processados (resumo_de os)
  /\ arquivos_processados (resumo_de os) <= Z.of_nat (List.length arquivos)
  /\ arquivos_corrigidos (resumo_de os)
     <= total_coordenadas_vazias (resumo_de os) + total_latitude_vazia (resumo_de os)
        + total_longitude_vazia (resumo_de os).
Proof.
  intros Hne Hreg.
  pose proof (resumo_de_limites os) as Hlim.
  rewrite <- (Forall2_length Hreg) in Hlim.
  split; [| exact Hlim].
  destruct (processar_arquivos_resumo arquivos os Hreg total_inicial)
    as (l & t' & Hrun & H1 & H2 & H3 & H4 & H5).
  exists l. unfold main_fix. cbn [negb].
  destruct arquivos as [| a arquivos]; [congruence |].
  rewrite Hrun. f_equal. f_equal. f_equal. f_equal.
  cbn [total_inicial arquivos_processados arquivos_corrigidos total_coordenadas_vazias
       total_latitude_vazia total_longitude_vazia] in H1, H2, H3, H4, H5.
  destruct t', (resumo_de os). cbn in *. subst. reflexivity.
Qed.


(* ------------------------------------------------------------------ *)
(** ** The search for the boundary layer *)

Lemma with_suffix_app (suffix : string) (p : Path) (c : string) (r : list string) :
  with_suffix suffix (p ++ c :: r)%list = (p ++ with_suffix suffix (c :: r))%list.
Proof.
  induction p as [| x p IH]; [reflexivity |].
  cbn [app]. cbn [with_suffix]. rewrite IH.
  destruct (p ++ c :: r)%list eqn:E; [now destruct p | reflexivity].
Qed.

(** The [.shp] of each [.shx] candidate is the [.shp] candidate of the same
    place. *)
Lemma shp_dos_shx (base_dir : Path) :
  map (with_suffix ".shp") (possiveis_shx base_dir) = possiveis_caminhos base_dir.
Proof.
  unfold possiveis_shx, possiveis_caminhos. cbn [map].
  now rewrite !(with_suffix_app ".shp" base_dir "dados").
Qed.

Lemma find_none_iff {A : Type} (p : A -> bool) (l : list A) :
  find p l = None <-> forall x, In x l -> p x = false.
Proof.
  split; [apply find_none |].
  induction l as [| x l IH]; intros H; [reflexivity |].
  cbn [find]. rewrite (H x (or_introl eq_refl)). apply IH.
  intros y Hy. apply H. now right.
Qed.

(** X12. The search returns nothing exactly when none of the eight
    candidates ([.shp] and [.shx], in the four places) exists; whatever path
    it returns exists, so that the test [not caminho_shapefile.exists()] that
    [main] makes next never holds. *)
Theorem encontrar_shapefile_existe (existe : Path -> bool) (base_dir : Path) :
  (snd (encontrar_shapefile_bairros existe base_dir) = None <->
   forall p, In p (possiveis_caminhos base_dir ++ possiveis_shx base_dir)%list ->
             existe p = false)
  /\ (forall p, snd (encontrar_shapefile_bairros existe base_dir) = Some p ->
                existe p = true).
Proof.
  unfold encontrar_shapefile_bairros.
  destruct (find existe (possiveis_caminhos base_dir)) as [c |] eqn:E1.
  - pose proof (find_some _ _ E1) as [Hin Hc].
    assert (Hr : snd (if existe (with_suffix ".shx" c) && existe (with_suffix ".dbf" c)
                      then ([], Some c)
                      else ([AvisoFaltamComponentes (existe c) (existe (with_suffix ".shx" c))
                               (existe (with_suffix ".dbf" c))], Some c)) = Some c).
    { now destruct (existe (with_suffix ".shx" c) && existe (with_suffix ".dbf" c)). }
    cbv zeta. rewrite Hr. split.
    + split; [discriminate |]. intros H.
      rewrite (H c) in Hc; [discriminate | apply in_or_app; now left].
    + intros p Hp. now injection Hp as <-.
  - destruct (find existe (possiveis_shx base_dir)) as [x |] eqn:E2.
    + pose proof (find_some _ _ E2) as [Hin Hx]. cbv zeta.
      destruct (existe (with_suffix ".shp" x)) eqn:E3; cbn [snd].
      * split.
        -- split; [discriminate |]. intros H.
           rewrite (H x) in Hx; [discriminate | apply in_or_app; now right].
        -- intros p Hp. now injection Hp as <-.
      * split.
        -- split; [discriminate |]. intros H.
           rewrite (H x) in Hx; [discriminate | apply in_or_app; now right].
        -- intros p Hp. now injection Hp as <-.
    + cbn [snd]. split; [| discriminate].
      split; [| reflexivity]. intros _ p Hp.
      apply in_app_or in Hp as [Hp | Hp].
      * exact (find_none _ _ E1 p Hp).
      * exact (find_none _ _ E2 p Hp).
Qed.

(** X13. What the search returns: the first [.shp] candidate that exists,
    with the warning of the missing components exactly when its [.shx] or
    its [.dbf] does not exist; when no [.shp] candidate exists, the first
    [.shx] candidate that exists, always with the warning that only the
    [.shx] was found.  (The second loop looks for the [.shp] beside the
    [.shx]; it is one of the candidates the first loop found missing, so that
    branch returns nothing.) *)
Theorem encontrar_shapefile_prioridade (existe : Path -> bool) (base_dir : Path) :
  match find existe (possiveis_caminhos base_dir) with
  | Some caminho =>
      snd (encontrar_shapefile_bairros existe base_dir) = Some caminho
      /\ (fst (encontrar_shapefile_bairros existe base_dir) = [] <->
          existe (with_suffix ".shx" caminho) = true
          /\ existe (with_suffix ".dbf" caminho) = true)
  | None =>
      encontrar_shapefile_bairros existe base_dir =
      match find existe (possiveis_shx base_dir) with
      | Some caminho_shx => ([AvisoApenasShx caminho_shx], Some caminho_shx)
      | None => ([], None)
      end
  end.
Proof.
  unfold encontrar_shapefile_bairros.
  destruct (find existe (possiveis_caminhos base_dir)) as [c |] eqn:E1.
  - cbv zeta.
    destruct (existe (with_suffix ".shx" c)), (existe (with_suffix ".dbf" c));
      cbn [andb fst snd]; (split; [reflexivity |]); split;
      try discriminate; try (intros [H1 H2]; discriminate); auto.
  - destruct (find existe (possiveis_shx base_dir)) as [x |] eqn:E2; [| reflexivity].
    cbv zeta. pose proof (find_some _ _ E2) as [Hin _].
    assert (Hshp : In (with_suffix ".shp" x) (possiveis_caminhos base_dir)).
    { rewrite <- shp_dos_shx. now apply in_map. }
    now rewrite (find_none _ _ E1 _ Hshp).
Qed.


(* ------------------------------------------------------------------ *)
(** ** Aggregator: the tables together *)

Lemma soma_valores_insere (f : string -> Z) (x : string) (ks : list string) :
  soma_valores (map (fun k => (k, f k)) (insere_ordenado x ks))
  = f x + soma_valores (map (fun k => (k, f k)) ks).
Proof.
  sem_biblioteca.
  induction ks as [| y ks IH]; cbn [insere_ordenado]; [reflexivity |].
  destruct (String.leb x y); [reflexivity |].
  cbn [map soma_valores fold_right snd] in *. unfold soma_valores in IH. rewrite IH. lia.
Qed.

Lemma soma_valores_sorted (f : string -> Z) (ks : list string) :
  soma_valores (map (fun k => (k, f k)) (sorted ks))
  = soma_valores (map (fun k => (k, f k)) ks).
Proof.
  sem_biblioteca.
  unfold sorted. induction ks as [| x ks IH]; [reflexivity |].
  cbn [fold_right]. rewrite soma_valores_insere, IH. reflexivity.
Qed.

Lemma NoDup_unicos (l : list string) : NoDup (unicos l).
Proof.
  sem_biblioteca.
  induction l as [| x l IH]; cbn [unicos]; constructor.
  - intros Hin. apply filter_In in Hin as [_ Hx].
    now rewrite String.eqb_refl in Hx.
  - now apply NoDup_filter.
Qed.

Lemma conta_soma_disjunta {A : Type} (p q : A -> bool) (l : list A) :
  (forall x, p x = true -> q x = false) ->
  conta (fun x => p x || q x) l = conta p l + conta q l.
Proof.
  intros Hpq. induction l as [| x l IH]; [reflexivity |].
  rewrite !conta_cons, IH. specialize (Hpq x).
  destruct (p x), (q x); cbn [orb]; first [lia | discriminate (Hpq eq_refl)].
Qed.

(** Over distinct keys, the occurrences of the keys add up to the elements
    that are among the keys. *)
Lemma soma_ocorrencias (ks m : list string) :
  NoDup ks ->
  soma_valores (map (fun k => (k, ocorrencias_de k m)) ks)
  = conta (fun y => existsb (String.eqb y) ks) m.
Proof.
  sem_biblioteca.
  induction 1 as [| x ks Hx Hnd IH].
  - cbn. symmetry. now apply conta_falso.
  - cbn [map soma_valores fold_right snd existsb]. unfold soma_valores in IH. rewrite IH.
    rewrite (conta_soma_disjunta (fun y => y =? x) (fun y => existsb (String.eqb y) ks)).
    + f_equal. unfold ocorrencias_de, conta. f_equal. f_equal.
      apply filter_ext. intros y. apply String.eqb_sym.
    + intros y Hy. apply String.eqb_eq in Hy. subst y.
      destruct (existsb (String.eqb x) ks) eqn:E; [| reflexivity].
      apply existsb_exists in E as (z & Hz & Hxz). apply String.eqb_eq in Hxz.
      subst z. contradiction.
Qed.

Lemma conta_todos {A : Type} (p : A -> bool) (l : list A) :
  (forall x, In x l -> p x = true) -> conta p l = Z.of_nat (List.length l).
Proof.
  induction l as [| x l IH]; intros H; [reflexivity |].
  rewrite conta_cons, (H x (or_introl eq_refl)), IH.
  - cbn [List.length]. lia.
  - intros y Hy. apply H. now right.
Qed.

Lemma length_nao_nulos (rows : list ocorrencia) :
  Z.of_nat (List.length (nao_nulos (map bairro rows))) = conta tem_bairro rows.
Proof.
  sem_biblioteca.
  induction rows as [| row rows IH]; [reflexivity |].
  rewrite conta_cons, <- IH. unfold nao_nulos, tem_bairro. cbn [map flat_map].
  destruct (bairro row); cbn [app List.length]; lia.
Qed.

Lemma soma_groupby_size (rows : list ocorrencia) :
  soma_valores (groupby_size (map bairro rows)) = conta tem_bairro rows.
Proof.
  unfold groupby_size.
  rewrite soma_valores_sorted, (soma_ocorrencias _ _ (NoDup_unicos _)).
  rewrite <- length_nao_nulos. apply conta_todos.
  intros y Hy. apply existsb_exists. exists y. split; [| apply String.eqb_refl].
  now apply In_unicos.
Qed.

(** X14. The total table loses no row and counts none twice: its counts
    add up to the number of rows that name a neighbourhood. *)
Theorem contagem_total_soma_as_linhas (gdf : GeoDataFrame) :
  tem_coluna gdf "bairro" = true ->
  exists c,
    result (contar_ocorrencias_por_bairro gdf) = Ok c
    /\ soma_valores (contagem_total c) = conta tem_bairro (linhas gdf)
    /\ soma_valores (contagem_total c) <= Z.of_nat (List.length (linhas gdf)).
Proof.
  so_datas.
  intros Hb. destruct (contar_spec gdf Hb) as (c & Hc & Ht & _).
  exists c. rewrite Hc, Ht, soma_groupby_size.
  split; [reflexivity |]. split; [reflexivity |]. apply conta_limites.
Qed.

Lemma get_or_groupby_size (n : string) (rows : list ocorrencia) :
  get_or n (groupby_size (map bairro rows)) 0 = conta (linha_do_bairro n) rows.
Proof.
  unfold get_or. rewrite groupby_size_spec, <- conta_positivo.
  destruct (Z.gtb_spec (conta (linha_do_bairro n) rows) 0); [reflexivity |].
  pose proof (conta_limites (linha_do_bairro n) rows). lia.
Qed.

(** X15. The four tables agree: for every neighbourhood, type and season,
    the count by type and season is at most the count by type and at most
    the count by season, and each of these is at most the total of the
    neighbourhood. *)
Theorem contagens_encaixadas (gdf : GeoDataFrame) :
  tem_coluna gdf "bairro" = true ->
  exists c,
    result (contar_ocorrencias_por_bairro gdf) = Ok c
    /\ forall n t e,
         0 <= consulta3 n t e (contagem_por_tipo_estacao c)
         /\ consulta3 n t e (contagem_por_tipo_estacao c) <= consulta2 n t (contagem_por_tipo c)
         /\ consulta3 n t e (contagem_por_tipo_estacao c)
            <= consulta2 n e (contagem_por_estacao c)
         /\ consulta2 n t (contagem_por_tipo c) <= get_or n (contagem_total c) 0
         /\ consulta2 n e (contagem_por_estacao c) <= get_or n (contagem_total c) 0.
Proof.
  so_datas.
  intros Hb. destruct (contar_spec gdf Hb) as (c & Hc & Ht & H1 & H2 & H3 & _).
  exists c. rewrite Hc. split; [reflexivity |].
  intros n t e. rewrite H3, H1, H2, Ht, get_or_groupby_size.
  split; [apply conta_limites |].
  repeat split; apply conta_le; intros row Hrow.
  - now apply andb_prop in Hrow as [Hrow _].
  - apply andb_prop in Hrow as [Hrow He]. apply andb_prop in Hrow as [Hrow _].
    apply andb_prop in Hrow as [_ Hn]. now rewrite Hn, He.
  - apply andb_prop in Hrow as [Hrow _]. now apply andb_prop in Hrow as [_ Hn].
  - now apply andb_prop in Hrow as [Hn _].
Qed.

(** One round of the loop adds to the tables by type no key but the
    neighbourhood of the row. *)
Lemma contar_linha_chaves (td ed : bool) (col : string) (ac ac' : acumulado)
    (row : ocorrencia) (n : string) :
  contar_linha td ed col ac row = Ok ac' ->
  (dict_in n (ac_por_tipo ac') = true ->
   dict_in n (ac_por_tipo ac) = true \/ linha_do_bairro n row = true)
  /\ (dict_in n (ac_por_tipo_estacao ac') = true ->
      dict_in n (ac_por_tipo_estacao ac) = true \/ linha_do_bairro n row = true).
Proof.
  so_datas.
  unfold contar_linha, linha_do_bairro.
  destruct (bairro row) as [b |]; [| intros H; injection H as <-; auto].
  intros H. apply bind_Ok in H as (est & _ & H). injection H as <-.
  destruct td, (tipo row) as [t |], est as [e |];
    cbn [ac_por_tipo ac_por_tipo_estacao]; split; auto;
    unfold incrementa2, incrementa3; rewrite dict_in_set;
    cbn [chave_eqb Chave_string]; intros Hin; apply orb_prop in Hin; tauto.
Qed.

Lemma contar_linhas_chaves (td ed : bool) (col : string) (rows : list ocorrencia)
    (n : string) :
  forall ac ac',
    foldM (contar_linha td ed col) rows ac = Ok ac' ->
    (dict_in n (ac_por_tipo ac') = true ->
     dict_in n (ac_por_tipo ac) = true \/ existsb (linha_do_bairro n) rows = true)
    /\ (dict_in n (ac_por_tipo_estacao ac') = true ->
        dict_in n (ac_por_tipo_estacao ac) = true
        \/ existsb (linha_do_bairro n) rows = true).
Proof.
  so_datas.
  induction rows as [| row rows IH]; intros ac ac' H; cbn [foldM] in H.
  - injection H as <-. auto.
  - apply bind_Ok in H as (ac1 & H1 & H2).
    destruct (contar_linha_chaves td ed col ac ac1 row n H1) as [A1 B1].
    destruct (IH ac1 ac' H2) as [A2 B2]. cbn [existsb].
    split; intros Hin.
    + destruct (A2 Hin) as [Hin1 | Hex]; [| right; now rewrite Hex, orb_true_r].
      destruct (A1 Hin1) as [Hin0 | Hrow]; [now left | right; now rewrite Hrow].
    + destruct (B2 Hin) as [Hin1 | Hex]; [| right; now rewrite Hex, orb_true_r].
      destruct (B1 Hin1) as [Hin0 | Hrow]; [now left | right; now rewrite Hrow].
Qed.

(** X16. Every neighbourhood that is a key of the table by type, of the
    table by season or of the table by type and season is a key of the total
    table. *)
Theorem chaves_das_tabelas_no_total (gdf : GeoDataFrame) :
  tem_coluna gdf "bairro" = true ->
  exists c,
    result (contar_ocorrencias_por_bairro gdf) = Ok c
    /\ forall n,
         dict_in n (contagem_por_tipo c) = true
         \/ dict_in n (contagem_por_estacao c) = true
         \/ dict_in n (contagem_por_tipo_estacao c) = true ->
         dict_in n (contagem_total c) = true.
Proof.
  so_datas.
  intros Hb.
  destruct (contar_spec gdf Hb) as (c & Hc & Ht & _ & _ & _ & _ & Hin & _).
  exists c. rewrite Hc. split; [reflexivity |].
  intros n Hn.
  assert (Hex : existsb (linha_do_bairro n) (linhas gdf) = true).
  { destruct Hn as [Hn | [Hn | Hn]].
    - revert Hn Hc. unfold contar_ocorrencias_por_bairro. rewrite Hb. cbn [negb].
      intros Hn Hc.
      destruct (tem_coluna gdf "tipo"), (find (tem_coluna gdf) colunas_data);
        cbv [bind_io print ret lift raise negb orb] in Hc.
      all: try match type of Hc with
               | context [foldM ?f ?l ?a] =>
                   destruct (foldM f l a) as [ac |] eqn:Eac; [| discriminate Hc];
                   injection Hc as _ Hc; subst c;
                   cbn [contagem_por_tipo] in Hn;
                   destruct (contar_linhas_chaves _ _ _ _ n _ _ Eac) as [A _];
                   destruct (A Hn) as [H0 | H0]; [discriminate H0 | exact H0]
               end.
      injection Hc as _ Hc. subst c. discriminate Hn.
    - rewrite Hin in Hn. revert Hn. apply existsb_impl.
      intros row Hrow. now apply andb_prop in Hrow as [Hrow _].
    - revert Hn Hc. unfold contar_ocorrencias_por_bairro. rewrite Hb. cbn [negb].
      intros Hn Hc.
      destruct (tem_coluna gdf "tipo"), (find (tem_coluna gdf) colunas_data);
        cbv [bind_io print ret lift raise negb orb] in Hc.
      all: try match type of Hc with
               | context [foldM ?f ?l ?a] =>
                   destruct (foldM f l a) as [ac |] eqn:Eac; [| discriminate Hc];
                   injection Hc as _ Hc; subst c;
                   cbn [contagem_por_tipo_estacao] in Hn;
                   destruct (contar_linhas_chaves _ _ _ _ n _ _ Eac) as [_ B];
                   destruct (B Hn) as [H0 | H0]; [discriminate H0 | exact H0]
               end.
      injection Hc as _ Hc. subst c. discriminate Hn. }
  unfold dict_in. rewrite Ht, groupby_size_spec, Hex. reflexivity.
Qed.


(* ------------------------------------------------------------------ *)
(** ** Boundary enricher: the normalised tables *)

Lemma find_ultimo {A : Type} (p : A -> bool) (l : list A) (x : A) :
  find p (l ++ [x])%list =
  match find p l with
  | Some y => Some y
  | None => if p x then Some x else None
  end.
Proof.
  induction l as [| y l IH]; cbn [app find]; [reflexivity |].
  destruct (p y); [reflexivity | exact IH].
Qed.

Lemma dict_get_fold_rekey {K V : Type} `{Chave K} (f : K -> K) (k : K) (d : dict K V) :
  forall acc,
    dict_get k (fold_left (fun acc kv => dict_set (f (fst kv)) (snd kv) acc) d acc) =
    match find (fun kv => chave_eqb k (f (fst kv))) (rev d) with
    | Some kv => Some (snd kv)
    | None => dict_get k acc
    end.
Proof.
  induction d as [| [k1 v1] d IH]; intros acc; [reflexivity |].
  cbn [fold_left rev fst snd]. rewrite IH, find_ultimo. cbn [fst snd].
  destruct (find (fun kv => chave_eqb k (f (fst kv))) (rev d)); [reflexivity |].
  destruct (chave_eqb_spec k (f k1)) as [-> | Hne].
  - apply dict_get_set_eq.
  - now apply dict_get_set_neq.
Qed.

(** X17. The tables with their keys normalised, as the enricher looks them
    up: under a name [k] stands the entry of the last key of the table that
    normalises to [k].  Of two keys that differ by blanks around the name
    only, the count of the later one is kept and that of the earlier one is
    dropped, not added. *)
Theorem dict_rekey_fica_o_ultimo {V : Type} (d : dict string V) (k : string) :
  dict_get k (dict_rekey strip d) =
  match find (fun kv => k =? strip (fst kv)) (rev d) with
  | Some kv => Some (snd kv)
  | None => None
  end.
Proof. unfold dict_rekey. now rewrite dict_get_fold_rekey. Qed.


(* ------------------------------------------------------------------ *)
(** ** Boundary enricher: the steps of a run *)

Lemma adicionar_passos (gdf out : GeoDataFrameBairros)
    (tot : dict string Z) (tipo_t : dict string (dict string Z))
    (est_t : option (dict string (dict string Z)))
    (te_t : option (dict string (dict string (dict string Z)))) :
  adicionar_contagens_ao_shapefile gdf tot tipo_t est_t te_t = Ok out ->
  exists cb g1 g2 g3 g6 g7 g11 g12,
    passos_do_enriquecedor gdf tot tipo_t est_t te_t cb g1 g2 g3 g6 g7 g11 g12 out.
Proof.
  intros H. unfold adicionar_contagens_ao_shapefile in H.
  apply bind_Ok in H as (cb & Hcb & H).
  apply bind_Ok in H as (g1 & H1 & H).
  cbv zeta in H.
  apply bind_Ok in H as (g2 & H2 & H).
  apply bind_Ok in H as (g3 & H3 & H).
  apply bind_Ok in H as (g4 & H4 & H).
  apply bind_Ok in H as (g5 & H5 & H).
  apply bind_Ok in H as (g6 & H6 & H).
  apply bind_Ok in H as (g7 & H7 & H).
  apply bind_Ok in H as (g8 & H8 & H).
  apply bind_Ok in H as (g9 & H9 & H).
  apply bind_Ok in H as (g10 & H10 & H).
  apply bind_Ok in H as (g11 & H11 & H).
  apply bind_Ok in H as (g12 & H12 & H).
  injection H as <-.
  exists cb, g1, g2, g3, g6, g7, g11, g12.
  unfold passos_do_enriquecedor. cbv zeta.
  split; [exact Hcb |]. split; [exact H1 |]. split; [exact H2 |]. split; [exact H3 |].
  split; [rewrite H4; cbn [bind]; rewrite H5; exact H6 |]. split; [exact H7 |].
  split; [rewrite H8; cbn [bind]; rewrite H9; cbn [bind]; rewrite H10; exact H11 |].
  split; [exact H12 | reflexivity].
Qed.

(* ------------------------------------------------------------------ *)
(** ** Boundary enricher: the columns and the reference system *)

Lemma estende_refl (g : GeoDataFrameBairros) : estende g g.
Proof. unfold estende. auto. Qed.

Lemma estende_trans (g1 g2 g3 : GeoDataFrameBairros) :
  estende g1 g2 -> estende g2 g3 -> estende g1 g3.
Proof.
  sem_biblioteca.
  intros (A1 & B1 & C1) (A2 & B2 & C2). split; [| split]; auto.
  intros c Hc. destruct (B2 c Hc) as [H | H]; auto.
Qed.

Lemma atribui_quadro (nome : string) (dt : dtype) (f : poligono -> res pyval)
    (g g' : GeoDataFrameBairros) :
  atribui nome dt f g = Ok g' ->
  colunas g' = dict_set nome dt (colunas g) /\ crs g' = crs g.
Proof.
  unfold atribui. intros H. apply bind_Ok in H as (ps & _ & H).
  injection H as <-. auto.
Qed.

Lemma atribui_estende (nome : string) (dt : dtype) (f : poligono -> res pyval)
    (g g' : GeoDataFrameBairros) :
  atribui nome dt f g = Ok g' ->
  nome_gerado nome = true ->
  estende g g' /\ crs g' = crs g /\ tem_coluna_bairros g' nome = true.
Proof.
  intros H Hn. destruct (atribui_quadro nome dt f g g' H) as [Hc Hcrs].
  unfold estende, tem_coluna_bairros. rewrite Hc.
  split; [| split; [exact Hcrs |]].
  - split; [| split].
    + intros c Hin. rewrite dict_in_set, Hin. apply orb_true_r.
    + intros c Hin. rewrite dict_in_set in Hin. cbn [chave_eqb Chave_string] in Hin.
      destruct (c =? nome)%string eqn:E; [| now left].
      apply String.eqb_eq in E. subst c. now right.
    + apply dict_keys_set_NoDup.
  - rewrite dict_in_set. cbn [chave_eqb Chave_string]. now rewrite String.eqb_refl.
Qed.

Lemma garante_estende (nome : string) (g g' : GeoDataFrameBairros) :
  garante_coluna nome g = Ok g' ->
  nome_gerado nome = true ->
  estende g g' /\ crs g' = crs g /\ tem_coluna_bairros g' nome = true.
Proof.
  intros H Hn. unfold garante_coluna in H.
  destruct (tem_coluna_bairros g nome) eqn:E.
  - injection H as <-. split; [apply estende_refl | auto].
  - exact (atribui_estende _ _ _ _ _ H Hn).
Qed.

Lemma par_estende (c d : string) (contagem : poligono -> Z) (g g' : GeoDataFrameBairros) :
  atribui_contagem_e_densidade c d contagem g = Ok g' ->
  nome_gerado c = true -> nome_gerado d = true ->
  estende g g' /\ crs g' = crs g.
Proof.
  intros H Hc Hd. unfold atribui_contagem_e_densidade in H.
  apply bind_Ok in H as (g1 & H1 & H2).
  destruct (atribui_estende _ _ _ _ _ H1 Hc) as (E1 & C1 & _).
  destruct (atribui_estende _ _ _ _ _ H2 Hd) as (E2 & C2 & _).
  split; [exact (estende_trans _ _ _ E1 E2) | congruence].
Qed.

Lemma foldM_estende {X : Type} (passo : GeoDataFrameBairros -> X -> res GeoDataFrameBairros)
    (xs : list X) :
  (forall g x g', In x xs -> passo g x = Ok g' -> estende g g' /\ crs g' = crs g) ->
  forall g g', foldM passo xs g = Ok g' -> estende g g' /\ crs g' = crs g.
Proof.
  induction xs as [| x xs IH]; intros Hp g g' H; cbn [foldM] in H.
  - injection H as <-. split; [apply estende_refl | reflexivity].
  - apply bind_Ok in H as (g1 & H1 & H2).
    destruct (Hp g x g1 (or_introl eq_refl) H1) as [E1 C1].
    destruct (IH (fun ga y gb Hy => Hp ga y gb (or_intror Hy)) g1 g' H2) as [E2 C2].
    split; [exact (estende_trans _ _ _ E1 E2) | congruence].
Qed.

Lemma dict_in_remove_mesmo {V : Type} (n : string) (d : dict string V) :
  NoDup (dict_keys d) -> dict_in n (dict_remove n d) = false.
Proof.
  sem_biblioteca.
  unfold dict_in, dict_keys. induction d as [| [k v] d IH]; [reflexivity |].
  cbn [map fst dict_remove]. intros Hnd. inversion Hnd as [| ? ? Hk Hd]; subst.
  cbn [chave_eqb Chave_string].
  destruct (String.eqb_spec n k) as [-> | Hne].
  - destruct (dict_get k d) as [v' |] eqn:E; [| reflexivity].
    exfalso. apply Hk. apply dict_get_In in E. apply in_map_iff. now exists (k, v').
  - cbn [dict_get chave_eqb Chave_string].
    destruct (String.eqb_spec n k); [contradiction | now apply IH].
Qed.

(** The frame at the end of a run, against the input frame. *)
Lemma adicionar_quadro (gdf out : GeoDataFrameBairros)
    (tot : dict string Z) (tipo_t : dict string (dict string Z))
    (est_t : option (dict string (dict string Z)))
    (te_t : option (dict string (dict string (dict string Z)))) :
  adicionar_contagens_ao_shapefile gdf tot tipo_t est_t te_t = Ok out ->
  exists g12,
    out = drop_coluna "bairro_normalizado" g12
    /\ estende gdf g12
    /\ crs g12 = crs_de_saida gdf
    /\ forall c, In c colunas_garantidas -> tem_coluna_bairros g12 c = true.
Proof.
  intros H. apply adicionar_passos in H
    as (cb & g1 & g2 & g3 & g6 & g7 & g11 & g12 & _ & H1 & H2 & H3 & H6 & H7 & H11 & H12 & Hout).
  cbv zeta in H12.
  exists g12. split; [exact Hout |].
  destruct (atribui_estende _ _ _ _ _ H1 eq_refl) as (E1 & C1 & _).
  destruct (atribui_estende _ _ _ _ _ H2 eq_refl) as (E2 & C2 & T2).
  assert (S3 : estende g2 g3 /\ crs g3 = crs g2).
  { revert H3. apply foldM_estende. intros g [t c] g' Hin Hg. cbn [snd] in Hg.
    assert (Hc : nome_gerado c = true).
    { unfold mapeamento_tipos_de in Hin. apply in_map_iff in Hin as (t' & Ht & _).
      injection Ht as _ <-. destruct (nome_coluna_tipo_contagem t') as [r ->].
      apply nome_gerado_contagem. }
    destruct (atribui_estende _ _ _ _ _ Hg Hc) as (E & C & _). auto. }
  destruct S3 as [E3 C3].
  apply bind_Ok in H6 as (g4 & H4 & H6). apply bind_Ok in H6 as (g5 & H5 & H6).
  destruct (garante_estende _ _ _ H4 eq_refl) as (E4 & C4 & T4).
  destruct (garante_estende _ _ _ H5 eq_refl) as (E5 & C5 & T5).
  destruct (garante_estende _ _ _ H6 eq_refl) as (E6 & C6 & T6).
  pose proof (estende_trans _ _ _ E1
                (estende_trans _ _ _ E2
                   (estende_trans _ _ _ E3
                      (estende_trans _ _ _ E4 (estende_trans _ _ _ E5 E6))))) as E06.
  assert (Hst : tem_coluna_bairros g6 "st_areasha" = tem_coluna_bairros gdf "st_areasha").
  { destruct E06 as (A & B & _).
    destruct (tem_coluna_bairros gdf "st_areasha") eqn:E; [now apply A |].
    destruct (tem_coluna_bairros g6 "st_areasha") eqn:E'; [| reflexivity].
    destruct (B _ E') as [H | H]; [congruence | discriminate H]. }
  assert (S7 : estende g6 g7 /\ crs g7 = crs_de_saida gdf
               /\ tem_coluna_bairros g7 "area_km2" = true).
  { unfold crs_de_saida. rewrite <- Hst.
    destruct (tem_coluna_bairros g6 "st_areasha").
    - destruct (atribui_estende _ _ _ _ _ H7 eq_refl) as (E7 & C7 & T7).
      split; [exact E7 |]. split; [congruence | exact T7].
    - cbv zeta in H7.
      destruct (atribui_estende _ _ _ _ _ H7 eq_refl) as (E7 & C7 & T7).
      split; [exact E7 |]. split; [| exact T7].
      rewrite C7. cbn [crs]. now rewrite C6, C5, C4, C3, C2, C1. }
  destruct S7 as (E7 & C7 & T7).
  apply bind_Ok in H11 as (g8 & H8 & H11). apply bind_Ok in H11 as (g9 & H9 & H11).
  apply bind_Ok in H11 as (g10 & H10 & H11).
  destruct (atribui_estende _ _ _ _ _ H8 eq_refl) as (E8 & C8 & T8).
  destruct (atribui_estende _ _ _ _ _ H9 eq_refl) as (E9 & C9 & T9).
  destruct (atribui_estende _ _ _ _ _ H10 eq_refl) as (E10 & C10 & T10).
  destruct (atribui_estende _ _ _ _ _ H11 eq_refl) as (E11 & C11 & T11).
  assert (S12 : estende g11 g12 /\ crs g12 = crs g11).
  { destruct (py_truthy_dict match est_t with Some d => normalizar2 d | None => [] end).
    - apply bind_Ok in H12 as (g & Hg & H12).
      assert (Sg : estende g11 g /\ crs g = crs g11).
      { revert Hg. apply foldM_estende. intros ga e gb _ Hab.
        apply (par_estende _ _ _ _ _ Hab (nome_gerado_cont e) (nome_gerado_dens e)). }
      destruct Sg as [Eg Cg].
      destruct (py_truthy_dict match te_t with Some d => normalizar3 d | None => [] end).
      + assert (Sh : estende g g12 /\ crs g12 = crs g).
        { revert H12. apply foldM_estende. intros ga m gb _ Hab. cbv zeta in Hab.
          revert Hab. apply foldM_estende. intros gc e gd _ Hcd.
          apply (par_estende _ _ _ _ _ Hcd (nome_gerado_cont _) (nome_gerado_dens _)). }
        destruct Sh as [Eh Ch]. split; [exact (estende_trans _ _ _ Eg Eh) | congruence].
      + injection H12 as <-. auto.
    - injection H12 as <-. split; [apply estende_refl | reflexivity]. }
  destruct S12 as [E12 C12].
  pose proof (estende_trans _ _ _ E11 E12) as F11.
  pose proof (estende_trans _ _ _ E10 F11) as F10.
  pose proof (estende_trans _ _ _ E9 F10) as F9.
  pose proof (estende_trans _ _ _ E8 F9) as F8.
  pose proof (estende_trans _ _ _ E7 F8) as F7.
  pose proof (estende_trans _ _ _ E6 F7) as F6.
  pose proof (estende_trans _ _ _ E5 F6) as F5.
  pose proof (estende_trans _ _ _ E4 F5) as F4.
  pose proof (estende_trans _ _ _ E3 F4) as F3.
  split; [exact (estende_trans _ _ _ E06 F7) |].
  split; [congruence |].
  intros c Hc. unfold colunas_garantidas in Hc. cbn [In] in Hc.
  destruct F3 as (A2 & _), F5 as (A4 & _), F6 as (A5 & _), F7 as (A6 & _), F8 as (A7 & _),
           F9 as (A8 & _), F10 as (A9 & _), F11 as (A10 & _), E12 as (A11 & _).
  destruct Hc as [<- | [<- | [<- | [<- | [<- | [<- | [<- | [<- | [<- | []]]]]]]]]]; auto.
Qed.

(** X18. The columns of the frame the enricher returns, for a layer whose
    column names are distinct: the total, the three category counts, the
    area and the four fixed densities are always there; the key column
    [bairro_normalizado] is not; every other column of the layer is kept;
    and every column is one of the layer or has a name the enricher
    writes. *)
Theorem colunas_do_enriquecedor (gdf out : GeoDataFrameBairros)
    (contagem_total : dict string Z)
    (contagem_por_tipo : dict string (dict string Z))
    (contagem_por_estacao : option (dict string (dict string Z)))
    (contagem_por_tipo_estacao : option (dict string (dict string (dict string Z)))) :
  adicionar_contagens_ao_shapefile gdf contagem_total contagem_por_tipo
    contagem_por_estacao contagem_por_tipo_estacao = Ok out ->
  NoDup (dict_keys (colunas gdf)) ->
  (forall c, In c colunas_garantidas -> tem_coluna_bairros out c = true)
  /\ tem_coluna_bairros out "bairro_normalizado" = false
  /\ (forall c, c <> "bairro_normalizado" ->
                tem_coluna_bairros gdf c = true -> tem_coluna_bairros out c = true)
  /\ (forall c, tem_coluna_bairros out c = true ->
                tem_coluna_bairros gdf c = true \/ nome_gerado c = true).
Proof.
  intros H Hnd.
  destruct (adicionar_quadro _ _ _ _ _ _ H) as (g12 & -> & (A & B & C) & _ & Hgar).
  assert (Hdrop : forall c, c <> "bairro_normalizado" ->
            tem_coluna_bairros (drop_coluna "bairro_normalizado" g12) c
            = tem_coluna_bairros g12 c).
  { intros c Hc. unfold tem_coluna_bairros, drop_coluna, dict_in. cbn [colunas].
    now rewrite dict_get_remove_neq. }
  split; [| split; [| split]].
  - intros c Hc. rewrite Hdrop; [now apply Hgar |].
    unfold colunas_garantidas in Hc. cbn [In] in Hc.
    destruct Hc as [<- | [<- | [<- | [<- | [<- | [<- | [<- | [<- | [<- | []]]]]]]]]];
      discriminate.
  - unfold tem_coluna_bairros, drop_coluna. cbn [colunas].
    apply dict_in_remove_mesmo. auto.
  - intros c Hc Hin. rewrite Hdrop by exact Hc. auto.
  - intros c Hin.
    destruct (String.eqb_spec c "bairro_normalizado") as [-> | Hne]; [now right |].
    rewrite Hdrop in Hin by exact Hne. auto.
Qed.

(** X19. The reference system of the frame the enricher returns: that of
    the layer when the layer has the column [st_areasha], even when it has
    none; otherwise that of the layer, or EPSG:4326 when the layer has
    none. *)
Theorem crs_do_enriquecedor (gdf out : GeoDataFrameBairros)
    (contagem_total : dict string Z)
    (contagem_por_tipo : dict string (dict string Z))
    (contagem_por_estacao : option (dict string (dict string Z)))
    (contagem_por_tipo_estacao : option (dict string (dict string (dict string Z)))) :
  adicionar_contagens_ao_shapefile gdf contagem_total contagem_por_tipo
    contagem_por_estacao contagem_por_tipo_estacao = Ok out ->
  crs out =
  if tem_coluna_bairros gdf "st_areasha" then crs gdf
  else Some (match crs gdf with Some c => c | None => 4326 end).
Proof.
  intros H.
  destruct (adicionar_quadro _ _ _ _ _ _ H) as (g12 & -> & _ & Hcrs & _).
  exact Hcrs.
Qed.


(* ------------------------------------------------------------------ *)
(** ** Boundary enricher: the cells of the count columns *)

Lemma Forall2_eq_refl {A : Type} (l : list A) : Forall2 eq l l.
Proof. induction l; constructor; auto. Qed.

Lemma Forall2_impl {A B : Type} (R R' : A -> B -> Prop) (l1 : list A) (l2 : list B) :
  (forall x y, R x y -> R' x y) -> Forall2 R l1 l2 -> Forall2 R' l1 l2.
Proof. intros HR. induction 1; constructor; auto. Qed.

(** One assignment of a column, row by row. *)
Lemma atribui_linhas (nome : string) (dt : dtype) (f : poligono -> res pyval)
    (g g' : GeoDataFrameBairros) :
  atribui nome dt f g = Ok g' ->
  Forall2 (fun p p' => exists v, f p = Ok v /\ p' = escreve nome v p)
          (poligonos g) (poligonos g').
Proof.
  intros H.
  apply (atribui_Forall2 eq _ (poligonos g) nome dt f g g' (Forall2_eq_refl _) H).
  intros p0 p v -> Hf. eauto.
Qed.

Lemma preserva_refl (W : string -> bool) (p : poligono) : preserva W p p.
Proof. unfold preserva. auto. Qed.

Lemma preserva_trans (W : string -> bool) (p1 p2 p3 : poligono) :
  preserva W p1 p2 -> preserva W p2 p3 -> preserva W p1 p3.
Proof.
  sem_biblioteca. unfold preserva. intros [G12 H12] [G23 H23].
  split; [congruence |]. intros x Hx.
  now rewrite (H23 x Hx), (H12 x Hx).
Qed.

Lemma preserva_linhas_refl (W : string -> bool) (l : list poligono) :
  Forall2 (preserva W) l l.
Proof. induction l; constructor; auto using preserva_refl. Qed.

Lemma preserva_linhas_trans (W : string -> bool) (l1 l2 l3 : list poligono) :
  Forall2 (preserva W) l1 l2 -> Forall2 (preserva W) l2 l3 -> Forall2 (preserva W) l1 l3.
Proof. apply Forall2_compoe. apply preserva_trans. Qed.

Lemma atribui_preserva (W : string -> bool) (nome : string) (dt : dtype)
    (f : poligono -> res pyval) (g g' : GeoDataFrameBairros) :
  atribui nome dt f g = Ok g' ->
  W nome = false ->
  Forall2 (preserva W) (poligonos g) (poligonos g').
Proof.
  intros H Hn. apply atribui_linhas in H.
  revert H. apply Forall2_impl. intros p p' (v & _ & ->).
  split; [reflexivity |]. intros x Hx.
  rewrite celula_escreve.
  destruct (String.eqb_spec x nome) as [-> | _]; [congruence | reflexivity].
Qed.

Lemma garante_preserva (W : string -> bool) (nome : string) (g g' : GeoDataFrameBairros) :
  garante_coluna nome g = Ok g' ->
  W nome = false ->
  Forall2 (preserva W) (poligonos g) (poligonos g').
Proof.
  intros H Hn. unfold garante_coluna in H.
  destruct (tem_coluna_bairros g nome).
  - injection H as <-. apply preserva_linhas_refl.
  - exact (atribui_preserva W _ _ _ _ _ H Hn).
Qed.

Lemma par_preserva (W : string -> bool) (c d : string) (contagem : poligono -> Z)
    (g g' : GeoDataFrameBairros) :
  atribui_contagem_e_densidade c d contagem g = Ok g' ->
  W c = false -> W d = false ->
  Forall2 (preserva W) (poligonos g) (poligonos g').
Proof.
  intros H Hc Hd. unfold atribui_contagem_e_densidade in H.
  apply bind_Ok in H as (g1 & H1 & H2).
  exact (preserva_linhas_trans W _ _ _ (atribui_preserva W _ _ _ _ _ H1 Hc)
           (atribui_preserva W _ _ _ _ _ H2 Hd)).
Qed.

Lemma foldM_preserva {X : Type} (W : string -> bool)
    (passo : GeoDataFrameBairros -> X -> res GeoDataFrameBairros) (xs : list X) :
  (forall g x g', In x xs -> passo g x = Ok g' ->
                  Forall2 (preserva W) (poligonos g) (poligonos g')) ->
  forall g g', foldM passo xs g = Ok g' ->
               Forall2 (preserva W) (poligonos g) (poligonos g').
Proof.
  induction xs as [| x xs IH]; intros Hp g g' H; cbn [foldM] in H.
  - injection H as <-. apply preserva_linhas_refl.
  - apply bind_Ok in H as (g1 & H1 & H2).
    apply (preserva_linhas_trans W _ (poligonos g1)).
    + exact (Hp g x g1 (or_introl eq_refl) H1).
    + exact (IH (fun ga y gb Hy => Hp ga y gb (or_intror Hy)) g1 g' H2).
Qed.

(** The columns by season and by type and season, and their densities,
    leave the columns [W] alone when no name of [W] starts like theirs. *)
Lemma estacoes_preservam (W : string -> bool)
    (por_tipo : dict string (dict string Z))
    (por_estacao : dict string (dict string Z))
    (por_tipo_estacao : dict string (dict string (dict string Z)))
    (g g' : GeoDataFrameBairros) :
  (forall s, W ("cont_" ++ s) = false) ->
  (forall s, W ("dens_" ++ s) = false) ->
  (if py_truthy_dict por_estacao then
     g1 <- foldM (fun g estacao =>
                    atribui_contagem_e_densidade
                      ("cont_" ++ estacao) ("dens_" ++ estacao)
                      (fun p => consulta2 (bairro_da_linha p) estacao por_estacao) g)
                 nomes_estacoes g ;;
     if py_truthy_dict por_tipo_estacao then
       foldM (fun g (m : string * string) =>
                let curto := tipo_curto (snd m) in
                foldM (fun g estacao =>
                         atribui_contagem_e_densidade
                           ("cont_" ++ curto ++ "_" ++ estacao)
                           ("dens_" ++ curto ++ "_" ++ estacao)
                           (fun p => consulta3 (bairro_da_linha p) (fst m) estacao
                                       por_tipo_estacao) g)
                      nomes_estacoes g)
             (mapeamento_tipos_de por_tipo) g1
     else Ok g1
   else Ok g) = Ok g' ->
  Forall2 (preserva W) (poligonos g) (poligonos g').
Proof.
  intros Hc Hd H.
  destruct (py_truthy_dict por_estacao).
  - apply bind_Ok in H as (g1 & H1 & H).
    apply (preserva_linhas_trans W _ (poligonos g1)).
    + revert H1. apply foldM_preserva. intros ga e gb _ Hab.
      exact (par_preserva W _ _ _ _ _ Hab (Hc _) (Hd _)).
    + destruct (py_truthy_dict por_tipo_estacao).
      * revert H. apply foldM_preserva. intros ga m gb _ Hab. cbv zeta in Hab.
        revert Hab. apply foldM_preserva. intros gc e gd _ Hcd.
        exact (par_preserva W _ _ _ _ _ Hcd (Hc _) (Hd _)).
      * injection H as <-. apply preserva_linhas_refl.
  - injection H as <-. apply preserva_linhas_refl.
Qed.

Lemma bairro_da_linha_escreve (n : string) (v : pyval) (p : poligono) :
  ("bairro_normalizado" =? n) = false ->
  bairro_da_linha (escreve n v p) = bairro_da_linha p.
Proof.
  intros Hn. unfold bairro_da_linha. now rewrite celula_escreve, Hn.
Qed.

Lemma find_rev_existsb {A : Type} (f : A -> bool) (l : list A) :
  existsb f l = match find f (rev l) with Some _ => true | None => false end.
Proof.
  induction l as [| x l IH]; [reflexivity |].
  cbn [existsb rev]. rewrite find_ultimo, IH.
  destruct (find f (rev l)); [apply orb_true_r |].
  destruct (f x); reflexivity.
Qed.

(** The loop over the types: in every column the count of the last type
    that was given the column, and the other columns as they were. *)
Lemma laco_tipos_valores (tab : dict string (dict string Z)) (ts : list string) :
  forall g g',
    foldM (fun g (m : string * string) =>
             atribui (snd m) DInt64
               (fun p => Ok (PInt (consulta2 (bairro_da_linha p) (fst m) tab))) g)
          (map (fun tipo => (tipo, nome_coluna_tipo tipo)) ts) g = Ok g' ->
    Forall2 (fun p p' =>
               forall c,
                 celula c p' =
                 match ultimo_tipo_da_coluna ts c with
                 | Some t => PInt (consulta2 (bairro_da_linha p) t tab)
                 | None => celula c p
                 end) (poligonos g) (poligonos g')
    /\ (forall c, tem_coluna_bairros g' c =
                  existsb (fun t => nome_coluna_tipo t =? c) ts || tem_coluna_bairros g c).
Proof.
  unfold ultimo_tipo_da_coluna.
  induction ts as [| t ts IH]; intros g g' H; cbn [map foldM] in H.
  - injection H as <-. split; [| reflexivity].
    apply (Forall2_impl eq); [| apply Forall2_eq_refl]. intros p p' <- c. reflexivity.
  - apply bind_Ok in H as (g1 & H1 & H). cbn [fst snd] in H1.
    destruct (IH g1 g' H) as [Hrows Hcols]. split.
    + apply atribui_linhas in H1.
      refine (Forall2_compoe _ _ _ _ _ _ _ H1 Hrows).
      intros p p1 p' (v & Hv & ->) Hp' c. injection Hv as <-.
      rewrite Hp'. cbn [rev]. rewrite find_ultimo.
      assert (Hb : bairro_da_linha
                     (escreve (nome_coluna_tipo t)
                        (PInt (consulta2 (bairro_da_linha p) t tab)) p)
                   = bairro_da_linha p).
      { apply bairro_da_linha_escreve.
        destruct (nome_coluna_tipo_contagem t) as [r ->]. reflexivity. }
      rewrite Hb.
      destruct (find (fun t0 => nome_coluna_tipo t0 =? c) (rev ts)); [reflexivity |].
      rewrite celula_escreve, (String.eqb_sym c).
      destruct (nome_coluna_tipo t =? c); reflexivity.
    + intros c. rewrite Hcols. cbn [existsb].
      destruct (atribui_quadro _ _ _ _ _ H1) as [Hc _].
      unfold tem_coluna_bairros at 1. rewrite Hc, dict_in_set.
      cbn [chave_eqb Chave_string]. fold (tem_coluna_bairros g c).
      rewrite (String.eqb_sym c).
      destruct (nome_coluna_tipo t =? c),
               (existsb (fun t0 => nome_coluna_tipo t0 =? c) ts),
               (tem_coluna_bairros g c); reflexivity.
Qed.

(** A guaranteed column, row by row and in the frame. *)
Lemma garante_valores (nome : string) (g g' : GeoDataFrameBairros) :
  garante_coluna nome g = Ok g' ->
  Forall2 (fun p p' =>
             forall x, celula x p' =
                       if (x =? nome) && negb (tem_coluna_bairros g nome)
                       then PInt 0 else celula x p) (poligonos g) (poligonos g')
  /\ (forall c, tem_coluna_bairros g' c = (c =? nome) || tem_coluna_bairros g c).
Proof.
  intros H. unfold garante_coluna in H.
  destruct (tem_coluna_bairros g nome) eqn:E.
  - injection H as <-. split.
    + apply (Forall2_impl eq); [| apply Forall2_eq_refl]. intros p p' <- x.
      now rewrite andb_false_r.
    + intros c. destruct (String.eqb_spec c nome) as [-> | _]; [now rewrite E | reflexivity].
  - split.
    + apply atribui_linhas in H. revert H. apply Forall2_impl.
      intros p p' (v & Hv & ->) x. injection Hv as <-.
      rewrite celula_escreve, andb_true_r. reflexivity.
    + intros c. destruct (atribui_quadro _ _ _ _ _ H) as [Hc _].
      unfold tem_coluna_bairros at 1. rewrite Hc, dict_in_set. reflexivity.
Qed.

Lemma prefixo_contagem_nao_chave (c : string) :
  String.prefix "contagem_" c = true -> (c =? "bairro_normalizado") = false.
Proof.
  intros H. destruct (String.eqb_spec c "bairro_normalizado") as [-> | _];
    [discriminate H | reflexivity].
Qed.


Lemma Forall2_seq {A B C : Type} (R : A -> B -> Prop) (S : B -> C -> Prop)
    (l1 : list A) (l2 : list B) (l3 : list C) :
  Forall2 R l1 l2 -> Forall2 S l2 l3 ->
  Forall2 (fun a c => exists b, R a b /\ S b c) l1 l3.
Proof. apply Forall2_compoe. eauto. Qed.

(** The rows after the key column and the total have been written. *)
Lemma linhas_com_total (cb : string) (tot_n : dict string Z)
    (gdf g1 g2 : GeoDataFrameBairros) :
  atribui "bairro_normalizado" DObject
    (fun p => Ok (PStr (strip (py_str (celula cb p))))) gdf = Ok g1 ->
  atribui "contagem_total" DInt64
    (fun p => Ok (PInt (astype_int64 (get_or (bairro_da_linha p) tot_n 0)))) g1 = Ok g2 ->
  Forall2 (fun p0 p2 =>
             bairro_da_linha p2 = nome_normalizado cb p0
             /\ forall c, (c =? "bairro_normalizado") = false ->
                          celula c p2 =
                          if c =? "contagem_total"
                          then PInt (astype_int64 (get_or (nome_normalizado cb p0) tot_n 0))
                          else celula c p0)
          (poligonos gdf) (poligonos g2)
  /\ (forall c, tem_coluna_bairros g2 c =
                (c =? "contagem_total") || ((c =? "bairro_normalizado")
                                            || tem_coluna_bairros gdf c)).
Proof.
  intros H1 H2. split.
  - apply atribui_linhas in H1, H2. refine (Forall2_compoe _ _ _ _ _ _ _ H1 H2).
    intros p0 p1 p2 (v1 & Hv1 & ->) (v2 & Hv2 & ->).
    injection Hv1 as <-. injection Hv2 as <-.
    assert (Hb : bairro_da_linha
                   (escreve "bairro_normalizado" (PStr (strip (py_str (celula cb p0)))) p0)
                 = nome_normalizado cb p0).
    { unfold bairro_da_linha. rewrite celula_escreve. reflexivity. }
    split.
    + rewrite bairro_da_linha_escreve by reflexivity. exact Hb.
    + intros c Hc. rewrite celula_escreve, Hb.
      destruct (c =? "contagem_total"); [reflexivity |].
      now rewrite celula_escreve, Hc.
  - intros c. destruct (atribui_quadro _ _ _ _ _ H1) as [C1 _].
    destruct (atribui_quadro _ _ _ _ _ H2) as [C2 _].
    unfold tem_coluna_bairros. rewrite C2, dict_in_set, C1, dict_in_set. reflexivity.
Qed.

Lemma astype_int64_pequeno (z : Z) :
  - 2 ^ 63 <= z < 2 ^ 63 -> astype_int64 z = z.
Proof.
  sem_biblioteca. intros Hz. unfold astype_int64.
  rewrite Z.mod_small; lia.
Qed.

Lemma astype_int64_da_tabela (f : string -> string) (d : dict string Z) (k : string) :
  Forall (fun kv => - 2 ^ 53 <= snd kv <= 2 ^ 53) d ->
  astype_int64 (get_or k (dict_rekey f d) 0) = get_or k (dict_rekey f d) 0.
Proof.
  sem_biblioteca. intros Hd. apply astype_int64_pequeno.
  unfold get_or, dict_rekey. rewrite dict_get_fold_rekey.
  destruct (find (fun kv => chave_eqb k (f (fst kv))) (rev d)) as [kv |] eqn:E.
  - apply find_some in E as [Hin _]. apply in_rev in Hin.
    rewrite Forall_forall in Hd. specialize (Hd kv Hin). lia.
  - cbn [dict_get]. lia.
Qed.

(** X20. The count columns of the output, row by row, for a total table
    whose counts are at most 2^53 in absolute value (where a count is the
    same as a 64-bit integer and as a float): a column that some type was
    given holds the count, for the row's stripped name, of the last such
    type in sorted order; otherwise [contagem_total] holds the total of
    that name (0 when the table has no such key), a category column the
    layer lacked holds 0, and any other column named [contagem_...] is as
    in the layer. *)
Theorem contagens_do_enriquecedor (gdf out : GeoDataFrameBairros)
    (contagem_total : dict string Z)
    (contagem_por_tipo : dict string (dict string Z))
    (contagem_por_estacao : option (dict string (dict string Z)))
    (contagem_por_tipo_estacao : option (dict string (dict string (dict string Z)))) :
  adicionar_contagens_ao_shapefile gdf contagem_total contagem_por_tipo
    contagem_por_estacao contagem_por_tipo_estacao = Ok out ->
  Forall (fun kv => - 2 ^ 53 <= snd kv <= 2 ^ 53) contagem_total ->
  exists coluna_bairro,
    resolver_coluna_bairro gdf = Ok coluna_bairro
    /\ Forall2
         (fun p0 p =>
            forall c,
              String.prefix "contagem_" c = true ->
              celula c p =
              match ultimo_tipo_da_coluna
                      (todos_tipos_de (dict_rekey strip contagem_por_tipo)) c with
              | Some t =>
                  PInt (consulta2 (nome_normalizado coluna_bairro p0) t
                          (dict_rekey strip contagem_por_tipo))
              | None =>
                  if c =? "contagem_total"
                  then PInt (get_or (nome_normalizado coluna_bairro p0)
                               (dict_rekey strip contagem_total) 0)
                  else if existsb (String.eqb c) categorias_garantidas
                          && negb (tem_coluna_bairros gdf c)
                  then PInt 0
                  else celula c p0
              end)
         (poligonos gdf) (poligonos out).
Proof.
  intros H Hpeq. apply adicionar_passos in H
    as (cb & g1 & g2 & g3 & g6 & g7 & g11 & g12
        & Hcb & H1 & H2 & H3 & H6 & H7 & H11 & H12 & ->).
  exists cb. split; [exact Hcb |].
  destruct (linhas_com_total _ _ _ _ _ H1 H2) as [R02 F02].
  unfold mapeamento_tipos_de in H3.
  destruct (laco_tipos_valores _ _ _ _ H3) as [R23 F23].
  apply bind_Ok in H6 as (g4 & H4 & H6). apply bind_Ok in H6 as (g5 & H5 & H6).
  destruct (garante_valores _ _ _ H4) as [R34 F34].
  destruct (garante_valores _ _ _ H5) as [R45 F45].
  destruct (garante_valores _ _ _ H6) as [R56 _].
  set (W := String.prefix "contagem_").
  assert (R67 : Forall2 (preserva W) (poligonos g6) (poligonos g7)).
  { destruct (tem_coluna_bairros g6 "st_areasha").
    - exact (atribui_preserva W _ _ _ _ _ H7 eq_refl).
    - exact (atribui_preserva W _ _ _ _ _ H7 eq_refl). }
  apply bind_Ok in H11 as (g8 & H8 & H11). apply bind_Ok in H11 as (g9 & H9 & H11).
  apply bind_Ok in H11 as (g10 & H10 & H11).
  pose proof (atribui_preserva W _ _ _ _ _ H8 eq_refl) as R78.
  pose proof (atribui_preserva W _ _ _ _ _ H9 eq_refl) as R89.
  pose proof (atribui_preserva W _ _ _ _ _ H10 eq_refl) as R910.
  pose proof (atribui_preserva W _ _ _ _ _ H11 eq_refl) as R1011.
  cbv zeta in H12.
  assert (R1112 : Forall2 (preserva W) (poligonos g11) (poligonos g12)).
  { revert H12. apply estacoes_preservam; intros s; reflexivity. }
  pose proof (preserva_linhas_trans W _ _ _ R67
                (preserva_linhas_trans W _ _ _ R78
                   (preserva_linhas_trans W _ _ _ R89
                      (preserva_linhas_trans W _ _ _ R910
                         (preserva_linhas_trans W _ _ _ R1011 R1112))))) as R612.
  pose proof (Forall2_seq _ _ _ _ _ R02
                (Forall2_seq _ _ _ _ _ R23
                   (Forall2_seq _ _ _ _ _ R34
                      (Forall2_seq _ _ _ _ _ R45
                         (Forall2_seq _ _ _ _ _ R56 R612))))) as Htudo.
  unfold drop_coluna. cbn [poligonos].
  refine (Forall2_map_r _ _ _ _ _ _ Htudo).
  intros p0 p12 (p2 & [Hb Hp2] & p3 & Hp3 & p4 & Hp4 & p5 & Hp5 & p6 & Hp6 & Hp12) c Hc.
  pose proof (prefixo_contagem_nao_chave c Hc) as Hchave.
  rewrite (celula_drop _ _ _ Hchave), (proj2 Hp12 c Hc), Hp6, Hp5, Hp4, Hp3, Hb, (Hp2 c Hchave).
  rewrite (astype_int64_da_tabela strip contagem_total _ Hpeq).
  rewrite !F45, !F34, !F23, !F02.
  unfold ultimo_tipo_da_coluna, categorias_garantidas. cbn [existsb].
  rewrite !find_rev_existsb.
  destruct (String.eqb_spec c "contagem_alagamento") as [-> | Ha].
  { cbn. destruct (find _ _); [reflexivity |].
    destruct (tem_coluna_bairros gdf "contagem_alagamento"); reflexivity. }
  destruct (String.eqb_spec c "contagem_bolsao") as [-> | Hbo].
  { cbn. destruct (find _ _); [reflexivity |].
    destruct (tem_coluna_bairros gdf "contagem_bolsao"); reflexivity. }
  destruct (String.eqb_spec c "contagem_lamina") as [-> | Hl].
  { cbn. destruct (find _ _); [reflexivity |].
    destruct (tem_coluna_bairros gdf "contagem_lamina"); reflexivity. }
  cbn [andb orb]. reflexivity.
Qed.


(* ------------------------------------------------------------------ *)
(** ** Boundary enricher: the cells of the columns by season *)

Lemma preserva_chave (p p' : poligono) :
  preserva (String.eqb "bairro_normalizado") p p' ->
  bairro_da_linha p' = bairro_da_linha p.
Proof.
  intros [_ H]. unfold bairro_da_linha. now rewrite (H "bairro_normalizado" eq_refl).
Qed.

(** What the steps of a run leave alone, by the names they write. *)
Lemma passos_preservam (W : string -> bool) (gdf : GeoDataFrameBairros)
    (tot : dict string Z) (tipo_t : dict string (dict string Z))
    (est_t : option (dict string (dict string Z)))
    (te_t : option (dict string (dict string (dict string Z))))
    (cb : string) (g1 g2 g3 g6 g7 g11 g12 out : GeoDataFrameBairros) :
  passos_do_enriquecedor gdf tot tipo_t est_t te_t cb g1 g2 g3 g6 g7 g11 g12 out ->
  (W "bairro_normalizado" = false -> W "contagem_total" = false ->
   Forall2 (preserva W) (poligonos gdf) (poligonos g2))
  /\ ((forall r, W ("contagem_" ++ r) = false) ->
      Forall2 (preserva W) (poligonos g2) (poligonos g6))
  /\ (W "area_km2" = false -> Forall2 (preserva W) (poligonos g6) (poligonos g7))
  /\ ((forall s, W ("dens_" ++ s) = false) ->
      Forall2 (preserva W) (poligonos g7) (poligonos g11))
  /\ ((forall s, W ("cont_" ++ s) = false) -> (forall s, W ("dens_" ++ s) = false) ->
      Forall2 (preserva W) (poligonos g11) (poligonos g12)).
Proof.
  intros (_ & H1 & H2 & H3 & H6 & H7 & H11 & H12 & _).
  split; [| split; [| split; [| split]]].
  - intros Hb Ht.
    exact (preserva_linhas_trans W _ _ _ (atribui_preserva W _ _ _ _ _ H1 Hb)
             (atribui_preserva W _ _ _ _ _ H2 Ht)).
  - intros Hr.
    apply bind_Ok in H6 as (g4 & H4 & H6). apply bind_Ok in H6 as (g5 & H5 & H6).
    apply (preserva_linhas_trans W _ (poligonos g3)).
    + revert H3. apply foldM_preserva. intros ga m gb Hin Hab.
      unfold mapeamento_tipos_de in Hin. apply in_map_iff in Hin as (t & <- & _).
      cbn [snd] in Hab. apply (atribui_preserva W _ _ _ _ _ Hab).
      destruct (nome_coluna_tipo_contagem t) as [r ->]. apply Hr.
    + exact (preserva_linhas_trans W _ _ _ (garante_preserva W _ _ _ H4 (Hr "lamina"))
               (preserva_linhas_trans W _ _ _ (garante_preserva W _ _ _ H5 (Hr "bolsao"))
                  (garante_preserva W _ _ _ H6 (Hr "alagamento")))).
  - intros Ha. destruct (tem_coluna_bairros g6 "st_areasha").
    + exact (atribui_preserva W _ _ _ _ _ H7 Ha).
    + exact (atribui_preserva W _ _ _ _ _ H7 Ha).
  - intros Hd.
    apply bind_Ok in H11 as (g8 & H8 & H11). apply bind_Ok in H11 as (g9 & H9 & H11).
    apply bind_Ok in H11 as (g10 & H10 & H11).
    exact (preserva_linhas_trans W _ _ _ (atribui_preserva W _ _ _ _ _ H8 (Hd "km2"))
             (preserva_linhas_trans W _ _ _ (atribui_preserva W _ _ _ _ _ H9 (Hd "lamina"))
                (preserva_linhas_trans W _ _ _
                   (atribui_preserva W _ _ _ _ _ H10 (Hd "bolsao"))
                   (atribui_preserva W _ _ _ _ _ H11 (Hd "alag"))))).
  - intros Hc Hd. cbv zeta in H12. revert H12. now apply estacoes_preservam.
Qed.

(** The key the lambdas read, from the total to the fixed densities. *)
Lemma chave_nas_densidades (gdf : GeoDataFrameBairros)
    (tot : dict string Z) (tipo_t : dict string (dict string Z))
    (est_t : option (dict string (dict string Z)))
    (te_t : option (dict string (dict string (dict string Z))))
    (cb : string) (g1 g2 g3 g6 g7 g11 g12 out : GeoDataFrameBairros) :
  passos_do_enriquecedor gdf tot tipo_t est_t te_t cb g1 g2 g3 g6 g7 g11 g12 out ->
  Forall2 (fun p0 p11 => bairro_da_linha p11 = nome_normalizado cb p0)
          (poligonos gdf) (poligonos g11).
Proof.
  intros Hp.
  destruct (passos_preservam (String.eqb "bairro_normalizado") _ _ _ _ _ _ _ _ _ _ _ _ _ _ Hp)
    as (_ & A & B & C & _).
  destruct Hp as (_ & H1 & H2 & _).
  destruct (linhas_com_total _ _ _ _ _ H1 H2) as [R02 _].
  pose proof (preserva_linhas_trans _ _ _ _ (A (fun r => eq_refl))
                (preserva_linhas_trans _ _ _ _ (B eq_refl) (C (fun s => eq_refl)))) as R211.
  refine (Forall2_compoe _ _ _ _ _ _ _ R02 R211).
  intros p0 p2 p11 [Hb _] Hpr. now rewrite (preserva_chave _ _ Hpr).
Qed.

(** A loop of count columns [cont_<suffix>], each followed by its density:
    every column [cont_...] holds the count of the last item with its
    suffix, or is as it was. *)
Lemma laco_pares_valores {X : Type} (suf : X -> string) (cnt : X -> string -> Z)
    (xs : list X) :
  forall g g',
    foldM (fun g x =>
             atribui_contagem_e_densidade ("cont_" ++ suf x) ("dens_" ++ suf x)
               (fun p => cnt x (bairro_da_linha p)) g) xs g = Ok g' ->
    Forall2 (fun p p' =>
               bairro_da_linha p' = bairro_da_linha p
               /\ forall s,
                    celula ("cont_" ++ s) p' =
                    match find (fun x => suf x =? s) (rev xs) with
                    | Some x => PInt (cnt x (bairro_da_linha p))
                    | None => celula ("cont_" ++ s) p
                    end) (poligonos g) (poligonos g').
Proof.
  induction xs as [| x xs IH]; intros g g' H; cbn [foldM] in H.
  - injection H as <-. apply (Forall2_impl eq); [| apply Forall2_eq_refl].
    intros p p' <-. split; reflexivity.
  - apply bind_Ok in H as (g1 & H1 & H). unfold atribui_contagem_e_densidade in H1.
    apply bind_Ok in H1 as (ga & Ha & Hb).
    apply atribui_linhas in Ha, Hb.
    pose proof (Forall2_seq _ _ _ _ _ Ha Hb) as H01.
    refine (Forall2_compoe _ _ _ _ _ _ _ H01 (IH g1 g' H)).
    intros p p1 p' (pa & (va & Hva & ->) & (vb & _ & ->)) [Hbairro Hcel].
    injection Hva as <-.
    assert (Hb1 : bairro_da_linha
                    (escreve ("dens_" ++ suf x) vb
                       (escreve ("cont_" ++ suf x) (PInt (cnt x (bairro_da_linha p))) p))
                  = bairro_da_linha p).
    { now rewrite !bairro_da_linha_escreve by reflexivity. }
    split; [congruence |].
    intros s. rewrite Hcel, Hb1. cbn [rev]. rewrite find_ultimo.
    destruct (find (fun x0 => suf x0 =? s) (rev xs)); [reflexivity |].
    rewrite !celula_escreve.
    change ("cont_" ++ s =? "dens_" ++ suf x) with false.
    change ("cont_" ++ s =? "cont_" ++ suf x) with (s =? suf x).
    rewrite (String.eqb_sym s). destruct (suf x =? s); reflexivity.
Qed.

Lemma sublinhado_nao_estacao (a b e : string) :
  In e nomes_estacoes -> (a ++ "_" ++ b =? e) = false.
Proof.
  intros He. destruct (String.eqb_spec (a ++ "_" ++ b) e) as [E | _]; [| reflexivity].
  apply (f_equal (contem "_")) in E. rewrite contem_meio in E.
  unfold nomes_estacoes, estacoes in He. cbn [map nome_estacao In] in He.
  destruct He as [<- | [<- | [<- | [<- | []]]]]; vm_compute in E; discriminate E.
Qed.

(** X21. The columns by season, when the table by season is not empty:
    in every row, [cont_<season>] holds the count of the season for the
    row's stripped name, 0 when the table has none. *)
Theorem contagens_por_estacao_do_enriquecedor (gdf out : GeoDataFrameBairros)
    (contagem_total : dict string Z)
    (contagem_por_tipo : dict string (dict string Z))
    (contagem_por_estacao : dict string (dict string Z))
    (contagem_por_tipo_estacao : option (dict string (dict string (dict string Z)))) :
  adicionar_contagens_ao_shapefile gdf contagem_total contagem_por_tipo
    (Some contagem_por_estacao) contagem_por_tipo_estacao = Ok out ->
  py_truthy_dict (normalizar2 contagem_por_estacao) = true ->
  exists coluna_bairro,
    resolver_coluna_bairro gdf = Ok coluna_bairro
    /\ Forall2
         (fun p0 p =>
            forall e, In e nomes_estacoes ->
                      celula ("cont_" ++ e) p =
                      PInt (consulta2 (nome_normalizado coluna_bairro p0) e
                              (normalizar2 contagem_por_estacao)))
         (poligonos gdf) (poligonos out).
Proof.
  intros H Hest. apply adicionar_passos in H
    as (cb & g1 & g2 & g3 & g6 & g7 & g11 & g12 & Hp).
  pose proof (chave_nas_densidades _ _ _ _ _ _ _ _ _ _ _ _ _ _ Hp) as R011.
  destruct Hp as (Hcb & _ & _ & _ & _ & _ & _ & H12 & ->).
  exists cb. split; [exact Hcb |].
  cbv zeta in H12. rewrite Hest in H12.
  apply bind_Ok in H12 as (ga & Ha & H12).
  pose proof (laco_pares_valores (fun e => e)
                (fun e b => consulta2 b e (normalizar2 contagem_por_estacao))
                nomes_estacoes g11 ga Ha) as R11a.
  set (W := fun x => existsb (String.eqb x) (map (append "cont_") nomes_estacoes)).
  assert (Ra12 : Forall2 (preserva W) (poligonos ga) (poligonos g12)).
  { destruct (py_truthy_dict _).
    - revert H12. apply foldM_preserva. intros gb m gc _ Hbc. cbv zeta in Hbc.
      revert Hbc. apply foldM_preserva. intros gd e ge _ Hde.
      apply (par_preserva W _ _ _ _ _ Hde); [| reflexivity].
      unfold W, nomes_estacoes, estacoes. cbn [map nome_estacao existsb].
      change ("cont_" ++ tipo_curto (snd m) ++ "_" ++ e =? "cont_" ++ "verao")
        with (tipo_curto (snd m) ++ "_" ++ e =? "verao").
      change ("cont_" ++ tipo_curto (snd m) ++ "_" ++ e =? "cont_" ++ "outono")
        with (tipo_curto (snd m) ++ "_" ++ e =? "outono").
      change ("cont_" ++ tipo_curto (snd m) ++ "_" ++ e =? "cont_" ++ "inverno")
        with (tipo_curto (snd m) ++ "_" ++ e =? "inverno").
      change ("cont_" ++ tipo_curto (snd m) ++ "_" ++ e =? "cont_" ++ "primavera")
        with (tipo_curto (snd m) ++ "_" ++ e =? "primavera").
      rewrite !sublinhado_nao_estacao; [reflexivity | | | |];
        unfold nomes_estacoes, estacoes; cbn [map nome_estacao In]; auto.
    - injection H12 as <-. apply preserva_linhas_refl. }
  pose proof (Forall2_seq _ _ _ _ _ R011 (Forall2_seq _ _ _ _ _ R11a Ra12)) as Htudo.
  unfold drop_coluna. cbn [poligonos].
  refine (Forall2_map_r _ _ _ _ _ _ Htudo).
  intros p0 p12 (p11 & Hb & pa & [_ Hcel] & [_ Hpr]) e He.
  rewrite celula_drop by reflexivity.
  rewrite Hpr, Hcel, Hb.
  - unfold nomes_estacoes, estacoes in *. cbn [map nome_estacao In rev app] in *.
    destruct He as [<- | [<- | [<- | [<- | []]]]]; reflexivity.
  - unfold W. apply existsb_exists. exists ("cont_" ++ e). split.
    + apply in_map. exact He.
    + apply String.eqb_refl.
Qed.


(* ------------------------------------------------------------------ *)
(** ** Boundary enricher: the cells of the columns by type and season *)

Lemma divide_no_sublinhado (a b e1 e2 : string) :
  contem "_" e1 = false -> contem "_" e2 = false ->
  a ++ "_" ++ e1 = b ++ "_" ++ e2 -> a = b /\ e1 = e2.
Proof.
  sem_biblioteca. intros H1 H2. revert b.
  induction a as [| c a IH]; intros [| d b] E; cbn [append] in E.
  - injection E as E. auto.
  - injection E as _ E. rewrite E in H1.
    pose proof (contem_meio "_" b e2) as Hm. cbn [append] in Hm, H1. congruence.
  - injection E as _ E. rewrite <- E in H2.
    pose proof (contem_meio "_" a e1) as Hm. cbn [append] in Hm, H2. congruence.
  - injection E as -> E. destruct (IH b E) as [-> ->]. auto.
Qed.

Lemma estacao_sem_sublinhado (e : string) : In e nomes_estacoes -> contem "_" e = false.
Proof.
  unfold nomes_estacoes, estacoes. cbn [map nome_estacao In].
  intros [<- | [<- | [<- | [<- | []]]]]; reflexivity.
Qed.

Lemma find_estacao_do_tipo (a b e : string) :
  In e nomes_estacoes ->
  find (fun e' => a ++ "_" ++ e' =? b ++ "_" ++ e) (rev nomes_estacoes) =
  if a =? b then Some e else None.
Proof.
  intros He.
  rewrite (find_ext_In _ (fun e' => (a =? b) && (e' =? e))).
  - unfold nomes_estacoes, estacoes in *. cbn [map nome_estacao In rev app] in *.
    destruct (a =? b); [| reflexivity].
    destruct He as [<- | [<- | [<- | [<- | []]]]]; reflexivity.
  - intros e' He'. apply in_rev in He'.
    destruct (String.eqb_spec (a ++ "_" ++ e') (b ++ "_" ++ e)) as [E | E].
    + apply divide_no_sublinhado in E as [-> ->]; auto using estacao_sem_sublinhado.
      now rewrite !String.eqb_refl.
    + destruct (String.eqb_spec a b) as [-> |]; [| reflexivity].
      destruct (String.eqb_spec e' e) as [-> |]; [contradiction | reflexivity].
Qed.

(** The loop over the types and, inside, over the seasons: the column
    [cont_<short name>_<season>] holds the count of the last type with
    that short name, or is as it was. *)
Lemma laco_tipo_estacao_valores (tab : dict string (dict string (dict string Z)))
    (ts : list string) :
  forall g g',
    foldM (fun g (m : string * string) =>
             let curto := tipo_curto (snd m) in
             foldM (fun g estacao =>
                      atribui_contagem_e_densidade
                        ("cont_" ++ curto ++ "_" ++ estacao)
                        ("dens_" ++ curto ++ "_" ++ estacao)
                        (fun p => consulta3 (bairro_da_linha p) (fst m) estacao tab) g)
                   nomes_estacoes g)
          (map (fun tipo => (tipo, nome_coluna_tipo tipo)) ts) g = Ok g' ->
    Forall2 (fun p p' =>
               bairro_da_linha p' = bairro_da_linha p
               /\ forall curto e,
                    In e nomes_estacoes ->
                    celula ("cont_" ++ curto ++ "_" ++ e) p' =
                    match ultimo_tipo_do_curto ts curto with
                    | Some t => PInt (consulta3 (bairro_da_linha p) t e tab)
                    | None => celula ("cont_" ++ curto ++ "_" ++ e) p
                    end) (poligonos g) (poligonos g').
Proof.
  unfold ultimo_tipo_do_curto.
  induction ts as [| t ts IH]; intros g g' H; cbn [map foldM] in H.
  - injection H as <-. apply (Forall2_impl eq); [| apply Forall2_eq_refl].
    intros p p' <-. split; reflexivity.
  - apply bind_Ok in H as (g1 & H1 & H). cbv zeta in H1. cbn [fst snd] in H1.
    pose proof (laco_pares_valores
                  (fun e => tipo_curto (nome_coluna_tipo t) ++ "_" ++ e)
                  (fun e b => consulta3 b t e tab) nomes_estacoes g g1 H1) as R1.
    refine (Forall2_compoe _ _ _ _ _ _ _ R1 (IH g1 g' H)).
    intros p p1 p' [Hb1 Hc1] [Hb Hc]. split; [congruence |].
    intros curto e He. rewrite (Hc curto e He), Hb1. cbn [rev]. rewrite find_ultimo.
    destruct (find (fun t0 => tipo_curto (nome_coluna_tipo t0) =? curto) (rev ts));
      [reflexivity |].
    rewrite Hc1, (find_estacao_do_tipo _ _ _ He).
    destruct (tipo_curto (nome_coluna_tipo t) =? curto); reflexivity.
Qed.

(** X22. The columns by type and season, when neither the table by season
    nor the table by type and season is empty: in every row,
    [cont_<short name>_<season>] holds the count, for the row's stripped
    name and the season, of the last type in sorted order that has this
    short name. *)
Theorem contagens_por_tipo_e_estacao_do_enriquecedor (gdf out : GeoDataFrameBairros)
    (contagem_total : dict string Z)
    (contagem_por_tipo : dict string (dict string Z))
    (contagem_por_estacao : dict string (dict string Z))
    (contagem_por_tipo_estacao : dict string (dict string (dict string Z))) :
  adicionar_contagens_ao_shapefile gdf contagem_total contagem_por_tipo
    (Some contagem_por_estacao) (Some contagem_por_tipo_estacao) = Ok out ->
  py_truthy_dict (normalizar2 contagem_por_estacao) = true ->
  py_truthy_dict (normalizar3 contagem_por_tipo_estacao) = true ->
  exists coluna_bairro,
    resolver_coluna_bairro gdf = Ok coluna_bairro
    /\ Forall2
         (fun p0 p =>
            forall curto e t,
              In e nomes_estacoes ->
              ultimo_tipo_do_curto (todos_tipos_de (dict_rekey strip contagem_por_tipo)) curto
              = Some t ->
              celula ("cont_" ++ curto ++ "_" ++ e) p =
              PInt (consulta3 (nome_normalizado coluna_bairro p0) t e
                      (normalizar3 contagem_por_tipo_estacao)))
         (poligonos gdf) (poligonos out).
Proof.
  intros H Hest Hte. apply adicionar_passos in H
    as (cb & g1 & g2 & g3 & g6 & g7 & g11 & g12 & Hp).
  pose proof (chave_nas_densidades _ _ _ _ _ _ _ _ _ _ _ _ _ _ Hp) as R011.
  destruct Hp as (Hcb & _ & _ & _ & _ & _ & _ & H12 & ->).
  exists cb. split; [exact Hcb |].
  cbv zeta in H12. rewrite Hest in H12.
  apply bind_Ok in H12 as (ga & Ha & H12). rewrite Hte in H12.
  pose proof (laco_pares_valores (fun e => e)
                (fun e b => consulta2 b e (normalizar2 contagem_por_estacao))
                nomes_estacoes g11 ga Ha) as R11a.
  unfold mapeamento_tipos_de in H12.
  pose proof (laco_tipo_estacao_valores _ _ _ _ H12) as Ra12.
  pose proof (Forall2_seq _ _ _ _ _ R011 (Forall2_seq _ _ _ _ _ R11a Ra12)) as Htudo.
  unfold drop_coluna. cbn [poligonos].
  refine (Forall2_map_r _ _ _ _ _ _ Htudo).
  intros p0 p12 (p11 & Hb & pa & [Hba _] & [_ Hcel]) curto e t He Ht.
  rewrite celula_drop by reflexivity.
  now rewrite (Hcel curto e He), Ht, Hba, Hb.
Qed.


(* ------------------------------------------------------------------ *)
(** ** Boundary enricher: the area *)

(** The frame when the area is computed: it has the column [st_areasha]
    when the layer has it, and the layer's reference system. *)
Lemma quadro_na_area (gdf : GeoDataFrameBairros)
    (tot : dict string Z) (tipo_t : dict string (dict string Z))
    (est_t : option (dict string (dict string Z)))
    (te_t : option (dict string (dict string (dict string Z))))
    (cb : string) (g1 g2 g3 g6 g7 g11 g12 out : GeoDataFrameBairros) :
  passos_do_enriquecedor gdf tot tipo_t est_t te_t cb g1 g2 g3 g6 g7 g11 g12 out ->
  tem_coluna_bairros g6 "st_areasha" = tem_coluna_bairros gdf "st_areasha"
  /\ crs g6 = crs gdf.
Proof.
  intros (_ & H1 & H2 & H3 & H6 & _).
  destruct (atribui_estende _ _ _ _ _ H1 eq_refl) as (E1 & C1 & _).
  destruct (atribui_estende _ _ _ _ _ H2 eq_refl) as (E2 & C2 & _).
  assert (S3 : estende g2 g3 /\ crs g3 = crs g2).
  { revert H3. apply foldM_estende. intros g [t c] g' Hin Hg. cbn [snd] in Hg.
    assert (Hc : nome_gerado c = true).
    { unfold mapeamento_tipos_de in Hin. apply in_map_iff in Hin as (t' & Ht & _).
      injection Ht as _ <-. destruct (nome_coluna_tipo_contagem t') as [r ->].
      apply nome_gerado_contagem. }
    destruct (atribui_estende _ _ _ _ _ Hg Hc) as (E & C & _). auto. }
  destruct S3 as [E3 C3].
  apply bind_Ok in H6 as (g4 & H4 & H6). apply bind_Ok in H6 as (g5 & H5 & H6).
  destruct (garante_estende _ _ _ H4 eq_refl) as (E4 & C4 & _).
  destruct (garante_estende _ _ _ H5 eq_refl) as (E5 & C5 & _).
  destruct (garante_estende _ _ _ H6 eq_refl) as (E6 & C6 & _).
  pose proof (estende_trans _ _ _ E1
                (estende_trans _ _ _ E2
                   (estende_trans _ _ _ E3
                      (estende_trans _ _ _ E4 (estende_trans _ _ _ E5 E6))))) as (A & B & _).
  split; [| congruence].
  destruct (tem_coluna_bairros gdf "st_areasha") eqn:E; [now apply A |].
  destruct (tem_coluna_bairros g6 "st_areasha") eqn:E'; [| reflexivity].
  destruct (B _ E') as [H | H]; [congruence | discriminate H].
Qed.

(** X23. The area of a row of the output: the cell [st_areasha] of the
    layer's row divided by 1,000,000 when the layer has that column;
    otherwise the projected area of the row's geometry, read in the layer's
    reference system or in EPSG:4326 when it has none, divided by
    1,000,000. *)
Theorem area_do_enriquecedor (gdf out : GeoDataFrameBairros)
    (contagem_total : dict string Z)
    (contagem_por_tipo : dict string (dict string Z))
    (contagem_por_estacao : option (dict string (dict string Z)))
    (contagem_por_tipo_estacao : option (dict string (dict string (dict string Z)))) :
  adicionar_contagens_ao_shapefile gdf contagem_total contagem_por_tipo
    contagem_por_estacao contagem_por_tipo_estacao = Ok out ->
  Forall2
    (fun p0 p =>
       if tem_coluna_bairros gdf "st_areasha"
       then divide_por 1000000 (celula "st_areasha" p0) = Ok (celula "area_km2" p)
       else celula "area_km2" p =
            PFloat (area_projetada (match crs gdf with Some c => c | None => 4326 end)
                      (geometry p0) / 1000000)%float)
    (poligonos gdf) (poligonos out).
Proof.
  intros H. apply adicionar_passos in H
    as (cb & g1 & g2 & g3 & g6 & g7 & g11 & g12 & Hp).
  destruct (quadro_na_area _ _ _ _ _ _ _ _ _ _ _ _ _ _ Hp) as [Hst Hcrs].
  destruct (passos_preservam (fun x => x =? "st_areasha")
              _ _ _ _ _ _ _ _ _ _ _ _ _ _ Hp) as (A & B & _).
  destruct (passos_preservam (fun x => x =? "area_km2")
              _ _ _ _ _ _ _ _ _ _ _ _ _ _ Hp) as (_ & _ & _ & C & D).
  pose proof (preserva_linhas_trans _ _ _ _ (A eq_refl eq_refl) (B (fun r => eq_refl)))
    as R06.
  pose proof (preserva_linhas_trans _ _ _ _ (C (fun s => eq_refl))
                (D (fun s => eq_refl) (fun s => eq_refl))) as R712.
  destruct Hp as (_ & _ & _ & _ & _ & H7 & _ & _ & ->).
  rewrite Hst, Hcrs in H7.
  unfold drop_coluna. cbn [poligonos].
  destruct (tem_coluna_bairros gdf "st_areasha").
  - apply atribui_linhas in H7.
    pose proof (Forall2_seq _ _ _ _ _ R06 (Forall2_seq _ _ _ _ _ H7 R712)) as Htudo.
    refine (Forall2_map_r _ _ _ _ _ _ Htudo).
    intros p0 p12 (p6 & [_ H6] & p7 & (v & Hv & ->) & [_ H12]).
    rewrite celula_drop by reflexivity.
    rewrite (H12 "area_km2" eq_refl), celula_escreve. cbn [String.eqb Ascii.eqb].
    rewrite <- (H6 "st_areasha" eq_refl). exact Hv.
  - cbv zeta in H7. apply atribui_linhas in H7. cbn [poligonos] in H7.
    pose proof (Forall2_seq _ _ _ _ _ R06 (Forall2_seq _ _ _ _ _ H7 R712)) as Htudo.
    refine (Forall2_map_r _ _ _ _ _ _ Htudo).
    intros p0 p12 (p6 & [G6 _] & p7 & (v & Hv & ->) & [_ H12]).
    rewrite celula_drop by reflexivity.
    rewrite (H12 "area_km2" eq_refl), celula_escreve. injection Hv as <-.
    now rewrite G6.
Qed.


(* ------------------------------------------------------------------ *)
(** ** Boundary enricher: the column that names the neighbourhood *)

Lemma find_primeiro {A : Type} (p : A -> bool) (l : list A) (x : A) :
  find p l = Some x ->
  exists antes depois,
    l = (antes ++ x :: depois)%list /\ p x = true /\ forall y, In y antes -> p y = false.
Proof.
  induction l as [| a l IH]; cbn [find]; [discriminate |].
  destruct (p a) eqn:Ea.
  - intros H. injection H as <-. exists [], l. cbn [app In]. tauto.
  - intros H. destruct (IH H) as (antes & depois & -> & Hx & Hantes).
    exists (a :: antes), depois. cbn [app In]. split; [reflexivity |]. split; [exact Hx |].
    intros y [<- | Hy]; auto.
Qed.

(** X24. The column the enricher takes for the neighbourhood's name: the
    first of the seven candidate names that is a column of the layer; when
    none is, the first column of dtype [object]; and the [ValueError] only
    when the layer has none of the candidates and no column of dtype
    [object].  The column taken is always a column of the layer. *)
Theorem resolver_coluna_bairro_escolhe (gdf : GeoDataFrameBairros) :
  match resolver_coluna_bairro gdf with
  | Ok c =>
      tem_coluna_bairros gdf c = true
      /\ ((exists antes depois,
             possiveis_nomes = (antes ++ c :: depois)%list
             /\ forall n, In n antes -> tem_coluna_bairros gdf n = false)
          \/ ((forall n, In n possiveis_nomes -> tem_coluna_bairros gdf n = false)
              /\ exists antes depois,
                   colunas gdf = (antes ++ (c, DObject) :: depois)%list
                   /\ forall n, ~ In (n, DObject) antes))
  | Raise e =>
      e = ValueError "Não foi possível identificar a coluna de bairro no shapefile"
      /\ (forall n, In n possiveis_nomes -> tem_coluna_bairros gdf n = false)
      /\ (forall n, ~ In (n, DObject) (colunas gdf))
  end.
Proof.
  sem_biblioteca. unfold resolver_coluna_bairro.
  destruct (find (tem_coluna_bairros gdf) possiveis_nomes) as [c |] eqn:E1.
  - destruct (find_primeiro _ _ _ E1) as (antes & depois & Hl & Hc & Hantes).
    split; [exact Hc |]. left. now exists antes, depois.
  - pose proof (find_none _ _ E1) as Hnone.
    destruct (find (fun c => match snd c with DObject => true | _ => false end)
                (colunas gdf)) as [[c dt] |] eqn:E2.
    + destruct (find_primeiro _ _ _ E2) as (antes & depois & Hl & Hc & Hantes).
      cbn [snd fst] in *. destruct dt; try discriminate Hc.
      split.
      * unfold tem_coluna_bairros, dict_in. rewrite Hl.
        clear. induction antes as [| [k v] antes IH]; cbn [app dict_get].
        -- cbn [chave_eqb Chave_string]. now rewrite String.eqb_refl.
        -- destruct (chave_eqb c k); [reflexivity | exact IH].
      * right. split; [exact Hnone |]. exists antes, depois. split; [exact Hl |].
        intros n Hn. now pose proof (Hantes _ Hn) as Hf.
    + split; [reflexivity |]. split; [exact Hnone |].
      intros n Hn. now pose proof (find_none _ _ E2 _ Hn) as Hf.
Qed.


End Scripts.

(* ================================================================== *)
(** * Closed instances *)

Abbreviation determinar_exemplo :=
  (determinar_estacao_hemisferio_sul
     Exemplo.isna_colecao Exemplo.to_datetime Exemplo.Timestamp_de_datetime).

(** The string ["2024-03-20"] is read as a date of March and classified. *)
Lemma classificador_exaustivo_witness :
  exists e,
    determinar_exemplo (PStr "2024-03-20") = Ok (Some e)
    /\ faixa_estacao e 3 20
    /\ (forall e', faixa_estacao e' 3 20 -> e' = e).
Proof.
  apply (proj1 (classificador_exaustivo_sem_sobreposicao
                  Exemplo.isna_colecao Exemplo.to_datetime Exemplo.Timestamp_de_datetime)
               (PStr "2024-03-20") {| year := 2024; month := 3; day := 20 |}).
  - right; right. exists "2024-03-20". split; reflexivity.
  - simpl. lia.
Defined.

(** ["not-a-date"] is a string the parser answers [NaT] for. *)
Lemma determinar_nunca_levanta_witness :
  determinar_exemplo (PStr "not-a-date") = Ok None.
Proof.
  apply (proj2 (proj2 (proj2 (proj2 (proj2
           (determinar_estacao_nunca_levanta
              Exemplo.isna_colecao Exemplo.to_datetime Exemplo.Timestamp_de_datetime
              (PStr "not-a-date")))))) "not-a-date").
  - reflexivity.
  - intros t. vm_compute. discriminate.
Defined.

Abbreviation extrair_exemplo :=
  (extrair_ocorrencias_por_estacao
     Exemplo.isna_colecao Exemplo.to_datetime Exemplo.Timestamp_de_datetime).

Abbreviation estacao_da_feature_exemplo :=
  (estacao_da_feature
     Exemplo.isna_colecao Exemplo.to_datetime Exemplo.Timestamp_de_datetime).

(** The splitter on the three records of the scenario. *)
Lemma particoes_witness :
  let fs := [Cenario.registro1; Cenario.registro2; Cenario.registro3] in
  exists out,
    result (extrair_exemplo (PDict Cenario.colecao)) = Ok out
    /\ (forall e1 e2 f, In f (get_or e1 out []) -> In f (get_or e2 out []) -> e1 = e2)
    /\ (forall e,
          get_or e out [] =
          filter (fun f => eh_estacao e
                             (estacao_da_feature_exemplo (Some "data_inicio") f)) fs)
    /\ (forall f,
          (exists e, In f (get_or e out [])) <->
          In f fs /\ estacao_da_feature_exemplo (Some "data_inicio") f <> None)
    /\ List.length fs =
       (List.length (List.concat (map (fun e => get_or e out []) estacoes))
        + List.length
            (filter (fun f => match estacao_da_feature_exemplo (Some "data_inicio") f with
                              | None => true
                              | Some _ => false
                              end) fs))%nat.
Proof.
  intros fs.
  destruct (particoes_disjuntas_e_completas
              Exemplo.isna_colecao Exemplo.to_datetime Exemplo.Timestamp_de_datetime
              Cenario.colecao fs eq_refl eq_refl) as (out & Hout & Hdisj & Hcol).
  exists out. split; [exact Hout |]. split; [exact Hdisj | exact Hcol].
Defined.

(** C9 as stated fails: behind a first record without a date field, the
    two dated records of the scenario, of summer and of winter, are in no
    season's list: the result has no list at all. *)
Lemma separador_perde_registros_datados :
  result (extrair_exemplo (PDict Cenario.colecao_sem_data_na_primeira)) = Ok []
  /\ get_or "features" Cenario.colecao_sem_data_na_primeira PNone
     = PList [Cenario.sem_campo_de_data; Cenario.registro1; Cenario.registro2]
  /\ determinar_exemplo (get_or "data_inicio" (propriedades Cenario.registro1) PNone)
     = Ok (Some verao)
  /\ determinar_exemplo (get_or "data_inicio" (propriedades Cenario.registro2) PNone)
     = Ok (Some inverno).
Proof. repeat split. Qed.

(** The fixer on a document with one feature to correct and one to keep. *)
Lemma corrigir_geojson_witness :
  let fs := [Cenario.coordenadas_em_branco; Cenario.registro1] in
  let d := [("type", PStr "FeatureCollection"); ("features", PList fs)] in
  exists stats d' fs',
    result (corrigir_geojson (PDict d)) = Ok (stats, PDict d')
    /\ dict_keys d' = dict_keys d
    /\ (forall k, k <> "features" -> dict_get k d' = dict_get k d)
    /\ get_or "features" d' (PList []) = PList fs'
    /\ List.length fs' = List.length fs
    /\ total_features stats = Z.of_nat (List.length fs)
    /\ Forall2 (fun f f' => feature_corrigida f f' /\ (nada_a_corrigir f = true -> f' = f))
               fs fs'.
Proof.
  apply (corrigir_geojson_so_altera_vazios
           [("type", PStr "FeatureCollection");
            ("features", PList [Cenario.coordenadas_em_branco; Cenario.registro1])]);
    reflexivity.
Defined.



Abbreviation contar_exemplo :=
  (contar_ocorrencias_por_bairro
     Exemplo.isna_colecao Exemplo.to_datetime Exemplo.Timestamp_de_datetime).

(** The scenario with the stand-in date parser. *)
Lemma cenario_witness :
  (exists c,
     result (contar_exemplo Cenario.gdf_ocorrencias) = Ok c
     /\ contagem_total c = [("Centro", 1); ("Centro ", 1); ("Norte", 1)]
     /\ contagem_por_estacao c = [("Centro", [(verao, 1)]); ("Centro ", [(inverno, 1)])]
     /\ dict_get "Norte" (contagem_por_estacao c) = None)
  /\ result (extrair_exemplo (PDict Cenario.colecao))
     = Ok [(verao, [Cenario.registro1]); (inverno, [Cenario.registro2])].
Proof.
  apply (cenario_tres_registros
           Exemplo.isna_colecao Exemplo.to_datetime Exemplo.Timestamp_de_datetime).
  - reflexivity.
  - reflexivity.
  - intros t. vm_compute. discriminate.
Defined.

(** C1 as stated fails: the aggregator's total for ["Centro"] is 1, not 2,
    the total table has three keys, and ["Centro"] has the summer occurrence
    only; rewriting the keys stripped, as the enricher does before its
    lookups, keeps one of the two counts and does not add them. *)
Lemma cenario_centro_nao_soma_dois :
  exists c,
    result (contar_exemplo Cenario.gdf_ocorrencias) = Ok c
    /\ dict_get "Centro" (contagem_total c) = Some 1
    /\ contagem_total c <> [("Centro", 2); ("Norte", 1)]
    /\ dict_get "Centro" (contagem_por_estacao c) = Some [(verao, 1)]
    /\ dict_rekey strip (contagem_total c) = [("Centro", 1); ("Norte", 1)].
Proof.
  eexists. split; [vm_compute; reflexivity |].
  repeat split. discriminate.
Qed.

(** The aggregator on a frame without type and date columns. *)
Lemma agregador_witness :
  exists c,
    result (contar_exemplo Cenario.gdf_so_bairro) = Ok c
    /\ (forall n,
          dict_get n (contagem_total c) =
          if existsb (linha_do_bairro n) (linhas Cenario.gdf_so_bairro)
          then Some (conta (linha_do_bairro n) (linhas Cenario.gdf_so_bairro))
          else None)
    /\ (forall n t,
          consulta2 n t (contagem_por_tipo c) =
          conta (fun row => tem_coluna Cenario.gdf_so_bairro "tipo" && linha_do_bairro n row
                            && linha_do_tipo t row) (linhas Cenario.gdf_so_bairro))
    /\ (forall n e,
          consulta2 n e (contagem_por_estacao c) =
          conta (fun row =>
                   linha_do_bairro n row
                   && eh_estacao e
                        (estacao_da_linha
                           Exemplo.isna_colecao Exemplo.to_datetime
                           Exemplo.Timestamp_de_datetime
                           (coluna_data_do_gdf Cenario.gdf_so_bairro) row))
                (linhas Cenario.gdf_so_bairro))
    /\ (tem_coluna Cenario.gdf_so_bairro "tipo" = false ->
          In MsgAvisoSemTipo (printed (contar_exemplo Cenario.gdf_so_bairro))
          /\ contagem_por_tipo c = []
          /\ contagem_por_tipo_estacao c = [])
    /\ (tem_coluna Cenario.gdf_so_bairro "data_inicio" = false ->
        tem_coluna Cenario.gdf_so_bairro "data_fim" = false ->
        tem_coluna Cenario.gdf_so_bairro "data_particao" = false ->
          In MsgAvisoSemData (printed (contar_exemplo Cenario.gdf_so_bairro))
          /\ contagem_por_estacao c = []
          /\ contagem_por_tipo_estacao c = []).
Proof.
  apply (proj2 (proj2 (agregador_so_falha_sem_bairro
                         Exemplo.isna_colecao Exemplo.to_datetime
                         Exemplo.Timestamp_de_datetime Cenario.gdf_so_bairro))).
  reflexivity.
Defined.

(** The sums by season on the scenario's frame. *)
Lemma soma_das_estacoes_witness :
  exists c,
    result (contar_exemplo Cenario.gdf_ocorrencias) = Ok c
    /\ forall n,
         dict_in n (contagem_total c) = true \/ dict_in n (contagem_por_estacao c) = true ->
         exists total,
           dict_get n (contagem_total c) = Some total
           /\ soma_valores (get_or n (contagem_por_estacao c) []) <= total
           /\ total = conta (linha_do_bairro n) (linhas Cenario.gdf_ocorrencias)
           /\ soma_valores (get_or n (contagem_por_estacao c) []) =
              conta (fun row =>
                       linha_do_bairro n row
                       && tem_estacao
                            (estacao_da_linha
                               Exemplo.isna_colecao Exemplo.to_datetime
                               Exemplo.Timestamp_de_datetime
                               (coluna_data_do_gdf Cenario.gdf_ocorrencias) row))
                    (linhas Cenario.gdf_ocorrencias).
Proof.
  apply (soma_das_estacoes_no_maximo_total
           Exemplo.isna_colecao Exemplo.to_datetime Exemplo.Timestamp_de_datetime
           Cenario.gdf_ocorrencias).
  reflexivity.
Defined.

Abbreviation adicionar_exemplo :=
  (adicionar_contagens_ao_shapefile
     Exemplo.py_str_outro Exemplo.tipo_limpo_lower Exemplo.area_projetada).

Abbreviation nome_normalizado_exemplo := (nome_normalizado Exemplo.py_str_outro).

Abbreviation pares_de_densidade_exemplo := (pares_de_densidade Exemplo.tipo_limpo_lower).

(** The enricher on the layer of two neighbourhoods, with all four tables. *)
Lemma enriquecedor_witness :
  exists out,
    adicionar_exemplo Cenario.gdf_bairros Cenario.total_exemplo Cenario.por_tipo_exemplo
      (Some Cenario.por_estacao_exemplo) (Some Cenario.por_tipo_estacao_exemplo) = Ok out
    /\ List.length (poligonos out) = List.length (poligonos Cenario.gdf_bairros)
    /\ map geometry (poligonos out) = map geometry (poligonos Cenario.gdf_bairros)
    /\ exists coluna_bairro,
         resolver_coluna_bairro Cenario.gdf_bairros = Ok coluna_bairro
         /\ Forall2 (fun p0 p =>
                       geometry p = geometry p0
                       /\ (forall x, nome_gerado x = false -> celula x p = celula x p0)
                       /\ (dict_in (nome_normalizado_exemplo coluna_bairro p0)
                             (dict_rekey strip Cenario.total_exemplo) = false ->
                           dict_in (nome_normalizado_exemplo coluna_bairro p0)
                             (dict_rekey strip Cenario.por_tipo_exemplo) = false ->
                           celula "contagem_total" p = PInt 0))
                    (poligonos Cenario.gdf_bairros) (poligonos out).
Proof.
  destruct (enriquecedor_mantem_todos_os_poligonos
              Exemplo.py_str_outro Exemplo.tipo_limpo_lower Exemplo.area_projetada
              Cenario.gdf_bairros Cenario.total_exemplo Cenario.por_tipo_exemplo
              (Some Cenario.por_estacao_exemplo) (Some Cenario.por_tipo_estacao_exemplo))
    as (Hlinhas & Hretorna & _).
  destruct (Hretorna "nome" eq_refl ltac:(discriminate) eq_refl eq_refl eq_refl eq_refl)
    as [out Hout].
  exists out. split; [exact Hout | exact (Hlinhas out Hout)].
Defined.



(* ------------------------------------------------------------------ *)
(** ** Further properties on sample inputs *)

(** The fixer's tallies on a raw document of three features. *)
Lemma corrigir_geojson_contagens_witness :
  let fs := [Cenario.coordenadas_em_branco; Cenario.registro1; Cenario.geometria_nula] in
  exists stats doc,
    result (corrigir_geojson (PDict Cenario.colecao_bruta)) = Ok (stats, doc)
    /\ coordenadas_vazias stats = conta tem_coordenadas_vazias fs
    /\ latitude_vazia stats = conta (tem_propriedade_vazia "latitude") fs
    /\ longitude_vazia stats = conta (tem_propriedade_vazia "longitude") fs
    /\ total_features stats = Z.of_nat (List.length fs)
    /\ printed (corrigir_geojson (PDict Cenario.colecao_bruta)) =
       [MsgTotalFeatures (total_features stats);
        MsgFeaturesCorrigidas (conta a_corrigir fs);
        MsgCorrecoes (coordenadas_vazias stats) (latitude_vazia stats)
                     (longitude_vazia stats)]
    /\ conta a_corrigir fs <= total_features stats
    /\ coordenadas_vazias stats <= conta a_corrigir fs
    /\ latitude_vazia stats <= conta a_corrigir fs
    /\ longitude_vazia stats <= conta a_corrigir fs
    /\ conta a_corrigir fs
       <= coordenadas_vazias stats + latitude_vazia stats + longitude_vazia stats.
Proof.
  apply (corrigir_geojson_contagens Cenario.colecao_bruta); reflexivity.
Defined.

(** The document the fixer writes for it is clean. *)
Lemma corrigir_geojson_deixa_limpo_witness :
  exists stats d' fs',
    result (corrigir_geojson (PDict Cenario.colecao_bruta)) = Ok (stats, PDict d')
    /\ get_or "features" d' (PList []) = PList fs'
    /\ Forall (fun f' =>
                 tem_coordenadas_vazias f' = false
                 /\ tem_propriedade_vazia "latitude" f' = false
                 /\ tem_propriedade_vazia "longitude" f' = false) fs'.
Proof.
  apply (corrigir_geojson_deixa_limpo Cenario.colecao_bruta
           [Cenario.coordenadas_em_branco; Cenario.registro1; Cenario.geometria_nula]);
    reflexivity.
Defined.

(** A second run on it corrects nothing. *)
Lemma corrigir_geojson_idempotente_witness :
  exists stats d',
    result (corrigir_geojson (PDict Cenario.colecao_bruta)) = Ok (stats, PDict d')
    /\ corrigir_geojson (PDict d') =
       ([MsgTotalFeatures (total_features stats);
         MsgFeaturesCorrigidas 0;
         MsgCorrecoes 0 0 0],
        Ok ({| coordenadas_vazias := 0; latitude_vazia := 0; longitude_vazia := 0;
               total_features := total_features stats |},
            PDict d')).
Proof.
  apply (corrigir_geojson_idempotente Cenario.colecao_bruta
           [Cenario.coordenadas_em_branco; Cenario.registro1; Cenario.geometria_nula]);
    reflexivity.
Defined.

(** The reader on the raw document and on the fixed one. *)
Lemma leitor_depois_do_corretor_witness :
  exists stats d' l l' n,
    result (corrigir_geojson (PDict Cenario.colecao_bruta)) = Ok (stats, PDict d')
    /\ features_filtradas Exemplo.float_str (PDict Cenario.colecao_bruta) = Ok (l, n)
    /\ features_filtradas Exemplo.float_str (PDict d') = Ok (l', n)
    /\ Forall2 corrigida_de l l'
    /\ ler_ocorrencias Exemplo.float_str Exemplo.from_features (PDict Cenario.colecao_bruta)
       = leitura_de n (Exemplo.from_features l)
    /\ ler_ocorrencias Exemplo.float_str Exemplo.from_features (PDict d')
       = leitura_de n (Exemplo.from_features l').
Proof.
  apply (leitor_depois_do_corretor Exemplo.float_str Exemplo.from_features
           Cenario.colecao_bruta
           [Cenario.coordenadas_em_branco; Cenario.registro1; Cenario.geometria_nula]);
    reflexivity.
Defined.

(** The splitter on the scenario's document and on the fixed one. *)
Lemma separador_depois_do_corretor_witness :
  exists stats d' out out',
    result (corrigir_geojson (PDict Cenario.colecao)) = Ok (stats, PDict d')
    /\ result (extrair_exemplo (PDict Cenario.colecao)) = Ok out
    /\ result (extrair_exemplo (PDict d')) = Ok out'
    /\ forall e, Forall2 corrigida_de (get_or e out []) (get_or e out' []).
Proof.
  apply (separador_depois_do_corretor
           Exemplo.isna_colecao Exemplo.to_datetime Exemplo.Timestamp_de_datetime
           Cenario.colecao [Cenario.registro1; Cenario.registro2; Cenario.registro3]);
    reflexivity.
Defined.

(** The splitter's report on the three records of the scenario. *)
Lemma extrair_relatorio_witness :
  let fs := [Cenario.registro1; Cenario.registro2; Cenario.registro3] in
  exists out,
    result (extrair_exemplo (PDict Cenario.colecao)) = Ok out
    /\ printed (extrair_exemplo (PDict Cenario.colecao)) =
       [MsgAgrupando; MsgUsandoColunaData "data_inicio";
        MsgOcorrenciasSemData (conta (sem_data_na_feature "data_inicio") fs);
        MsgOcorrenciasSemEstacao
          (conta (sem_estacao_na_feature
                    Exemplo.isna_colecao Exemplo.to_datetime Exemplo.Timestamp_de_datetime
                    "data_inicio") fs);
        MsgOcorrenciasDaEstacao verao (Z.of_nat (List.length (get_or verao out [])));
        MsgOcorrenciasDaEstacao outono (Z.of_nat (List.length (get_or outono out [])));
        MsgOcorrenciasDaEstacao inverno (Z.of_nat (List.length (get_or inverno out [])));
        MsgOcorrenciasDaEstacao primavera (Z.of_nat (List.length (get_or primavera out [])))]
    /\ conta (sem_data_na_feature "data_inicio") fs
       + conta (sem_estacao_na_feature
                  Exemplo.isna_colecao Exemplo.to_datetime Exemplo.Timestamp_de_datetime
                  "data_inicio") fs
       + Z.of_nat (List.length (get_or verao out []))
       + Z.of_nat (List.length (get_or outono out []))
       + Z.of_nat (List.length (get_or inverno out []))
       + Z.of_nat (List.length (get_or primavera out []))
       = Z.of_nat (List.length fs).
Proof.
  apply (extrair_relatorio
           Exemplo.isna_colecao Exemplo.to_datetime Exemplo.Timestamp_de_datetime
           Cenario.colecao [Cenario.registro1; Cenario.registro2; Cenario.registro3]);
    reflexivity.
Defined.

(** A first feature without a date field silences the split of the two
    dated records behind it. *)
Lemma extrair_retornos_antecipados_witness :
  extrair_exemplo (PDict Cenario.colecao_sem_data_na_primeira)
  = ([MsgAgrupando; MsgErroNenhumaColunaData], Ok []).
Proof.
  apply (proj2 (extrair_retornos_antecipados
                  Exemplo.isna_colecao Exemplo.to_datetime Exemplo.Timestamp_de_datetime
                  Cenario.colecao_sem_data_na_primeira)
           Cenario.sem_campo_de_data [Cenario.registro1; Cenario.registro2]).
  - reflexivity.
  - reflexivity.
  - intros col [<- | [<- | [<- | []]]]; reflexivity.
Defined.

(** The splitter's script on the scenario's document, read from a file that
    is not valid UTF-8, with a disk that refuses the winter file. *)
Lemma main_extrair_witness :
  let fs := [Cenario.registro1; Cenario.registro2; Cenario.registro3] in
  let carrega := Exemplo.carrega_latin (PDict Cenario.colecao) in
  let da_estacao := fun e =>
    filter (fun f => eh_estacao e
                       (estacao_da_feature_exemplo (coluna_data_das_features fs) f)) fs in
  let registros :=
    fst (main_extrair Exemplo.isna_colecao Exemplo.to_datetime Exemplo.Timestamp_de_datetime
           true carrega (Ok tt) Exemplo.grava_menos_inverno) in
  snd (main_extrair Exemplo.isna_colecao Exemplo.to_datetime Exemplo.Timestamp_de_datetime
         true carrega (Ok tt) Exemplo.grava_menos_inverno) = Ok tt
  /\ (forall e,
        da_estacao e <> [] ->
        match Exemplo.grava_menos_inverno (nome_do_arquivo e) (colecao_de (da_estacao e)) with
        | Ok _ => In (Gravado (nome_do_arquivo e) (colecao_de (da_estacao e))) registros
        | Raise err => In (MsgFalhaAoSalvar e err) registros
        end)
  /\ (forall arquivo doc,
        In (Gravado arquivo doc) registros ->
        exists e,
          arquivo = nome_do_arquivo e
          /\ doc = colecao_de (da_estacao e)
          /\ da_estacao e <> [])
  /\ (forall e, da_estacao e = [] ->
        forall doc, ~ In (Gravado (nome_do_arquivo e) doc) registros).
Proof.
  apply (main_extrair_um_arquivo_por_estacao
           Exemplo.isna_colecao Exemplo.to_datetime Exemplo.Timestamp_de_datetime
           (Exemplo.carrega_latin (PDict Cenario.colecao)) Exemplo.grava_menos_inverno
           "latin-1" Cenario.colecao
           [Cenario.registro1; Cenario.registro2; Cenario.registro3]);
    reflexivity.
Defined.

(** The fixer's [main] on a directory of three files: the raw document,
    a file that is not JSON, and the scenario's document. *)
Lemma main_fix_resumo_witness :
  let arquivos :=
    [{| nome_arquivo := "ocorrencias-geojson.json";
        carrega_arquivo := Exemplo.carrega_latin (PDict Cenario.colecao_bruta);
        grava_destino := Exemplo.grava_sempre |};
     {| nome_arquivo := "quebrado.json";
        carrega_arquivo := Exemplo.carrega_nunca;
        grava_destino := Exemplo.grava_sempre |};
     {| nome_arquivo := "cenario.json";
        carrega_arquivo := Exemplo.carrega_sempre (PDict Cenario.colecao);
        grava_destino := Exemplo.grava_sempre |}] in
  let os :=
    [Some [Cenario.coordenadas_em_branco; Cenario.registro1; Cenario.geometria_nula];
     None;
     Some [Cenario.registro1; Cenario.registro2; Cenario.registro3]] in
  (exists l, main_fix true (Ok tt) arquivos = ((l ++ [MsgResumoFinal (resumo_de os)])%list, Ok tt))
  /\ 0 <= arquivos_corrigidos (resumo_de os)
  /\ arquivos_corrigidos (resumo_de os) <= arquivos_processados (resumo_de os)
  /\ arquivos_processados (resumo_de os) <= Z.of_nat (List.length arquivos)
  /\ arquivos_corrigidos (resumo_de os)
     <= total_coordenadas_vazias (resumo_de os) + total_latitude_vazia (resumo_de os)
        + total_longitude_vazia (resumo_de os).
Proof.
  apply main_fix_resumo.
  - discriminate.
  - repeat constructor.
    + exists "latin-1", Cenario.colecao_bruta. repeat split.
    + exists "utf-8", Cenario.colecao. repeat split.
Defined.

(** The total table on the scenario's frame. *)
Lemma contagem_total_soma_as_linhas_witness :
  exists c,
    result (contar_exemplo Cenario.gdf_ocorrencias) = Ok c
    /\ soma_valores (contagem_total c) = conta tem_bairro (linhas Cenario.gdf_ocorrencias)
    /\ soma_valores (contagem_total c)
       <= Z.of_nat (List.length (linhas Cenario.gdf_ocorrencias)).
Proof.
  apply (contagem_total_soma_as_linhas
           Exemplo.isna_colecao Exemplo.to_datetime Exemplo.Timestamp_de_datetime
           Cenario.gdf_ocorrencias).
  reflexivity.
Defined.

(** The four tables of the scenario's frame. *)
Lemma contagens_encaixadas_witness :
  exists c,
    result (contar_exemplo Cenario.gdf_ocorrencias) = Ok c
    /\ forall n t e,
         0 <= consulta3 n t e (contagem_por_tipo_estacao c)
         /\ consulta3 n t e (contagem_por_tipo_estacao c) <= consulta2 n t (contagem_por_tipo c)
         /\ consulta3 n t e (contagem_por_tipo_estacao c)
            <= consulta2 n e (contagem_por_estacao c)
         /\ consulta2 n t (contagem_por_tipo c) <= get_or n (contagem_total c) 0
         /\ consulta2 n e (contagem_por_estacao c) <= get_or n (contagem_total c) 0.
Proof.
  apply (contagens_encaixadas
           Exemplo.isna_colecao Exemplo.to_datetime Exemplo.Timestamp_de_datetime
           Cenario.gdf_ocorrencias).
  reflexivity.
Defined.

(** The keys of the scenario's tables. *)
Lemma chaves_das_tabelas_no_total_witness :
  exists c,
    result (contar_exemplo Cenario.gdf_ocorrencias) = Ok c
    /\ forall n,
         dict_in n (contagem_por_tipo c) = true
         \/ dict_in n (contagem_por_estacao c) = true
         \/ dict_in n (contagem_por_tipo_estacao c) = true ->
         dict_in n (contagem_total c) = true.
Proof.
  apply (chaves_das_tabelas_no_total
           Exemplo.isna_colecao Exemplo.to_datetime Exemplo.Timestamp_de_datetime
           Cenario.gdf_ocorrencias).
  reflexivity.
Defined.

(** The columns of the enriched scenario layer. *)
Lemma colunas_do_enriquecedor_witness :
  exists out,
    adicionar_exemplo Cenario.gdf_bairros Cenario.total_exemplo Cenario.por_tipo_exemplo
      (Some Cenario.por_estacao_exemplo) (Some Cenario.por_tipo_estacao_exemplo) = Ok out
    /\ (forall c, In c colunas_garantidas -> tem_coluna_bairros out c = true)
    /\ tem_coluna_bairros out "bairro_normalizado" = false
    /\ (forall c, c <> "bairro_normalizado" ->
                  tem_coluna_bairros Cenario.gdf_bairros c = true ->
                  tem_coluna_bairros out c = true)
    /\ (forall c, tem_coluna_bairros out c = true ->
                  tem_coluna_bairros Cenario.gdf_bairros c = true \/ nome_gerado c = true).
Proof.
  eexists. split.
  - vm_compute. reflexivity.
  - apply (colunas_do_enriquecedor
             Exemplo.py_str_outro Exemplo.tipo_limpo_lower Exemplo.area_projetada
             Cenario.gdf_bairros _ Cenario.total_exemplo Cenario.por_tipo_exemplo
             (Some Cenario.por_estacao_exemplo) (Some Cenario.por_tipo_estacao_exemplo)).
    + vm_compute. reflexivity.
    + repeat constructor; simpl; intuition discriminate.
Defined.

(** A layer with neither an area column nor a reference system comes back
    in EPSG:4326. *)
Lemma crs_do_enriquecedor_witness :
  exists out,
    adicionar_exemplo Cenario.gdf_sem_area Cenario.total_exemplo Cenario.por_tipo_exemplo
      (Some Cenario.por_estacao_exemplo) (Some Cenario.por_tipo_estacao_exemplo) = Ok out
    /\ crs out = Some 4326.
Proof.
  eexists. split.
  - vm_compute. reflexivity.
  - apply (crs_do_enriquecedor
             Exemplo.py_str_outro Exemplo.tipo_limpo_lower Exemplo.area_projetada
             Cenario.gdf_sem_area _ Cenario.total_exemplo Cenario.por_tipo_exemplo
             (Some Cenario.por_estacao_exemplo) (Some Cenario.por_tipo_estacao_exemplo)).
    vm_compute. reflexivity.
Defined.

Abbreviation ultimo_tipo_exemplo := (ultimo_tipo_da_coluna Exemplo.tipo_limpo_lower).

(** The count columns of the enriched scenario layer. *)
Lemma contagens_do_enriquecedor_witness :
  exists out,
    adicionar_exemplo Cenario.gdf_bairros Cenario.total_exemplo Cenario.por_tipo_exemplo
      (Some Cenario.por_estacao_exemplo) (Some Cenario.por_tipo_estacao_exemplo) = Ok out
    /\ exists coluna_bairro,
         resolver_coluna_bairro Cenario.gdf_bairros = Ok coluna_bairro
         /\ Forall2
              (fun p0 p =>
                 forall c,
                   String.prefix "contagem_" c = true ->
                   celula c p =
                   match ultimo_tipo_exemplo
                           (todos_tipos_de (dict_rekey strip Cenario.por_tipo_exemplo)) c with
                   | Some t =>
                       PInt (consulta2 (nome_normalizado_exemplo coluna_bairro p0) t
                               (dict_rekey strip Cenario.por_tipo_exemplo))
                   | None =>
                       if c =? "contagem_total"
                       then PInt (get_or (nome_normalizado_exemplo coluna_bairro p0)
                                    (dict_rekey strip Cenario.total_exemplo) 0)
                       else if existsb (String.eqb c) categorias_garantidas
                               && negb (tem_coluna_bairros Cenario.gdf_bairros c)
                       then PInt 0
                       else celula c p0
                   end)
              (poligonos Cenario.gdf_bairros) (poligonos out).
Proof.
  eexists. split.
  - vm_compute. reflexivity.
  - apply (contagens_do_enriquecedor
             Exemplo.py_str_outro Exemplo.tipo_limpo_lower Exemplo.area_projetada
             Cenario.gdf_bairros _ Cenario.total_exemplo Cenario.por_tipo_exemplo
             (Some Cenario.por_estacao_exemplo) (Some Cenario.por_tipo_estacao_exemplo)).
    + vm_compute. reflexivity.
    + repeat constructor; cbn [snd]; lia.
Defined.

(** The columns by season of the enriched scenario layer. *)
Lemma contagens_por_estacao_witness :
  exists out,
    adicionar_exemplo Cenario.gdf_bairros Cenario.total_exemplo Cenario.por_tipo_exemplo
      (Some Cenario.por_estacao_exemplo) (Some Cenario.por_tipo_estacao_exemplo) = Ok out
    /\ exists coluna_bairro,
         resolver_coluna_bairro Cenario.gdf_bairros = Ok coluna_bairro
         /\ Forall2
              (fun p0 p =>
                 forall e, In e nomes_estacoes ->
                           celula ("cont_" ++ e) p =
                           PInt (consulta2 (nome_normalizado_exemplo coluna_bairro p0) e
                                   (normalizar2 Cenario.por_estacao_exemplo)))
              (poligonos Cenario.gdf_bairros) (poligonos out).
Proof.
  eexists. split.
  - vm_compute. reflexivity.
  - apply (contagens_por_estacao_do_enriquecedor
             Exemplo.py_str_outro Exemplo.tipo_limpo_lower Exemplo.area_projetada
             Cenario.gdf_bairros _ Cenario.total_exemplo Cenario.por_tipo_exemplo
             Cenario.por_estacao_exemplo (Some Cenario.por_tipo_estacao_exemplo)).
    + vm_compute. reflexivity.
    + reflexivity.
Defined.

Abbreviation ultimo_curto_exemplo := (ultimo_tipo_do_curto Exemplo.tipo_limpo_lower).

(** The columns by type and season of the enriched scenario layer. *)
Lemma contagens_por_tipo_e_estacao_witness :
  exists out,
    adicionar_exemplo Cenario.gdf_bairros Cenario.total_exemplo Cenario.por_tipo_exemplo
      (Some Cenario.por_estacao_exemplo) (Some Cenario.por_tipo_estacao_exemplo) = Ok out
    /\ exists coluna_bairro,
         resolver_coluna_bairro Cenario.gdf_bairros = Ok coluna_bairro
         /\ Forall2
              (fun p0 p =>
                 forall curto e t,
                   In e nomes_estacoes ->
                   ultimo_curto_exemplo
                     (todos_tipos_de (dict_rekey strip Cenario.por_tipo_exemplo)) curto
                   = Some t ->
                   celula ("cont_" ++ curto ++ "_" ++ e) p =
                   PInt (consulta3 (nome_normalizado_exemplo coluna_bairro p0) t e
                           (normalizar3 Cenario.por_tipo_estacao_exemplo)))
              (poligonos Cenario.gdf_bairros) (poligonos out).
Proof.
  eexists. split.
  - vm_compute. reflexivity.
  - apply (contagens_por_tipo_e_estacao_do_enriquecedor
             Exemplo.py_str_outro Exemplo.tipo_limpo_lower Exemplo.area_projetada
             Cenario.gdf_bairros _ Cenario.total_exemplo Cenario.por_tipo_exemplo
             Cenario.por_estacao_exemplo Cenario.por_tipo_estacao_exemplo).
    + vm_compute. reflexivity.
    + reflexivity.
    + reflexivity.
Defined.

(** The area of the rows of a layer without the column [st_areasha] and
    without a reference system. *)
Lemma area_do_enriquecedor_witness :
  exists out,
    adicionar_exemplo Cenario.gdf_sem_area Cenario.total_exemplo Cenario.por_tipo_exemplo
      (Some Cenario.por_estacao_exemplo) (Some Cenario.por_tipo_estacao_exemplo) = Ok out
    /\ Forall2
         (fun p0 p =>
            if tem_coluna_bairros Cenario.gdf_sem_area "st_areasha"
            then divide_por 1000000 (celula "st_areasha" p0) = Ok (celula "area_km2" p)
            else celula "area_km2" p =
                 PFloat (Exemplo.area_projetada
                           (match crs Cenario.gdf_sem_area with Some c => c | None => 4326 end)
                           (geometry p0) / 1000000)%float)
         (poligonos Cenario.gdf_sem_area) (poligonos out).
Proof.
  eexists. split.
  - vm_compute. reflexivity.
  - apply (area_do_enriquecedor
             Exemplo.py_str_outro Exemplo.tipo_limpo_lower Exemplo.area_projetada
             Cenario.gdf_sem_area _ Cenario.total_exemplo Cenario.por_tipo_exemplo
             (Some Cenario.por_estacao_exemplo) (Some Cenario.por_tipo_estacao_exemplo)).
    vm_compute. reflexivity.
Defined.
